(** * Drug-mention graph engine: builder, JSON codec and analytics

    A shallow embedding of
      - [src/models/schemas.py]        (entity value types and their equality),
      - [src/pipeline/transformers.py] (DrugMentionGraphTransformer),
      - [src/utils/helpers.py]         (save_graph_to_json, load_graph_from_json,
                                        find_journals_with_most_mentions_of_drug,
                                        find_journal_with_most_drugs),
      - [tests/graph_comparison_test.py] (compare_graphs),
    together with the part of [networkx.DiGraph] these functions call.

    Conventions.
      - A Python [str] is a [string] holding the bytes of its UTF-8
        encoding.  [lower], slicing and [strip] work on its characters
        (code points), with the case mapping and the white space of the
        Unicode character database that CPython 3.11 carries (14.0).
      - A Python [dict] is an association list in insertion order with
        unique keys: iteration order is observable in the source (the first
        matching node wins in the loader's lookups).
      - A Python value that may be [None] is a [pyval].
      - A raised exception is the [Raise] case of [res]. *)

From Stdlib Require Import List String Ascii Bool Arith NArith Lia Permutation
  Sorted.
Import ListNotations.
Open Scope string_scope.
Open Scope list_scope.

Set Implicit Arguments.

(* ================================================================= *)
(** ** Python strings *)

Module Str.

(** *** Characters

    A Python [str] is a sequence of code points; it is held here as the
    bytes of its UTF-8 encoding.  A byte [10xxxxxx] continues a character,
    every other byte starts one. *)

Definition is_cont (b : ascii) : bool :=
  let n := nat_of_ascii b in ((128 <=? n) && (n <? 192))%nat.

Definition starts_cont (s : string) : bool :=
  match s with
  | String b _ => is_cont b
  | EmptyString => false
  end.

(** The characters of a string, in order: [list(s)]. *)
Fixpoint chars (s : string) : list string :=
  match s with
  | EmptyString => []
  | String b r =>
      match chars r with
      | ch :: l =>
          if starts_cont ch then String b ch :: l
          else String b EmptyString :: ch :: l
      | [] => [String b EmptyString]
      end
  end.

(** ["".join(l)] *)
Definition join (l : list string) : string := fold_right append "" l.

(** [ord(ch)]: the code point of one character. *)
Definition lead_bits (b : ascii) : N :=
  let n := N_of_ascii b in
  (if n <? 0x80 then n
   else if n <? 0xC0 then n mod 0x40
   else if n <? 0xE0 then n mod 0x20
   else if n <? 0xF0 then n mod 0x10
   else n mod 0x08)%N.

Fixpoint ord_from (acc : N) (s : string) : N :=
  match s with
  | EmptyString => acc
  | String b r => ord_from (acc * 0x40 + N_of_ascii b mod 0x40)%N r
  end.

Definition ord (ch : string) : N :=
  match ch with
  | EmptyString => 0%N
  | String b r => ord_from (lead_bits b) r
  end.

(** [chr(n)] *)
Definition chr (n : N) : string :=
  let byte (k : N) := ascii_of_N k in
  (if n <? 0x80 then String (byte n) ""
   else if n <? 0x800 then
     String (byte (0xC0 + n / 0x40)) (String (byte (0x80 + n mod 0x40)) "")
   else if n <? 0x10000 then
     String (byte (0xE0 + n / 0x1000))
       (String (byte (0x80 + (n / 0x40) mod 0x40))
          (String (byte (0x80 + n mod 0x40)) ""))
   else
     String (byte (0xF0 + n / 0x40000))
       (String (byte (0x80 + (n / 0x1000) mod 0x40))
          (String (byte (0x80 + (n / 0x40) mod 0x40))
             (String (byte (0x80 + n mod 0x40)) ""))))%N.

Definition in_ranges (t : list (N * N)) (n : N) : bool :=
  existsb (fun r => (fst r <=? n) && (n <=? snd r))%N t.

(** *** Case *)

(** The simple lower-case mapping of the characters outside ASCII:
    [(c, l)] when [chr(c).lower() == chr(l)] and [l <> c].  U+0130 and
    U+03A3 are not in the table, see [lower_char] and [lower_sigma]. *)
Definition lower_table : list (N * N) :=
  [ (0xC0, 0xE0); (0xC1, 0xE1); (0xC2, 0xE2); (0xC3, 0xE3); (0xC4, 0xE4);
    (0xC5, 0xE5); (0xC6, 0xE6); (0xC7, 0xE7); (0xC8, 0xE8); (0xC9, 0xE9);
    (0xCA, 0xEA); (0xCB, 0xEB); (0xCC, 0xEC); (0xCD, 0xED); (0xCE, 0xEE);
    (0xCF, 0xEF); (0xD0, 0xF0); (0xD1, 0xF1); (0xD2, 0xF2); (0xD3, 0xF3);
    (0xD4, 0xF4); (0xD5, 0xF5); (0xD6, 0xF6); (0xD8, 0xF8); (0xD9, 0xF9);
    (0xDA, 0xFA); (0xDB, 0xFB); (0xDC, 0xFC); (0xDD, 0xFD); (0xDE, 0xFE);
    (0x100, 0x101); (0x102, 0x103); (0x104, 0x105); (0x106, 0x107); (0x108, 0x109);
    (0x10A, 0x10B); (0x10C, 0x10D); (0x10E, 0x10F); (0x110, 0x111); (0x112, 0x113);
    (0x114, 0x115); (0x116, 0x117); (0x118, 0x119); (0x11A, 0x11B); (0x11C, 0x11D);
    (0x11E, 0x11F); (0x120, 0x121); (0x122, 0x123); (0x124, 0x125); (0x126, 0x127);
    (0x128, 0x129); (0x12A, 0x12B); (0x12C, 0x12D); (0x12E, 0x12F); (0x132, 0x133);
    (0x134, 0x135); (0x136, 0x137); (0x139, 0x13A); (0x13B, 0x13C); (0x13D, 0x13E);
    (0x13F, 0x140); (0x141, 0x142); (0x143, 0x144); (0x145, 0x146); (0x147, 0x148);
    (0x14A, 0x14B); (0x14C, 0x14D); (0x14E, 0x14F); (0x150, 0x151); (0x152, 0x153);
    (0x154, 0x155); (0x156, 0x157); (0x158, 0x159); (0x15A, 0x15B); (0x15C, 0x15D);
    (0x15E, 0x15F); (0x160, 0x161); (0x162, 0x163); (0x164, 0x165); (0x166, 0x167);
    (0x168, 0x169); (0x16A, 0x16B); (0x16C, 0x16D); (0x16E, 0x16F); (0x170, 0x171);
    (0x172, 0x173); (0x174, 0x175); (0x176, 0x177); (0x178, 0xFF); (0x179, 0x17A);
    (0x17B, 0x17C); (0x17D, 0x17E); (0x181, 0x253); (0x182, 0x183); (0x184, 0x185);
    (0x186, 0x254); (0x187, 0x188); (0x189, 0x256); (0x18A, 0x257); (0x18B, 0x18C);
    (0x18E, 0x1DD); (0x18F, 0x259); (0x190, 0x25B); (0x191, 0x192); (0x193, 0x260);
    (0x194, 0x263); (0x196, 0x269); (0x197, 0x268); (0x198, 0x199); (0x19C, 0x26F);
    (0x19D, 0x272); (0x19F, 0x275); (0x1A0, 0x1A1); (0x1A2, 0x1A3); (0x1A4, 0x1A5);
    (0x1A6, 0x280); (0x1A7, 0x1A8); (0x1A9, 0x283); (0x1AC, 0x1AD); (0x1AE, 0x288);
    (0x1AF, 0x1B0); (0x1B1, 0x28A); (0x1B2, 0x28B); (0x1B3, 0x1B4); (0x1B5, 0x1B6);
    (0x1B7, 0x292); (0x1B8, 0x1B9); (0x1BC, 0x1BD); (0x1C4, 0x1C6); (0x1C5, 0x1C6);
    (0x1C7, 0x1C9); (0x1C8, 0x1C9); (0x1CA, 0x1CC); (0x1CB, 0x1CC); (0x1CD, 0x1CE);
    (0x1CF, 0x1D0); (0x1D1, 0x1D2); (0x1D3, 0x1D4); (0x1D5, 0x1D6); (0x1D7, 0x1D8);
    (0x1D9, 0x1DA); (0x1DB, 0x1DC); (0x1DE, 0x1DF); (0x1E0, 0x1E1); (0x1E2, 0x1E3);
    (0x1E4, 0x1E5); (0x1E6, 0x1E7); (0x1E8, 0x1E9); (0x1EA, 0x1EB); (0x1EC, 0x1ED);
    (0x1EE, 0x1EF); (0x1F1, 0x1F3); (0x1F2, 0x1F3); (0x1F4, 0x1F5); (0x1F6, 0x195);
    (0x1F7, 0x1BF); (0x1F8, 0x1F9); (0x1FA, 0x1FB); (0x1FC, 0x1FD); (0x1FE, 0x1FF);
    (0x200, 0x201); (0x202, 0x203); (0x204, 0x205); (0x206, 0x207); (0x208, 0x209);
    (0x20A, 0x20B); (0x20C, 0x20D); (0x20E, 0x20F); (0x210, 0x211); (0x212, 0x213);
    (0x214, 0x215); (0x216, 0x217); (0x218, 0x219); (0x21A, 0x21B); (0x21C, 0x21D);
    (0x21E, 0x21F); (0x220, 0x19E); (0x222, 0x223); (0x224, 0x225); (0x226, 0x227);
    (0x228, 0x229); (0x22A, 0x22B); (0x22C, 0x22D); (0x22E, 0x22F); (0x230, 0x231);
    (0x232, 0x233); (0x23A, 0x2C65); (0x23B, 0x23C); (0x23D, 0x19A); (0x23E, 0x2C66);
    (0x241, 0x242); (0x243, 0x180); (0x244, 0x289); (0x245, 0x28C); (0x246, 0x247);
    (0x248, 0x249); (0x24A, 0x24B); (0x24C, 0x24D); (0x24E, 0x24F); (0x370, 0x371);
    (0x372, 0x373); (0x376, 0x377); (0x37F, 0x3F3); (0x386, 0x3AC); (0x388, 0x3AD);
    (0x389, 0x3AE); (0x38A, 0x3AF); (0x38C, 0x3CC); (0x38E, 0x3CD); (0x38F, 0x3CE);
    (0x391, 0x3B1); (0x392, 0x3B2); (0x393, 0x3B3); (0x394, 0x3B4); (0x395, 0x3B5);
    (0x396, 0x3B6); (0x397, 0x3B7); (0x398, 0x3B8); (0x399, 0x3B9); (0x39A, 0x3BA);
    (0x39B, 0x3BB); (0x39C, 0x3BC); (0x39D, 0x3BD); (0x39E, 0x3BE); (0x39F, 0x3BF);
    (0x3A0, 0x3C0); (0x3A1, 0x3C1); (0x3A4, 0x3C4); (0x3A5, 0x3C5); (0x3A6, 0x3C6);
    (0x3A7, 0x3C7); (0x3A8, 0x3C8); (0x3A9, 0x3C9); (0x3AA, 0x3CA); (0x3AB, 0x3CB);
    (0x3CF, 0x3D7); (0x3D8, 0x3D9); (0x3DA, 0x3DB); (0x3DC, 0x3DD); (0x3DE, 0x3DF);
    (0x3E0, 0x3E1); (0x3E2, 0x3E3); (0x3E4, 0x3E5); (0x3E6, 0x3E7); (0x3E8, 0x3E9);
    (0x3EA, 0x3EB); (0x3EC, 0x3ED); (0x3EE, 0x3EF); (0x3F4, 0x3B8); (0x3F7, 0x3F8);
    (0x3F9, 0x3F2); (0x3FA, 0x3FB); (0x3FD, 0x37B); (0x3FE, 0x37C); (0x3FF, 0x37D);
    (0x400, 0x450); (0x401, 0x451); (0x402, 0x452); (0x403, 0x453); (0x404, 0x454);
    (0x405, 0x455); (0x406, 0x456); (0x407, 0x457); (0x408, 0x458); (0x409, 0x459);
    (0x40A, 0x45A); (0x40B, 0x45B); (0x40C, 0x45C); (0x40D, 0x45D); (0x40E, 0x45E);
    (0x40F, 0x45F); (0x410, 0x430); (0x411, 0x431); (0x412, 0x432); (0x413, 0x433);
    (0x414, 0x434); (0x415, 0x435); (0x416, 0x436); (0x417, 0x437); (0x418, 0x438);
    (0x419, 0x439); (0x41A, 0x43A); (0x41B, 0x43B); (0x41C, 0x43C); (0x41D, 0x43D);
    (0x41E, 0x43E); (0x41F, 0x43F); (0x420, 0x440); (0x421, 0x441); (0x422, 0x442);
    (0x423, 0x443); (0x424, 0x444); (0x425, 0x445); (0x426, 0x446); (0x427, 0x447);
    (0x428, 0x448); (0x429, 0x449); (0x42A, 0x44A); (0x42B, 0x44B); (0x42C, 0x44C);
    (0x42D, 0x44D); (0x42E, 0x44E); (0x42F, 0x44F); (0x460, 0x461); (0x462, 0x463);
    (0x464, 0x465); (0x466, 0x467); (0x468, 0x469); (0x46A, 0x46B); (0x46C, 0x46D);
    (0x46E, 0x46F); (0x470, 0x471); (0x472, 0x473); (0x474, 0x475); (0x476, 0x477);
    (0x478, 0x479); (0x47A, 0x47B); (0x47C, 0x47D); (0x47E, 0x47F); (0x480, 0x481);
    (0x48A, 0x48B); (0x48C, 0x48D); (0x48E, 0x48F); (0x490, 0x491); (0x492, 0x493);
    (0x494, 0x495); (0x496, 0x497); (0x498, 0x499); (0x49A, 0x49B); (0x49C, 0x49D);
    (0x49E, 0x49F); (0x4A0, 0x4A1); (0x4A2, 0x4A3); (0x4A4, 0x4A5); (0x4A6, 0x4A7);
    (0x4A8, 0x4A9); (0x4AA, 0x4AB); (0x4AC, 0x4AD); (0x4AE, 0x4AF); (0x4B0, 0x4B1);
    (0x4B2, 0x4B3); (0x4B4, 0x4B5); (0x4B6, 0x4B7); (0x4B8, 0x4B9); (0x4BA, 0x4BB);
    (0x4BC, 0x4BD); (0x4BE, 0x4BF); (0x4C0, 0x4CF); (0x4C1, 0x4C2); (0x4C3, 0x4C4);
    (0x4C5, 0x4C6); (0x4C7, 0x4C8); (0x4C9, 0x4CA); (0x4CB, 0x4CC); (0x4CD, 0x4CE);
    (0x4D0, 0x4D1); (0x4D2, 0x4D3); (0x4D4, 0x4D5); (0x4D6, 0x4D7); (0x4D8, 0x4D9);
    (0x4DA, 0x4DB); (0x4DC, 0x4DD); (0x4DE, 0x4DF); (0x4E0, 0x4E1); (0x4E2, 0x4E3);
    (0x4E4, 0x4E5); (0x4E6, 0x4E7); (0x4E8, 0x4E9); (0x4EA, 0x4EB); (0x4EC, 0x4ED);
    (0x4EE, 0x4EF); (0x4F0, 0x4F1); (0x4F2, 0x4F3); (0x4F4, 0x4F5); (0x4F6, 0x4F7);
    (0x4F8, 0x4F9); (0x4FA, 0x4FB); (0x4FC, 0x4FD); (0x4FE, 0x4FF); (0x500, 0x501);
    (0x502, 0x503); (0x504, 0x505); (0x506, 0x507); (0x508, 0x509); (0x50A, 0x50B);
    (0x50C, 0x50D); (0x50E, 0x50F); (0x510, 0x511); (0x512, 0x513); (0x514, 0x515);
    (0x516, 0x517); (0x518, 0x519); (0x51A, 0x51B); (0x51C, 0x51D); (0x51E, 0x51F);
    (0x520, 0x521); (0x522, 0x523); (0x524, 0x525); (0x526, 0x527); (0x528, 0x529);
    (0x52A, 0x52B); (0x52C, 0x52D); (0x52E, 0x52F); (0x531, 0x561); (0x532, 0x562);
    (0x533, 0x563); (0x534, 0x564); (0x535, 0x565); (0x536, 0x566); (0x537, 0x567);
    (0x538, 0x568); (0x539, 0x569); (0x53A, 0x56A); (0x53B, 0x56B); (0x53C, 0x56C);
    (0x53D, 0x56D); (0x53E, 0x56E); (0x53F, 0x56F); (0x540, 0x570); (0x541, 0x571);
    (0x542, 0x572); (0x543, 0x573); (0x544, 0x574); (0x545, 0x575); (0x546, 0x576);
    (0x547, 0x577); (0x548, 0x578); (0x549, 0x579); (0x54A, 0x57A); (0x54B, 0x57B);
    (0x54C, 0x57C); (0x54D, 0x57D); (0x54E, 0x57E); (0x54F, 0x57F); (0x550, 0x580);
    (0x551, 0x581); (0x552, 0x582); (0x553, 0x583); (0x554, 0x584); (0x555, 0x585);
    (0x556, 0x586); (0x10A0, 0x2D00); (0x10A1, 0x2D01); (0x10A2, 0x2D02); (0x10A3, 0x2D03);
    (0x10A4, 0x2D04); (0x10A5, 0x2D05); (0x10A6, 0x2D06); (0x10A7, 0x2D07); (0x10A8, 0x2D08);
    (0x10A9, 0x2D09); (0x10AA, 0x2D0A); (0x10AB, 0x2D0B); (0x10AC, 0x2D0C); (0x10AD, 0x2D0D);
    (0x10AE, 0x2D0E); (0x10AF, 0x2D0F); (0x10B0, 0x2D10); (0x10B1, 0x2D11); (0x10B2, 0x2D12);
    (0x10B3, 0x2D13); (0x10B4, 0x2D14); (0x10B5, 0x2D15); (0x10B6, 0x2D16); (0x10B7, 0x2D17);
    (0x10B8, 0x2D18); (0x10B9, 0x2D19); (0x10BA, 0x2D1A); (0x10BB, 0x2D1B); (0x10BC, 0x2D1C);
    (0x10BD, 0x2D1D); (0x10BE, 0x2D1E); (0x10BF, 0x2D1F); (0x10C0, 0x2D20); (0x10C1, 0x2D21);
    (0x10C2, 0x2D22); (0x10C3, 0x2D23); (0x10C4, 0x2D24); (0x10C5, 0x2D25); (0x10C7, 0x2D27);
    (0x10CD, 0x2D2D); (0x13A0, 0xAB70); (0x13A1, 0xAB71); (0x13A2, 0xAB72); (0x13A3, 0xAB73);
    (0x13A4, 0xAB74); (0x13A5, 0xAB75); (0x13A6, 0xAB76); (0x13A7, 0xAB77); (0x13A8, 0xAB78);
    (0x13A9, 0xAB79); (0x13AA, 0xAB7A); (0x13AB, 0xAB7B); (0x13AC, 0xAB7C); (0x13AD, 0xAB7D);
    (0x13AE, 0xAB7E); (0x13AF, 0xAB7F); (0x13B0, 0xAB80); (0x13B1, 0xAB81); (0x13B2, 0xAB82);
    (0x13B3, 0xAB83); (0x13B4, 0xAB84); (0x13B5, 0xAB85); (0x13B6, 0xAB86); (0x13B7, 0xAB87);
    (0x13B8, 0xAB88); (0x13B9, 0xAB89); (0x13BA, 0xAB8A); (0x13BB, 0xAB8B); (0x13BC, 0xAB8C);
    (0x13BD, 0xAB8D); (0x13BE, 0xAB8E); (0x13BF, 0xAB8F); (0x13C0, 0xAB90); (0x13C1, 0xAB91);
    (0x13C2, 0xAB92); (0x13C3, 0xAB93); (0x13C4, 0xAB94); (0x13C5, 0xAB95); (0x13C6, 0xAB96);
    (0x13C7, 0xAB97); (0x13C8, 0xAB98); (0x13C9, 0xAB99); (0x13CA, 0xAB9A); (0x13CB, 0xAB9B);
    (0x13CC, 0xAB9C); (0x13CD, 0xAB9D); (0x13CE, 0xAB9E); (0x13CF, 0xAB9F); (0x13D0, 0xABA0);
    (0x13D1, 0xABA1); (0x13D2, 0xABA2); (0x13D3, 0xABA3); (0x13D4, 0xABA4); (0x13D5, 0xABA5);
    (0x13D6, 0xABA6); (0x13D7, 0xABA7); (0x13D8, 0xABA8); (0x13D9, 0xABA9); (0x13DA, 0xABAA);
    (0x13DB, 0xABAB); (0x13DC, 0xABAC); (0x13DD, 0xABAD); (0x13DE, 0xABAE); (0x13DF, 0xABAF);
    (0x13E0, 0xABB0); (0x13E1, 0xABB1); (0x13E2, 0xABB2); (0x13E3, 0xABB3); (0x13E4, 0xABB4);
    (0x13E5, 0xABB5); (0x13E6, 0xABB6); (0x13E7, 0xABB7); (0x13E8, 0xABB8); (0x13E9, 0xABB9);
    (0x13EA, 0xABBA); (0x13EB, 0xABBB); (0x13EC, 0xABBC); (0x13ED, 0xABBD); (0x13EE, 0xABBE);
    (0x13EF, 0xABBF); (0x13F0, 0x13F8); (0x13F1, 0x13F9); (0x13F2, 0x13FA); (0x13F3, 0x13FB);
    (0x13F4, 0x13FC); (0x13F5, 0x13FD); (0x1C90, 0x10D0); (0x1C91, 0x10D1); (0x1C92, 0x10D2);
    (0x1C93, 0x10D3); (0x1C94, 0x10D4); (0x1C95, 0x10D5); (0x1C96, 0x10D6); (0x1C97, 0x10D7);
    (0x1C98, 0x10D8); (0x1C99, 0x10D9); (0x1C9A, 0x10DA); (0x1C9B, 0x10DB); (0x1C9C, 0x10DC);
    (0x1C9D, 0x10DD); (0x1C9E, 0x10DE); (0x1C9F, 0x10DF); (0x1CA0, 0x10E0); (0x1CA1, 0x10E1);
    (0x1CA2, 0x10E2); (0x1CA3, 0x10E3); (0x1CA4, 0x10E4); (0x1CA5, 0x10E5); (0x1CA6, 0x10E6);
    (0x1CA7, 0x10E7); (0x1CA8, 0x10E8); (0x1CA9, 0x10E9); (0x1CAA, 0x10EA); (0x1CAB, 0x10EB);
    (0x1CAC, 0x10EC); (0x1CAD, 0x10ED); (0x1CAE, 0x10EE); (0x1CAF, 0x10EF); (0x1CB0, 0x10F0);
    (0x1CB1, 0x10F1); (0x1CB2, 0x10F2); (0x1CB3, 0x10F3); (0x1CB4, 0x10F4); (0x1CB5, 0x10F5);
    (0x1CB6, 0x10F6); (0x1CB7, 0x10F7); (0x1CB8, 0x10F8); (0x1CB9, 0x10F9); (0x1CBA, 0x10FA);
    (0x1CBD, 0x10FD); (0x1CBE, 0x10FE); (0x1CBF, 0x10FF); (0x1E00, 0x1E01); (0x1E02, 0x1E03);
    (0x1E04, 0x1E05); (0x1E06, 0x1E07); (0x1E08, 0x1E09); (0x1E0A, 0x1E0B); (0x1E0C, 0x1E0D);
    (0x1E0E, 0x1E0F); (0x1E10, 0x1E11); (0x1E12, 0x1E13); (0x1E14, 0x1E15); (0x1E16, 0x1E17);
    (0x1E18, 0x1E19); (0x1E1A, 0x1E1B); (0x1E1C, 0x1E1D); (0x1E1E, 0x1E1F); (0x1E20, 0x1E21);
    (0x1E22, 0x1E23); (0x1E24, 0x1E25); (0x1E26, 0x1E27); (0x1E28, 0x1E29); (0x1E2A, 0x1E2B);
    (0x1E2C, 0x1E2D); (0x1E2E, 0x1E2F); (0x1E30, 0x1E31); (0x1E32, 0x1E33); (0x1E34, 0x1E35);
    (0x1E36, 0x1E37); (0x1E38, 0x1E39); (0x1E3A, 0x1E3B); (0x1E3C, 0x1E3D); (0x1E3E, 0x1E3F);
    (0x1E40, 0x1E41); (0x1E42, 0x1E43); (0x1E44, 0x1E45); (0x1E46, 0x1E47); (0x1E48, 0x1E49);
    (0x1E4A, 0x1E4B); (0x1E4C, 0x1E4D); (0x1E4E, 0x1E4F); (0x1E50, 0x1E51); (0x1E52, 0x1E53);
    (0x1E54, 0x1E55); (0x1E56, 0x1E57); (0x1E58, 0x1E59); (0x1E5A, 0x1E5B); (0x1E5C, 0x1E5D);
    (0x1E5E, 0x1E5F); (0x1E60, 0x1E61); (0x1E62, 0x1E63); (0x1E64, 0x1E65); (0x1E66, 0x1E67);
    (0x1E68, 0x1E69); (0x1E6A, 0x1E6B); (0x1E6C, 0x1E6D); (0x1E6E, 0x1E6F); (0x1E70, 0x1E71);
    (0x1E72, 0x1E73); (0x1E74, 0x1E75); (0x1E76, 0x1E77); (0x1E78, 0x1E79); (0x1E7A, 0x1E7B);
    (0x1E7C, 0x1E7D); (0x1E7E, 0x1E7F); (0x1E80, 0x1E81); (0x1E82, 0x1E83); (0x1E84, 0x1E85);
    (0x1E86, 0x1E87); (0x1E88, 0x1E89); (0x1E8A, 0x1E8B); (0x1E8C, 0x1E8D); (0x1E8E, 0x1E8F);
    (0x1E90, 0x1E91); (0x1E92, 0x1E93); (0x1E94, 0x1E95); (0x1E9E, 0xDF); (0x1EA0, 0x1EA1);
    (0x1EA2, 0x1EA3); (0x1EA4, 0x1EA5); (0x1EA6, 0x1EA7); (0x1EA8, 0x1EA9); (0x1EAA, 0x1EAB);
    (0x1EAC, 0x1EAD); (0x1EAE, 0x1EAF); (0x1EB0, 0x1EB1); (0x1EB2, 0x1EB3); (0x1EB4, 0x1EB5);
    (0x1EB6, 0x1EB7); (0x1EB8, 0x1EB9); (0x1EBA, 0x1EBB); (0x1EBC, 0x1EBD); (0x1EBE, 0x1EBF);
    (0x1EC0, 0x1EC1); (0x1EC2, 0x1EC3); (0x1EC4, 0x1EC5); (0x1EC6, 0x1EC7); (0x1EC8, 0x1EC9);
    (0x1ECA, 0x1ECB); (0x1ECC, 0x1ECD); (0x1ECE, 0x1ECF); (0x1ED0, 0x1ED1); (0x1ED2, 0x1ED3);
    (0x1ED4, 0x1ED5); (0x1ED6, 0x1ED7); (0x1ED8, 0x1ED9); (0x1EDA, 0x1EDB); (0x1EDC, 0x1EDD);
    (0x1EDE, 0x1EDF); (0x1EE0, 0x1EE1); (0x1EE2, 0x1EE3); (0x1EE4, 0x1EE5); (0x1EE6, 0x1EE7);
    (0x1EE8, 0x1EE9); (0x1EEA, 0x1EEB); (0x1EEC, 0x1EED); (0x1EEE, 0x1EEF); (0x1EF0, 0x1EF1);
    (0x1EF2, 0x1EF3); (0x1EF4, 0x1EF5); (0x1EF6, 0x1EF7); (0x1EF8, 0x1EF9); (0x1EFA, 0x1EFB);
    (0x1EFC, 0x1EFD); (0x1EFE, 0x1EFF); (0x1F08, 0x1F00); (0x1F09, 0x1F01); (0x1F0A, 0x1F02);
    (0x1F0B, 0x1F03); (0x1F0C, 0x1F04); (0x1F0D, 0x1F05); (0x1F0E, 0x1F06); (0x1F0F, 0x1F07);
    (0x1F18, 0x1F10); (0x1F19, 0x1F11); (0x1F1A, 0x1F12); (0x1F1B, 0x1F13); (0x1F1C, 0x1F14);
    (0x1F1D, 0x1F15); (0x1F28, 0x1F20); (0x1F29, 0x1F21); (0x1F2A, 0x1F22); (0x1F2B, 0x1F23);
    (0x1F2C, 0x1F24); (0x1F2D, 0x1F25); (0x1F2E, 0x1F26); (0x1F2F, 0x1F27); (0x1F38, 0x1F30);
    (0x1F39, 0x1F31); (0x1F3A, 0x1F32); (0x1F3B, 0x1F33); (0x1F3C, 0x1F34); (0x1F3D, 0x1F35);
    (0x1F3E, 0x1F36); (0x1F3F, 0x1F37); (0x1F48, 0x1F40); (0x1F49, 0x1F41); (0x1F4A, 0x1F42);
    (0x1F4B, 0x1F43); (0x1F4C, 0x1F44); (0x1F4D, 0x1F45); (0x1F59, 0x1F51); (0x1F5B, 0x1F53);
    (0x1F5D, 0x1F55); (0x1F5F, 0x1F57); (0x1F68, 0x1F60); (0x1F69, 0x1F61); (0x1F6A, 0x1F62);
    (0x1F6B, 0x1F63); (0x1F6C, 0x1F64); (0x1F6D, 0x1F65); (0x1F6E, 0x1F66); (0x1F6F, 0x1F67);
    (0x1F88, 0x1F80); (0x1F89, 0x1F81); (0x1F8A, 0x1F82); (0x1F8B, 0x1F83); (0x1F8C, 0x1F84);
    (0x1F8D, 0x1F85); (0x1F8E, 0x1F86); (0x1F8F, 0x1F87); (0x1F98, 0x1F90); (0x1F99, 0x1F91);
    (0x1F9A, 0x1F92); (0x1F9B, 0x1F93); (0x1F9C, 0x1F94); (0x1F9D, 0x1F95); (0x1F9E, 0x1F96);
    (0x1F9F, 0x1F97); (0x1FA8, 0x1FA0); (0x1FA9, 0x1FA1); (0x1FAA, 0x1FA2); (0x1FAB, 0x1FA3);
    (0x1FAC, 0x1FA4); (0x1FAD, 0x1FA5); (0x1FAE, 0x1FA6); (0x1FAF, 0x1FA7); (0x1FB8, 0x1FB0);
    (0x1FB9, 0x1FB1); (0x1FBA, 0x1F70); (0x1FBB, 0x1F71); (0x1FBC, 0x1FB3); (0x1FC8, 0x1F72);
    (0x1FC9, 0x1F73); (0x1FCA, 0x1F74); (0x1FCB, 0x1F75); (0x1FCC, 0x1FC3); (0x1FD8, 0x1FD0);
    (0x1FD9, 0x1FD1); (0x1FDA, 0x1F76); (0x1FDB, 0x1F77); (0x1FE8, 0x1FE0); (0x1FE9, 0x1FE1);
    (0x1FEA, 0x1F7A); (0x1FEB, 0x1F7B); (0x1FEC, 0x1FE5); (0x1FF8, 0x1F78); (0x1FF9, 0x1F79);
    (0x1FFA, 0x1F7C); (0x1FFB, 0x1F7D); (0x1FFC, 0x1FF3); (0x2126, 0x3C9); (0x212A, 0x6B);
    (0x212B, 0xE5); (0x2132, 0x214E); (0x2160, 0x2170); (0x2161, 0x2171); (0x2162, 0x2172);
    (0x2163, 0x2173); (0x2164, 0x2174); (0x2165, 0x2175); (0x2166, 0x2176); (0x2167, 0x2177);
    (0x2168, 0x2178); (0x2169, 0x2179); (0x216A, 0x217A); (0x216B, 0x217B); (0x216C, 0x217C);
    (0x216D, 0x217D); (0x216E, 0x217E); (0x216F, 0x217F); (0x2183, 0x2184); (0x24B6, 0x24D0);
    (0x24B7, 0x24D1); (0x24B8, 0x24D2); (0x24B9, 0x24D3); (0x24BA, 0x24D4); (0x24BB, 0x24D5);
    (0x24BC, 0x24D6); (0x24BD, 0x24D7); (0x24BE, 0x24D8); (0x24BF, 0x24D9); (0x24C0, 0x24DA);
    (0x24C1, 0x24DB); (0x24C2, 0x24DC); (0x24C3, 0x24DD); (0x24C4, 0x24DE); (0x24C5, 0x24DF);
    (0x24C6, 0x24E0); (0x24C7, 0x24E1); (0x24C8, 0x24E2); (0x24C9, 0x24E3); (0x24CA, 0x24E4);
    (0x24CB, 0x24E5); (0x24CC, 0x24E6); (0x24CD, 0x24E7); (0x24CE, 0x24E8); (0x24CF, 0x24E9);
    (0x2C00, 0x2C30); (0x2C01, 0x2C31); (0x2C02, 0x2C32); (0x2C03, 0x2C33); (0x2C04, 0x2C34);
    (0x2C05, 0x2C35); (0x2C06, 0x2C36); (0x2C07, 0x2C37); (0x2C08, 0x2C38); (0x2C09, 0x2C39);
    (0x2C0A, 0x2C3A); (0x2C0B, 0x2C3B); (0x2C0C, 0x2C3C); (0x2C0D, 0x2C3D); (0x2C0E, 0x2C3E);
    (0x2C0F, 0x2C3F); (0x2C10, 0x2C40); (0x2C11, 0x2C41); (0x2C12, 0x2C42); (0x2C13, 0x2C43);
    (0x2C14, 0x2C44); (0x2C15, 0x2C45); (0x2C16, 0x2C46); (0x2C17, 0x2C47); (0x2C18, 0x2C48);
    (0x2C19, 0x2C49); (0x2C1A, 0x2C4A); (0x2C1B, 0x2C4B); (0x2C1C, 0x2C4C); (0x2C1D, 0x2C4D);
    (0x2C1E, 0x2C4E); (0x2C1F, 0x2C4F); (0x2C20, 0x2C50); (0x2C21, 0x2C51); (0x2C22, 0x2C52);
    (0x2C23, 0x2C53); (0x2C24, 0x2C54); (0x2C25, 0x2C55); (0x2C26, 0x2C56); (0x2C27, 0x2C57);
    (0x2C28, 0x2C58); (0x2C29, 0x2C59); (0x2C2A, 0x2C5A); (0x2C2B, 0x2C5B); (0x2C2C, 0x2C5C);
    (0x2C2D, 0x2C5D); (0x2C2E, 0x2C5E); (0x2C2F, 0x2C5F); (0x2C60, 0x2C61); (0x2C62, 0x26B);
    (0x2C63, 0x1D7D); (0x2C64, 0x27D); (0x2C67, 0x2C68); (0x2C69, 0x2C6A); (0x2C6B, 0x2C6C);
    (0x2C6D, 0x251); (0x2C6E, 0x271); (0x2C6F, 0x250); (0x2C70, 0x252); (0x2C72, 0x2C73);
    (0x2C75, 0x2C76); (0x2C7E, 0x23F); (0x2C7F, 0x240); (0x2C80, 0x2C81); (0x2C82, 0x2C83);
    (0x2C84, 0x2C85); (0x2C86, 0x2C87); (0x2C88, 0x2C89); (0x2C8A, 0x2C8B); (0x2C8C, 0x2C8D);
    (0x2C8E, 0x2C8F); (0x2C90, 0x2C91); (0x2C92, 0x2C93); (0x2C94, 0x2C95); (0x2C96, 0x2C97);
    (0x2C98, 0x2C99); (0x2C9A, 0x2C9B); (0x2C9C, 0x2C9D); (0x2C9E, 0x2C9F); (0x2CA0, 0x2CA1);
    (0x2CA2, 0x2CA3); (0x2CA4, 0x2CA5); (0x2CA6, 0x2CA7); (0x2CA8, 0x2CA9); (0x2CAA, 0x2CAB);
    (0x2CAC, 0x2CAD); (0x2CAE, 0x2CAF); (0x2CB0, 0x2CB1); (0x2CB2, 0x2CB3); (0x2CB4, 0x2CB5);
    (0x2CB6, 0x2CB7); (0x2CB8, 0x2CB9); (0x2CBA, 0x2CBB); (0x2CBC, 0x2CBD); (0x2CBE, 0x2CBF);
    (0x2CC0, 0x2CC1); (0x2CC2, 0x2CC3); (0x2CC4, 0x2CC5); (0x2CC6, 0x2CC7); (0x2CC8, 0x2CC9);
    (0x2CCA, 0x2CCB); (0x2CCC, 0x2CCD); (0x2CCE, 0x2CCF); (0x2CD0, 0x2CD1); (0x2CD2, 0x2CD3);
    (0x2CD4, 0x2CD5); (0x2CD6, 0x2CD7); (0x2CD8, 0x2CD9); (0x2CDA, 0x2CDB); (0x2CDC, 0x2CDD);
    (0x2CDE, 0x2CDF); (0x2CE0, 0x2CE1); (0x2CE2, 0x2CE3); (0x2CEB, 0x2CEC); (0x2CED, 0x2CEE);
    (0x2CF2, 0x2CF3); (0xA640, 0xA641); (0xA642, 0xA643); (0xA644, 0xA645); (0xA646, 0xA647);
    (0xA648, 0xA649); (0xA64A, 0xA64B); (0xA64C, 0xA64D); (0xA64E, 0xA64F); (0xA650, 0xA651);
    (0xA652, 0xA653); (0xA654, 0xA655); (0xA656, 0xA657); (0xA658, 0xA659); (0xA65A, 0xA65B);
    (0xA65C, 0xA65D); (0xA65E, 0xA65F); (0xA660, 0xA661); (0xA662, 0xA663); (0xA664, 0xA665);
    (0xA666, 0xA667); (0xA668, 0xA669); (0xA66A, 0xA66B); (0xA66C, 0xA66D); (0xA680, 0xA681);
    (0xA682, 0xA683); (0xA684, 0xA685); (0xA686, 0xA687); (0xA688, 0xA689); (0xA68A, 0xA68B);
    (0xA68C, 0xA68D); (0xA68E, 0xA68F); (0xA690, 0xA691); (0xA692, 0xA693); (0xA694, 0xA695);
    (0xA696, 0xA697); (0xA698, 0xA699); (0xA69A, 0xA69B); (0xA722, 0xA723); (0xA724, 0xA725);
    (0xA726, 0xA727); (0xA728, 0xA729); (0xA72A, 0xA72B); (0xA72C, 0xA72D); (0xA72E, 0xA72F);
    (0xA732, 0xA733); (0xA734, 0xA735); (0xA736, 0xA737); (0xA738, 0xA739); (0xA73A, 0xA73B);
    (0xA73C, 0xA73D); (0xA73E, 0xA73F); (0xA740, 0xA741); (0xA742, 0xA743); (0xA744, 0xA745);
    (0xA746, 0xA747); (0xA748, 0xA749); (0xA74A, 0xA74B); (0xA74C, 0xA74D); (0xA74E, 0xA74F);
    (0xA750, 0xA751); (0xA752, 0xA753); (0xA754, 0xA755); (0xA756, 0xA757); (0xA758, 0xA759);
    (0xA75A, 0xA75B); (0xA75C, 0xA75D); (0xA75E, 0xA75F); (0xA760, 0xA761); (0xA762, 0xA763);
    (0xA764, 0xA765); (0xA766, 0xA767); (0xA768, 0xA769); (0xA76A, 0xA76B); (0xA76C, 0xA76D);
    (0xA76E, 0xA76F); (0xA779, 0xA77A); (0xA77B, 0xA77C); (0xA77D, 0x1D79); (0xA77E, 0xA77F);
    (0xA780, 0xA781); (0xA782, 0xA783); (0xA784, 0xA785); (0xA786, 0xA787); (0xA78B, 0xA78C);
    (0xA78D, 0x265); (0xA790, 0xA791); (0xA792, 0xA793); (0xA796, 0xA797); (0xA798, 0xA799);
    (0xA79A, 0xA79B); (0xA79C, 0xA79D); (0xA79E, 0xA79F); (0xA7A0, 0xA7A1); (0xA7A2, 0xA7A3);
    (0xA7A4, 0xA7A5); (0xA7A6, 0xA7A7); (0xA7A8, 0xA7A9); (0xA7AA, 0x266); (0xA7AB, 0x25C);
    (0xA7AC, 0x261); (0xA7AD, 0x26C); (0xA7AE, 0x26A); (0xA7B0, 0x29E); (0xA7B1, 0x287);
    (0xA7B2, 0x29D); (0xA7B3, 0xAB53); (0xA7B4, 0xA7B5); (0xA7B6, 0xA7B7); (0xA7B8, 0xA7B9);
    (0xA7BA, 0xA7BB); (0xA7BC, 0xA7BD); (0xA7BE, 0xA7BF); (0xA7C0, 0xA7C1); (0xA7C2, 0xA7C3);
    (0xA7C4, 0xA794); (0xA7C5, 0x282); (0xA7C6, 0x1D8E); (0xA7C7, 0xA7C8); (0xA7C9, 0xA7CA);
    (0xA7D0, 0xA7D1); (0xA7D6, 0xA7D7); (0xA7D8, 0xA7D9); (0xA7F5, 0xA7F6); (0xFF21, 0xFF41);
    (0xFF22, 0xFF42); (0xFF23, 0xFF43); (0xFF24, 0xFF44); (0xFF25, 0xFF45); (0xFF26, 0xFF46);
    (0xFF27, 0xFF47); (0xFF28, 0xFF48); (0xFF29, 0xFF49); (0xFF2A, 0xFF4A); (0xFF2B, 0xFF4B);
    (0xFF2C, 0xFF4C); (0xFF2D, 0xFF4D); (0xFF2E, 0xFF4E); (0xFF2F, 0xFF4F); (0xFF30, 0xFF50);
    (0xFF31, 0xFF51); (0xFF32, 0xFF52); (0xFF33, 0xFF53); (0xFF34, 0xFF54); (0xFF35, 0xFF55);
    (0xFF36, 0xFF56); (0xFF37, 0xFF57); (0xFF38, 0xFF58); (0xFF39, 0xFF59); (0xFF3A, 0xFF5A);
    (0x10400, 0x10428); (0x10401, 0x10429); (0x10402, 0x1042A); (0x10403, 0x1042B); (0x10404, 0x1042C);
    (0x10405, 0x1042D); (0x10406, 0x1042E); (0x10407, 0x1042F); (0x10408, 0x10430); (0x10409, 0x10431);
    (0x1040A, 0x10432); (0x1040B, 0x10433); (0x1040C, 0x10434); (0x1040D, 0x10435); (0x1040E, 0x10436);
    (0x1040F, 0x10437); (0x10410, 0x10438); (0x10411, 0x10439); (0x10412, 0x1043A); (0x10413, 0x1043B);
    (0x10414, 0x1043C); (0x10415, 0x1043D); (0x10416, 0x1043E); (0x10417, 0x1043F); (0x10418, 0x10440);
    (0x10419, 0x10441); (0x1041A, 0x10442); (0x1041B, 0x10443); (0x1041C, 0x10444); (0x1041D, 0x10445);
    (0x1041E, 0x10446); (0x1041F, 0x10447); (0x10420, 0x10448); (0x10421, 0x10449); (0x10422, 0x1044A);
    (0x10423, 0x1044B); (0x10424, 0x1044C); (0x10425, 0x1044D); (0x10426, 0x1044E); (0x10427, 0x1044F);
    (0x104B0, 0x104D8); (0x104B1, 0x104D9); (0x104B2, 0x104DA); (0x104B3, 0x104DB); (0x104B4, 0x104DC);
    (0x104B5, 0x104DD); (0x104B6, 0x104DE); (0x104B7, 0x104DF); (0x104B8, 0x104E0); (0x104B9, 0x104E1);
    (0x104BA, 0x104E2); (0x104BB, 0x104E3); (0x104BC, 0x104E4); (0x104BD, 0x104E5); (0x104BE, 0x104E6);
    (0x104BF, 0x104E7); (0x104C0, 0x104E8); (0x104C1, 0x104E9); (0x104C2, 0x104EA); (0x104C3, 0x104EB);
    (0x104C4, 0x104EC); (0x104C5, 0x104ED); (0x104C6, 0x104EE); (0x104C7, 0x104EF); (0x104C8, 0x104F0);
    (0x104C9, 0x104F1); (0x104CA, 0x104F2); (0x104CB, 0x104F3); (0x104CC, 0x104F4); (0x104CD, 0x104F5);
    (0x104CE, 0x104F6); (0x104CF, 0x104F7); (0x104D0, 0x104F8); (0x104D1, 0x104F9); (0x104D2, 0x104FA);
    (0x104D3, 0x104FB); (0x10570, 0x10597); (0x10571, 0x10598); (0x10572, 0x10599); (0x10573, 0x1059A);
    (0x10574, 0x1059B); (0x10575, 0x1059C); (0x10576, 0x1059D); (0x10577, 0x1059E); (0x10578, 0x1059F);
    (0x10579, 0x105A0); (0x1057A, 0x105A1); (0x1057C, 0x105A3); (0x1057D, 0x105A4); (0x1057E, 0x105A5);
    (0x1057F, 0x105A6); (0x10580, 0x105A7); (0x10581, 0x105A8); (0x10582, 0x105A9); (0x10583, 0x105AA);
    (0x10584, 0x105AB); (0x10585, 0x105AC); (0x10586, 0x105AD); (0x10587, 0x105AE); (0x10588, 0x105AF);
    (0x10589, 0x105B0); (0x1058A, 0x105B1); (0x1058C, 0x105B3); (0x1058D, 0x105B4); (0x1058E, 0x105B5);
    (0x1058F, 0x105B6); (0x10590, 0x105B7); (0x10591, 0x105B8); (0x10592, 0x105B9); (0x10594, 0x105BB);
    (0x10595, 0x105BC); (0x10C80, 0x10CC0); (0x10C81, 0x10CC1); (0x10C82, 0x10CC2); (0x10C83, 0x10CC3);
    (0x10C84, 0x10CC4); (0x10C85, 0x10CC5); (0x10C86, 0x10CC6); (0x10C87, 0x10CC7); (0x10C88, 0x10CC8);
    (0x10C89, 0x10CC9); (0x10C8A, 0x10CCA); (0x10C8B, 0x10CCB); (0x10C8C, 0x10CCC); (0x10C8D, 0x10CCD);
    (0x10C8E, 0x10CCE); (0x10C8F, 0x10CCF); (0x10C90, 0x10CD0); (0x10C91, 0x10CD1); (0x10C92, 0x10CD2);
    (0x10C93, 0x10CD3); (0x10C94, 0x10CD4); (0x10C95, 0x10CD5); (0x10C96, 0x10CD6); (0x10C97, 0x10CD7);
    (0x10C98, 0x10CD8); (0x10C99, 0x10CD9); (0x10C9A, 0x10CDA); (0x10C9B, 0x10CDB); (0x10C9C, 0x10CDC);
    (0x10C9D, 0x10CDD); (0x10C9E, 0x10CDE); (0x10C9F, 0x10CDF); (0x10CA0, 0x10CE0); (0x10CA1, 0x10CE1);
    (0x10CA2, 0x10CE2); (0x10CA3, 0x10CE3); (0x10CA4, 0x10CE4); (0x10CA5, 0x10CE5); (0x10CA6, 0x10CE6);
    (0x10CA7, 0x10CE7); (0x10CA8, 0x10CE8); (0x10CA9, 0x10CE9); (0x10CAA, 0x10CEA); (0x10CAB, 0x10CEB);
    (0x10CAC, 0x10CEC); (0x10CAD, 0x10CED); (0x10CAE, 0x10CEE); (0x10CAF, 0x10CEF); (0x10CB0, 0x10CF0);
    (0x10CB1, 0x10CF1); (0x10CB2, 0x10CF2); (0x118A0, 0x118C0); (0x118A1, 0x118C1); (0x118A2, 0x118C2);
    (0x118A3, 0x118C3); (0x118A4, 0x118C4); (0x118A5, 0x118C5); (0x118A6, 0x118C6); (0x118A7, 0x118C7);
    (0x118A8, 0x118C8); (0x118A9, 0x118C9); (0x118AA, 0x118CA); (0x118AB, 0x118CB); (0x118AC, 0x118CC);
    (0x118AD, 0x118CD); (0x118AE, 0x118CE); (0x118AF, 0x118CF); (0x118B0, 0x118D0); (0x118B1, 0x118D1);
    (0x118B2, 0x118D2); (0x118B3, 0x118D3); (0x118B4, 0x118D4); (0x118B5, 0x118D5); (0x118B6, 0x118D6);
    (0x118B7, 0x118D7); (0x118B8, 0x118D8); (0x118B9, 0x118D9); (0x118BA, 0x118DA); (0x118BB, 0x118DB);
    (0x118BC, 0x118DC); (0x118BD, 0x118DD); (0x118BE, 0x118DE); (0x118BF, 0x118DF); (0x16E40, 0x16E60);
    (0x16E41, 0x16E61); (0x16E42, 0x16E62); (0x16E43, 0x16E63); (0x16E44, 0x16E64); (0x16E45, 0x16E65);
    (0x16E46, 0x16E66); (0x16E47, 0x16E67); (0x16E48, 0x16E68); (0x16E49, 0x16E69); (0x16E4A, 0x16E6A);
    (0x16E4B, 0x16E6B); (0x16E4C, 0x16E6C); (0x16E4D, 0x16E6D); (0x16E4E, 0x16E6E); (0x16E4F, 0x16E6F);
    (0x16E50, 0x16E70); (0x16E51, 0x16E71); (0x16E52, 0x16E72); (0x16E53, 0x16E73); (0x16E54, 0x16E74);
    (0x16E55, 0x16E75); (0x16E56, 0x16E76); (0x16E57, 0x16E77); (0x16E58, 0x16E78); (0x16E59, 0x16E79);
    (0x16E5A, 0x16E7A); (0x16E5B, 0x16E7B); (0x16E5C, 0x16E7C); (0x16E5D, 0x16E7D); (0x16E5E, 0x16E7E);
    (0x16E5F, 0x16E7F); (0x1E900, 0x1E922); (0x1E901, 0x1E923); (0x1E902, 0x1E924); (0x1E903, 0x1E925);
    (0x1E904, 0x1E926); (0x1E905, 0x1E927); (0x1E906, 0x1E928); (0x1E907, 0x1E929); (0x1E908, 0x1E92A);
    (0x1E909, 0x1E92B); (0x1E90A, 0x1E92C); (0x1E90B, 0x1E92D); (0x1E90C, 0x1E92E); (0x1E90D, 0x1E92F);
    (0x1E90E, 0x1E930); (0x1E90F, 0x1E931); (0x1E910, 0x1E932); (0x1E911, 0x1E933); (0x1E912, 0x1E934);
    (0x1E913, 0x1E935); (0x1E914, 0x1E936); (0x1E915, 0x1E937); (0x1E916, 0x1E938); (0x1E917, 0x1E939);
    (0x1E918, 0x1E93A); (0x1E919, 0x1E93B); (0x1E91A, 0x1E93C); (0x1E91B, 0x1E93D); (0x1E91C, 0x1E93E);
    (0x1E91D, 0x1E93F); (0x1E91E, 0x1E940); (0x1E91F, 0x1E941); (0x1E920, 0x1E942); (0x1E921, 0x1E943) ]%N.

(** The ranges of the case-ignorable characters. *)
Definition case_ignorable_table : list (N * N) :=
  [ (0x27, 0x27); (0x2E, 0x2E); (0x3A, 0x3A); (0x5E, 0x5E); (0x60, 0x60);
    (0xA8, 0xA8); (0xAD, 0xAD); (0xAF, 0xAF); (0xB4, 0xB4); (0xB7, 0xB8);
    (0x2B0, 0x36F); (0x374, 0x375); (0x37A, 0x37A); (0x384, 0x385); (0x387, 0x387);
    (0x483, 0x489); (0x559, 0x559); (0x55F, 0x55F); (0x591, 0x5BD); (0x5BF, 0x5BF);
    (0x5C1, 0x5C2); (0x5C4, 0x5C5); (0x5C7, 0x5C7); (0x5F4, 0x5F4); (0x600, 0x605);
    (0x610, 0x61A); (0x61C, 0x61C); (0x640, 0x640); (0x64B, 0x65F); (0x670, 0x670);
    (0x6D6, 0x6DD); (0x6DF, 0x6E8); (0x6EA, 0x6ED); (0x70F, 0x70F); (0x711, 0x711);
    (0x730, 0x74A); (0x7A6, 0x7B0); (0x7EB, 0x7F5); (0x7FA, 0x7FA); (0x7FD, 0x7FD);
    (0x816, 0x82D); (0x859, 0x85B); (0x888, 0x888); (0x890, 0x891); (0x898, 0x89F);
    (0x8C9, 0x902); (0x93A, 0x93A); (0x93C, 0x93C); (0x941, 0x948); (0x94D, 0x94D);
    (0x951, 0x957); (0x962, 0x963); (0x971, 0x971); (0x981, 0x981); (0x9BC, 0x9BC);
    (0x9C1, 0x9C4); (0x9CD, 0x9CD); (0x9E2, 0x9E3); (0x9FE, 0x9FE); (0xA01, 0xA02);
    (0xA3C, 0xA3C); (0xA41, 0xA42); (0xA47, 0xA48); (0xA4B, 0xA4D); (0xA51, 0xA51);
    (0xA70, 0xA71); (0xA75, 0xA75); (0xA81, 0xA82); (0xABC, 0xABC); (0xAC1, 0xAC5);
    (0xAC7, 0xAC8); (0xACD, 0xACD); (0xAE2, 0xAE3); (0xAFA, 0xAFF); (0xB01, 0xB01);
    (0xB3C, 0xB3C); (0xB3F, 0xB3F); (0xB41, 0xB44); (0xB4D, 0xB4D); (0xB55, 0xB56);
    (0xB62, 0xB63); (0xB82, 0xB82); (0xBC0, 0xBC0); (0xBCD, 0xBCD); (0xC00, 0xC00);
    (0xC04, 0xC04); (0xC3C, 0xC3C); (0xC3E, 0xC40); (0xC46, 0xC48); (0xC4A, 0xC4D);
    (0xC55, 0xC56); (0xC62, 0xC63); (0xC81, 0xC81); (0xCBC, 0xCBC); (0xCBF, 0xCBF);
    (0xCC6, 0xCC6); (0xCCC, 0xCCD); (0xCE2, 0xCE3); (0xD00, 0xD01); (0xD3B, 0xD3C);
    (0xD41, 0xD44); (0xD4D, 0xD4D); (0xD62, 0xD63); (0xD81, 0xD81); (0xDCA, 0xDCA);
    (0xDD2, 0xDD4); (0xDD6, 0xDD6); (0xE31, 0xE31); (0xE34, 0xE3A); (0xE46, 0xE4E);
    (0xEB1, 0xEB1); (0xEB4, 0xEBC); (0xEC6, 0xEC6); (0xEC8, 0xECD); (0xF18, 0xF19);
    (0xF35, 0xF35); (0xF37, 0xF37); (0xF39, 0xF39); (0xF71, 0xF7E); (0xF80, 0xF84);
    (0xF86, 0xF87); (0xF8D, 0xF97); (0xF99, 0xFBC); (0xFC6, 0xFC6); (0x102D, 0x1030);
    (0x1032, 0x1037); (0x1039, 0x103A); (0x103D, 0x103E); (0x1058, 0x1059); (0x105E, 0x1060);
    (0x1071, 0x1074); (0x1082, 0x1082); (0x1085, 0x1086); (0x108D, 0x108D); (0x109D, 0x109D);
    (0x10FC, 0x10FC); (0x135D, 0x135F); (0x1712, 0x1714); (0x1732, 0x1733); (0x1752, 0x1753);
    (0x1772, 0x1773); (0x17B4, 0x17B5); (0x17B7, 0x17BD); (0x17C6, 0x17C6); (0x17C9, 0x17D3);
    (0x17D7, 0x17D7); (0x17DD, 0x17DD); (0x180B, 0x180F); (0x1843, 0x1843); (0x1885, 0x1886);
    (0x18A9, 0x18A9); (0x1920, 0x1922); (0x1927, 0x1928); (0x1932, 0x1932); (0x1939, 0x193B);
    (0x1A17, 0x1A18); (0x1A1B, 0x1A1B); (0x1A56, 0x1A56); (0x1A58, 0x1A5E); (0x1A60, 0x1A60);
    (0x1A62, 0x1A62); (0x1A65, 0x1A6C); (0x1A73, 0x1A7C); (0x1A7F, 0x1A7F); (0x1AA7, 0x1AA7);
    (0x1AB0, 0x1ACE); (0x1B00, 0x1B03); (0x1B34, 0x1B34); (0x1B36, 0x1B3A); (0x1B3C, 0x1B3C);
    (0x1B42, 0x1B42); (0x1B6B, 0x1B73); (0x1B80, 0x1B81); (0x1BA2, 0x1BA5); (0x1BA8, 0x1BA9);
    (0x1BAB, 0x1BAD); (0x1BE6, 0x1BE6); (0x1BE8, 0x1BE9); (0x1BED, 0x1BED); (0x1BEF, 0x1BF1);
    (0x1C2C, 0x1C33); (0x1C36, 0x1C37); (0x1C78, 0x1C7D); (0x1CD0, 0x1CD2); (0x1CD4, 0x1CE0);
    (0x1CE2, 0x1CE8); (0x1CED, 0x1CED); (0x1CF4, 0x1CF4); (0x1CF8, 0x1CF9); (0x1D2C, 0x1D6A);
    (0x1D78, 0x1D78); (0x1D9B, 0x1DFF); (0x1FBD, 0x1FBD); (0x1FBF, 0x1FC1); (0x1FCD, 0x1FCF);
    (0x1FDD, 0x1FDF); (0x1FED, 0x1FEF); (0x1FFD, 0x1FFE); (0x200B, 0x200F); (0x2018, 0x2019);
    (0x2024, 0x2024); (0x2027, 0x2027); (0x202A, 0x202E); (0x2060, 0x2064); (0x2066, 0x206F);
    (0x2071, 0x2071); (0x207F, 0x207F); (0x2090, 0x209C); (0x20D0, 0x20F0); (0x2C7C, 0x2C7D);
    (0x2CEF, 0x2CF1); (0x2D6F, 0x2D6F); (0x2D7F, 0x2D7F); (0x2DE0, 0x2DFF); (0x2E2F, 0x2E2F);
    (0x3005, 0x3005); (0x302A, 0x302D); (0x3031, 0x3035); (0x303B, 0x303B); (0x3099, 0x309E);
    (0x30FC, 0x30FE); (0xA015, 0xA015); (0xA4F8, 0xA4FD); (0xA60C, 0xA60C); (0xA66F, 0xA672);
    (0xA674, 0xA67D); (0xA67F, 0xA67F); (0xA69C, 0xA69F); (0xA6F0, 0xA6F1); (0xA700, 0xA721);
    (0xA770, 0xA770); (0xA788, 0xA78A); (0xA7F2, 0xA7F4); (0xA7F8, 0xA7F9); (0xA802, 0xA802);
    (0xA806, 0xA806); (0xA80B, 0xA80B); (0xA825, 0xA826); (0xA82C, 0xA82C); (0xA8C4, 0xA8C5);
    (0xA8E0, 0xA8F1); (0xA8FF, 0xA8FF); (0xA926, 0xA92D); (0xA947, 0xA951); (0xA980, 0xA982);
    (0xA9B3, 0xA9B3); (0xA9B6, 0xA9B9); (0xA9BC, 0xA9BD); (0xA9CF, 0xA9CF); (0xA9E5, 0xA9E6);
    (0xAA29, 0xAA2E); (0xAA31, 0xAA32); (0xAA35, 0xAA36); (0xAA43, 0xAA43); (0xAA4C, 0xAA4C);
    (0xAA70, 0xAA70); (0xAA7C, 0xAA7C); (0xAAB0, 0xAAB0); (0xAAB2, 0xAAB4); (0xAAB7, 0xAAB8);
    (0xAABE, 0xAABF); (0xAAC1, 0xAAC1); (0xAADD, 0xAADD); (0xAAEC, 0xAAED); (0xAAF3, 0xAAF4);
    (0xAAF6, 0xAAF6); (0xAB5B, 0xAB5F); (0xAB69, 0xAB6B); (0xABE5, 0xABE5); (0xABE8, 0xABE8);
    (0xABED, 0xABED); (0xFB1E, 0xFB1E); (0xFBB2, 0xFBC2); (0xFE00, 0xFE0F); (0xFE13, 0xFE13);
    (0xFE20, 0xFE2F); (0xFE52, 0xFE52); (0xFE55, 0xFE55); (0xFEFF, 0xFEFF); (0xFF07, 0xFF07);
    (0xFF0E, 0xFF0E); (0xFF1A, 0xFF1A); (0xFF3E, 0xFF3E); (0xFF40, 0xFF40); (0xFF70, 0xFF70);
    (0xFF9E, 0xFF9F); (0xFFE3, 0xFFE3); (0xFFF9, 0xFFFB); (0x101FD, 0x101FD); (0x102E0, 0x102E0);
    (0x10376, 0x1037A); (0x10780, 0x10785); (0x10787, 0x107B0); (0x107B2, 0x107BA); (0x10A01, 0x10A03);
    (0x10A05, 0x10A06); (0x10A0C, 0x10A0F); (0x10A38, 0x10A3A); (0x10A3F, 0x10A3F); (0x10AE5, 0x10AE6);
    (0x10D24, 0x10D27); (0x10EAB, 0x10EAC); (0x10F46, 0x10F50); (0x10F82, 0x10F85); (0x11001, 0x11001);
    (0x11038, 0x11046); (0x11070, 0x11070); (0x11073, 0x11074); (0x1107F, 0x11081); (0x110B3, 0x110B6);
    (0x110B9, 0x110BA); (0x110BD, 0x110BD); (0x110C2, 0x110C2); (0x110CD, 0x110CD); (0x11100, 0x11102);
    (0x11127, 0x1112B); (0x1112D, 0x11134); (0x11173, 0x11173); (0x11180, 0x11181); (0x111B6, 0x111BE);
    (0x111C9, 0x111CC); (0x111CF, 0x111CF); (0x1122F, 0x11231); (0x11234, 0x11234); (0x11236, 0x11237);
    (0x1123E, 0x1123E); (0x112DF, 0x112DF); (0x112E3, 0x112EA); (0x11300, 0x11301); (0x1133B, 0x1133C);
    (0x11340, 0x11340); (0x11366, 0x1136C); (0x11370, 0x11374); (0x11438, 0x1143F); (0x11442, 0x11444);
    (0x11446, 0x11446); (0x1145E, 0x1145E); (0x114B3, 0x114B8); (0x114BA, 0x114BA); (0x114BF, 0x114C0);
    (0x114C2, 0x114C3); (0x115B2, 0x115B5); (0x115BC, 0x115BD); (0x115BF, 0x115C0); (0x115DC, 0x115DD);
    (0x11633, 0x1163A); (0x1163D, 0x1163D); (0x1163F, 0x11640); (0x116AB, 0x116AB); (0x116AD, 0x116AD);
    (0x116B0, 0x116B5); (0x116B7, 0x116B7); (0x1171D, 0x1171F); (0x11722, 0x11725); (0x11727, 0x1172B);
    (0x1182F, 0x11837); (0x11839, 0x1183A); (0x1193B, 0x1193C); (0x1193E, 0x1193E); (0x11943, 0x11943);
    (0x119D4, 0x119D7); (0x119DA, 0x119DB); (0x119E0, 0x119E0); (0x11A01, 0x11A0A); (0x11A33, 0x11A38);
    (0x11A3B, 0x11A3E); (0x11A47, 0x11A47); (0x11A51, 0x11A56); (0x11A59, 0x11A5B); (0x11A8A, 0x11A96);
    (0x11A98, 0x11A99); (0x11C30, 0x11C36); (0x11C38, 0x11C3D); (0x11C3F, 0x11C3F); (0x11C92, 0x11CA7);
    (0x11CAA, 0x11CB0); (0x11CB2, 0x11CB3); (0x11CB5, 0x11CB6); (0x11D31, 0x11D36); (0x11D3A, 0x11D3A);
    (0x11D3C, 0x11D3D); (0x11D3F, 0x11D45); (0x11D47, 0x11D47); (0x11D90, 0x11D91); (0x11D95, 0x11D95);
    (0x11D97, 0x11D97); (0x11EF3, 0x11EF4); (0x13430, 0x13438); (0x16AF0, 0x16AF4); (0x16B30, 0x16B36);
    (0x16B40, 0x16B43); (0x16F4F, 0x16F4F); (0x16F8F, 0x16F9F); (0x16FE0, 0x16FE1); (0x16FE3, 0x16FE4);
    (0x1AFF0, 0x1AFF3); (0x1AFF5, 0x1AFFB); (0x1AFFD, 0x1AFFE); (0x1BC9D, 0x1BC9E); (0x1BCA0, 0x1BCA3);
    (0x1CF00, 0x1CF2D); (0x1CF30, 0x1CF46); (0x1D167, 0x1D169); (0x1D173, 0x1D182); (0x1D185, 0x1D18B);
    (0x1D1AA, 0x1D1AD); (0x1D242, 0x1D244); (0x1DA00, 0x1DA36); (0x1DA3B, 0x1DA6C); (0x1DA75, 0x1DA75);
    (0x1DA84, 0x1DA84); (0x1DA9B, 0x1DA9F); (0x1DAA1, 0x1DAAF); (0x1E000, 0x1E006); (0x1E008, 0x1E018);
    (0x1E01B, 0x1E021); (0x1E023, 0x1E024); (0x1E026, 0x1E02A); (0x1E130, 0x1E13D); (0x1E2AE, 0x1E2AE);
    (0x1E2EC, 0x1E2EF); (0x1E8D0, 0x1E8D6); (0x1E944, 0x1E94B); (0x1F3FB, 0x1F3FF); (0xE0001, 0xE0001);
    (0xE0020, 0xE007F); (0xE0100, 0xE01EF) ]%N.

(** The ranges of the cased characters that are not case-ignorable. *)
Definition cased_table : list (N * N) :=
  [ (0x41, 0x5A); (0x61, 0x7A); (0xAA, 0xAA); (0xB5, 0xB5); (0xBA, 0xBA);
    (0xC0, 0xD6); (0xD8, 0xF6); (0xF8, 0x1BA); (0x1BC, 0x1BF); (0x1C4, 0x293);
    (0x295, 0x2AF); (0x370, 0x373); (0x376, 0x377); (0x37B, 0x37D); (0x37F, 0x37F);
    (0x386, 0x386); (0x388, 0x38A); (0x38C, 0x38C); (0x38E, 0x3A1); (0x3A3, 0x3F5);
    (0x3F7, 0x481); (0x48A, 0x52F); (0x531, 0x556); (0x560, 0x588); (0x10A0, 0x10C5);
    (0x10C7, 0x10C7); (0x10CD, 0x10CD); (0x10D0, 0x10FA); (0x10FD, 0x10FF); (0x13A0, 0x13F5);
    (0x13F8, 0x13FD); (0x1C80, 0x1C88); (0x1C90, 0x1CBA); (0x1CBD, 0x1CBF); (0x1D00, 0x1D2B);
    (0x1D6B, 0x1D77); (0x1D79, 0x1D9A); (0x1E00, 0x1F15); (0x1F18, 0x1F1D); (0x1F20, 0x1F45);
    (0x1F48, 0x1F4D); (0x1F50, 0x1F57); (0x1F59, 0x1F59); (0x1F5B, 0x1F5B); (0x1F5D, 0x1F5D);
    (0x1F5F, 0x1F7D); (0x1F80, 0x1FB4); (0x1FB6, 0x1FBC); (0x1FBE, 0x1FBE); (0x1FC2, 0x1FC4);
    (0x1FC6, 0x1FCC); (0x1FD0, 0x1FD3); (0x1FD6, 0x1FDB); (0x1FE0, 0x1FEC); (0x1FF2, 0x1FF4);
    (0x1FF6, 0x1FFC); (0x2102, 0x2102); (0x2107, 0x2107); (0x210A, 0x2113); (0x2115, 0x2115);
    (0x2119, 0x211D); (0x2124, 0x2124); (0x2126, 0x2126); (0x2128, 0x2128); (0x212A, 0x212D);
    (0x212F, 0x2134); (0x2139, 0x2139); (0x213C, 0x213F); (0x2145, 0x2149); (0x214E, 0x214E);
    (0x2160, 0x217F); (0x2183, 0x2184); (0x24B6, 0x24E9); (0x2C00, 0x2C7B); (0x2C7E, 0x2CE4);
    (0x2CEB, 0x2CEE); (0x2CF2, 0x2CF3); (0x2D00, 0x2D25); (0x2D27, 0x2D27); (0x2D2D, 0x2D2D);
    (0xA640, 0xA66D); (0xA680, 0xA69B); (0xA722, 0xA76F); (0xA771, 0xA787); (0xA78B, 0xA78E);
    (0xA790, 0xA7CA); (0xA7D0, 0xA7D1); (0xA7D3, 0xA7D3); (0xA7D5, 0xA7D9); (0xA7F5, 0xA7F6);
    (0xA7FA, 0xA7FA); (0xAB30, 0xAB5A); (0xAB60, 0xAB68); (0xAB70, 0xABBF); (0xFB00, 0xFB06);
    (0xFB13, 0xFB17); (0xFF21, 0xFF3A); (0xFF41, 0xFF5A); (0x10400, 0x1044F); (0x104B0, 0x104D3);
    (0x104D8, 0x104FB); (0x10570, 0x1057A); (0x1057C, 0x1058A); (0x1058C, 0x10592); (0x10594, 0x10595);
    (0x10597, 0x105A1); (0x105A3, 0x105B1); (0x105B3, 0x105B9); (0x105BB, 0x105BC); (0x10C80, 0x10CB2);
    (0x10CC0, 0x10CF2); (0x118A0, 0x118DF); (0x16E40, 0x16E7F); (0x1D400, 0x1D454); (0x1D456, 0x1D49C);
    (0x1D49E, 0x1D49F); (0x1D4A2, 0x1D4A2); (0x1D4A5, 0x1D4A6); (0x1D4A9, 0x1D4AC); (0x1D4AE, 0x1D4B9);
    (0x1D4BB, 0x1D4BB); (0x1D4BD, 0x1D4C3); (0x1D4C5, 0x1D505); (0x1D507, 0x1D50A); (0x1D50D, 0x1D514);
    (0x1D516, 0x1D51C); (0x1D51E, 0x1D539); (0x1D53B, 0x1D53E); (0x1D540, 0x1D544); (0x1D546, 0x1D546);
    (0x1D54A, 0x1D550); (0x1D552, 0x1D6A5); (0x1D6A8, 0x1D6C0); (0x1D6C2, 0x1D6DA); (0x1D6DC, 0x1D6FA);
    (0x1D6FC, 0x1D714); (0x1D716, 0x1D734); (0x1D736, 0x1D74E); (0x1D750, 0x1D76E); (0x1D770, 0x1D788);
    (0x1D78A, 0x1D7A8); (0x1D7AA, 0x1D7C2); (0x1D7C4, 0x1D7CB); (0x1DF00, 0x1DF09); (0x1DF0B, 0x1DF1E);
    (0x1E900, 0x1E943); (0x1F130, 0x1F149); (0x1F150, 0x1F169); (0x1F170, 0x1F189) ]%N.

(** [c.lower()] on an ASCII character. *)
Definition lower_ascii (c : ascii) : ascii :=
  let n := nat_of_ascii c in
  if ((65 <=? n) && (n <=? 90))%nat then ascii_of_nat (n + 32) else c.

Definition case_ignorable (ch : string) : bool :=
  in_ranges case_ignorable_table (ord ch).

Definition cased (ch : string) : bool := in_ranges cased_table (ord ch).

(** Whether the nearest character of [l] that is not case-ignorable is
    cased. *)
Fixpoint meets_cased (l : list string) : bool :=
  match l with
  | [] => false
  | ch :: r => if case_ignorable ch then meets_cased r else cased ch
  end.

(** The lower case of a capital sigma: the final form after a cased
    letter when no cased letter follows ([before] holds the preceding
    characters, nearest first). *)
Definition lower_sigma (before after : list string) : string :=
  if meets_cased before && negb (meets_cased after)
  then chr 0x3C2 else chr 0x3C3.

(** The lower case of the character [ch] standing between [before] and
    [after]. *)
Definition lower_char (before : list string) (ch : string)
    (after : list string) : string :=
  match ch with
  | String b EmptyString => String (lower_ascii b) EmptyString
  | _ =>
      let n := ord ch in
      if (n =? 0x3A3)%N then lower_sigma before after
      else if (n =? 0x130)%N then chr 0x69 ++ chr 0x307
      else match find (fun e => (fst e =? n)%N) lower_table with
           | Some e => chr (snd e)
           | None => ch
           end
  end.

Fixpoint lower_chars (before l : list string) : list string :=
  match l with
  | [] => []
  | ch :: r => lower_char before ch r :: lower_chars (ch :: before) r
  end.

(** [s.lower()] *)
Definition lower (s : string) : string := join (lower_chars [] (chars s)).

(** *** Slices, search and white space *)

(** [s[:n]] *)
Definition take (n : nat) (s : string) : string := join (firstn n (chars s)).

(** [needle in hay] *)
Fixpoint contains (needle hay : string) : bool :=
  if prefix needle hay then true
  else match hay with
       | EmptyString => false
       | String _ r => contains needle r
       end.

(** [ch.isspace()]: the characters [str.strip()] removes. *)
Definition is_space (ch : string) : bool :=
  in_ranges
    [ (0x09, 0x0D); (0x1C, 0x20); (0x85, 0x85); (0xA0, 0xA0);
      (0x1680, 0x1680); (0x2000, 0x200A); (0x2028, 0x2029);
      (0x202F, 0x202F); (0x205F, 0x205F); (0x3000, 0x3000) ]%N
    (ord ch).

Fixpoint drop_spaces (l : list string) : list string :=
  match l with
  | [] => []
  | ch :: r => if is_space ch then drop_spaces r else l
  end.

(** [s.lstrip()], [s.rstrip()] and [s.strip()] *)
Definition lstrip (s : string) : string := join (drop_spaces (chars s)).

Definition rstrip (s : string) : string :=
  join (rev (drop_spaces (rev (chars s)))).

Definition strip (s : string) : string :=
  join (rev (drop_spaces (rev (drop_spaces (chars s))))).

(** [bool(s)] *)
Definition truthy (s : string) : bool := negb (s =? "").

(** Insertion of one string into an ascending list, and [list.sort()]
    on strings (code-point order). *)
Fixpoint insert_sorted (x : string) (l : list string) : list string :=
  match l with
  | [] => [x]
  | y :: r => if String.leb x y then x :: l else y :: insert_sorted x r
  end.

Definition sort (l : list string) : list string :=
  fold_right insert_sorted [] l.

End Str.

(* ================================================================= *)
(** ** Python values, exceptions and dictionaries *)

Inductive pyval : Type :=
| PyNone
| PyStr (s : string).

Definition pyval_eqb (a b : pyval) : bool :=
  match a, b with
  | PyNone, PyNone => true
  | PyStr x, PyStr y => x =? y
  | _, _ => false
  end.

(** [bool(v)] *)
Definition truthy_val (v : pyval) : bool :=
  match v with
  | PyNone => false
  | PyStr s => Str.truthy s
  end.

Inductive exn : Type :=
| AttributeError
| TypeError
| KeyError
| ValidationError.

Inductive res (A : Type) : Type :=
| Ok (a : A)
| Raise (e : exn).

Arguments Ok {A} a.
Arguments Raise {A} e.

Definition bind {A B : Type} (m : res A) (k : A -> res B) : res B :=
  match m with
  | Ok a => k a
  | Raise e => Raise e
  end.

Notation "x <- m ;; k" := (bind m (fun x => k))
  (at level 61, m at next level, right associativity).

(** A loop body that may raise, run over a list from left to right. *)
Fixpoint foldM {A S : Type} (f : S -> A -> res S) (l : list A) (s : S) : res S :=
  match l with
  | [] => Ok s
  | x :: r => s' <- f s x ;; foldM f r s'
  end.

Module Dict.

Definition t (V : Type) : Type := list (string * V).

Section Ops.
Variable V : Type.

(** [d.get(k)] as an option; [None] when the key is absent. *)
Fixpoint get (d : t V) (k : string) : option V :=
    match d with
    | [] => None
    | (k', v) :: r => if k' =? k then Some v else get r k
    end.

(** [k in d] *)
Definition mem (d : t V) (k : string) : bool :=
    match get d k with Some _ => true | None => false end.

(** [d[k] = v]: an existing key keeps its position, a new one goes last. *)
Fixpoint set (d : t V) (k : string) (v : V) : t V :=
    match d with
    | [] => [(k, v)]
    | (k', v') :: r =>
        if k' =? k then (k', v) :: r else (k', v') :: set r k v
    end.

(** [d.update(u)] *)
Definition update (d u : t V) : t V :=
    fold_left (fun acc kv => set acc (fst kv) (snd kv)) u d.

Definition keys (d : t V) : list string := map fst d.

End Ops.

(** [d.get(k)] and [d.get(k, dflt)] on dictionaries of Python values. *)
Definition get_val (d : t pyval) (k : string) : pyval :=
  match get d k with Some v => v | None => PyNone end.

Definition get_default (d : t pyval) (k : string) (dflt : pyval) : pyval :=
  match get d k with Some v => v | None => dflt end.

End Dict.

Definition Attrs : Type := Dict.t pyval.

(* ================================================================= *)
(** ** networkx.DiGraph, as far as the program uses it *)

Module NX.

(** [_node]: node -> attribute dict; [_adj]: node -> successor -> edge
    attribute dict.  ([_pred] mirrors [_adj] and is never read here.) *)
Record DiGraph : Type := mkDiGraph {
  _node : Dict.t Attrs;
  _adj  : Dict.t (Dict.t Attrs)
}.

(** [nx.DiGraph()] *)
Definition empty : DiGraph := mkDiGraph [] [].

(** [G.add_node(n, **attr)] *)
Definition add_node (n : string) (attr : Attrs) (g : DiGraph) : DiGraph :=
  if Dict.mem (_adj g) n then
    let old := match Dict.get (_node g) n with Some a => a | None => [] end in
    mkDiGraph (Dict.set (_node g) n (Dict.update old attr)) (_adj g)
  else
    mkDiGraph (Dict.set (_node g) n (Dict.update [] attr)) (Dict.set (_adj g) n []).

(** The first lines of [add_edge] for one endpoint: create it bare when
    it is not a node yet. *)
Definition ensure_node (n : string) (g : DiGraph) : DiGraph :=
  if Dict.mem (_adj g) n then g
  else mkDiGraph (Dict.set (_node g) n []) (Dict.set (_adj g) n []).

(** [G.add_edge(u, v, **attr)] *)
Definition add_edge (u v : string) (attr : Attrs) (g : DiGraph) : DiGraph :=
  let g1 := ensure_node v (ensure_node u g) in
  let nbrs := match Dict.get (_adj g1) u with Some d => d | None => [] end in
  let datadict := match Dict.get nbrs v with Some d => d | None => [] end in
  mkDiGraph (_node g1)
            (Dict.set (_adj g1) u (Dict.set nbrs v (Dict.update datadict attr))).

(** [G.has_node(n)] *)
Definition has_node (g : DiGraph) (n : string) : bool := Dict.mem (_node g) n.

(** [G.nodes(data=True)] *)
Definition nodes (g : DiGraph) : list (string * Attrs) := _node g.

(** [G.edges(data=True)] *)
Definition edges (g : DiGraph) : list (string * string * Attrs) :=
  flat_map (fun un => map (fun vd => (fst un, fst vd, snd vd)) (snd un)) (_adj g).

(** [G.out_edges(n)] *)
Definition out_edges (g : DiGraph) (n : string) : list (string * string) :=
  match Dict.get (_adj g) n with
  | Some nbrs => map (fun vd => (n, fst vd)) nbrs
  | None => []
  end.

(** [G.nodes[n].get(a)]; indexing a node that does not exist raises. *)
Definition node_get (g : DiGraph) (n a : string) : res pyval :=
  match Dict.get (_node g) n with
  | Some attrs => Ok (Dict.get_val attrs a)
  | None => Raise KeyError
  end.

(** The edge attribute dict of [u -> v], when the edge exists. *)
Definition edge_data (g : DiGraph) (u v : string) : option Attrs :=
  match Dict.get (_adj g) u with
  | Some nbrs => Dict.get nbrs v
  | None => None
  end.

End NX.

(* ================================================================= *)
(** ** src/models/schemas.py *)

Inductive PublicationType : Type :=
| PUBMED
| CLINICAL_TRIAL.

(** The string value of the enumeration member. *)
Definition PublicationType_value (t : PublicationType) : string :=
  match t with
  | PUBMED => "pubmed"
  | CLINICAL_TRIAL => "clinical_trial"
  end.

Definition PublicationType_eqb (a b : PublicationType) : bool :=
  match a, b with
  | PUBMED, PUBMED => true
  | CLINICAL_TRIAL, CLINICAL_TRIAL => true
  | _, _ => false
  end.

Module Drug.
Record t : Type := mk { atccode : string; name : string }.

(** What [__hash__] hashes. *)
Definition hash_key (d : t) : string := atccode d.

Definition __eq__ (a b : t) : bool := atccode a =? atccode b.
End Drug.

Module Publication.
Record t : Type := mk {
  id : string;
  title : string;
  date : string;
  journal_name : string;
  source_type : PublicationType
}.

(** What [__hash__] hashes. *)
Definition hash_key (p : t) : string * PublicationType := (id p, source_type p).

Definition __eq__ (a b : t) : bool :=
  (id a =? id b)
  && PublicationType_eqb (source_type a) (source_type b)
  && (date a =? date b)
  && (title a =? title b)
  && (journal_name a =? journal_name b).
End Publication.

Module Journal.
Record t : Type := mk { name : string }.

Definition hash_key (j : t) : string := name j.

Definition __eq__ (a b : t) : bool := name a =? name b.
End Journal.

(* ================================================================= *)
(** ** src/pipeline/transformers.py: DrugMentionGraphTransformer *)

Module Transformers.

(** The edge label the builder writes. *)
Definition relationship_label : string := "Référencé dans".

(** A Python [set] of strings holds each element once; [set_add] is
    [s.add(x)] on the elements in order of first insertion. *)
Definition set_add (s : list string) (x : string) : list string :=
  if existsb (String.eqb x) s then s else s ++ [x].

Definition pair_eqb (a b : string * string) : bool :=
  (fst a =? fst b) && (snd a =? snd b).

Definition drug_attrs (drug : Drug.t) : Attrs :=
  [("type", PyStr "drug"); ("atccode", PyStr (Drug.atccode drug))].

Definition pub_attrs (pub : Publication.t) : Attrs :=
  [("type", PyStr (PublicationType_value (Publication.source_type pub)));
   ("id", PyStr (Publication.id pub));
   ("title", PyStr (Publication.title pub));
   ("date", PyStr (Publication.date pub));
   ("journal_name", PyStr (Publication.journal_name pub))].

Definition journal_attrs (journal : Journal.t) : Attrs :=
  [("type", PyStr "journal"); ("name", PyStr (Journal.name journal))].

Definition edge_attrs (pub : Publication.t) : Attrs :=
  [("relationship", PyStr relationship_label);
   ("date_mention", PyStr (Publication.date pub))].

(** Node keys. *)
Definition drug_id (drug : Drug.t) : string := Str.lower (Drug.name drug).
Definition pub_id (pub : Publication.t) : string :=
  Str.lower (Str.take 20 (Publication.title pub)).
Definition journal_id (name : string) : string := Str.take 20 name.

(** [drug.name.lower() in pub.title.lower()] *)
Definition mentions (drug : Drug.t) (pub : Publication.t) : bool :=
  Str.contains (Str.lower (Drug.name drug)) (Str.lower (Publication.title pub)).

(** The elements of [journal_set] when the loop of [_extract_journals] ends. *)
Definition journal_names (publications : list Publication.t) : list string :=
  fold_left
    (fun journal_set pub =>
       if Str.truthy (Publication.journal_name pub)
          && Str.truthy (Str.strip (Publication.journal_name pub))
       then set_add journal_set (Publication.journal_name pub)
       else journal_set)
    publications [].

Section Builder.

(** The order in which iterating a Python [set] of strings yields its
      elements.  The language leaves it open, so it is a parameter. *)
Variable set_iter : list string -> list string.

Definition _extract_journals (publications : list Publication.t) : list Journal.t :=
    let journal_set := journal_names publications in
    map Journal.mk (set_iter journal_set).

Definition _add_nodes_to_graph
      (drugs : list Drug.t) (publications : list Publication.t)
      (journals : list Journal.t) (graph : NX.DiGraph) : NX.DiGraph :=
    let g1 :=
      fold_left (fun g drug => NX.add_node (drug_id drug) (drug_attrs drug) g)
                drugs graph in
    let g2 :=
      fold_left (fun g pub => NX.add_node (pub_id pub) (pub_attrs pub) g)
                publications g1 in
    fold_left
      (fun g journal =>
         NX.add_node (journal_id (Journal.name journal)) (journal_attrs journal) g)
      journals g2.

(** The body of the inner loop; the state is the graph and the set
      [drug_journal_connections]. *)
Definition connect_pub (drug : Drug.t)
      (st : NX.DiGraph * list (string * string)) (pub : Publication.t)
    : NX.DiGraph * list (string * string) :=
    let (g, conns) := st in
    if mentions drug pub then
      let g1 := NX.add_edge (drug_id drug) (pub_id pub) (edge_attrs pub) g in
      let connection_key := (drug_id drug, journal_id (Publication.journal_name pub)) in
      if negb (existsb (pair_eqb connection_key) conns) then
        (NX.add_edge (drug_id drug) (journal_id (Publication.journal_name pub))
                     (edge_attrs pub) g1,
         connection_key :: conns)
      else (g1, conns)
    else st.

Definition _connect_drugs_to_publications
      (drugs : list Drug.t) (publications : list Publication.t)
      (graph : NX.DiGraph) : NX.DiGraph :=
    fst (fold_left
           (fun st drug => fold_left (connect_pub drug) publications st)
           drugs (graph, [])).

(** [build_graph] on the transformer whose graph is [self_graph]. *)
Definition build_graph (self_graph : NX.DiGraph)
      (drugs : list Drug.t)
      (pubmed_publications clinical_trials_publications : list Publication.t)
    : NX.DiGraph :=
    let all_publications := pubmed_publications ++ clinical_trials_publications in
    let journals := _extract_journals all_publications in
    let g := _add_nodes_to_graph drugs all_publications journals self_graph in
    _connect_drugs_to_publications drugs all_publications g.

(** main.py, [build_drug_mention_graph]: a fresh transformer, then
      [build_graph]. *)
Definition build_drug_mention_graph
      (drugs : list Drug.t)
      (pubmed_publications clinical_trials_publications : list Publication.t)
    : NX.DiGraph :=
    build_graph NX.empty drugs pubmed_publications clinical_trials_publications.

End Builder.

(** A set iterates over each of its elements once. *)
Definition set_iter_ok (set_iter : list string -> list string) : Prop :=
  forall s, Permutation s (set_iter s).

(** One admissible order: that of first insertion. *)
Definition insertion_order (s : list string) : list string := s.

End Transformers.

(* ================================================================= *)
(** ** src/utils/helpers.py *)

Module Helpers.

(** *** The JSON document

    A JSON object whose values are strings or null is a dictionary of
    [pyval]; a key of the document that is absent is [None]. *)
Definition JObj : Type := Dict.t pyval.

Record Relationship : Type := mkRelationship {
  source : option JObj;
  target : option JObj;
  type : pyval;
  date_mention : pyval
}.

Record Publications : Type := mkPublications {
  pubmed : option (list JObj);
  clinical_trials : option (list JObj)
}.

Record Document : Type := mkDocument {
  drugs : option (list JObj);
  publications : option Publications;
  journals : option (list JObj);
  relationships : option (list Relationship)
}.

(** [d.get(k, dflt)] on the optional members of the document. *)
Definition get_or {A : Type} (o : option A) (dflt : A) : A :=
  match o with Some a => a | None => dflt end.

(** *** save_graph_to_json *)

(** pydantic accepts a [str] field only with a string. *)
Definition validate_str (v : pyval) : res string :=
  match v with
  | PyStr s => Ok s
  | PyNone => Raise ValidationError
  end.

Definition is_publication_type (t : pyval) : bool :=
  pyval_eqb t (PyStr "pubmed") || pyval_eqb t (PyStr "clinical_trial").

(** The four lists filled by the loop over the nodes. *)
Record NodeLists : Type := mkNodeLists {
  nl_drugs : list JObj;
  nl_pubmeds : list JObj;
  nl_clinical_trials : list JObj;
  nl_journals : list JObj
}.

Definition save_node (acc : NodeLists) (na : string * Attrs) : res NodeLists :=
  let (node, attrs) := na in
  let node_type := Dict.get_val attrs "type" in
  if pyval_eqb node_type (PyStr "drug") then
    atccode <- validate_str (Dict.get_default attrs "atccode" (PyStr "")) ;;
    Ok (mkNodeLists
          (nl_drugs acc ++ [[("atccode", PyStr atccode); ("name", PyStr node)]])
          (nl_pubmeds acc) (nl_clinical_trials acc) (nl_journals acc))
  else if is_publication_type node_type then
    id <- validate_str (Dict.get_val attrs "id") ;;
    title <- validate_str (Dict.get_val attrs "title") ;;
    date <- validate_str (Dict.get_val attrs "date") ;;
    journal_name <- validate_str (Dict.get_val attrs "journal_name") ;;
    let dump : JObj :=
      [("id", PyStr id); ("title", PyStr title); ("date", PyStr date);
       ("journal_name", PyStr journal_name); ("source_type", node_type)] in
    if pyval_eqb node_type (PyStr "pubmed") then
      Ok (mkNodeLists (nl_drugs acc) (nl_pubmeds acc ++ [dump])
                      (nl_clinical_trials acc) (nl_journals acc))
    else
      Ok (mkNodeLists (nl_drugs acc) (nl_pubmeds acc)
                      (nl_clinical_trials acc ++ [dump]) (nl_journals acc))
  else if pyval_eqb node_type (PyStr "journal") then
    name <- validate_str (Dict.get_val attrs "name") ;;
    Ok (mkNodeLists (nl_drugs acc) (nl_pubmeds acc) (nl_clinical_trials acc)
                    (nl_journals acc ++ [[("name", PyStr name)]]))
  else Ok acc.

Definition save_edge (graph : NX.DiGraph) (e : string * string * Attrs)
  : res Relationship :=
  let '(source, target, attrs) := e in
  source_type <- NX.node_get graph source "type" ;;
  target_type <- NX.node_get graph target "type" ;;
  source_id <-
    (if pyval_eqb source_type (PyStr "drug")
     then NX.node_get graph source "atccode"
     else Ok (PyStr source)) ;;
  target_id <-
    (if is_publication_type target_type then NX.node_get graph target "id"
     else if pyval_eqb target_type (PyStr "journal")
          then NX.node_get graph target "name"
          else Ok (PyStr target)) ;;
  Ok (mkRelationship
        (Some [("id", source_id); ("type", source_type)])
        (Some [("id", target_id); ("type", target_type)])
        (Dict.get_val attrs "relationship")
        (Dict.get_val attrs "date_mention")).

(** The dictionary [graph_data] that is dumped to the file. *)
Definition save_graph_to_json (graph : NX.DiGraph) : res Document :=
  lists <- foldM save_node (NX.nodes graph) (mkNodeLists [] [] [] []) ;;
  relationships <-
    foldM (fun acc e => r <- save_edge graph e ;; Ok (acc ++ [r]))
          (NX.edges graph) [] ;;
  Ok (mkDocument
        (Some (nl_drugs lists))
        (Some (mkPublications (Some (nl_pubmeds lists))
                              (Some (nl_clinical_trials lists))))
        (Some (nl_journals lists))
        (Some relationships)).

(** *** load_graph_from_json (on the parsed content of the file) *)

Definition load_drug (graph : NX.DiGraph) (drug : JObj) : res NX.DiGraph :=
  match Dict.get_val drug "name" with
  | PyNone => Raise AttributeError
  | PyStr name =>
      Ok (NX.add_node (Str.lower name)
            [("type", PyStr "drug"); ("atccode", Dict.get_val drug "atccode")]
            graph)
  end.

Definition load_publication (kind : string) (graph : NX.DiGraph) (pub : JObj)
  : res NX.DiGraph :=
  match Dict.get_default pub "title" (PyStr "") with
  | PyNone => Raise TypeError
  | PyStr title =>
      Ok (NX.add_node (Str.lower (Str.take 20 title))
            [("type", PyStr kind);
             ("id", Dict.get_val pub "id");
             ("title", PyStr title);
             ("date", Dict.get_val pub "date");
             ("journal_name", Dict.get_val pub "journal_name")]
            graph)
  end.

Definition load_journal (graph : NX.DiGraph) (journal : JObj) : res NX.DiGraph :=
  match Dict.get_val journal "name" with
  | PyNone => Raise TypeError
  | PyStr journal_name =>
      Ok (NX.add_node (Str.take 20 journal_name)
            [("type", PyStr "journal"); ("name", PyStr journal_name)]
            graph)
  end.

(** [for node, attrs in graph.nodes(data=True): if ...: break] *)
Definition find_node (graph : NX.DiGraph) (test : Attrs -> bool) : pyval :=
  match find (fun na => test (snd na)) (NX.nodes graph) with
  | Some na => PyStr (fst na)
  | None => PyNone
  end.

Definition resolve_source (graph : NX.DiGraph) (source_id source_type : pyval)
  : pyval :=
  if pyval_eqb source_type (PyStr "drug") then
    find_node graph
      (fun attrs =>
         pyval_eqb (Dict.get_val attrs "type") (PyStr "drug")
         && pyval_eqb (Dict.get_val attrs "atccode") source_id)
  else
    match source_id with
    | PyStr s => if Str.truthy s then PyStr (Str.lower (Str.take 20 s)) else PyNone
    | PyNone => PyNone
    end.

Definition resolve_target (graph : NX.DiGraph) (target_id target_type : pyval)
  : pyval :=
  if is_publication_type target_type then
    find_node graph
      (fun attrs =>
         pyval_eqb (Dict.get_val attrs "type") target_type
         && pyval_eqb (Dict.get_val attrs "id") target_id)
  else if pyval_eqb target_type (PyStr "journal") then
    match target_id with
    | PyStr s => if Str.truthy s then PyStr (Str.take 20 s) else PyNone
    | PyNone => PyNone
    end
  else target_id.

Definition load_relationship (graph : NX.DiGraph) (rel : Relationship)
  : NX.DiGraph :=
  let source_info := get_or (source rel) [] in
  let target_info := get_or (target rel) [] in
  let source_id := Dict.get_val source_info "id" in
  let source_type := Dict.get_val source_info "type" in
  let target_id := Dict.get_val target_info "id" in
  let target_type := Dict.get_val target_info "type" in
  let source_node := resolve_source graph source_id source_type in
  let target_node := resolve_target graph target_id target_type in
  match source_node, target_node with
  | PyStr s, PyStr t =>
      if Str.truthy s && Str.truthy t
         && NX.has_node graph s && NX.has_node graph t
      then NX.add_edge s t
             [("relationship", type rel); ("date_mention", date_mention rel)]
             graph
      else graph
  | _, _ => graph
  end.

Definition load_graph_from_json (graph_data : Document) : res NX.DiGraph :=
  let pubs := get_or (publications graph_data) (mkPublications None None) in
  g1 <- foldM load_drug (get_or (drugs graph_data) []) NX.empty ;;
  g2 <- foldM (load_publication "pubmed") (get_or (pubmed pubs) []) g1 ;;
  g3 <- foldM (load_publication "clinical_trial")
              (get_or (clinical_trials pubs) []) g2 ;;
  g4 <- foldM load_journal (get_or (journals graph_data) []) g3 ;;
  Ok (fold_left load_relationship (get_or (relationships graph_data) []) g4).

(** *** find_journals_with_most_mentions_of_drug *)

(** [journal_mentions]: a dictionary keyed by journal names, which are
    Python values. *)
Definition Tally : Type := list (pyval * nat).

Fixpoint tally_get (d : Tally) (k : pyval) : option nat :=
  match d with
  | [] => None
  | (k', n) :: r => if pyval_eqb k' k then Some n else tally_get r k
  end.

Fixpoint tally_set (d : Tally) (k : pyval) (n : nat) : Tally :=
  match d with
  | [] => [(k, n)]
  | (k', n') :: r =>
      if pyval_eqb k' k then (k', n) :: r else (k', n') :: tally_set r k n
  end.

(** The two statements of the innermost block:
    [if name not in journal_mentions: journal_mentions[name] = 1]
    and then [journal_mentions[name] += 1]. *)
Definition count_mention (d : Tally) (journal_name : pyval) : Tally :=
  let d1 := match tally_get d journal_name with
            | None => tally_set d journal_name 1
            | Some _ => d
            end in
  match tally_get d1 journal_name with
  | Some n => tally_set d1 journal_name (n + 1)
  | None => d1
  end.

Definition count_target (graph : NX.DiGraph) (d : Tally) (e : string * string)
  : res Tally :=
  let target := snd e in
  target_type <- NX.node_get graph target "type" ;;
  if pyval_eqb target_type (PyStr "journal") then
    journal_name <- NX.node_get graph target "name" ;;
    Ok (count_mention d journal_name)
  else Ok d.

(** [max(values)] on a non-empty list. *)
Definition list_max (l : list nat) : nat := fold_right Nat.max 0 l.

Fixpoint all_str (l : list pyval) : option (list string) :=
  match l with
  | [] => Some []
  | PyStr s :: r => option_map (cons s) (all_str r)
  | PyNone :: _ => None
  end.

(** [l.sort()]: strings sort in code-point order; comparing [None] with
    anything raises, which takes at least two elements. *)
Definition sort_names (l : list pyval) : res (list pyval) :=
  match all_str l with
  | Some ss => Ok (map PyStr (Str.sort ss))
  | None => match l with
            | _ :: _ :: _ => Raise TypeError
            | _ => Ok l
            end
  end.

Definition no_journals_found : list pyval * nat := ([PyStr "No journals found"], 0).
Definition error_processing : list pyval * nat :=
  ([PyStr "Error processing journals"], 0).

(** The nodes the query looks at. *)
Definition drug_nodes (graph : NX.DiGraph) (drug_name : string) : list string :=
  map fst
    (filter (fun na => pyval_eqb (Dict.get_val (snd na) "type") (PyStr "drug")
                       && (fst na =? drug_name))
            (NX.nodes graph)).

(** The body of the [try] block after the graph is loaded. *)
Definition most_mentions_in (graph : NX.DiGraph) (drug_name : string)
  : res (list pyval * nat) :=
  let nodes := drug_nodes graph drug_name in
  match nodes with
  | [] => Ok no_journals_found
  | _ =>
      journal_mentions <-
        foldM (fun d drug_node => foldM (count_target graph) (NX.out_edges graph drug_node) d)
              nodes [] ;;
      match journal_mentions with
      | [] => Ok no_journals_found
      | _ =>
          let max_mentions := list_max (map snd journal_mentions) in
          let top_journals :=
            map fst (filter (fun jm => snd jm =? max_mentions)%nat journal_mentions) in
          sorted <- sort_names top_journals ;;
          Ok (sorted, max_mentions)
      end
  end.

Definition find_journals_with_most_mentions_of_drug
    (graph_data : Document) (drug_name : string) : list pyval * nat :=
  match (graph <- load_graph_from_json graph_data ;; most_mentions_in graph drug_name) with
  | Ok r => r
  | Raise _ => error_processing
  end.

(** *** find_journal_with_most_drugs *)

(** [journal_drug_counts]: journal name -> set of ATC codes.  A set is
the list of its elements, each once. *)
Definition DrugSets : Type := list (pyval * list pyval).

Fixpoint sets_get (d : DrugSets) (k : pyval) : option (list pyval) :=
  match d with
  | [] => None
  | (k', s) :: r => if pyval_eqb k' k then Some s else sets_get r k
  end.

Fixpoint sets_set (d : DrugSets) (k : pyval) (s : list pyval) : DrugSets :=
  match d with
  | [] => [(k, s)]
  | (k', s') :: r =>
      if pyval_eqb k' k then (k', s) :: r else (k', s') :: sets_set r k s
  end.

(** [s.add(x)] *)
Definition pyset_add (s : list pyval) (x : pyval) : list pyval :=
  if existsb (pyval_eqb x) s then s else s ++ [x].

(** The body of the loop over [graph.edges(data=True)]. *)
Definition count_drug (graph : NX.DiGraph) (d : DrugSets)
           (e : string * string * Attrs) : res DrugSets :=
  let source := fst (fst e) in
  let target := snd (fst e) in
  source_type <- NX.node_get graph source "type" ;;
  target_type <- NX.node_get graph target "type" ;;
  if pyval_eqb source_type (PyStr "drug") && pyval_eqb target_type (PyStr "journal") then
    journal_name <- NX.node_get graph target "name" ;;
    drug_atccode <- NX.node_get graph source "atccode" ;;
    let d1 := match sets_get d journal_name with
              | None => sets_set d journal_name []
              | Some _ => d
              end in
    Ok (match sets_get d1 journal_name with
        | Some s => sets_set d1 journal_name (pyset_add s drug_atccode)
        | None => d1
        end)
  else Ok d.

(** The body of the [try] block after the graph is loaded. *)
Definition most_drugs_in (graph : NX.DiGraph) : res (list pyval * nat) :=
  journal_drug_counts <- foldM (count_drug graph) (NX.edges graph) [] ;;
  match journal_drug_counts with
  | [] => Ok no_journals_found
  | _ =>
      let max_drug_count :=
        list_max (map (fun jd => List.length (snd jd)) journal_drug_counts) in
      let top_journals :=
        map fst (filter (fun jd => List.length (snd jd) =? max_drug_count)%nat
                        journal_drug_counts) in
      sorted <- sort_names top_journals ;;
      Ok (sorted, max_drug_count)
  end.


End Helpers.

(* ================================================================= *)
(** ** tests/graph_comparison_test.py *)

Module GraphComparisonTest.

(** A Python [set] is the list of its elements; [a == b] holds when each
contains the other, [a - b] keeps the elements of [a] that [b] lacks. *)
Definition set_eqb (A : Type) (eqb : A -> A -> bool) (a b : list A) : bool :=
  forallb (fun x => existsb (eqb x) b) a && forallb (fun x => existsb (eqb x) a) b.

Definition set_diff (A : Type) (eqb : A -> A -> bool) (a b : list A) : list A :=
  filter (fun x => negb (existsb (eqb x) b)) a.

Definition edge_eqb (a b : string * string) : bool :=
  (fst a =? fst b) && (snd a =? snd b).

(** The dictionary [compare_graphs] returns. *)
Record Comparison : Type := mkComparison {
  same_nodes : bool;
  same_edges : bool;
  missing_nodes : list string;
  extra_nodes : list string;
  missing_edges : list (string * string);
  extra_edges : list (string * string)
}.

Definition compare_graphs (graph1 graph2 : NX.DiGraph) : Comparison :=
  let nodes1 := map fst (NX.nodes graph1) in
  let nodes2 := map fst (NX.nodes graph2) in
  let edges1 := map fst (NX.edges graph1) in
  let edges2 := map fst (NX.edges graph2) in
  mkComparison (set_eqb String.eqb nodes1 nodes2)
               (set_eqb edge_eqb edges1 edges2)
               (set_diff String.eqb nodes1 nodes2)
               (set_diff String.eqb nodes2 nodes1)
               (set_diff edge_eqb edges1 edges2)
               (set_diff edge_eqb edges2 edges1).

End GraphComparisonTest.

(* ================================================================= *)
(** * Properties *)

(** ** Strings *)

Module StrFacts.

Lemma lower_ascii_idem (c : ascii) :
  Str.lower_ascii (Str.lower_ascii c) = Str.lower_ascii c.
Proof.
  destruct c as [[] [] [] [] [] [] [] []]; reflexivity.
Qed.

Lemma lower_ascii_cont (c : ascii) :
  Str.is_cont (Str.lower_ascii c) = Str.is_cont c.
Proof.
  destruct c as [[] [] [] [] [] [] [] []]; reflexivity.
Qed.

Lemma truthy_true (s : string) : Str.truthy s = true <-> s <> "".
Proof.
  unfold Str.truthy. destruct s; simpl; split; intro H; congruence.
Qed.

(** *** Characters *)

(** A character: a first byte and the continuation bytes after it. *)
Fixpoint all_cont (s : string) : bool :=
  match s with
  | EmptyString => true
  | String b r => Str.is_cont b && all_cont r
  end.

Definition block (ch : string) : bool :=
  match ch with
  | EmptyString => false
  | String _ r => all_cont r
  end.

(** A non-empty string whose first byte starts a character. *)
Definition proper (s : string) : bool :=
  match s with
  | EmptyString => false
  | String b _ => negb (Str.is_cont b)
  end.

Lemma join_app (l1 l2 : list string) :
  Str.join (l1 ++ l2) = (Str.join l1 ++ Str.join l2)%string.
Proof.
  induction l1 as [|x l1 IH]; simpl; [reflexivity|].
  rewrite IH. unfold Str.join; simpl.
  induction x as [|c x IHx]; simpl; [reflexivity|]. now rewrite IHx.
Qed.

Lemma join_chars (s : string) : Str.join (Str.chars s) = s.
Proof.
  induction s as [|b r IH]; simpl; [reflexivity|].
  destruct (Str.chars r) as [|ch l].
  - simpl in IH. now subst r.
  - destruct (Str.starts_cont ch); simpl in *; now rewrite IH.
Qed.

Lemma chars_nil (s : string) : Str.chars s = [] -> s = "".
Proof.
  intro H. rewrite <- (join_chars s), H. reflexivity.
Qed.

Lemma chars_cons_nonempty (b : ascii) (r : string) :
  exists r' l, Str.chars (String b r) = String b r' :: l.
Proof.
  simpl. destruct (Str.chars r) as [|ch l]; [now exists "", []|].
  destruct (Str.starts_cont ch); [now exists ch, l | now exists "", (ch :: l)].
Qed.

Lemma chars_blocks (s : string) : Forall (fun ch => block ch = true) (Str.chars s).
Proof.
  induction s as [|b r IH]; simpl; [constructor|].
  destruct (Str.chars r) as [|ch l]; [now repeat constructor|].
  inversion IH as [|? ? Hch Hl]; subst.
  destruct (Str.starts_cont ch) eqn:E.
  - constructor; [|exact Hl]. simpl.
    destruct ch as [|c t]; [discriminate|]. simpl in *. now rewrite E, Hch.
  - constructor; [reflexivity|]. now constructor.
Qed.

Lemma chars_tail_proper (s : string) :
  Forall (fun ch => proper ch = true) (tl (Str.chars s)).
Proof.
  induction s as [|b r IH]; simpl; [constructor|].
  destruct (Str.chars r) as [|ch l] eqn:Er; [constructor|].
  simpl in IH. destruct (Str.starts_cont ch) eqn:E; simpl; [exact IH|].
  constructor; [|exact IH].
  destruct ch as [|c t].
  - pose proof (chars_blocks r) as Hb. rewrite Er in Hb.
    inversion Hb; subst. discriminate.
  - simpl in *. now rewrite E.
Qed.

Lemma chars_of_block (ch : string) : block ch = true -> Str.chars ch = [ch].
Proof.
  destruct ch as [|b r]; [discriminate|]. simpl block.
  revert b. induction r as [|c r IH]; intros b H; [reflexivity|].
  simpl in H. apply andb_prop in H as [Hc Hr].
  change (Str.chars (String b (String c r)))
    with (match Str.chars (String c r) with
          | ch :: l => if Str.starts_cont ch then String b ch :: l
                       else String b "" :: ch :: l
          | [] => [String b ""]
          end).
  rewrite (IH c Hr). simpl. now rewrite Hc.
Qed.

Lemma chars_starts (s : string) (ch : string) (l : list string) :
  Str.chars s = ch :: l -> Str.starts_cont ch = Str.starts_cont s.
Proof.
  destruct s as [|b r]; [discriminate|].
  destruct (chars_cons_nonempty b r) as (r' & l' & E). rewrite E.
  intro H. inversion H; subst. reflexivity.
Qed.

Lemma chars_app (a b : string) :
  Str.starts_cont b = false ->
  Str.chars (a ++ b)%string = Str.chars a ++ Str.chars b.
Proof.
  intro Hb. induction a as [|c a IH]; [reflexivity|].
  simpl. rewrite IH. destruct (Str.chars a) as [|ch l]; simpl.
  - destruct (Str.chars b) as [|ch l] eqn:E; [reflexivity|].
    now rewrite (chars_starts _ E), Hb.
  - now destruct (Str.starts_cont ch).
Qed.

Lemma join_proper (l : list string) :
  Forall (fun s => proper s = true) l -> Str.starts_cont (Str.join l) = false.
Proof.
  intros [|x r Hx _]; [reflexivity|].
  destruct x as [|b t]; [discriminate|]. simpl in *.
  now apply negb_true_iff.
Qed.

Lemma chars_join (l : list string) :
  Forall (fun s => proper s = true) (tl l) ->
  Str.chars (Str.join l) = flat_map Str.chars l.
Proof.
  induction l as [|x r IH]; intro H; [reflexivity|].
  simpl in *. change (Str.join (x :: r)) with (x ++ Str.join r)%string.
  rewrite chars_app by now apply join_proper.
  f_equal. apply IH. destruct r; [constructor|]. now inversion H.
Qed.

Lemma join_flat_chars (l : list string) :
  Str.join (flat_map Str.chars l) = Str.join l.
Proof.
  induction l as [|x r IH]; [reflexivity|].
  simpl. rewrite join_app, IH, join_chars. reflexivity.
Qed.

Lemma join_truthy (x : string) (l : list string) :
  x <> "" -> Str.join (x :: l) <> "".
Proof. destruct x; [congruence|discriminate]. Qed.

Lemma block_nonempty (ch : string) : block ch = true -> ch <> "".
Proof. destruct ch; [discriminate|congruence]. Qed.

Lemma chr_proper (n : N) : proper (Str.chr n) = true -> Str.chr n <> "".
Proof. destruct (Str.chr n); [discriminate|congruence]. Qed.

Lemma chr_nonempty (n : N) : Str.chr n <> "".
Proof.
  unfold Str.chr.
  destruct (n <? 0x80)%N; [discriminate|].
  destruct (n <? 0x800)%N; [discriminate|].
  destruct (n <? 0x10000)%N; discriminate.
Qed.

(** *** [lower] *)

(** A character that [lower] leaves alone wherever it stands. *)
Definition fixed (ch : string) : bool :=
  match ch with
  | String b EmptyString => Ascii.eqb (Str.lower_ascii b) b
  | _ =>
      let n := Str.ord ch in
      negb (n =? 0x3A3)%N && negb (n =? 0x130)%N
      && match find (fun e => (fst e =? n)%N) Str.lower_table with
         | Some _ => false
         | None => true
         end
  end.

(** What [lower] may write for a character: characters it leaves alone. *)
Definition settled (out : string) : bool :=
  proper out && forallb fixed (Str.chars out).

Lemma table_settled (e : N * N) :
  In e Str.lower_table -> settled (Str.chr (snd e)) = true.
Proof.
  assert (H : forallb (fun e => settled (Str.chr (snd e))) Str.lower_table
              = true) by (vm_compute; reflexivity).
  intro Hin. exact (proj1 (forallb_forall _ _) H e Hin).
Qed.

Lemma sigma_settled :
  settled (Str.chr 0x3C2) = true /\ settled (Str.chr 0x3C3) = true.
Proof. vm_compute. split; reflexivity. Qed.

Lemma dotted_i_settled :
  settled (Str.chr 0x69 ++ Str.chr 0x307)%string = true.
Proof. vm_compute. reflexivity. Qed.

Lemma fixed_lower (before after : list string) (ch : string) :
  fixed ch = true -> Str.lower_char before ch after = ch.
Proof.
  unfold fixed, Str.lower_char.
  destruct ch as [|b [|c r]].
  - intros _. vm_compute. reflexivity.
  - intro E. apply Ascii.eqb_eq in E. now rewrite E.
  - cbv zeta.
    destruct (Str.ord (String b (String c r)) =? 0x3A3)%N; [discriminate|].
    destruct (Str.ord (String b (String c r)) =? 0x130)%N; [discriminate|].
    destruct (find _ Str.lower_table); [discriminate|reflexivity].
Qed.

Lemma lower_chars_fixed (before l : list string) :
  forallb fixed l = true -> Str.lower_chars before l = l.
Proof.
  revert before. induction l as [|ch r IH]; intros before H; [reflexivity|].
  simpl in H. apply andb_prop in H as [Hc Hr].
  simpl. now rewrite (fixed_lower _ _ _ Hc), IH.
Qed.

(** What [lower] writes for a character is non-empty, starts a character
    when the character does, and is left alone by [lower]. *)
Lemma lower_char_out (before after : list string) (ch : string) :
  block ch = true ->
  let out := Str.lower_char before ch after in
  out <> ""
  /\ (proper ch = true -> proper out = true)
  /\ forallb fixed (Str.chars out) = true.
Proof.
  intro Hb. cbv zeta.
  unfold Str.lower_char.
  destruct ch as [|b [|c r]]; [discriminate| |].
  - split; [discriminate|]. split.
    + simpl. now rewrite lower_ascii_cont.
    + simpl. now rewrite lower_ascii_idem, Ascii.eqb_refl.
  - cbv zeta. set (ch := String b (String c r)) in *.
    destruct (Str.ord ch =? 0x3A3)%N eqn:E1.
    { unfold Str.lower_sigma.
      destruct (Str.meets_cased before && negb (Str.meets_cased after));
        [destruct (proj1 sigma_settled) | destruct (proj2 sigma_settled)];
        (split; [apply chr_nonempty|]); vm_compute; split; reflexivity. }
    destruct (Str.ord ch =? 0x130)%N eqn:E2.
    { vm_compute. repeat split. discriminate. }
    destruct (find (fun e => (fst e =? Str.ord ch)%N) Str.lower_table)
      as [e|] eqn:E3.
    + apply find_some in E3 as [Hin _].
      pose proof (@table_settled e Hin) as Ht.
      apply andb_prop in Ht as [Hp Hx].
      split; [apply chr_nonempty|]. split; [intros _; exact Hp | exact Hx].
    + split; [discriminate|]. split; [intro H; exact H|].
      rewrite (chars_of_block ch Hb).
      cbn [forallb]. rewrite andb_true_r.
      unfold fixed, ch. fold ch. cbv zeta. rewrite E1, E2, E3. reflexivity.
Qed.

Lemma lower_chars_out (before l : list string) :
  Forall (fun ch => block ch = true) l ->
  Forall (fun ch => proper ch = true) (tl l) ->
  Forall (fun s => proper s = true) (tl (Str.lower_chars before l))
  /\ forallb fixed (flat_map Str.chars (Str.lower_chars before l)) = true.
Proof.
  revert before. induction l as [|ch r IH]; intros before Hb Hp.
  - split; [constructor|reflexivity].
  - inversion Hb as [|? ? Hch Hr]; subst. simpl in Hp.
    assert (Hp' : Forall (fun ch => proper ch = true) (tl r))
      by (destruct r; [constructor | now inversion Hp]).
    destruct (IH (ch :: before) Hr Hp') as [IH1 IH2].
    destruct (lower_char_out before r ch Hch) as (_ & _ & Hf).
    split.
    + simpl. destruct r as [|c r']; [constructor|].
      simpl in *. inversion Hp as [|? ? Hc Hr']; subst.
      inversion Hr as [|? ? Hcb _]; subst.
      destruct (lower_char_out (ch :: before) r' c Hcb) as (_ & Hpo & _).
      constructor; [now apply Hpo | exact IH1].
    + simpl. rewrite forallb_app, Hf, IH2. reflexivity.
Qed.

Lemma lower_idem (s : string) : Str.lower (Str.lower s) = Str.lower s.
Proof.
  unfold Str.lower.
  destruct (lower_chars_out [] (chars_blocks s) (chars_tail_proper s))
    as [Hp Hf].
  rewrite (chars_join _ Hp), (lower_chars_fixed _ _ Hf).
  apply join_flat_chars.
Qed.

Lemma lower_nonempty (s : string) : s <> "" -> Str.lower s <> "".
Proof.
  intro Hs. unfold Str.lower.
  pose proof (chars_blocks s) as Hb.
  destruct (Str.chars s) as [|ch l] eqn:E.
  - apply chars_nil in E. contradiction.
  - inversion Hb as [|? ? Hch _]; subst.
    destruct (lower_char_out [] l ch Hch) as (Hn & _).
    simpl. now apply join_truthy.
Qed.

Lemma truthy_lower (s : string) : Str.truthy (Str.lower s) = Str.truthy s.
Proof.
  destruct s as [|b r]; [reflexivity|].
  assert (H : Str.lower (String b r) <> "") by now apply lower_nonempty.
  apply truthy_true in H. now rewrite H.
Qed.

Lemma truthy_take (n : nat) (s : string) :
  Str.truthy (Str.take (S n) s) = Str.truthy s.
Proof.
  destruct s as [|b r]; [reflexivity|].
  unfold Str.take. pose proof (chars_blocks (String b r)) as Hb.
  destruct (Str.chars (String b r)) as [|ch l] eqn:E.
  - apply chars_nil in E. discriminate.
  - inversion Hb as [|? ? Hch _]; subst.
    assert (H : Str.join (firstn (S n) (ch :: l)) <> "")
      by (simpl; apply join_truthy; now apply block_nonempty).
    apply truthy_true in H. now rewrite H.
Qed.

Lemma In_firstn (A : Type) (x : A) (n : nat) (l : list A) :
  In x (firstn n l) -> In x l.
Proof.
  revert l. induction n as [|n IH]; intros [|y l]; simpl; try tauto.
  intros [H|H]; [now left | right; now apply IH].
Qed.

(** [s[:n]] holds the first [n] characters of [s], all of them when [s]
    has no more. *)
Lemma chars_take (n : nat) (s : string) :
  Str.chars (Str.take n s) = firstn n (Str.chars s).
Proof.
  unfold Str.take.
  pose proof (chars_blocks s) as Hb. pose proof (chars_tail_proper s) as Hp.
  rewrite chars_join.
  - assert (Hf : Forall (fun ch => block ch = true) (firstn n (Str.chars s))).
    { apply Forall_forall. intros x Hx. apply In_firstn in Hx.
      revert x Hx. now apply Forall_forall. }
    clear Hp. induction Hf as [|x l Hx _ IH]; [reflexivity|].
    simpl. now rewrite (chars_of_block _ Hx), IH.
  - destruct n as [|n]; [constructor|].
    destruct (Str.chars s) as [|ch l]; [constructor|]. simpl in *.
    apply Forall_forall. intros x Hx. apply In_firstn in Hx.
    revert x Hx. now apply Forall_forall.
Qed.

Lemma prefix_empty_r (s : string) : prefix s "" = true -> s = "".
Proof. destruct s; simpl; congruence. Qed.

(** A non-empty needle is only found in a non-empty haystack. *)
Lemma contains_truthy (needle hay : string) :
  Str.contains needle hay = true ->
  Str.truthy needle = true -> Str.truthy hay = true.
Proof.
  intros Hc Hn. destruct hay as [|c r]; [|reflexivity].
  destruct needle; [cbv in Hn | simpl in Hc]; discriminate.
Qed.

Lemma prefix_iff (n h : string) :
  prefix n h = true <-> exists b, h = (n ++ b)%string.
Proof.
  revert h. induction n as [|c n IH]; intro h.
  - split; [intros _; now exists h|]. intros _. now destruct h.
  - destruct h as [|c' h]; simpl.
    + split; [discriminate|intros [b Hb]; discriminate].
    + destruct (ascii_dec c c') as [->|Hc].
      * rewrite IH. split; intros [b Hb]; exists b; [now rewrite Hb|now inversion Hb].
      * split; [discriminate|]. intros [b Hb]. inversion Hb. congruence.
Qed.

(** [needle in hay] holds exactly when [needle] is a run of consecutive
    characters of [hay]. *)
Lemma contains_iff (n h : string) :
  Str.contains n h = true <-> exists a b, h = (a ++ n ++ b)%string.
Proof.
  split.
  - induction h as [|c r IH]; cbn [Str.contains].
    + destruct (prefix n "") eqn:E; [|discriminate]. intros _.
      apply prefix_iff in E. destruct E as [b Hb]. now exists "", b.
    + destruct (prefix n (String c r)) eqn:E.
      * intros _. apply prefix_iff in E. destruct E as [b Hb]. now exists "", b.
      * intro H. destruct (IH H) as (a & b & Hab). exists (String c a), b.
        simpl. now rewrite Hab.
  - intros (a & b & Hab). revert h Hab. induction a as [|c a IH]; intros h Hab.
    + simpl in Hab.
      assert (E : prefix n h = true) by (apply prefix_iff; now exists b).
      destruct h; cbn [Str.contains]; now rewrite E.
    + simpl in Hab. subst h. cbn [Str.contains].
      destruct (prefix n (String c (a ++ n ++ b))); [reflexivity|].
      now apply IH.
Qed.

(** *** [strip] *)

Lemma drop_spaces_In (ch : string) (l : list string) :
  In ch l -> Str.is_space ch = false -> In ch (Str.drop_spaces l).
Proof.
  induction l as [|x r IH]; simpl; [tauto|].
  intros [->|H] Hc.
  - rewrite Hc. now left.
  - destruct (Str.is_space x); [now apply IH | now right].
Qed.

Lemma drop_spaces_sub (ch : string) (l : list string) :
  In ch (Str.drop_spaces l) -> In ch l.
Proof.
  induction l as [|x r IH]; simpl; [tauto|].
  destruct (Str.is_space x); [|auto]. intro H. right. now apply IH.
Qed.

Lemma drop_spaces_head (l : list string) (ch : string) (r : list string) :
  Str.drop_spaces l = ch :: r -> Str.is_space ch = false.
Proof.
  induction l as [|x t IH]; simpl; [discriminate|].
  destruct (Str.is_space x) eqn:E; [exact IH|].
  intro H. now inversion H; subst.
Qed.

(** The characters [strip] keeps, as a list. *)
Definition strip_chars (l : list string) : list string :=
  rev (Str.drop_spaces (rev (Str.drop_spaces l))).

Lemma strip_chars_nil (l : list string) :
  strip_chars l = [] <-> forall ch, In ch l -> Str.is_space ch = true.
Proof.
  unfold strip_chars. split.
  - intros H ch Hin. destruct (Str.is_space ch) eqn:E; [reflexivity|].
    exfalso.
    assert (H1 : In ch (rev (Str.drop_spaces l)))
      by (apply -> in_rev; now apply drop_spaces_In).
    apply (drop_spaces_In _ _ H1) in E.
    apply in_rev in E. now rewrite H in E.
  - intro H.
    destruct (Str.drop_spaces (rev (Str.drop_spaces l))) as [|ch r] eqn:E;
      [reflexivity|].
    pose proof (drop_spaces_head _ E) as Hs.
    assert (Hin : In ch l).
    { apply drop_spaces_sub. apply in_rev. apply drop_spaces_sub.
      rewrite E. now left. }
    rewrite (H ch Hin) in Hs. discriminate.
Qed.

Lemma strip_truthy_iff (s : string) :
  Str.truthy (Str.strip s) = true
  <-> exists ch, In ch (Str.chars s) /\ Str.is_space ch = false.
Proof.
  change (Str.strip s) with (Str.join (strip_chars (Str.chars s))).
  split.
  - intro H. destruct (strip_chars (Str.chars s)) as [|x r] eqn:E;
      [discriminate|].
    destruct (existsb (fun ch => negb (Str.is_space ch)) (Str.chars s)) eqn:Ex.
    + apply existsb_exists in Ex as (ch & Hin & Hc).
      exists ch. split; [exact Hin|]. now apply negb_true_iff.
    + assert (Hn : strip_chars (Str.chars s) = []).
      { apply strip_chars_nil. intros ch Hin.
        destruct (Str.is_space ch) eqn:Es; [reflexivity|].
        assert (existsb (fun ch => negb (Str.is_space ch)) (Str.chars s) = true)
          by (apply existsb_exists; exists ch; now rewrite Es).
        congruence. }
      congruence.
  - intros (ch & Hin & Hc).
    destruct (strip_chars (Str.chars s)) as [|x r] eqn:E.
    + rewrite (proj1 (strip_chars_nil _) E ch Hin) in Hc. discriminate.
    + apply truthy_true. apply join_truthy.
      assert (Hx : In x (Str.chars s)).
      { unfold strip_chars in E.
        apply drop_spaces_sub. apply in_rev. apply drop_spaces_sub.
        apply in_rev. rewrite E. now left. }
      apply block_nonempty.
      pose proof (chars_blocks s) as Hb. rewrite Forall_forall in Hb. auto.
Qed.

Lemma strip_truthy (s : string) :
  Str.truthy (Str.strip s) = true -> Str.truthy s = true.
Proof.
  intro H. apply strip_truthy_iff in H as (ch & Hin & _).
  destruct s; [contradiction|reflexivity].
Qed.

Lemma In_insert_sorted (x y : string) (l : list string) :
  In y (Str.insert_sorted x l) <-> y = x \/ In y l.
Proof.
  induction l as [|z r IH]; simpl.
  - intuition.
  - destruct (String.leb x z); simpl; rewrite ?IH; intuition.
Qed.

Lemma In_sort (y : string) (l : list string) : In y (Str.sort l) <-> In y l.
Proof.
  induction l as [|x r IH]; simpl; [tauto|].
  rewrite In_insert_sorted, IH. intuition.
Qed.

End StrFacts.

Lemma pyval_eqb_eq (a b : pyval) : pyval_eqb a b = true <-> a = b.
Proof.
  destruct a, b; simpl; split; intro H; try congruence.
  - apply String.eqb_eq in H. congruence.
  - inversion H. apply String.eqb_refl.
Qed.

Lemma pyval_eqb_refl (a : pyval) : pyval_eqb a a = true.
Proof. now apply pyval_eqb_eq. Qed.

Lemma pyval_eqb_neq (a b : pyval) : pyval_eqb a b = false <-> a <> b.
Proof.
  split; intro H.
  - intro E. apply pyval_eqb_eq in E. congruence.
  - destruct (pyval_eqb a b) eqn:E; [|reflexivity].
    apply pyval_eqb_eq in E. contradiction.
Qed.

(** ** Dictionaries *)

Module DictFacts.
Section Facts.
Variable V : Type.
Implicit Types (d : Dict.t V) (k : string) (v : V).

Lemma get_set_same d k v : Dict.get (Dict.set d k v) k = Some v.
  Proof.
    induction d as [|[k' v'] r IH]; simpl.
    - now rewrite String.eqb_refl.
    - destruct (k' =? k) eqn:E; simpl; rewrite E; auto.
  Qed.

Lemma get_set_other d k k' v :
    k <> k' -> Dict.get (Dict.set d k v) k' = Dict.get d k'.
  Proof.
    intro Hne. apply String.eqb_neq in Hne.
    induction d as [|[k0 v0] r IH]; simpl.
    - now rewrite Hne.
    - destruct (k0 =? k) eqn:E; simpl.
      + apply String.eqb_eq in E. subst k0. now rewrite Hne.
      + now rewrite IH.
  Qed.

Lemma get_set d k k' v :
    Dict.get (Dict.set d k v) k' = if k =? k' then Some v else Dict.get d k'.
  Proof.
    destruct (k =? k') eqn:E.
    - apply String.eqb_eq in E. subst. apply get_set_same.
    - apply String.eqb_neq in E. now apply get_set_other.
  Qed.

Lemma mem_set d k k' v :
    Dict.mem (Dict.set d k v) k' = (k =? k') || Dict.mem d k'.
  Proof.
    unfold Dict.mem. rewrite get_set. now destruct (k =? k').
  Qed.

Lemma get_None_keys d k : Dict.get d k = None <-> ~ In k (Dict.keys d).
  Proof.
    induction d as [|[k' v'] r IH]; simpl.
    - tauto.
    - destruct (k' =? k) eqn:E.
      + apply String.eqb_eq in E. split; [discriminate | intro H; tauto].
      + apply String.eqb_neq in E. rewrite IH. tauto.
  Qed.

Lemma mem_keys d k : Dict.mem d k = true <-> In k (Dict.keys d).
  Proof.
    unfold Dict.mem. destruct (Dict.get d k) eqn:E.
    - split; [intros _ | reflexivity].
      destruct (in_dec string_dec k (Dict.keys d)) as [H|H]; [exact H|].
      apply get_None_keys in H. congruence.
    - apply get_None_keys in E. split; [discriminate | contradiction].
  Qed.

Lemma mem_false_keys d k : Dict.mem d k = false <-> ~ In k (Dict.keys d).
  Proof.
    rewrite <- mem_keys. destruct (Dict.mem d k); split; congruence.
  Qed.

Lemma set_fresh d k v : Dict.get d k = None -> Dict.set d k v = d ++ [(k, v)].
  Proof.
    induction d as [|[k' v'] r IH]; simpl; [reflexivity|].
    destruct (k' =? k); [discriminate|]. intro H. now rewrite IH.
  Qed.

Lemma keys_set_present d k v :
    Dict.mem d k = true -> Dict.keys (Dict.set d k v) = Dict.keys d.
  Proof.
    unfold Dict.mem.
    induction d as [|[k' v'] r IH]; simpl; [discriminate|].
    destruct (k' =? k) eqn:E; simpl; [reflexivity|].
    intro H. now rewrite IH.
  Qed.

Lemma keys_set_fresh d k v :
    Dict.mem d k = false -> Dict.keys (Dict.set d k v) = Dict.keys d ++ [k].
  Proof.
    unfold Dict.mem. intro H.
    destruct (Dict.get d k) eqn:E; [discriminate|].
    rewrite set_fresh by assumption. unfold Dict.keys. now rewrite map_app.
  Qed.

Lemma In_set d k v k' v' :
    In (k', v') (Dict.set d k v) -> (k' = k /\ v' = v) \/ In (k', v') d.
  Proof.
    induction d as [|[k0 v0] r IH]; simpl.
    - intros [H|[]]. inversion H. auto.
    - destruct (k0 =? k) eqn:E; simpl.
      + apply String.eqb_eq in E. subst k0.
        intros [H|H]; [inversion H; auto | auto].
      + intros [H|H]; [auto|]. destruct (IH H); auto.
  Qed.

Lemma get_In d k v : Dict.get d k = Some v -> In (k, v) d.
  Proof.
    induction d as [|[k' v'] r IH]; simpl; [discriminate|].
    destruct (k' =? k) eqn:E.
    - apply String.eqb_eq in E. intro H. inversion H. subst. auto.
    - auto.
  Qed.

Lemma In_get d k v : NoDup (Dict.keys d) -> In (k, v) d -> Dict.get d k = Some v.
  Proof.
    induction d as [|[k' v'] r IH]; simpl; [tauto|].
    intros Hnd [H|H].
    - inversion H. subst. now rewrite String.eqb_refl.
    - inversion Hnd as [|? ? Hni Hnd']. subst.
      destruct (k' =? k) eqn:E.
      + apply String.eqb_eq in E. subst k'.
        exfalso. apply Hni. change k with (fst (k, v)). now apply in_map.
      + auto.
  Qed.

Lemma NoDup_keys_set d k v : NoDup (Dict.keys d) -> NoDup (Dict.keys (Dict.set d k v)).
  Proof.
    intro H. destruct (Dict.mem d k) eqn:E.
    - now rewrite keys_set_present.
    - rewrite keys_set_fresh by assumption.
      apply mem_false_keys in E.
      apply NoDup_app; [assumption | repeat constructor; auto | ].
      intros x Hx [Hy|[]]. subst. contradiction.
  Qed.

Lemma get_app_l d d' k x : Dict.get d k = Some x -> Dict.get (d ++ d') k = Some x.
  Proof.
    induction d as [|[k' v'] r IH]; simpl; [discriminate|].
    destruct (k' =? k); auto.
  Qed.

Lemma get_app_r d d' k : Dict.get d k = None -> Dict.get (d ++ d') k = Dict.get d' k.
  Proof.
    induction d as [|[k' v'] r IH]; simpl; [reflexivity|].
    destruct (k' =? k); [discriminate | auto].
  Qed.

Lemma update_cons d k v u :
    Dict.update d ((k, v) :: u) = Dict.update (Dict.set d k v) u.
  Proof. reflexivity. Qed.

Lemma get_update d u k :
    NoDup (Dict.keys u) ->
    Dict.get (Dict.update d u) k =
    match Dict.get u k with Some v => Some v | None => Dict.get d k end.
  Proof.
    revert d. induction u as [|[k' v'] r IH]; intros d Hnd; [reflexivity|].
    rewrite update_cons. simpl in Hnd. inversion Hnd as [|? ? Hni Hnd']. subst.
    rewrite IH by assumption. simpl.
    destruct (k' =? k) eqn:E.
    - apply String.eqb_eq in E. subst k'.
      apply get_None_keys in Hni. rewrite Hni. apply get_set_same.
    - apply String.eqb_neq in E.
      destruct (Dict.get r k); [reflexivity|]. now apply get_set_other.
  Qed.

End Facts.
End DictFacts.

(** ** The graph structure *)

Module NXFacts.
Import NX.

(** The invariant of a [DiGraph]: [_node] and [_adj] have the same keys,
    keys are unique, and every successor is a node. *)
Record wf (g : DiGraph) : Prop := mk_wf {
  wf_keys : Dict.keys (_node g) = Dict.keys (_adj g);
  wf_nodup : NoDup (Dict.keys (_adj g));
  wf_nbrs : forall u nbrs, In (u, nbrs) (_adj g) -> NoDup (Dict.keys nbrs);
  wf_closed : forall u nbrs v a,
      In (u, nbrs) (_adj g) -> In (v, a) nbrs -> In v (Dict.keys (_adj g))
}.

Lemma wf_empty : wf empty.
Proof. constructor; simpl; try constructor; intros; contradiction. Qed.

Lemma mem_node_adj g n : wf g -> Dict.mem (_node g) n = Dict.mem (_adj g) n.
Proof.
  intros [Hk _ _ _].
  destruct (Dict.mem (_adj g) n) eqn:E.
  - apply DictFacts.mem_keys. rewrite Hk. now apply DictFacts.mem_keys.
  - apply DictFacts.mem_false_keys. rewrite Hk. now apply DictFacts.mem_false_keys.
Qed.

Lemma wf_add_node n attr g : wf g -> wf (add_node n attr g).
Proof.
  intros Hwf. pose proof (mem_node_adj n Hwf) as Hm.
  destruct Hwf as [Hk Hnd Hnb Hcl].
  unfold add_node. destruct (Dict.mem (_adj g) n) eqn:E; constructor; simpl; auto.
  - rewrite DictFacts.keys_set_present; congruence.
  - rewrite !DictFacts.keys_set_fresh by congruence. now rewrite Hk.
  - now apply DictFacts.NoDup_keys_set.
  - intros u nbrs Hin. apply DictFacts.In_set in Hin.
    destruct Hin as [[_ ->]|Hin]; [constructor | eauto].
  - intros u nbrs v a Hin Hv. apply DictFacts.In_set in Hin.
    destruct Hin as [[_ ->]|Hin]; [contradiction|].
    rewrite DictFacts.keys_set_fresh by assumption.
    apply in_or_app. left. eauto.
Qed.

Lemma wf_ensure_node n g : wf g -> wf (ensure_node n g).
Proof.
  intros Hwf. pose proof (mem_node_adj n Hwf) as Hm.
  destruct Hwf as [Hk Hnd Hnb Hcl].
  unfold ensure_node. destruct (Dict.mem (_adj g) n) eqn:E.
  - now constructor.
  - constructor; simpl.
    + rewrite !DictFacts.keys_set_fresh by congruence. now rewrite Hk.
    + now apply DictFacts.NoDup_keys_set.
    + intros u nbrs Hin. apply DictFacts.In_set in Hin.
      destruct Hin as [[_ ->]|Hin]; [constructor | eauto].
    + intros u nbrs v a Hin Hv. apply DictFacts.In_set in Hin.
      destruct Hin as [[_ ->]|Hin]; [contradiction|].
      rewrite DictFacts.keys_set_fresh by assumption.
      apply in_or_app. left. eauto.
Qed.

Lemma mem_adj_ensure_node n g k :
  Dict.mem (_adj (ensure_node n g)) k = (n =? k) || Dict.mem (_adj g) k.
Proof.
  unfold ensure_node. destruct (Dict.mem (_adj g) n) eqn:E; simpl.
  - destruct (n =? k) eqn:Ek; [|reflexivity].
    apply String.eqb_eq in Ek. now subst.
  - apply DictFacts.mem_set.
Qed.

Lemma has_node_ensure_node n g k :
  wf g -> has_node (ensure_node n g) k = (n =? k) || has_node g k.
Proof.
  intro Hwf. unfold has_node.
  rewrite (mem_node_adj k (wf_ensure_node n Hwf)), (mem_node_adj k Hwf).
  apply mem_adj_ensure_node.
Qed.

Lemma has_node_add_node n attr g k :
  has_node (add_node n attr g) k = (n =? k) || has_node g k.
Proof.
  unfold has_node, add_node.
  destruct (Dict.mem (_adj g) n); simpl; apply DictFacts.mem_set.
Qed.

Lemma edge_data_add_node n attr g u v :
  edge_data (add_node n attr g) u v = edge_data g u v.
Proof.
  unfold edge_data, add_node.
  destruct (Dict.mem (_adj g) n) eqn:E; simpl; [reflexivity|].
  rewrite DictFacts.get_set. destruct (n =? u) eqn:Eu; [|reflexivity].
  apply String.eqb_eq in Eu. subst u.
  unfold Dict.mem in E. destruct (Dict.get (_adj g) n); [discriminate | reflexivity].
Qed.

Lemma edge_data_ensure_node n g u v :
  edge_data (ensure_node n g) u v = edge_data g u v.
Proof.
  unfold edge_data, ensure_node.
  destruct (Dict.mem (_adj g) n) eqn:E; simpl; [reflexivity|].
  rewrite DictFacts.get_set. destruct (n =? u) eqn:Eu; [|reflexivity].
  apply String.eqb_eq in Eu. subst u.
  unfold Dict.mem in E. destruct (Dict.get (_adj g) n); [discriminate | reflexivity].
Qed.

Definition old_data (g : DiGraph) (u v : string) : Attrs :=
  match edge_data g u v with Some a => a | None => [] end.

Lemma edge_data_add_edge u v attr g u' v' :
  edge_data (add_edge u v attr g) u' v' =
  if (u =? u') && (v =? v')
  then Some (Dict.update (old_data g u v) attr)
  else edge_data g u' v'.
Proof.
  unfold add_edge, old_data.
  rewrite <- (edge_data_ensure_node u g u v), <- (edge_data_ensure_node u g u' v').
  rewrite <- (edge_data_ensure_node v (ensure_node u g) u v).
  rewrite <- (edge_data_ensure_node v (ensure_node u g) u' v').
  set (g1 := ensure_node v (ensure_node u g)).
  unfold edge_data at 1. simpl.
  rewrite DictFacts.get_set.
  destruct (u =? u') eqn:Eu; simpl.
  - apply String.eqb_eq in Eu. subst u'.
    rewrite DictFacts.get_set. unfold edge_data.
    destruct (Dict.get (_adj g1) u) as [nbrs|]; destruct (v =? v'); reflexivity.
  - reflexivity.
Qed.

Lemma node_add_edge u v attr g :
  _node (add_edge u v attr g) = _node (ensure_node v (ensure_node u g)).
Proof. reflexivity. Qed.

Lemma ensure_node_present n g : Dict.mem (_adj g) n = true -> ensure_node n g = g.
Proof. unfold ensure_node. now intros ->. Qed.

Lemma node_add_edge_present u v attr g :
  wf g -> has_node g u = true -> has_node g v = true ->
  _node (add_edge u v attr g) = _node g.
Proof.
  intros Hwf Hu Hv. rewrite node_add_edge. unfold has_node in *.
  rewrite (mem_node_adj u Hwf) in Hu. rewrite (mem_node_adj v Hwf) in Hv.
  now rewrite (ensure_node_present u g Hu), (ensure_node_present v g Hv).
Qed.

Lemma wf_add_edge u v attr g : wf g -> wf (add_edge u v attr g).
Proof.
  intro Hwf0.
  assert (Hwf : wf (ensure_node v (ensure_node u g)))
    by now apply wf_ensure_node, wf_ensure_node.
  assert (Hu : Dict.mem (_adj (ensure_node v (ensure_node u g))) u = true).
  { rewrite !mem_adj_ensure_node, String.eqb_refl. now rewrite orb_true_r. }
  assert (Hv : Dict.mem (_adj (ensure_node v (ensure_node u g))) v = true).
  { rewrite !mem_adj_ensure_node, String.eqb_refl. reflexivity. }
  unfold add_edge. set (g1 := ensure_node v (ensure_node u g)) in *.
  destruct Hwf as [Hk Hnd Hnb Hcl].
  constructor; simpl.
  - rewrite DictFacts.keys_set_present; assumption.
  - now apply DictFacts.NoDup_keys_set.
  - intros u0 nbrs Hin. apply DictFacts.In_set in Hin.
    destruct Hin as [[_ ->]|Hin]; [|eauto].
    apply DictFacts.NoDup_keys_set.
    destruct (Dict.get (_adj g1) u) eqn:E; [|constructor].
    apply DictFacts.get_In in E. eauto.
  - intros u0 nbrs v0 a Hin Hv0.
    rewrite DictFacts.keys_set_present by assumption.
    apply DictFacts.In_set in Hin. destruct Hin as [[_ ->]|Hin]; [|eauto].
    apply DictFacts.In_set in Hv0. destruct Hv0 as [[-> _]|Hv0].
    + now apply DictFacts.mem_keys.
    + destruct (Dict.get (_adj g1) u) eqn:E; [|contradiction].
      apply DictFacts.get_In in E. eauto.
Qed.

(** Under the invariant the edges iterated by [edges] are those [edge_data]
    finds. *)
Lemma In_edges g u v a :
  In (u, v, a) (edges g) <->
  exists nbrs, In (u, nbrs) (_adj g) /\ In (v, a) nbrs.
Proof.
  unfold edges. rewrite in_flat_map. split.
  - intros [[u' nbrs] [Hin Hm]]. apply in_map_iff in Hm.
    destruct Hm as [[v' a'] [He Hv]]. simpl in He. inversion He. subst.
    eauto.
  - intros [nbrs [Hin Hv]]. exists (u, nbrs). split; [assumption|].
    apply in_map_iff. exists (v, a). auto.
Qed.

Lemma In_edges_edge_data g u v a :
  wf g -> (In (u, v, a) (edges g) <-> edge_data g u v = Some a).
Proof.
  intros [Hk Hnd Hnb Hcl]. rewrite In_edges. unfold edge_data. split.
  - intros [nbrs [Hin Hv]].
    erewrite DictFacts.In_get by eassumption.
    apply DictFacts.In_get; eauto.
  - destruct (Dict.get (_adj g) u) as [nbrs|] eqn:E; [|discriminate].
    intro Hv. exists nbrs. split; now apply DictFacts.get_In.
Qed.

Lemma edge_data_has_node g u v a :
  wf g -> edge_data g u v = Some a -> has_node g u = true /\ has_node g v = true.
Proof.
  intros Hwf He. unfold has_node. rewrite !(mem_node_adj _ Hwf).
  destruct Hwf as [Hk Hnd Hnb Hcl]. unfold edge_data in He.
  destruct (Dict.get (_adj g) u) as [nbrs|] eqn:E; [|discriminate].
  split.
  - unfold Dict.mem. now rewrite E.
  - apply DictFacts.mem_keys. apply DictFacts.get_In in E, He. eauto.
Qed.

(** A [DiGraph] holds at most one edge per ordered pair of nodes. *)
Lemma edges_pairs_nodup g : wf g -> NoDup (map fst (edges g)).
Proof.
  intros [_ Hnd Hnb _]. unfold edges. revert Hnd Hnb.
  generalize (_adj g) as l.
  induction l as [|[u nbrs] r IH]; intros Hnd Hnb; simpl; [constructor|].
  simpl in Hnd. inversion Hnd as [|? ? Hni Hnd']. subst.
  rewrite map_app, map_map. simpl.
  apply NoDup_app.
  - assert (H : NoDup (Dict.keys nbrs)) by (apply (Hnb u); now left).
    clear - H. induction nbrs as [|[v a] t IHt]; simpl; [constructor|].
    simpl in H. inversion H as [|? ? Hv Ht]. subst. constructor; [|auto].
    intro Hin. apply in_map_iff in Hin. destruct Hin as [[v' a'] [He Hin]].
    simpl in He. inversion He. subst. apply Hv.
    change v with (fst (v, a')). now apply in_map.
  - apply IH; [assumption|]. intros u' n' H. apply (Hnb u'). now right.
  - intros [u1 v1] H1 H2. apply in_map_iff in H1. destruct H1 as [[v a] [He _]].
    simpl in He. inversion He. subst u1 v1.
    apply in_map_iff in H2. destruct H2 as [[[u2 v2] a2] [He2 Hin2]].
    simpl in He2. inversion He2. subst u2 v2.
    apply in_flat_map in Hin2. destruct Hin2 as [[u' n'] [Hin' Hm]].
    apply in_map_iff in Hm. destruct Hm as [[v' a'] [He' _]].
    simpl in He'. inversion He'. subst.
    apply Hni. change u with (fst (u, n')). now apply in_map.
Qed.

End NXFacts.

(** ** Loops *)

Module LoopFacts.

(** Induction over a [for] loop with an invariant that may mention the
    elements already visited. *)
Lemma fold_left_prefix_ind (A S : Type) (f : S -> A -> S)
      (P : list A -> S -> Prop) (l : list A) (s0 : S) :
  P [] s0 ->
  (forall pre x s, incl (pre ++ [x]) l -> P pre s -> P (pre ++ [x]) (f s x)) ->
  P l (fold_left f l s0).
Proof.
  intros H0 Hstep.
  assert (G : forall suf pre s, incl (pre ++ suf) l -> P pre s ->
                                P (pre ++ suf) (fold_left f suf s)).
  { induction suf as [|x suf IH]; intros pre s Hincl Hp; simpl.
    - now rewrite app_nil_r.
    - replace (pre ++ x :: suf) with ((pre ++ [x]) ++ suf)
        by now rewrite <- app_assoc.
      apply IH.
      + now rewrite <- app_assoc.
      + apply Hstep; [|assumption].
        intros y Hy. apply Hincl. apply in_app_or in Hy.
        apply in_or_app. destruct Hy as [Hy|[<-|[]]]; [left | right; left]; auto. }
  apply (G l [] s0); [apply incl_refl | assumption].
Qed.

(** Two nested [for] loops visit the pairs of [list_prod] in order. *)
Lemma nested_fold_list_prod (A B S : Type) (f : A -> S -> B -> S)
      (la : list A) (lb : list B) (s0 : S) :
  fold_left (fun st a => fold_left (f a) lb st) la s0 =
  fold_left (fun st ab => f (fst ab) st (snd ab)) (list_prod la lb) s0.
Proof.
  assert (Hrow : forall a l s,
             fold_left (f a) l s =
             fold_left (fun st ab => f (fst ab) st (snd ab)) (map (pair a) l) s).
  { intros a l. induction l as [|b l IHl]; intro s; simpl; [reflexivity|].
    apply IHl. }
  revert s0. induction la as [|a la IH]; intro s0; simpl; [reflexivity|].
  rewrite fold_left_app, <- IH. f_equal. apply Hrow.
Qed.

Lemma foldM_app (A S : Type) (f : S -> A -> res S) (l1 l2 : list A) (s : S) :
  foldM f (l1 ++ l2) s = (s1 <- foldM f l1 s ;; foldM f l2 s1).
Proof.
  revert s. induction l1 as [|x r IH]; intro s; simpl; [reflexivity|].
  destruct (f s x); simpl; [apply IH | reflexivity].
Qed.

(** A loop whose body never raises is a plain fold. *)
Lemma foldM_total (A S : Type) (f : S -> A -> res S) (h : S -> A -> S)
      (l : list A) (s : S) :
  (forall s x, In x l -> f s x = Ok (h s x)) ->
  foldM f l s = Ok (fold_left h l s).
Proof.
  revert s. induction l as [|x r IH]; intros s H; simpl; [reflexivity|].
  rewrite H by (left; reflexivity). simpl. apply IH.
  intros. apply H. now right.
Qed.

End LoopFacts.

(** ** The builder *)

Module BuilderFacts.
Import NX NXFacts Transformers.

Lemma pair_eqb_eq (a b : string * string) : pair_eqb a b = true <-> a = b.
Proof.
  destruct a as [a1 a2], b as [b1 b2]. unfold pair_eqb. simpl.
  rewrite andb_true_iff, !String.eqb_eq. split.
  - intros [-> ->]. reflexivity.
  - intro H. inversion H. auto.
Qed.

Lemma existsb_pair (k : string * string) (conns : list (string * string)) :
  existsb (pair_eqb k) conns = true <-> In k conns.
Proof.
  rewrite existsb_exists. split.
  - intros [x [Hin He]]. apply pair_eqb_eq in He. now subst.
  - intro H. exists k. split; [assumption | now apply pair_eqb_eq].
Qed.

(** Writing the attributes of an edge over nothing, or over the
    attributes an earlier publication wrote, leaves the new ones. *)
Lemma update_edge_attrs (old : Attrs) (pub : Publication.t) :
  old = [] \/ (exists pub', old = edge_attrs pub') ->
  Dict.update old (edge_attrs pub) = edge_attrs pub.
Proof.
  intros [->|[pub' ->]]; reflexivity.
Qed.

Definition no_edges (g : DiGraph) : Prop := forall u v, edge_data g u v = None.

(** The whole of [_connect_drugs_to_publications] as one loop over the
    pairs (drug, publication). *)
Definition step (st : DiGraph * list (string * string))
           (dp : Drug.t * Publication.t) : DiGraph * list (string * string) :=
  connect_pub (fst dp) st (snd dp).

Lemma connect_as_step drugs publications graph :
  _connect_drugs_to_publications drugs publications graph =
  fst (fold_left step (list_prod drugs publications) (graph, [])).
Proof.
  unfold _connect_drugs_to_publications. f_equal.
  apply (LoopFacts.nested_fold_list_prod
           (fun d st p => connect_pub d st p)).
Qed.

Definition jkey (pub : Publication.t) : string :=
  journal_id (Publication.journal_name pub).

(** What the loop maintains, in terms of the pairs already visited. *)
Record edge_inv (pre : list (Drug.t * Publication.t))
       (st : DiGraph * list (string * string)) : Prop := mk_edge_inv {
  ei_wf : wf (fst st);
  ei_conn : forall u v,
      In (u, v) (snd st) <->
      exists d p, In (d, p) pre /\ mentions d p = true
                  /\ u = drug_id d /\ v = jkey p;
  ei_edge : forall u v a,
      edge_data (fst st) u v = Some a ->
      exists d p, In (d, p) pre /\ mentions d p = true /\ u = drug_id d
                  /\ (v = pub_id p \/ v = jkey p) /\ a = edge_attrs p;
  ei_has : forall d p,
      In (d, p) pre -> mentions d p = true ->
      edge_data (fst st) (drug_id d) (pub_id p) <> None
      /\ edge_data (fst st) (drug_id d) (jkey p) <> None
}.

(** Every edge was written for a visited pair and carries the attributes
    of that pair's publication. *)
Definition shaped (pre : list (Drug.t * Publication.t)) (g : DiGraph) : Prop :=
  forall u v a,
    edge_data g u v = Some a ->
    exists d p, In (d, p) pre /\ mentions d p = true /\ u = drug_id d
                /\ (v = pub_id p \/ v = jkey p) /\ a = edge_attrs p.

Lemma shaped_incl pre pre' g : incl pre pre' -> shaped pre g -> shaped pre' g.
Proof.
  intros Hi Hs u v a H. destruct (Hs _ _ _ H) as (d & p & Hin & H').
  exists d, p. split; [now apply Hi | exact H'].
Qed.

Lemma shaped_add_edge pre g d p v :
  shaped pre g -> In (d, p) pre -> mentions d p = true ->
  v = pub_id p \/ v = jkey p ->
  shaped pre (add_edge (drug_id d) v (edge_attrs p) g).
Proof.
  intros Hs Hin Hm Hv u' v' a. rewrite edge_data_add_edge.
  destruct ((drug_id d =? u') && (v =? v')) eqn:E; [|apply Hs].
  apply andb_true_iff in E. destruct E as [Eu Ev].
  apply String.eqb_eq in Eu, Ev. subst u' v'.
  rewrite update_edge_attrs.
  - intro H. inversion H. exists d, p. auto.
  - unfold old_data. destruct (edge_data g (drug_id d) v) as [a0|] eqn:E0; [|now left].
    destruct (Hs _ _ _ E0) as (d0 & p0 & _ & _ & _ & _ & ->). right. eauto.
Qed.

Lemma add_edge_keeps u v attr g u' v' :
  edge_data g u' v' <> None -> edge_data (add_edge u v attr g) u' v' <> None.
Proof.
  rewrite edge_data_add_edge.
  destruct ((u =? u') && (v =? v')); [discriminate | auto].
Qed.

Lemma add_edge_makes u v attr g : edge_data (add_edge u v attr g) u v <> None.
Proof. rewrite edge_data_add_edge, !String.eqb_refl. discriminate. Qed.

Lemma in_snoc (A : Type) (x y : A) (l : list A) :
  In x (l ++ [y]) <-> In x l \/ x = y.
Proof.
  rewrite in_app_iff. simpl. intuition.
Qed.

Lemma edge_inv_step pre x st : edge_inv pre st -> edge_inv (pre ++ [x]) (step st x).
Proof.
  destruct st as [g conns], x as [d p]. intros [Hwf Hc He Hh]. simpl in *.
  unfold step, connect_pub. simpl.
  assert (Hi : incl pre (pre ++ [(d, p)])) by (intros y Hy; apply in_or_app; now left).
  destruct (mentions d p) eqn:Hm.
  2: { constructor; simpl; auto.
       - intros u v. rewrite Hc. split.
         + intros (d' & p' & Hin & H). exists d', p'. split; [now apply Hi | exact H].
         + intros (d' & p' & Hin & H). exists d', p'. split; [|exact H].
           apply in_snoc in Hin. destruct Hin as [Hin|Heq]; [assumption|].
           inversion Heq. subst. destruct H as [H _]. congruence.
       - now apply (shaped_incl Hi).
       - intros d' p' Hin Hmd. apply Hh; [|assumption].
         apply in_snoc in Hin. destruct Hin as [Hin|Heq]; [assumption|].
         inversion Heq. subst. congruence. }
  assert (Hnew : In (d, p) (pre ++ [(d, p)])) by (apply in_snoc; now right).
  set (g1 := add_edge (drug_id d) (pub_id p) (edge_attrs p) g).
  assert (Hs1 : shaped (pre ++ [(d, p)]) g1).
  { apply shaped_add_edge; auto. now apply (shaped_incl Hi). }
  fold (jkey p).
  destruct (existsb (pair_eqb (drug_id d, jkey p)) conns) eqn:Ex; simpl.
  - (* the pair (drug, journal) is already connected *)
    apply existsb_pair in Ex.
    constructor; simpl.
    + now apply wf_add_edge.
    + intros u v. rewrite Hc. split.
      * intros (d' & p' & Hin & H). exists d', p'. split; [now apply Hi | exact H].
      * intros (d' & p' & Hin & H). apply in_snoc in Hin.
        destruct Hin as [Hin|Heq]; [exists d', p'; auto|].
        inversion Heq. subst d' p'. destruct H as (_ & -> & ->).
        now apply Hc.
    + exact Hs1.
    + intros d' p' Hin Hmd. apply in_snoc in Hin. destruct Hin as [Hin|Heq].
      * destruct (Hh _ _ Hin Hmd). split; now apply add_edge_keeps.
      * inversion Heq. subst d' p'. split; [apply add_edge_makes|].
        apply add_edge_keeps. apply Hc in Ex.
        destruct Ex as (d' & p' & Hin' & Hm' & Hd & Hj).
        rewrite Hd, Hj. now apply Hh.
  - (* first publication of this journal that mentions the drug *)
    assert (Hnin : ~ In (drug_id d, jkey p) conns).
    { intro H. apply existsb_pair in H. congruence. }
    constructor; simpl.
    + now apply wf_add_edge, wf_add_edge.
    + intros u v. split.
      * intros [Heq|Hin].
        -- inversion Heq. subst. exists d, p. auto.
        -- apply Hc in Hin. destruct Hin as (d' & p' & Hin & H).
           exists d', p'. split; [now apply Hi | exact H].
      * intros (d' & p' & Hin & H). apply in_snoc in Hin.
        destruct Hin as [Hin|Heq].
        -- right. apply Hc. exists d', p'. auto.
        -- inversion Heq. subst d' p'. destruct H as (_ & -> & ->). now left.
    + apply shaped_add_edge; auto.
    + intros d' p' Hin Hmd. apply in_snoc in Hin. destruct Hin as [Hin|Heq].
      * destruct (Hh _ _ Hin Hmd). split; now apply add_edge_keeps, add_edge_keeps.
      * inversion Heq. subst d' p'.
        split; [apply add_edge_keeps, add_edge_makes | apply add_edge_makes].
Qed.

(** The invariant holds when [_connect_drugs_to_publications] returns. *)
Lemma edge_inv_connect drugs publications g0 :
  wf g0 -> no_edges g0 ->
  edge_inv (list_prod drugs publications)
           (fold_left step (list_prod drugs publications) (g0, [])).
Proof.
  intros Hwf Hne.
  apply (LoopFacts.fold_left_prefix_ind step edge_inv).
  - constructor; simpl.
    + assumption.
    + intros u v. split; [contradiction|].
      intros (d & p & [] & _).
    + intros u v a H. rewrite Hne in H. discriminate.
    + intros d p [].
  - intros pre x s _. apply edge_inv_step.
Qed.

(** *** The nodes *)

Lemma fold_left_inv (A S : Type) (f : S -> A -> S) (P : S -> Prop)
      (l : list A) (s0 : S) :
  P s0 -> (forall s x, In x l -> P s -> P (f s x)) -> P (fold_left f l s0).
Proof.
  revert s0. induction l as [|x r IH]; intros s0 H0 Hs; simpl; [assumption|].
  apply IH.
  - apply Hs; [now left | assumption].
  - intros s y Hy. apply Hs. now right.
Qed.

(** The attribute dict a node has after [add_node]. *)
Lemma In_node_add_node n attr g k a :
  In (k, a) (_node (add_node n attr g)) ->
  In (k, a) (_node g)
  \/ (k = n /\ exists old, (old = [] \/ In (n, old) (_node g))
                           /\ a = Dict.update old attr).
Proof.
  unfold add_node. destruct (Dict.mem (_adj g) n) eqn:E; simpl; intro H;
    apply DictFacts.In_set in H; destruct H as [[-> ->]|H]; auto;
    right; (split; [reflexivity|]).
  - destruct (Dict.get (_node g) n) as [old|] eqn:Eo.
    + exists old. split; [right; now apply DictFacts.get_In | reflexivity].
    + exists []. auto.
  - exists []. auto.
Qed.

Lemma no_edges_add_node n attr g : no_edges g -> no_edges (add_node n attr g).
Proof. intros H u v. rewrite edge_data_add_node. apply H. Qed.

Lemma no_edges_empty : no_edges empty.
Proof. intros u v. reflexivity. Qed.

(** A loop of [add_node] calls: the invariant, and which keys are nodes. *)
Lemma add_nodes_wf (A : Type) (key : A -> string) (attrs : A -> Attrs)
      (l : list A) (g : DiGraph) :
  wf g -> no_edges g ->
  wf (fold_left (fun g x => add_node (key x) (attrs x) g) l g)
  /\ no_edges (fold_left (fun g x => add_node (key x) (attrs x) g) l g).
Proof.
  intros Hwf Hne.
  apply (fold_left_inv (fun g x => add_node (key x) (attrs x) g)
                       (fun g => wf g /\ no_edges g)); [auto|].
  intros s x _ [H1 H2]. split; [now apply wf_add_node | now apply no_edges_add_node].
Qed.

Lemma add_nodes_has_node (A : Type) (key : A -> string) (attrs : A -> Attrs)
      (l : list A) (g : DiGraph) (k : string) :
  has_node (fold_left (fun g x => add_node (key x) (attrs x) g) l g) k = true
  <-> has_node g k = true \/ In k (map key l).
Proof.
  revert g. induction l as [|x r IH]; intro g; simpl; [tauto|].
  rewrite IH, has_node_add_node, orb_true_iff, String.eqb_eq. tauto.
Qed.

Lemma add_nodes_attrs (A : Type) (key : A -> string) (attrs : A -> Attrs)
      (Q : string -> Attrs -> Prop) (l : list A) (g : DiGraph) :
  (forall k a, In (k, a) (_node g) -> Q k a) ->
  (forall x old, In x l -> old = [] \/ Q (key x) old ->
                 Q (key x) (Dict.update old (attrs x))) ->
  forall k a,
    In (k, a) (_node (fold_left (fun g x => add_node (key x) (attrs x) g) l g)) ->
    Q k a.
Proof.
  intros Hg Hupd.
  apply (fold_left_inv (fun g x => add_node (key x) (attrs x) g)
                       (fun g => forall k a, In (k, a) (_node g) -> Q k a)); [assumption|].
  intros s x Hx Hs k a Hin. apply In_node_add_node in Hin.
  destruct Hin as [Hin|[-> [old [[->|Hin] ->]]]]; auto.
Qed.

(** *** The builder as a whole *)

Section Build.
Variable set_iter : list string -> list string.
Variable drugs : list Drug.t.
Variables pubmed trials : list Publication.t.

Let pubs := pubmed ++ trials.

(** The graph after [_add_nodes_to_graph]. *)
Definition node_phase : DiGraph :=
    _add_nodes_to_graph drugs pubs (_extract_journals set_iter pubs) empty.

(** The graph and the connection set after the two loops. *)
Definition final_state : DiGraph * list (string * string) :=
    fold_left step (list_prod drugs pubs) (node_phase, []).

Lemma build_unfold :
    build_drug_mention_graph set_iter drugs pubmed trials = fst final_state.
  Proof.
    unfold build_drug_mention_graph, build_graph. apply connect_as_step.
  Qed.

Lemma node_phase_wf : wf node_phase /\ no_edges node_phase.
  Proof.
    unfold node_phase, _add_nodes_to_graph.
    apply add_nodes_wf; apply add_nodes_wf; apply add_nodes_wf;
      auto using wf_empty, no_edges_empty.
  Qed.

Lemma final_state_inv : edge_inv (list_prod drugs pubs) final_state.
  Proof.
    destruct node_phase_wf. now apply edge_inv_connect.
  Qed.

Lemma build_wf : wf (build_drug_mention_graph set_iter drugs pubmed trials).
  Proof. rewrite build_unfold. apply final_state_inv. Qed.

(** Every edge of the built graph: where it comes from. *)
Lemma build_edge_origin u v a :
    edge_data (build_drug_mention_graph set_iter drugs pubmed trials) u v = Some a ->
    exists d p, In d drugs /\ In p pubs /\ mentions d p = true /\ u = drug_id d
                /\ (v = pub_id p \/ v = jkey p) /\ a = edge_attrs p.
  Proof.
    rewrite build_unfold. intro H.
    destruct (ei_edge final_state_inv _ _ H) as (d & p & Hin & H').
    apply in_prod_iff in Hin. exists d, p. tauto.
  Qed.

(** Every mention has its two edges. *)
Lemma build_edge_present d p :
    In d drugs -> In p pubs -> mentions d p = true ->
    edge_data (build_drug_mention_graph set_iter drugs pubmed trials)
              (drug_id d) (pub_id p) <> None
    /\ edge_data (build_drug_mention_graph set_iter drugs pubmed trials)
                 (drug_id d) (jkey p) <> None.
  Proof.
    intros Hd Hp Hm. rewrite build_unfold.
    apply (ei_has final_state_inv); [|assumption].
    apply in_prod_iff. auto.
  Qed.

End Build.

(** Two drugs with the same node key mention the same publications. *)
Lemma mentions_drug_id d d' p : drug_id d = drug_id d' -> mentions d p = mentions d' p.
Proof. unfold mentions, drug_id. now intros ->. Qed.

(** *** The date of a drug -> journal edge *)

Lemma find_app (A : Type) (f : A -> bool) (l l' : list A) :
  find f (l ++ l') = match find f l with Some y => Some y | None => find f l' end.
Proof.
  induction l as [|x r IH]; simpl; [reflexivity|]. now destruct (f x).
Qed.

Lemma find_exists (A : Type) (f : A -> bool) (l : list A) (x : A) :
  In x l -> f x = true -> find f l <> None.
Proof.
  intros Hin Hf E. pose proof (find_none f l E x Hin). congruence.
Qed.

Lemma find_map (A B : Type) (f : B -> bool) (h : A -> B) (l : list A) :
  find f (map h l) = option_map h (find (fun x => f (h x)) l).
Proof.
  induction l as [|x r IH]; simpl; [reflexivity|]. now destruct (f (h x)).
Qed.

Lemma find_ext (A : Type) (f h : A -> bool) (l : list A) :
  (forall x, In x l -> f x = h x) -> find f l = find h l.
Proof.
  induction l as [|x r IH]; intro H; simpl; [reflexivity|].
  rewrite (H x) by now left. destruct (h x); [reflexivity|].
  apply IH. intros. apply H. now right.
Qed.

Lemma find_all_false (A : Type) (f : A -> bool) (l : list A) :
  (forall x, In x l -> f x = false) -> find f l = None.
Proof.
  induction l as [|x r IH]; intro H; simpl; [reflexivity|].
  rewrite (H x) by now left. apply IH. intros. apply H. now right.
Qed.

Section FirstDate.
(** The edge under study: from node [u0] to node [v0]. *)
Variables u0 v0 : string.

(** The pairs whose journal edge is [u0 -> v0]. *)
Definition hits (dp : Drug.t * Publication.t) : bool :=
    mentions (fst dp) (snd dp) && (drug_id (fst dp) =? u0) && (jkey (snd dp) =? v0).

(** The pair writes no publication edge onto [u0 -> v0]. *)
Definition clear_of (dp : Drug.t * Publication.t) : Prop :=
    mentions (fst dp) (snd dp) = true -> drug_id (fst dp) = u0 ->
    pub_id (snd dp) <> v0.

Definition date_inv (pre : list (Drug.t * Publication.t))
             (st : DiGraph * list (string * string)) : Prop :=
    edge_data (fst st) u0 v0 =
    option_map (fun dp => edge_attrs (snd dp)) (find hits pre).

Lemma hits_true dp :
    hits dp = true <->
    mentions (fst dp) (snd dp) = true /\ drug_id (fst dp) = u0 /\ jkey (snd dp) = v0.
  Proof.
    unfold hits. rewrite !andb_true_iff, !String.eqb_eq. tauto.
  Qed.

Lemma date_inv_step pre x st :
    clear_of x -> edge_inv pre st -> date_inv pre st ->
    date_inv (pre ++ [x]) (step st x).
  Proof.
    destruct st as [g conns], x as [d p]. unfold date_inv, clear_of. simpl.
    intros Hclear Hinv Hdate. rewrite find_app. simpl.
    unfold step, connect_pub. simpl. fold (jkey p).
    assert (Hhd : hits (d, p) = mentions d p && (drug_id d =? u0) && (jkey p =? v0))
      by reflexivity.
    destruct (mentions d p) eqn:Hm.
    2: { simpl. rewrite Hdate, Hhd. simpl.
         now destruct (find hits pre). }
    specialize (Hclear eq_refl).
    assert (H1 : edge_data (add_edge (drug_id d) (pub_id p) (edge_attrs p) g) u0 v0
                 = edge_data g u0 v0).
    { rewrite edge_data_add_edge.
      destruct ((drug_id d =? u0) && (pub_id p =? v0)) eqn:E; [|reflexivity].
      apply andb_true_iff in E. destruct E as [Eu Ev].
      apply String.eqb_eq in Eu, Ev. now apply Hclear in Eu. }
    destruct (existsb (pair_eqb (drug_id d, jkey p)) conns) eqn:Ex; simpl.
    - (* already connected: nothing is written on the journal edge *)
      rewrite H1, Hdate.
      destruct (find hits pre) as [y|] eqn:Ef; [reflexivity|].
      destruct (hits (d, p)) eqn:Eh; [|reflexivity].
      exfalso. apply hits_true in Eh. simpl in Eh. destruct Eh as (_ & Eu & Ev).
      apply existsb_pair in Ex. apply (ei_conn Hinv) in Ex. simpl in Ex.
      destruct Ex as (d' & p' & Hin & Hm' & Hd & Hj).
      apply (find_exists hits pre (d', p') Hin); [|assumption].
      apply hits_true. simpl. repeat split; congruence.
    - (* first connection of this (drug, journal) pair *)
      rewrite edge_data_add_edge.
      destruct ((drug_id d =? u0) && (jkey p =? v0)) eqn:E.
      + apply andb_true_iff in E. destruct E as [Eu Ev].
        assert (Hh : hits (d, p) = true).
        { rewrite Hhd, Eu, Ev. reflexivity. }
        apply String.eqb_eq in Eu, Ev.
        assert (Ef : find hits pre = None).
        { destruct (find hits pre) as [[d' p']|] eqn:Ef; [|reflexivity].
          exfalso. apply find_some in Ef. destruct Ef as [Hin Hh'].
          apply hits_true in Hh'. simpl in Hh'. destruct Hh' as (Hm' & Hd & Hj).
          assert (Hc : In (drug_id d, jkey p) conns).
          { apply (ei_conn Hinv). exists d', p'. repeat split; congruence. }
          apply existsb_pair in Hc. congruence. }
        rewrite Ef, Hh. simpl. f_equal.
        unfold old_data. rewrite <- Eu, <- Ev in H1. rewrite H1.
        rewrite <- Eu, <- Ev in Hdate. rewrite Hdate, Ef. reflexivity.
      + rewrite H1, Hdate.
        assert (Hh : hits (d, p) = false).
        { rewrite Hhd. simpl. exact E. }
        rewrite Hh. now destruct (find hits pre).
  Qed.

Lemma date_inv_connect pairs g0 :
    wf g0 -> no_edges g0 -> (forall x, In x pairs -> clear_of x) ->
    date_inv pairs (fold_left step pairs (g0, [])).
  Proof.
    intros Hwf Hne Hclear.
    apply (LoopFacts.fold_left_prefix_ind
             step (fun pre st => edge_inv pre st /\ date_inv pre st)).
    - split.
      + constructor; simpl.
        * assumption.
        * intros u v. split; [contradiction|]. intros (d & p & [] & _).
        * intros u v a H. rewrite Hne in H. discriminate.
        * intros d p [].
      + unfold date_inv. simpl. apply Hne.
    - intros pre x st Hincl [Hi Hd]. split.
      + now apply edge_inv_step.
      + apply date_inv_step; auto.
        apply Hclear, Hincl, in_or_app. right. now left.
  Qed.

(** Among the pairs of the two loops, the first hit has the first
      publication that hits for any drug keyed [u0]. *)
Lemma find_hits_list_prod drugs pubs d :
    In d drugs -> drug_id d = u0 ->
    option_map snd (find hits (list_prod drugs pubs)) =
    find (fun p => mentions d p && (jkey p =? v0)) pubs.
  Proof.
    intros Hin Hd.
    assert (Hnone : find (fun p => mentions d p && (jkey p =? v0)) pubs = None ->
                    forall l, find hits (list_prod l pubs) = None).
    { intros Hn l. apply find_all_false. intros [d' p'] Hp.
      apply in_prod_iff in Hp. destruct Hp as [_ Hp].
      pose proof (find_none _ _ Hn p' Hp) as Hf. simpl in Hf.
      unfold hits. simpl.
      destruct (drug_id d' =? u0) eqn:E; [|now rewrite andb_false_r].
      apply String.eqb_eq in E.
      rewrite (mentions_drug_id d' d p') by congruence.
      rewrite andb_true_r. exact Hf. }
    induction drugs as [|d' r IH]; [contradiction|].
    simpl. rewrite find_app, find_map.
    destruct (drug_id d' =? u0) eqn:E.
    - apply String.eqb_eq in E.
      rewrite (find_ext (fun p => hits (d', p))
                        (fun p => mentions d p && (jkey p =? v0))).
      2: { intros p _. unfold hits. simpl.
           rewrite (mentions_drug_id d' d p) by congruence.
           apply String.eqb_eq in E. now rewrite E, andb_true_r. }
      destruct (find (fun p => mentions d p && (jkey p =? v0)) pubs) eqn:Ef;
        simpl; [reflexivity|].
      now rewrite (Hnone eq_refl r).
    - rewrite (find_all_false (fun p => hits (d', p))).
      2: { intros p _. unfold hits. simpl. rewrite E. now rewrite andb_false_r. }
      simpl. apply IH. destruct Hin as [->|Hin]; [|assumption].
      apply String.eqb_neq in E. contradiction.
  Qed.

End FirstDate.

End BuilderFacts.

(** ** The nodes of the built graph *)

Module NodeFacts.
Import NX NXFacts Transformers BuilderFacts.

(** A journal name the builder keeps. *)
Definition nonblank (s : string) : bool :=
  Str.truthy s && Str.truthy (Str.strip s).

Lemma set_add_In (x y : string) (s : list string) :
  In y (set_add s x) <-> y = x \/ In y s.
Proof.
  unfold set_add. destruct (existsb (String.eqb x) s) eqn:E.
  - split; [auto|]. intros [->|H]; [|assumption].
    apply existsb_exists in E. destruct E as [z [Hz Ez]].
    apply String.eqb_eq in Ez. now subst.
  - rewrite in_app_iff. simpl. intuition.
Qed.

Lemma set_add_NoDup (x : string) (s : list string) : NoDup s -> NoDup (set_add s x).
Proof.
  intro H. unfold set_add. destruct (existsb (String.eqb x) s) eqn:E; [assumption|].
  apply NoDup_app; [assumption | repeat constructor; auto |].
  intros a Ha [<-|[]].
  assert (existsb (String.eqb x) s = true); [|congruence].
  apply existsb_exists. exists x. split; [assumption | apply String.eqb_refl].
Qed.

Lemma journal_names_spec (publications : list Publication.t) (n : string) :
  NoDup (journal_names publications)
  /\ (In n (journal_names publications) <->
      exists p, In p publications /\ Publication.journal_name p = n /\ nonblank n = true).
Proof.
  unfold journal_names.
  set (f := fun (journal_set : list string) (pub : Publication.t) =>
              if Str.truthy (Publication.journal_name pub)
                 && Str.truthy (Str.strip (Publication.journal_name pub))
              then set_add journal_set (Publication.journal_name pub)
              else journal_set).
  assert (G : forall l acc,
             NoDup acc ->
             NoDup (fold_left f l acc)
             /\ (In n (fold_left f l acc) <->
                 In n acc \/ exists p, In p l /\ Publication.journal_name p = n
                                       /\ nonblank n = true)).
  { induction l as [|p r IH]; intros acc Hnd; simpl.
    - split; [assumption|]. split; [auto|]. intros [H|(p & [] & _)]. assumption.
    - assert (Hnd' : NoDup (f acc p)).
      { unfold f. destruct (_ && _); [now apply set_add_NoDup | assumption]. }
      destruct (IH (f acc p) Hnd') as [H1 H2]. split; [assumption|].
      rewrite H2. unfold f at 1. fold (nonblank (Publication.journal_name p)).
      destruct (nonblank (Publication.journal_name p)) eqn:Eb.
      + rewrite set_add_In. split.
        * intros [[->|H]|(q & Hq & H)]; eauto 6.
        * intros [H|(q & [<-|Hq] & H)]; eauto 6.
          destruct H as [<- _]. auto.
      + split.
        * intros [H|(q & Hq & H)]; eauto 6.
        * intros [H|(q & [<-|Hq] & H)]; eauto 6.
          destruct H as [<- H]. congruence. }
  destruct (G publications [] (NoDup_nil _)) as [H1 H2]. split; [assumption|].
  rewrite H2. split; [intros [[]|H]; assumption | auto].
Qed.

Section Nodes.
Variable set_iter : list string -> list string.
Variable drugs : list Drug.t.
Variables pubmed trials : list Publication.t.

Let pubs := pubmed ++ trials.
Let journals := _extract_journals set_iter pubs.
Let g0 := node_phase set_iter drugs pubmed trials.

(** Which keys are nodes once [_add_nodes_to_graph] is done. *)
Lemma node_phase_has_node (k : string) :
  has_node g0 k = true <->
  In k (map drug_id drugs) \/ In k (map pub_id pubs)
  \/ In k (map (fun j => journal_id (Journal.name j)) journals).
Proof.
  unfold g0, node_phase, _add_nodes_to_graph.
  rewrite (add_nodes_has_node (fun j => journal_id (Journal.name j)) journal_attrs).
  rewrite (add_nodes_has_node pub_id pub_attrs).
  rewrite (add_nodes_has_node drug_id drug_attrs).
  unfold has_node at 1. simpl. fold pubs. fold journals.
  intuition discriminate.
Qed.

(** The node types the builder writes. *)
Definition node_kinds : list pyval :=
  [PyStr "drug"; PyStr "pubmed"; PyStr "clinical_trial"; PyStr "journal"].

(** A node of type journal carries the full name of an extracted journal
    whose truncation is the node's key. *)
Definition journal_named (k : string) (a : Attrs) : Prop :=
  Dict.get_val a "type" = PyStr "journal" ->
  exists j, In j journals /\ Dict.get_val a "name" = PyStr (Journal.name j)
            /\ journal_id (Journal.name j) = k.

Lemma get_val_update (old upd : Attrs) (k : string) :
  NoDup (Dict.keys upd) ->
  Dict.get_val (Dict.update old upd) k =
  match Dict.get upd k with Some v => v | None => Dict.get_val old k end.
Proof.
  intro H. unfold Dict.get_val. rewrite DictFacts.get_update by assumption.
  now destruct (Dict.get upd k).
Qed.

Lemma drug_attrs_keys d : NoDup (Dict.keys (drug_attrs d)).
Proof. repeat constructor; simpl; intuition discriminate. Qed.

Lemma pub_attrs_keys p : NoDup (Dict.keys (pub_attrs p)).
Proof. repeat constructor; simpl; intuition discriminate. Qed.

Lemma journal_attrs_keys j : NoDup (Dict.keys (journal_attrs j)).
Proof. repeat constructor; simpl; intuition discriminate. Qed.

Lemma node_phase_typed (k : string) (a : Attrs) :
  In (k, a) (_node g0) ->
  In (Dict.get_val a "type") node_kinds /\ journal_named k a.
Proof.
  unfold g0, node_phase, _add_nodes_to_graph. fold pubs. fold journals.
  apply (add_nodes_attrs (fun j => journal_id (Journal.name j)) journal_attrs
           (fun k a => In (Dict.get_val a "type") node_kinds /\ journal_named k a)).
  - (* after the drugs and the publications no node is a journal *)
    intros k' a' H.
    assert (Ht : In (Dict.get_val a' "type")
                    [PyStr "drug"; PyStr "pubmed"; PyStr "clinical_trial"]).
    { revert k' a' H.
      apply (add_nodes_attrs pub_id pub_attrs
               (fun _ a => In (Dict.get_val a "type")
                              [PyStr "drug"; PyStr "pubmed"; PyStr "clinical_trial"])).
      - apply (add_nodes_attrs drug_id drug_attrs
                 (fun _ a => In (Dict.get_val a "type")
                                [PyStr "drug"; PyStr "pubmed"; PyStr "clinical_trial"])).
        + intros ? ? [].
        + intros d old _ _. rewrite get_val_update by apply drug_attrs_keys.
          simpl. auto.
      - intros p old _ _. rewrite get_val_update by apply pub_attrs_keys.
        simpl. destruct (Publication.source_type p); simpl; auto. }
    split.
    + unfold node_kinds. simpl in *. intuition.
    + intro Hj. rewrite Hj in Ht. simpl in Ht. intuition discriminate.
  - intros j old Hj _. split.
    + rewrite get_val_update by apply journal_attrs_keys. simpl. auto.
    + intros _. exists j. split; [assumption|]. split; [|reflexivity].
      rewrite get_val_update by apply journal_attrs_keys. reflexivity.
Qed.

End Nodes.

End NodeFacts.

(** ** The nodes that [add_edge] creates *)

Module ConnectFacts.
Import NX NXFacts Transformers BuilderFacts.

Lemma In_node_ensure_node n g k a :
  In (k, a) (_node (ensure_node n g)) ->
  In (k, a) (_node g) \/ (k = n /\ a = [] /\ Dict.mem (_adj g) n = false).
Proof.
  unfold ensure_node. destruct (Dict.mem (_adj g) n) eqn:E; simpl; [auto|].
  intro H. apply DictFacts.In_set in H. destruct H as [[-> ->]|H]; auto.
Qed.

Lemma has_node_add_edge u v attr g k :
  wf g -> has_node (add_edge u v attr g) k = (u =? k) || (v =? k) || has_node g k.
Proof.
  intro Hwf. unfold has_node. rewrite node_add_edge.
  fold (has_node (ensure_node v (ensure_node u g)) k).
  rewrite has_node_ensure_node by now apply wf_ensure_node.
  rewrite has_node_ensure_node by assumption.
  unfold has_node. destruct (u =? k), (v =? k); reflexivity.
Qed.

Lemma In_node_add_edge u v attr g k a :
  wf g ->
  In (k, a) (_node (add_edge u v attr g)) ->
  In (k, a) (_node g) \/ (a = [] /\ (k = u \/ k = v) /\ has_node g k = false).
Proof.
  intros Hwf H. rewrite node_add_edge in H.
  apply In_node_ensure_node in H. destruct H as [H|(-> & -> & Hm)].
  - apply In_node_ensure_node in H. destruct H as [H|(-> & -> & Hm)]; [auto|].
    right. unfold has_node. rewrite (mem_node_adj _ Hwf). auto.
  - right. split; [reflexivity|]. split; [auto|].
    rewrite mem_adj_ensure_node in Hm. apply orb_false_iff in Hm.
    unfold has_node. rewrite (mem_node_adj _ Hwf). tauto.
Qed.

Section Connect.
Variable g0 : DiGraph.

(** The nodes during [_connect_drugs_to_publications]: those of [g0] with
    their attributes, and bare ones for edge endpoints [g0] did not have. *)
Record node_inv (pre : list (Drug.t * Publication.t))
       (st : DiGraph * list (string * string)) : Prop := mk_node_inv {
  ni_keeps : forall k, has_node g0 k = true -> has_node (fst st) k = true;
  ni_nodes : forall k a,
      In (k, a) (_node (fst st)) ->
      In (k, a) (_node g0)
      \/ (a = [] /\ has_node g0 k = false
          /\ exists d p, In (d, p) pre /\ mentions d p = true
                         /\ (k = drug_id d \/ k = pub_id p \/ k = jkey p))
}.

Lemma node_inv_add_edge pre st d p v :
  wf (fst st) -> node_inv pre st ->
  In (d, p) pre -> mentions d p = true -> v = pub_id p \/ v = jkey p ->
  node_inv pre (add_edge (drug_id d) v (edge_attrs p) (fst st), snd st).
Proof.
  intros Hwf [Hk Hn] Hin Hm Hv. constructor; simpl.
  - intros k H. rewrite has_node_add_edge by assumption.
    rewrite (Hk k H). apply orb_true_r.
  - intros k a H. pose proof (@In_node_add_edge (drug_id d) v (edge_attrs p) (fst st) k a Hwf H) as H'.
    destruct H' as [H'|(-> & Hkk & Hf)]; [auto|].
    right. split; [reflexivity|]. split.
    + destruct (has_node g0 k) eqn:E; [|reflexivity].
      apply Hk in E. congruence.
    + exists d, p. intuition (subst; auto).
Qed.

Lemma node_inv_incl pre pre' st : incl pre pre' -> node_inv pre st -> node_inv pre' st.
Proof.
  intros Hi [Hk Hn]. constructor; [assumption|].
  intros k a H. destruct (Hn k a H) as [H'|(Ha & Hf & d & p & Hin & H')]; [auto|].
  right. split; [assumption|]. split; [assumption|]. exists d, p. auto.
Qed.

Lemma node_inv_step pre x st :
  edge_inv pre st -> node_inv pre st -> node_inv (pre ++ [x]) (step st x).
Proof.
  destruct st as [g conns], x as [d p]. intros Hinv Hn.
  assert (Hi : incl pre (pre ++ [(d, p)])) by (intros y Hy; apply in_or_app; now left).
  assert (Hnew : In (d, p) (pre ++ [(d, p)])) by (apply in_snoc; now right).
  apply (node_inv_incl Hi) in Hn.
  unfold step, connect_pub. simpl. fold (jkey p).
  destruct (mentions d p) eqn:Hm; [|assumption].
  pose proof (ei_wf Hinv) as Hwf. simpl in Hwf.
  assert (H1 : node_inv (pre ++ [(d, p)])
                        (add_edge (drug_id d) (pub_id p) (edge_attrs p) g, conns)).
  { apply (@node_inv_add_edge _ (g, conns)); auto. }
  destruct (existsb (pair_eqb (drug_id d, jkey p)) conns); simpl; [exact H1|].
  assert (H2 : node_inv (pre ++ [(d, p)])
                 (add_edge (drug_id d) (jkey p) (edge_attrs p)
                    (add_edge (drug_id d) (pub_id p) (edge_attrs p) g), conns)).
  { apply (@node_inv_add_edge _ (add_edge (drug_id d) (pub_id p) (edge_attrs p) g, conns));
      simpl; auto.
    now apply wf_add_edge. }
  destruct H2 as [Hk2 Hn2]. now constructor.
Qed.

Lemma node_inv_connect pairs :
  wf g0 -> no_edges g0 -> node_inv pairs (fold_left step pairs (g0, [])).
Proof.
  intros Hwf Hne.
  apply (LoopFacts.fold_left_prefix_ind
           step (fun pre st => edge_inv pre st /\ node_inv pre st)).
  - split.
    + constructor; simpl.
      * assumption.
      * intros u v. split; [contradiction|]. intros (d & p & [] & _).
      * intros u v a H. rewrite Hne in H. discriminate.
      * intros d p [].
    + constructor; simpl; auto.
  - intros pre x st _ [Hi Hn]. split.
    + now apply edge_inv_step.
    + now apply node_inv_step.
Qed.

End Connect.

End ConnectFacts.

(** ** The tally of the analytics query *)

Module TallyFacts.
Import NX Helpers.

(** How often [n] occurs in a list of journal names. *)
Definition occurrences (n : pyval) (l : list pyval) : nat :=
  List.length (filter (pyval_eqb n) l).

(** The journal names the inner loop counts for one out-edge. *)
Definition target_names (graph : DiGraph) (e : string * string) : list pyval :=
  match Dict.get (_node graph) (snd e) with
  | Some attrs =>
      if pyval_eqb (Dict.get_val attrs "type") (PyStr "journal")
      then [Dict.get_val attrs "name"] else []
  | None => []
  end.

(** The journal names counted by the query, one per edge from a matching
    drug node to a node of type journal, in the order of the two loops. *)
Definition journal_targets (graph : DiGraph) (drug_name : string) : list pyval :=
  flat_map (fun drug_node => flat_map (target_names graph) (out_edges graph drug_node))
           (drug_nodes graph drug_name).

Lemma pyval_eqb_sym (a b : pyval) : pyval_eqb a b = pyval_eqb b a.
Proof.
  destruct a, b; simpl; try reflexivity. apply String.eqb_sym.
Qed.

Lemma tally_get_set (d : Tally) (k k' : pyval) (n : nat) :
  tally_get (tally_set d k n) k' = if pyval_eqb k k' then Some n else tally_get d k'.
Proof.
  induction d as [|[k0 n0] r IH]; simpl.
  - reflexivity.
  - destruct (pyval_eqb k0 k) eqn:E; simpl.
    + apply pyval_eqb_eq in E. subst k0. now destruct (pyval_eqb k k').
    + rewrite IH. destruct (pyval_eqb k0 k') eqn:E'; [|reflexivity].
      apply pyval_eqb_eq in E'. subst k0. now rewrite pyval_eqb_sym, E.
Qed.

Lemma tally_keys_set (d : Tally) (k k' : pyval) (n : nat) :
  In k' (map fst (tally_set d k n)) -> k' = k \/ In k' (map fst d).
Proof.
  induction d as [|[k0 n0] r IH]; simpl.
  - intros [H|[]]. auto.
  - destruct (pyval_eqb k0 k); simpl; intros [H|H]; auto.
    destruct (IH H); auto.
Qed.

Lemma tally_nodup_set (d : Tally) (k : pyval) (n : nat) :
  NoDup (map fst d) -> NoDup (map fst (tally_set d k n)).
Proof.
  induction d as [|[k0 n0] r IH]; simpl; intro H.
  - repeat constructor. auto.
  - inversion H as [|? ? Hni Hnd]. subst.
    destruct (pyval_eqb k0 k) eqn:E; simpl; [now constructor|].
    constructor; [|auto].
    intro Hin. apply tally_keys_set in Hin. destruct Hin as [->|Hin]; [|auto].
    rewrite pyval_eqb_refl in E. discriminate.
Qed.

Lemma tally_get_In (d : Tally) (k : pyval) (c : nat) :
  tally_get d k = Some c -> In (k, c) d.
Proof.
  induction d as [|[k0 n0] r IH]; simpl; [discriminate|].
  destruct (pyval_eqb k0 k) eqn:E; [|auto].
  apply pyval_eqb_eq in E. intro H. inversion H. subst. auto.
Qed.

Lemma tally_In_get (d : Tally) (k : pyval) (c : nat) :
  NoDup (map fst d) -> In (k, c) d -> tally_get d k = Some c.
Proof.
  induction d as [|[k0 n0] r IH]; simpl; [tauto|].
  intros Hnd [H|H].
  - inversion H. subst. now rewrite pyval_eqb_refl.
  - inversion Hnd as [|? ? Hni Hnd']. subst.
    destruct (pyval_eqb k0 k) eqn:E; [|auto].
    apply pyval_eqb_eq in E. subst k0. exfalso. apply Hni.
    change k with (fst (k, c)). now apply in_map.
Qed.

Lemma occurrences_snoc (n x : pyval) (l : list pyval) :
  occurrences n (l ++ [x]) = occurrences n l + (if pyval_eqb n x then 1 else 0).
Proof.
  unfold occurrences. rewrite filter_app, length_app. simpl.
  now destruct (pyval_eqb n x).
Qed.

Lemma occurrences_In (n : pyval) (l : list pyval) : In n l <-> occurrences n l <> 0.
Proof.
  unfold occurrences. induction l as [|x r IH]; simpl; [tauto|].
  destruct (pyval_eqb n x) eqn:E; simpl.
  - apply pyval_eqb_eq in E. subst. split; [discriminate | auto].
  - apply pyval_eqb_neq in E. rewrite <- IH. split; [intros [H|H]|]; auto. congruence.
Qed.

(** What [journal_mentions] holds after counting the names of [l]. *)
Lemma count_mention_get (d : Tally) (x n : pyval) :
  tally_get (count_mention d x) n =
  if pyval_eqb x n
  then Some (match tally_get d x with Some c => c + 1 | None => 2 end)
  else tally_get d n.
Proof.
  unfold count_mention. destruct (tally_get d x) as [c|] eqn:E.
  - rewrite E. apply tally_get_set.
  - rewrite tally_get_set, pyval_eqb_refl, !tally_get_set.
    now destruct (pyval_eqb x n).
Qed.

Lemma count_mention_nodup (d : Tally) (x : pyval) :
  NoDup (map fst d) -> NoDup (map fst (count_mention d x)).
Proof.
  intro H. unfold count_mention. destruct (tally_get d x) as [c|] eqn:E.
  - rewrite E. now apply tally_nodup_set.
  - rewrite tally_get_set, pyval_eqb_refl. now apply tally_nodup_set, tally_nodup_set.
Qed.

Lemma tally_fold (l : list pyval) :
  NoDup (map fst (fold_left count_mention l []))
  /\ forall n, tally_get (fold_left count_mention l []) n =
               if (occurrences n l =? 0)%nat then None else Some (S (occurrences n l)).
Proof.
  induction l as [|x pre [IHn IHg]] using rev_ind.
  - split; [constructor | reflexivity].
  - rewrite fold_left_app. simpl. split; [now apply count_mention_nodup|].
    intro n. rewrite count_mention_get, occurrences_snoc, (pyval_eqb_sym n x).
    destruct (pyval_eqb x n) eqn:E.
    + apply pyval_eqb_eq in E. subst n. rewrite IHg.
      destruct (occurrences x pre) as [|c]; simpl; reflexivity.
    + rewrite IHg, Nat.add_0_r. reflexivity.
Qed.

Lemma list_max_ge (l : list nat) (c : nat) : In c l -> c <= list_max l.
Proof.
  unfold list_max. induction l as [|x r IH]; simpl; [tauto|].
  intros [->|H]; [lia|]. specialize (IH H). lia.
Qed.

Lemma list_max_In (l : list nat) : l <> [] -> In (list_max l) l.
Proof.
  unfold list_max. induction l as [|x r IH]; [congruence|]. intros _. simpl.
  destruct r as [|y t].
  - simpl. left. lia.
  - destruct (Nat.max_spec x (fold_right Nat.max 0 (y :: t))) as [[_ ->]|[_ ->]].
    + right. apply IH. discriminate.
    + now left.
Qed.

(** The journals kept by the comprehension over [journal_mentions]: those
    with the most edges. *)
Lemma top_journals_spec (l : list pyval) (n : pyval) :
  let d := fold_left count_mention l [] in
  In n (map fst (filter (fun jm => snd jm =? list_max (map snd d))%nat d)) <->
  In n l /\ forall m, In m l -> occurrences m l <= occurrences n l.
Proof.
  intro d. destruct (tally_fold l) as [Hnd Hget]. fold d in Hnd, Hget.
  assert (Hin : forall k c, In (k, c) d <-> In k l /\ c = S (occurrences k l)).
  { intros k c. split.
    - intro H. apply (@tally_In_get d k c Hnd) in H. rewrite Hget in H.
      destruct (occurrences k l =? 0)%nat eqn:E; [discriminate|].
      apply Nat.eqb_neq in E. inversion H. split; [now apply occurrences_In | reflexivity].
    - intros [H ->]. apply tally_get_In. rewrite Hget.
      apply occurrences_In in H. apply Nat.eqb_neq in H. now rewrite H. }
  rewrite in_map_iff. split.
  - intros [[k c] [<- H]]. apply filter_In in H. destruct H as [H Hc]. simpl in *.
    apply Nat.eqb_eq in Hc. apply Hin in H. destruct H as [Hk ->].
    split; [assumption|]. intros m Hm.
    assert (Hle : S (occurrences m l) <= list_max (map snd d)).
    { apply list_max_ge. apply in_map_iff. exists (m, S (occurrences m l)).
      split; [reflexivity|]. now apply Hin. }
    lia.
  - intros [Hn Hmax]. exists (n, S (occurrences n l)). split; [reflexivity|].
    apply filter_In. split; [now apply Hin|]. cbn [snd]. apply Nat.eqb_eq.
    assert (Hd : map snd d <> []).
    { assert (H : In (n, S (occurrences n l)) d) by now apply Hin.
      destruct d; [contradiction | discriminate]. }
    pose proof (list_max_In Hd) as Hm. apply in_map_iff in Hm.
    destruct Hm as [[k c] [Hc Hk]]. simpl in Hc. subst c.
    pose proof Hk as Hk'. apply Hin in Hk'. destruct Hk' as [Hkl Hkc].
    assert (Hle : S (occurrences n l) <= list_max (map snd d)).
    { apply list_max_ge. apply in_map_iff. exists (n, S (occurrences n l)).
      split; [reflexivity|]. now apply Hin. }
    specialize (Hmax k Hkl). lia.
Qed.

(** The count returned with a top journal is a function of the number of
    edges that journal receives. *)
Lemma top_count_spec (l : list pyval) (n : pyval) :
  let d := fold_left count_mention l [] in
  In n (map fst (filter (fun jm => snd jm =? list_max (map snd d))%nat d)) ->
  list_max (map snd d) = S (occurrences n l).
Proof.
  intros d H. destruct (tally_fold l) as [Hnd Hget]. fold d in Hnd, Hget.
  apply in_map_iff in H. destruct H as [[k c] [<- H]].
  apply filter_In in H. destruct H as [H Hc]. simpl in *.
  apply Nat.eqb_eq in Hc. apply (@tally_In_get d k c Hnd) in H. rewrite Hget in H.
  destruct (occurrences k l =? 0)%nat; [discriminate|]. inversion H. lia.
Qed.

Lemma all_str_map (l : list pyval) (ss : list string) :
  all_str l = Some ss -> l = map PyStr ss.
Proof.
  revert ss. induction l as [|[|s] r IH]; intros ss H; simpl in H.
  - inversion H. reflexivity.
  - discriminate.
  - destruct (all_str r) as [ss'|]; simpl in H; [|discriminate].
    inversion H. simpl. f_equal. now apply IH.
Qed.

Lemma sort_names_In (l s : list pyval) (x : pyval) :
  sort_names l = Ok s -> (In x s <-> In x l).
Proof.
  unfold sort_names. destruct (all_str l) as [ss|] eqn:E.
  - intro H. inversion H. apply all_str_map in E. subst l.
    rewrite !in_map_iff. split; intros [y [Hy Hin]]; exists y;
      (split; [assumption|]); now apply StrFacts.In_sort.
  - destruct l as [|a [|b t]]; intro H; inversion H; tauto.
Qed.

(** The two loops of the query compute the tally of [journal_targets]. *)
Lemma count_targets_fold (g : DiGraph) (es : list (string * string)) (d d' : Tally) :
  foldM (count_target g) es d = Ok d' ->
  d' = fold_left count_mention (flat_map (target_names g) es) d.
Proof.
  revert d. induction es as [|e r IH]; intros d H; simpl in H.
  - inversion H. reflexivity.
  - simpl. rewrite fold_left_app.
    destruct (count_target g d e) as [d1|] eqn:E; simpl in H; [|discriminate].
    rewrite (IH _ H). f_equal.
    unfold count_target, node_get, target_names in *.
    destruct (Dict.get (_node g) (snd e)) as [attrs|]; simpl in E; [|discriminate].
    destruct (pyval_eqb (Dict.get_val attrs "type") (PyStr "journal"));
      simpl in E; inversion E; reflexivity.
Qed.

Lemma count_nodes_fold (g : DiGraph) (ns : list string) (d d' : Tally) :
  foldM (fun d drug_node => foldM (count_target g) (out_edges g drug_node) d) ns d = Ok d' ->
  d' = fold_left count_mention
                 (flat_map (fun n => flat_map (target_names g) (out_edges g n)) ns) d.
Proof.
  revert d. induction ns as [|n r IH]; intros d H; simpl in H.
  - inversion H. reflexivity.
  - simpl. rewrite fold_left_app.
    destruct (foldM (count_target g) (out_edges g n) d) as [d1|] eqn:E;
      simpl in H; [|discriminate].
    rewrite (IH _ H). f_equal. now apply count_targets_fold.
Qed.

(** When the query finds journals, what it returns. *)
Lemma most_mentions_in_spec (g : DiGraph) (drug_name : string)
      (names : list pyval) (count : nat) :
  most_mentions_in g drug_name = Ok (names, count) ->
  journal_targets g drug_name <> [] ->
  let d := fold_left count_mention (journal_targets g drug_name) [] in
  count = list_max (map snd d)
  /\ forall n, In n names <->
               In n (map fst (filter (fun jm => snd jm =? list_max (map snd d))%nat d)).
Proof.
  intros H Hne d. unfold most_mentions_in in H. unfold journal_targets in Hne, d.
  destruct (drug_nodes g drug_name) as [|n0 ns] eqn:En; [now elim Hne|].
  destruct (foldM (fun (d : Tally) (drug_node : string) =>
                     foldM (count_target g) (out_edges g drug_node) d)
                  (n0 :: ns) []) as [jm|] eqn:E; simpl in H; [|discriminate].
  apply count_nodes_fold in E. fold d in E. subst jm.
  destruct d as [|e0 r] eqn:Ed; [|].
  - exfalso. destruct (tally_fold (journal_targets g drug_name)) as [_ Hg].
    unfold journal_targets in Hg. rewrite En in Hg. fold d in Hg.
    destruct (flat_map _ (n0 :: ns)) as [|x t] eqn:Ef; [now elim Hne|].
    specialize (Hg x). rewrite Ed in Hg. simpl in Hg.
    assert (Hx : occurrences x (x :: t) <> 0) by (apply occurrences_In; now left).
    apply Nat.eqb_neq in Hx. rewrite Hx in Hg. discriminate.
  - destruct (sort_names _) as [sorted|] eqn:Es; simpl in H; [|discriminate].
    inversion H. subst. split; [reflexivity|].
    intro n. now apply sort_names_In.
Qed.

End TallyFacts.

(** ** Export followed by import *)

Module CodecFacts.
Import NX NXFacts Transformers BuilderFacts Helpers.


(** Two loop bodies that agree wherever an invariant holds give the same
    result. *)
Lemma fold_left_agree (A S : Type) (f h : S -> A -> S) (P : S -> Prop)
      (l : list A) (s0 : S) :
  P s0 ->
  (forall s x, In x l -> P s -> f s x = h s x /\ P (h s x)) ->
  fold_left f l s0 = fold_left h l s0 /\ P (fold_left h l s0).
Proof.
  revert s0. induction l as [|x r IH]; intros s0 H0 Hs; simpl; [auto|].
  destruct (Hs s0 x (or_introl eq_refl) H0) as [-> Hp].
  apply IH; [assumption|]. intros s y Hy. apply Hs. now right.
Qed.

(** [add_node] with a key that is not a node yet appends the node. *)
Lemma add_node_fresh n attr g :
  wf g -> ~ In n (Dict.keys (_node g)) -> Dict.update [] attr = attr ->
  add_node n attr g = mkDiGraph (_node g ++ [(n, attr)]) (_adj g ++ [(n, [])]).
Proof.
  intros Hwf Hn Hu. unfold add_node.
  assert (Hm : Dict.mem (_adj g) n = false).
  { rewrite <- (mem_node_adj n Hwf). now apply DictFacts.mem_false_keys. }
  rewrite Hm, Hu. f_equal; apply DictFacts.set_fresh.
  - apply DictFacts.get_None_keys. assumption.
  - apply DictFacts.get_None_keys. now apply DictFacts.mem_false_keys.
Qed.

Lemma add_nodes_fresh (A : Type) (key : A -> string) (attrs : A -> Attrs)
      (l : list A) (g : DiGraph) :
  wf g -> NoDup (Dict.keys (_node g) ++ map key l) ->
  (forall x, Dict.update [] (attrs x) = attrs x) ->
  fold_left (fun g x => add_node (key x) (attrs x) g) l g
  = mkDiGraph (_node g ++ map (fun x => (key x, attrs x)) l)
              (_adj g ++ map (fun x => (key x, [])) l).
Proof.
  intros Hwf Hnd Hu. revert g Hwf Hnd.
  induction l as [|x r IH]; intros g Hwf Hnd; simpl.
  - rewrite !app_nil_r. now destruct g.
  - assert (Hx : ~ In (key x) (Dict.keys (_node g))).
    { simpl in Hnd. apply NoDup_remove_2 in Hnd. intro H. apply Hnd.
      apply in_or_app. now left. }
    rewrite IH.
    + rewrite add_node_fresh by auto. simpl. now rewrite <- !app_assoc.
    + now apply wf_add_node.
    + rewrite add_node_fresh by auto. simpl. unfold Dict.keys in *.
      rewrite map_app, <- app_assoc. exact Hnd.
Qed.

(** When all endpoints are nodes already, the edge loops of the builder
    leave the nodes alone. *)
Lemma connect_nodes_same (pairs : list (Drug.t * Publication.t)) (g0 : DiGraph) :
  wf g0 ->
  (forall d p, In (d, p) pairs -> mentions d p = true ->
               has_node g0 (drug_id d) = true /\ has_node g0 (pub_id p) = true
               /\ has_node g0 (jkey p) = true) ->
  _node (fst (fold_left step pairs (g0, []))) = _node g0.
Proof.
  intros Hwf Hall.
  assert (G : wf (fst (fold_left step pairs (g0, [])))
              /\ _node (fst (fold_left step pairs (g0, []))) = _node g0);
    [|tauto].
  apply (fold_left_inv step (fun st => wf (fst st) /\ _node (fst st) = _node g0)).
  - auto.
  - intros [g conns] [d p] Hin [Hw He]. simpl in *.
    unfold step, connect_pub. simpl.
    destruct (mentions d p) eqn:Hm; [|auto].
    destruct (Hall d p Hin Hm) as (Hd & Hp & Hj).
    assert (Hh : forall k, has_node g k = has_node g0 k)
      by (intro k; unfold has_node; now rewrite He).
    assert (H1 : _node (add_edge (drug_id d) (pub_id p) (edge_attrs p) g) = _node g0).
    { rewrite node_add_edge_present; rewrite ?Hh; auto. }
    destruct (existsb _ conns); cbn [negb fst].
    + split; [now apply wf_add_edge | exact H1].
    + split; [now apply wf_add_edge, wf_add_edge|].
      fold (jkey p). rewrite node_add_edge_present; auto.
      * now apply wf_add_edge.
      * unfold has_node. rewrite H1. exact Hd.
      * unfold has_node. rewrite H1. exact Hj.
Qed.


(** The loader's lookup loop finds the node when the test singles it out. *)
Lemma find_node_unique (g : DiGraph) (test : Attrs -> bool) (k : string) :
  (exists a, In (k, a) (nodes g) /\ test a = true) ->
  (forall k' a', In (k', a') (nodes g) -> test a' = true -> k' = k) ->
  find_node g test = PyStr k.
Proof.
  intros [a [Hin Ht]] Huniq. unfold find_node.
  destruct (find (fun na => test (snd na)) (nodes g)) as [[k' a']|] eqn:E.
  - apply find_some in E. destruct E as [Hin' Ht']. simpl in *.
    now rewrite (Huniq k' a' Hin' Ht').
  - exfalso. pose proof (find_none _ _ E (k, a) Hin) as H. simpl in H. congruence.
Qed.

Lemma filter_split_perm (A : Type) (p q : A -> bool) (l : list A) :
  (forall x, q x = negb (p x)) -> Permutation l (filter p l ++ filter q l).
Proof.
  intro H. induction l as [|x r IH]; simpl; [constructor|].
  rewrite H. destruct (p x); simpl.
  - now constructor.
  - now apply Permutation_cons_app.
Qed.

Lemma foldM_collect (A B : Type) (h : A -> res B) (f : A -> B) (l : list A)
      (acc : list B) :
  (forall x, In x l -> h x = Ok (f x)) ->
  foldM (fun acc x => r <- h x ;; Ok (acc ++ [r])) l acc = Ok (acc ++ map f l).
Proof.
  revert acc. induction l as [|x r IH]; intros acc H; simpl.
  - now rewrite app_nil_r.
  - rewrite (H x) by now left. simpl. rewrite IH by (intros; apply H; now right).
    now rewrite <- app_assoc.
Qed.

End CodecFacts.

(** ** Round trip of a built graph *)

Module RoundTrip.
Import NX NXFacts Transformers BuilderFacts NodeFacts Helpers CodecFacts.

(** Input whose export the loader can read back: no two drugs share an
    ATC code and no two publications an (id, source type) pair, by which
    the relationship records name their ends; no drug name is empty, or
    the loader takes the drug's key for a missing node; and every
    publication that mentions a drug has a journal name that is not blank,
    or its journal edge ends in a node without attributes, for which no
    record is written. *)
Definition reloadable (drugs : list Drug.t) (pubs : list Publication.t) : Prop :=
  NoDup (map Drug.atccode drugs)
  /\ NoDup (map Publication.hash_key pubs)
  /\ (forall d, In d drugs -> Drug.name d <> "")
  /\ (forall d p, In d drugs -> In p pubs -> mentions d p = true ->
                  nonblank (Publication.journal_name p) = true).

(** No two entities share a node key, whether through the cut at 20
    characters, through the lower case or by plain coincidence of a drug
    name, a title and a journal name. *)
Definition distinct_keys (drugs : list Drug.t) (pubs : list Publication.t) : Prop :=
  NoDup (map drug_id drugs ++ map pub_id pubs ++ map journal_id (journal_names pubs)).

(** What is compared: node keys, and edges with their two attributes. *)
Definition node_keys (g : DiGraph) : list string := map fst (nodes g).

Definition edge_view (g : DiGraph) : list (string * string * pyval * pyval) :=
  map (fun e => (fst (fst e), snd (fst e),
                 Dict.get_val (snd e) "relationship",
                 Dict.get_val (snd e) "date_mention"))
      (edges g).

Definition is_pubmed (p : Publication.t) : bool :=
  PublicationType_eqb (Publication.source_type p) PUBMED.
Definition is_trial (p : Publication.t) : bool :=
  PublicationType_eqb (Publication.source_type p) CLINICAL_TRIAL.

Definition drug_entry (d : Drug.t) : string * Attrs := (drug_id d, drug_attrs d).
Definition pub_entry (p : Publication.t) : string * Attrs := (pub_id p, pub_attrs p).
Definition journal_entry (n : string) : string * Attrs :=
  (journal_id n, journal_attrs (Journal.mk n)).

(** The records [save_graph_to_json] writes for the nodes. *)
Definition drug_json (d : Drug.t) : JObj :=
  [("atccode", PyStr (Drug.atccode d)); ("name", PyStr (drug_id d))].
Definition pub_json (p : Publication.t) : JObj :=
  [("id", PyStr (Publication.id p)); ("title", PyStr (Publication.title p));
   ("date", PyStr (Publication.date p));
   ("journal_name", PyStr (Publication.journal_name p));
   ("source_type", PyStr (PublicationType_value (Publication.source_type p)))].
Definition journal_json (n : string) : JObj := [("name", PyStr n)].


Lemma NoDup_map_inj (A B : Type) (f : A -> B) (l : list A) (x y : A) :
  NoDup (map f l) -> In x l -> In y l -> f x = f y -> x = y.
Proof.
  induction l as [|z r IH]; simpl; [tauto|].
  intros Hnd Hx Hy E. inversion Hnd as [|? ? Hni Hnd']. subst.
  destruct Hx as [->|Hx], Hy as [->|Hy]; auto.
  - exfalso. apply Hni. rewrite E. now apply in_map.
  - exfalso. apply Hni. rewrite <- E. now apply in_map.
Qed.






Lemma save_drug_nodes (l : list Drug.t) (acc : NodeLists) :
  foldM save_node (map drug_entry l) acc
  = Ok (mkNodeLists (nl_drugs acc ++ map drug_json l) (nl_pubmeds acc)
                    (nl_clinical_trials acc) (nl_journals acc)).
Proof.
  revert acc. induction l as [|d r IH]; intro acc; simpl.
  - rewrite app_nil_r. now destruct acc.
  - rewrite IH. simpl. now rewrite <- app_assoc.
Qed.

Lemma save_pub_nodes (l : list Publication.t) (acc : NodeLists) :
  foldM save_node (map pub_entry l) acc
  = Ok (mkNodeLists (nl_drugs acc)
                    (nl_pubmeds acc ++ map pub_json (filter is_pubmed l))
                    (nl_clinical_trials acc ++ map pub_json (filter is_trial l))
                    (nl_journals acc)).
Proof.
  revert acc. induction l as [|p r IH]; intro acc.
  - simpl. rewrite !app_nil_r. now destruct acc.
  - cbn [map foldM]. unfold is_pubmed, is_trial. cbn [filter].
    destruct p as [i t dt j st]. destruct st; simpl; rewrite IH; simpl;
      now rewrite <- ?app_assoc.
Qed.

Lemma save_journal_nodes (l : list string) (acc : NodeLists) :
  foldM save_node (map journal_entry l) acc
  = Ok (mkNodeLists (nl_drugs acc) (nl_pubmeds acc) (nl_clinical_trials acc)
                    (nl_journals acc ++ map journal_json l)).
Proof.
  revert acc. induction l as [|n r IH]; intro acc; simpl.
  - rewrite app_nil_r. now destruct acc.
  - rewrite IH. simpl. now rewrite <- app_assoc.
Qed.

Section Trip.
Variable set_iter : list string -> list string.
Variable drugs : list Drug.t.
Variables pubmed trials : list Publication.t.

Let pubs := pubmed ++ trials.
Let names := set_iter (journal_names pubs).
Let built := build_drug_mention_graph set_iter drugs pubmed trials.

Hypothesis Hiter : set_iter_ok set_iter.
Hypothesis Hwf : reloadable drugs pubs.
Hypothesis Hkeys : distinct_keys drugs pubs.

Lemma keys_nodup :
  NoDup (map drug_id drugs ++ map pub_id pubs ++ map journal_id names).
Proof.
  eapply Permutation_NoDup; [|exact Hkeys].
  do 2 apply Permutation_app_head. apply Permutation_map, Hiter.
Qed.

(** The nodes of the built graph, in order. *)
Definition built_nodes : list (string * Attrs) :=
  map drug_entry drugs ++ map pub_entry pubs ++ map journal_entry names.

Lemma built_nodes_keys :
  Dict.keys built_nodes = map drug_id drugs ++ map pub_id pubs ++ map journal_id names.
Proof.
  unfold built_nodes, Dict.keys. rewrite !map_app, !map_map. reflexivity.
Qed.

Lemma node_phase_closed :
  node_phase set_iter drugs pubmed trials
  = mkDiGraph built_nodes (map (fun e => (fst e, [])) built_nodes).
Proof.
  unfold node_phase, _add_nodes_to_graph, _extract_journals. fold pubs. fold names.
  pose proof keys_nodup as Hnd.
  (* the drugs *)
  destruct (add_nodes_wf drug_id drug_attrs drugs wf_empty no_edges_empty) as [W1 N1].
  assert (E1 : fold_left (fun g x => add_node (drug_id x) (drug_attrs x) g) drugs empty
               = mkDiGraph (map drug_entry drugs)
                           (map (fun x => (drug_id x, [])) drugs)).
  { rewrite (add_nodes_fresh drug_id drug_attrs drugs wf_empty); [reflexivity| |reflexivity].
    simpl. eapply NoDup_app_remove_r. exact Hnd. }
  rewrite E1 in *. clear E1.
  (* the publications *)
  match type of W1 with wf ?g => set (g1 := g) in * end.
  destruct (add_nodes_wf pub_id pub_attrs pubs W1 N1) as [W2 N2].
  assert (E2 : fold_left (fun g x => add_node (pub_id x) (pub_attrs x) g) pubs g1
               = mkDiGraph (map drug_entry drugs ++ map pub_entry pubs)
                           (map (fun x => (drug_id x, [])) drugs
                            ++ map (fun x => (pub_id x, [])) pubs)).
  { rewrite (add_nodes_fresh pub_id pub_attrs pubs W1); [reflexivity| |reflexivity].
    simpl. unfold Dict.keys. rewrite map_map. simpl.
    rewrite app_assoc in Hnd. eapply NoDup_app_remove_r. exact Hnd. }
  rewrite E2 in *. clear E2.
  (* the journals *)
  match type of W2 with wf ?g => set (g2 := g) in * end.
  rewrite (add_nodes_fresh (fun j => journal_id (Journal.name j)) journal_attrs
             (map Journal.mk names) W2).
  - simpl. unfold built_nodes, drug_entry, pub_entry, journal_entry.
    rewrite !map_app, !map_map, <- !app_assoc. reflexivity.
  - simpl. unfold Dict.keys. rewrite !map_app, !map_map. simpl.
    rewrite <- app_assoc. exact Hnd.
  - reflexivity.
Qed.

Lemma save_nodes_closed :
  foldM save_node built_nodes (mkNodeLists [] [] [] [])
  = Ok (mkNodeLists (map drug_json drugs)
                    (map pub_json (filter is_pubmed pubs))
                    (map pub_json (filter is_trial pubs))
                    (map journal_json names)).
Proof.
  unfold built_nodes.
  rewrite LoopFacts.foldM_app, save_drug_nodes. simpl.
  rewrite LoopFacts.foldM_app, save_pub_nodes. simpl.
  rewrite save_journal_nodes. reflexivity.
Qed.

Lemma node_phase_has_endpoints d p :
  In (d, p) (list_prod drugs pubs) -> mentions d p = true ->
  has_node (node_phase set_iter drugs pubmed trials) (drug_id d) = true
  /\ has_node (node_phase set_iter drugs pubmed trials) (pub_id p) = true
  /\ has_node (node_phase set_iter drugs pubmed trials) (jkey p) = true.
Proof.
  intros Hin Hm. apply in_prod_iff in Hin. destruct Hin as [Hd Hp].
  destruct Hwf as (_ & _ & _ & Hnb).
  repeat split; apply node_phase_has_node.
  - left. now apply in_map.
  - right. left. now apply in_map.
  - right. right. unfold _extract_journals. rewrite map_map. simpl.
    unfold jkey. apply in_map. apply (Permutation_in _ (Hiter _)).
    apply (proj2 (journal_names_spec _ _)). exists p. eauto.
Qed.

Lemma built_nodes_same : _node built = built_nodes.
Proof.
  unfold built. rewrite build_unfold. unfold final_state. fold pubs.
  rewrite connect_nodes_same.
  - now rewrite node_phase_closed.
  - apply node_phase_wf.
  - apply node_phase_has_endpoints.
Qed.

Lemma built_wf : wf built.
Proof. apply build_wf. Qed.

Lemma built_nodes_nodup : NoDup (Dict.keys built_nodes).
Proof. rewrite built_nodes_keys. apply keys_nodup. Qed.

Lemma built_get (k : string) (a : Attrs) :
  In (k, a) built_nodes -> Dict.get (_node built) k = Some a.
Proof.
  intro H. rewrite built_nodes_same.
  apply DictFacts.In_get; [apply built_nodes_nodup | assumption].
Qed.

Lemma built_get_drug d : In d drugs -> Dict.get (_node built) (drug_id d) = Some (drug_attrs d).
Proof.
  intro H. apply built_get. unfold built_nodes. apply in_or_app. left.
  now apply (in_map drug_entry).
Qed.

Lemma built_get_pub p : In p pubs -> Dict.get (_node built) (pub_id p) = Some (pub_attrs p).
Proof.
  intro H. apply built_get. unfold built_nodes. apply in_or_app. right.
  apply in_or_app. left. now apply (in_map pub_entry).
Qed.

Lemma built_get_journal n :
  In n names -> Dict.get (_node built) (journal_id n) = Some (journal_attrs (Journal.mk n)).
Proof.
  intro H. apply built_get. unfold built_nodes. apply in_or_app. right.
  apply in_or_app. right. now apply (in_map journal_entry).
Qed.

(** *** The nodes of the loaded graph *)

Definition loaded_nodes : list (string * Attrs) :=
  map drug_entry drugs ++ map pub_entry (filter is_pubmed pubs)
  ++ map pub_entry (filter is_trial pubs) ++ map journal_entry names.

(** The graph the loader has built when it reaches the relationships. *)
Definition loaded0 : DiGraph :=
  mkDiGraph loaded_nodes (map (fun e => (fst e, [])) loaded_nodes).

Lemma pubs_split : Permutation pubs (filter is_pubmed pubs ++ filter is_trial pubs).
Proof.
  apply filter_split_perm. intro p. unfold is_pubmed, is_trial.
  now destruct (Publication.source_type p).
Qed.


Lemma In_loaded_nodes (x : string * Attrs) : In x loaded_nodes <-> In x built_nodes.
Proof.
  unfold loaded_nodes, built_nodes. rewrite !in_app_iff.
  assert (H : In x (map pub_entry pubs) <->
              In x (map pub_entry (filter is_pubmed pubs))
              \/ In x (map pub_entry (filter is_trial pubs))).
  { rewrite <- in_app_iff, <- map_app. split; apply Permutation_in, Permutation_map.
    - apply pubs_split.
    - apply Permutation_sym, pubs_split. }
  rewrite H. tauto.
Qed.



(** *** Node keys are truthy *)

Lemma truthy_drug_id d : In d drugs -> Str.truthy (drug_id d) = true.
Proof.
  intro H. destruct Hwf as (_ & _ & Hn & _).
  unfold drug_id. rewrite StrFacts.truthy_lower. apply StrFacts.truthy_true. auto.
Qed.

Lemma truthy_pub_id d p :
  In d drugs -> mentions d p = true -> Str.truthy (pub_id p) = true.
Proof.
  intros Hd Hm. unfold pub_id.
  rewrite StrFacts.truthy_lower, (StrFacts.truthy_take 19).
  rewrite <- StrFacts.truthy_lower.
  apply (StrFacts.contains_truthy _ _ Hm). now apply truthy_drug_id.
Qed.

Lemma truthy_journal_id n : nonblank n = true -> Str.truthy (journal_id n) = true.
Proof.
  unfold nonblank, journal_id. intro H. apply andb_true_iff in H.
  now rewrite (StrFacts.truthy_take 19).
Qed.

(** *** What is written for an edge, and how it is read back *)

Lemma built_node_cases (k : string) (a : Attrs) :
  In (k, a) built_nodes ->
  (exists d, In d drugs /\ k = drug_id d /\ a = drug_attrs d)
  \/ (exists p, In p pubs /\ k = pub_id p /\ a = pub_attrs p)
  \/ (exists n, In n names /\ k = journal_id n /\ a = journal_attrs (Journal.mk n)).
Proof.
  unfold built_nodes. rewrite !in_app_iff, !in_map_iff.
  intros [(d & E & H)|[(p & E & H)|(n & E & H)]]; inversion E; eauto 7.
Qed.

Definition drug_ref (d : Drug.t) : JObj :=
  [("id", PyStr (Drug.atccode d)); ("type", PyStr "drug")].
Definition pub_ref (p : Publication.t) : JObj :=
  [("id", PyStr (Publication.id p));
   ("type", PyStr (PublicationType_value (Publication.source_type p)))].
Definition journal_ref (n : string) : JObj :=
  [("id", PyStr n); ("type", PyStr "journal")].

Lemma save_edge_to_pub d p a :
  In d drugs -> In p pubs ->
  save_edge built (drug_id d, pub_id p, a)
  = Ok (mkRelationship (Some (drug_ref d)) (Some (pub_ref p))
                       (Dict.get_val a "relationship") (Dict.get_val a "date_mention")).
Proof.
  intros Hd Hp. unfold save_edge, node_get.
  rewrite (built_get_drug _ Hd), (built_get_pub _ Hp).
  unfold pub_ref. destruct p as [i t dt j st]. now destruct st.
Qed.

Lemma save_edge_to_journal d n a :
  In d drugs -> In n names ->
  save_edge built (drug_id d, journal_id n, a)
  = Ok (mkRelationship (Some (drug_ref d)) (Some (journal_ref n))
                       (Dict.get_val a "relationship") (Dict.get_val a "date_mention")).
Proof.
  intros Hd Hn. unfold save_edge, node_get.
  rewrite (built_get_drug _ Hd), (built_get_journal _ Hn). reflexivity.
Qed.

Section Resolve.
(** Any graph with the nodes of the loaded graph. *)
Variable h : DiGraph.
Hypothesis Hnodes : _node h = loaded_nodes.

Lemma resolve_drug d :
  In d drugs -> resolve_source h (PyStr (Drug.atccode d)) (PyStr "drug") = PyStr (drug_id d).
Proof.
  intro Hd. unfold resolve_source. simpl. apply find_node_unique.
  - exists (drug_attrs d). split.
    + unfold nodes. rewrite Hnodes. apply In_loaded_nodes.
      unfold built_nodes. apply in_or_app. left. now apply (in_map drug_entry).
    + simpl. apply String.eqb_refl.
  - intros k' a' Hin Ht. unfold nodes in Hin. rewrite Hnodes in Hin.
    apply In_loaded_nodes, built_node_cases in Hin.
    destruct Hin as [(d' & Hd' & -> & ->)|[(p & _ & -> & ->)|(n & _ & -> & ->)]].
    + simpl in Ht. apply String.eqb_eq in Ht.
      destruct Hwf as (Hatc & _). f_equal.
      now apply (NoDup_map_inj Drug.atccode drugs d' d Hatc).
    + exfalso. destruct p as [i t dt j st]. destruct st; discriminate Ht.
    + discriminate Ht.
Qed.

Lemma resolve_pub p :
  In p pubs ->
  resolve_target h (PyStr (Publication.id p))
                 (PyStr (PublicationType_value (Publication.source_type p)))
  = PyStr (pub_id p).
Proof.
  intro Hp. unfold resolve_target.
  assert (Hty : is_publication_type
                  (PyStr (PublicationType_value (Publication.source_type p))) = true)
    by now destruct (Publication.source_type p).
  rewrite Hty. apply find_node_unique.
  - exists (pub_attrs p). split.
    + unfold nodes. rewrite Hnodes. apply In_loaded_nodes.
      unfold built_nodes. apply in_or_app. right. apply in_or_app. left.
      now apply (in_map pub_entry).
    + unfold pub_attrs, Dict.get_val. simpl.
      now rewrite !String.eqb_refl.
  - intros k' a' Hin Ht. unfold nodes in Hin. rewrite Hnodes in Hin.
    apply In_loaded_nodes, built_node_cases in Hin.
    destruct Hin as [(d' & _ & -> & ->)|[(p' & Hp' & -> & ->)|(n & _ & -> & ->)]].
    + exfalso. destruct (Publication.source_type p); discriminate Ht.
    + f_equal. destruct Hwf as (_ & Hids & _).
      apply (NoDup_map_inj Publication.hash_key pubs p' p Hids Hp' Hp).
      unfold pub_attrs, Dict.get_val in Ht. simpl in Ht.
      apply andb_true_iff in Ht. destruct Ht as [Hs Hi].
      apply String.eqb_eq in Hs, Hi. unfold Publication.hash_key. f_equal; [assumption|].
      destruct (Publication.source_type p'), (Publication.source_type p);
        try reflexivity; discriminate Hs.
    + exfalso. destruct (Publication.source_type p); discriminate Ht.
Qed.

Lemma resolve_journal n :
  Str.truthy n = true ->
  resolve_target h (PyStr n) (PyStr "journal") = PyStr (journal_id n).
Proof. intro H. unfold resolve_target. simpl. now rewrite H. Qed.

Lemma has_loaded_node k a : In (k, a) built_nodes -> has_node h k = true.
Proof.
  intro H. unfold has_node. apply DictFacts.mem_keys. rewrite Hnodes.
  apply In_loaded_nodes in H. change k with (fst (k, a)). now apply in_map.
Qed.

End Resolve.

Lemma load_relationship_refs (h : DiGraph) (sref tref : JObj) (ty dt : pyval) :
  load_relationship h (mkRelationship (Some sref) (Some tref) ty dt)
  = match resolve_source h (Dict.get_val sref "id") (Dict.get_val sref "type"),
          resolve_target h (Dict.get_val tref "id") (Dict.get_val tref "type") with
    | PyStr s, PyStr t =>
        if Str.truthy s && Str.truthy t && has_node h s && has_node h t
        then add_edge s t [("relationship", ty); ("date_mention", dt)] h
        else h
    | _, _ => h
    end.
Proof. reflexivity. Qed.

Lemma names_of_mentions d p :
  In d drugs -> In p pubs -> mentions d p = true ->
  In (Publication.journal_name p) names
  /\ nonblank (Publication.journal_name p) = true.
Proof.
  intros Hd Hp Hm. destruct Hwf as (_ & _ & _ & Hnb).
  split; [|eauto]. apply (Permutation_in _ (Hiter _)).
  apply (proj2 (journal_names_spec _ _)). exists p. eauto.
Qed.

(** An edge of the built graph is written to a record from which the
    loader adds the same edge. *)
Lemma load_saved_edge (h : DiGraph) (u v : string) (a : Attrs) :
  _node h = loaded_nodes ->
  In (u, v, a) (edges built) ->
  exists r, save_edge built (u, v, a) = Ok r
            /\ load_relationship h r = add_edge u v a h
            /\ Dict.update [] a = a
            /\ has_node h u = true /\ has_node h v = true.
Proof.
  intros Hn Hin.
  apply (In_edges_edge_data _ _ _ built_wf) in Hin.
  apply build_edge_origin in Hin.
  destruct Hin as (d & p & Hd & Hp & Hm & -> & Hv & ->).
  assert (Hu : has_node h (drug_id d) = true).
  { apply (has_loaded_node h Hn (drug_id d) (drug_attrs d)).
    unfold built_nodes. apply in_or_app. left. now apply (in_map drug_entry). }
  destruct Hv as [->| ->].
  - assert (Hvn : has_node h (pub_id p) = true).
    { apply (has_loaded_node h Hn (pub_id p) (pub_attrs p)).
      unfold built_nodes. apply in_or_app. right. apply in_or_app. left.
      now apply (in_map pub_entry). }
    eexists. split; [now apply save_edge_to_pub|].
    split; [|auto].
    rewrite load_relationship_refs.
    change (Dict.get_val (drug_ref d) "id") with (PyStr (Drug.atccode d)).
    change (Dict.get_val (drug_ref d) "type") with (PyStr "drug").
    change (Dict.get_val (pub_ref p) "id") with (PyStr (Publication.id p)).
    change (Dict.get_val (pub_ref p) "type")
      with (PyStr (PublicationType_value (Publication.source_type p))).
    rewrite (resolve_drug h Hn d Hd), (resolve_pub h Hn p Hp).
    rewrite (truthy_drug_id d Hd), (truthy_pub_id d p Hd Hm), Hu, Hvn.
    reflexivity.
  - destruct (names_of_mentions d p Hd Hp Hm) as [Hname Hnb].
    assert (Hvn : has_node h (jkey p) = true).
    { apply (has_loaded_node h Hn (jkey p)
               (journal_attrs (Journal.mk (Publication.journal_name p)))).
      unfold built_nodes. apply in_or_app. right. apply in_or_app. right.
      now apply (in_map journal_entry). }
    unfold jkey in *.
    eexists. split; [now apply save_edge_to_journal|].
    split; [|auto].
    rewrite load_relationship_refs.
    change (Dict.get_val (drug_ref d) "id") with (PyStr (Drug.atccode d)).
    change (Dict.get_val (drug_ref d) "type") with (PyStr "drug").
    change (Dict.get_val (journal_ref (Publication.journal_name p)) "id")
      with (PyStr (Publication.journal_name p)).
    change (Dict.get_val (journal_ref (Publication.journal_name p)) "type")
      with (PyStr "journal").
    rewrite (resolve_drug h Hn d Hd), (resolve_journal h).
    2: { unfold nonblank in Hnb. apply andb_true_iff in Hnb. tauto. }
    rewrite (truthy_drug_id d Hd), (truthy_journal_id _ Hnb), Hu, Hvn.
    reflexivity.
Qed.

(** The record written for an edge of the built graph. *)
Definition saved (e : string * string * Attrs) : Relationship :=
  match save_edge built e with
  | Ok r => r
  | Raise _ => mkRelationship None None PyNone PyNone
  end.

(** The document written for the built graph. *)
Definition saved_document : Document :=
  mkDocument (Some (map drug_json drugs))
             (Some (mkPublications (Some (map pub_json (filter is_pubmed pubs)))
                                   (Some (map pub_json (filter is_trial pubs)))))
             (Some (map journal_json names))
             (Some (map saved (edges built))).

Lemma loaded0_nodes : _node loaded0 = loaded_nodes.
Proof. reflexivity. Qed.

Lemma save_built : save_graph_to_json built = Ok saved_document.
Proof.
  unfold save_graph_to_json. unfold nodes at 1.
  rewrite built_nodes_same, save_nodes_closed. cbn [bind].
  rewrite (foldM_collect (save_edge built) saved (edges built) []).
  - reflexivity.
  - intros [[u v] a] Hin.
    destruct (load_saved_edge loaded0 u v a loaded0_nodes Hin) as (r & Hs & _).
    unfold saved. now rewrite Hs.
Qed.

(** The loaded graph: the edges of the built graph added to [loaded0]. *)
Definition reloaded : DiGraph :=
  fold_left (fun g e => add_edge (fst (fst e)) (snd (fst e)) (snd e) g)
            (edges built) loaded0.

Lemma fold_left_over_map (A B S : Type) (f : S -> B -> S) (m : A -> B)
      (l : list A) (s : S) :
  fold_left f (map m l) s = fold_left (fun s x => f s (m x)) l s.
Proof.
  revert s. induction l as [|x r IH]; intro s; simpl; [reflexivity | apply IH].
Qed.



End Trip.

End RoundTrip.

(* ================================================================= *)
(** * The claims *)

Import Transformers.

(** The scenario of the specification: one drug, one PubMed publication. *)
Definition scenario_drugs : list Drug.t := [Drug.mk "A1" "Epinephrine"].
Definition scenario_pubmed : list Publication.t :=
  [Publication.mk "1" "Epinephrine use in anaphylaxis" "2020-01-01" "NEJM" PUBMED].
Definition scenario_graph : NX.DiGraph :=
  build_drug_mention_graph insertion_order scenario_drugs scenario_pubmed [].

(** An input with text outside ASCII: the title has the drug's name in
    capitals within its first 20 characters, the journal name is longer
    than 20 characters. *)
Definition french_drugs : list Drug.t := [Drug.mk "R03CA02" "Éphédrine"].
Definition french_pubmed : list Publication.t :=
  [Publication.mk "1" "Place de l'ÉPHÉDRINE en anesthésie obstétricale"
                  "2020-01-01" "Revue d'épidémiologie et de santé publique" PUBMED].
Definition french_graph : NX.DiGraph :=
  build_drug_mention_graph insertion_order french_drugs french_pubmed [].

Lemma filter_key_le_1 (A : Type) (f : A -> string * string) (k : string * string)
      (l : list A) :
  NoDup (map f l) -> (List.length (filter (fun x => pair_eqb (f x) k) l) <= 1)%nat.
Proof.
  induction l as [|x r IH]; simpl; intro H; [lia|].
  inversion H as [|? ? Hni Hnd]. subst.
  destruct (pair_eqb (f x) k) eqn:E; [|auto].
  apply BuilderFacts.pair_eqb_eq in E. simpl.
  assert (Hr : filter (fun y => pair_eqb (f y) k) r = []).
  { clear - Hni E. induction r as [|y t IHt]; simpl; [reflexivity|].
    destruct (pair_eqb (f y) k) eqn:Ey.
    - apply BuilderFacts.pair_eqb_eq in Ey. exfalso. apply Hni. left. congruence.
    - apply IHt. intro Hin. apply Hni. now right. }
  rewrite Hr. simpl. lia.
Qed.

(** *** C6 *)

(** C6, as the code has it: every edge of every graph the builder produces
    carries the relationship label "Référencé dans". *)
Theorem builder_edges_carry_label :
  forall set_iter drugs pubmed trials u v a,
    In (u, v, a) (NX.edges (build_drug_mention_graph set_iter drugs pubmed trials)) ->
    Dict.get_val a "relationship" = PyStr "Référencé dans".
Proof.
  intros it ds pm ct u v a Hin.
  apply NXFacts.In_edges_edge_data in Hin; [|apply BuilderFacts.build_wf].
  apply BuilderFacts.build_edge_origin in Hin.
  destruct Hin as (d & p & _ & _ & _ & _ & _ & ->). reflexivity.
Qed.

Lemma builder_edges_carry_label_witness :
  In ("epinephrine", "NEJM",
      [("relationship", PyStr "Référencé dans"); ("date_mention", PyStr "2020-01-01")])
     (NX.edges scenario_graph)
  /\ Dict.get_val
       [("relationship", PyStr "Référencé dans"); ("date_mention", PyStr "2020-01-01")]
       "relationship" = PyStr "Référencé dans".
Proof.
  split.
  - vm_compute. right. left. reflexivity.
  - apply (@builder_edges_carry_label insertion_order scenario_drugs scenario_pubmed []
             "epinephrine" "NEJM").
    vm_compute. right. left. reflexivity.
Defined.

(** C6 as worded fails: the scenario graph has an edge whose relationship
    is not "mentioned_in". *)
Lemma builder_label_is_not_mentioned_in :
  In ("epinephrine", "NEJM",
      [("relationship", PyStr "Référencé dans"); ("date_mention", PyStr "2020-01-01")])
     (NX.edges scenario_graph)
  /\ Dict.get_val
       [("relationship", PyStr "Référencé dans"); ("date_mention", PyStr "2020-01-01")]
       "relationship" <> PyStr "mentioned_in".
Proof.
  split.
  - vm_compute. right. left. reflexivity.
  - vm_compute. discriminate.
Qed.

Lemma Publication_eq_dec (a b : Publication.t) : {a = b} + {a <> b}.
Proof.
  decide equality; try apply string_dec. decide equality.
Qed.

(** *** C4 *)

(** The drug -> publication edges of the built graph, for all inputs: an
    edge leaves the node of [d] for the key [k] exactly when a publication
    that mentions [d] has [k] as its node key or as its journal key. *)
Lemma builder_edges_from_drug :
  forall set_iter drugs pubmed trials d k,
    In d drugs ->
    (NX.edge_data (build_drug_mention_graph set_iter drugs pubmed trials)
                  (drug_id d) k <> None
     <-> exists p, In p (pubmed ++ trials) /\ mentions d p = true
                   /\ (pub_id p = k \/ journal_id (Publication.journal_name p) = k)).
Proof.
  intros it ds pm ct d k Hd. split.
  - destruct (NX.edge_data _ (drug_id d) k) as [a|] eqn:E; [intros _ | congruence].
    apply BuilderFacts.build_edge_origin in E.
    destruct E as (d' & p & _ & Hp & Hm & Hid & Hk & _).
    exists p. rewrite (BuilderFacts.mentions_drug_id d d' p Hid).
    unfold BuilderFacts.jkey in Hk. intuition.
  - intros (p & Hp & Hm & [<-|<-]);
      now apply (BuilderFacts.build_edge_present it ds pm ct d p).
Qed.

(** C4, amended: whenever the name of a drug occurs in the title of a
    publication, case-insensitively, the built graph has the edge from the
    drug's node to the publication's node, as for "amphetamine" in a title
    with "Dextroamphetamine"; and when no other publication has the same
    node key and no journal key equals it, the edge exists if and only if
    the name occurs in the title.  Case-insensitively: the name occurs when
    its lower-case form is a substring of the lower-case form of the title,
    so names and titles that differ in case only are treated alike, as
    "EPINEPHRINE" in "Use of epinephrine" and "éphédrine" in
    "Use of ÉPHÉDRINE". *)
Theorem builder_publication_edge_iff_mention :
  forall set_iter drugs pubmed trials d p,
    In d drugs -> In p (pubmed ++ trials) ->
    let g := build_drug_mention_graph set_iter drugs pubmed trials in
    (mentions d p = true -> NX.edge_data g (drug_id d) (pub_id p) <> None)
    /\ ((forall p', In p' (pubmed ++ trials) -> p' <> p -> pub_id p' <> pub_id p) ->
        (forall p', In p' (pubmed ++ trials) ->
                    journal_id (Publication.journal_name p') <> pub_id p) ->
        (NX.edge_data g (drug_id d) (pub_id p) <> None <-> mentions d p = true))
    /\ (mentions d p = true <->
        exists before after,
          Str.lower (Publication.title p)
          = (before ++ Str.lower (Drug.name d) ++ after)%string)
    /\ (forall d' p',
           Str.lower (Drug.name d') = Str.lower (Drug.name d) ->
           Str.lower (Publication.title p') = Str.lower (Publication.title p) ->
           mentions d' p' = mentions d p)
    /\ (forall code i t j s,
           mentions (Drug.mk code "amphetamine")
                    (Publication.mk i "Dextroamphetamine is a stimulant" t j s) = true
           /\ mentions (Drug.mk code "EPINEPHRINE")
                       (Publication.mk i "Use of epinephrine" t j s) = true
           /\ mentions (Drug.mk code "éphédrine")
                       (Publication.mk i "Use of ÉPHÉDRINE" t j s) = true
           /\ mentions (Drug.mk code "ephedrine")
                       (Publication.mk i "Use of éphédrine" t j s) = false).
Proof.
  intros it ds pm ct d p Hd Hp g. subst g. split; [|split; [|split; [|split]]].
  - intro Hm. apply builder_edges_from_drug; [assumption|]. exists p. auto.
  - intros Hu Hj. split.
    + intro He. apply builder_edges_from_drug in He; [|assumption].
      destruct He as (p' & Hp' & Hm' & [Hk|Hk]).
      * destruct (Publication_eq_dec p' p) as [->|Hne]; [assumption|].
        exfalso. now apply (Hu p' Hp').
      * exfalso. now apply (Hj p').
    + intro Hm. apply builder_edges_from_drug; [assumption|]. exists p. auto.
  - unfold mentions. apply StrFacts.contains_iff.
  - intros d' p' Hn Ht. unfold mentions. now rewrite Hn, Ht.
  - intros. repeat split; vm_compute; reflexivity.
Qed.

(** A name and a title that differ in case, outside ASCII, and a title
    without the name. *)
Definition ephedrine : Drug.t := Drug.mk "R03CA02" "éphédrine".
Definition ephedrine_pub : Publication.t :=
  Publication.mk "7" "Use of ÉPHÉDRINE in surgery" "2020-02-01" "Lancet" PUBMED.
Definition aspirin_pub : Publication.t :=
  Publication.mk "8" "Aspirin after surgery" "2020-02-02" "Lancet" PUBMED.

Lemma builder_publication_edge_iff_mention_witness :
  let g := build_drug_mention_graph insertion_order [ephedrine]
             [ephedrine_pub; aspirin_pub] [] in
  (In ephedrine [ephedrine] /\ In ephedrine_pub ([ephedrine_pub; aspirin_pub] ++ [])
   /\ In aspirin_pub ([ephedrine_pub; aspirin_pub] ++ []))
  /\ (mentions ephedrine ephedrine_pub = true
      /\ NX.edge_data g (drug_id ephedrine) (pub_id ephedrine_pub) <> None)
  /\ ((forall p', In p' ([ephedrine_pub; aspirin_pub] ++ []) -> p' <> aspirin_pub ->
                  pub_id p' <> pub_id aspirin_pub)
      /\ (forall p', In p' ([ephedrine_pub; aspirin_pub] ++ []) ->
                     journal_id (Publication.journal_name p') <> pub_id aspirin_pub)
      /\ mentions ephedrine aspirin_pub = false
      /\ (NX.edge_data g (drug_id ephedrine) (pub_id aspirin_pub) <> None
          <-> mentions ephedrine aspirin_pub = true)).
Proof.
  cbv zeta.
  assert (Hu : forall p', In p' ([ephedrine_pub; aspirin_pub] ++ []) ->
                          p' <> aspirin_pub -> pub_id p' <> pub_id aspirin_pub).
  { intros p' [<-|[<-|[]]] Hne; [vm_compute; discriminate | congruence]. }
  assert (Hj : forall p', In p' ([ephedrine_pub; aspirin_pub] ++ []) ->
                          journal_id (Publication.journal_name p')
                          <> pub_id aspirin_pub).
  { intros p' [<-|[<-|[]]]; vm_compute; discriminate. }
  split; [simpl; auto|]. split; [|split; [exact Hu | split; [exact Hj|]]].
  - split; [vm_compute; reflexivity|].
    apply (proj1 (@builder_publication_edge_iff_mention
                    insertion_order [ephedrine] [ephedrine_pub; aspirin_pub] []
                    ephedrine ephedrine_pub
                    (or_introl eq_refl) (or_introl eq_refl))).
    vm_compute. reflexivity.
  - split; [vm_compute; reflexivity|].
    exact (proj1 (proj2 (@builder_publication_edge_iff_mention
                           insertion_order [ephedrine] [ephedrine_pub; aspirin_pub] []
                           ephedrine aspirin_pub
                           (or_introl eq_refl) (or_intror (or_introl eq_refl))))
                 Hu Hj).
Defined.

(** C4 as worded fails when two titles share their first 20 characters:
    the edge to the common node exists although the second title does not
    contain the drug's name. *)
Definition abc_drug : Drug.t := Drug.mk "A1" "abc".
Definition long_title_1 : Publication.t :=
  Publication.mk "1" "12345678901234567890 abc" "2020-01-01" "J1" PUBMED.
Definition long_title_2 : Publication.t :=
  Publication.mk "2" "12345678901234567890 xyz" "2020-01-02" "J2" PUBMED.

Lemma builder_edge_without_mention :
  mentions abc_drug long_title_2 = false
  /\ NX.edge_data
       (build_drug_mention_graph insertion_order [abc_drug] [long_title_1; long_title_2] [])
       (drug_id abc_drug) (pub_id long_title_2)
     = Some [("relationship", PyStr "Référencé dans"); ("date_mention", PyStr "2020-01-01")].
Proof. split; reflexivity. Qed.

(** *** C3 *)

(** C3, amended: in every built graph there is at most one edge from a
    drug's node to a journal's node, and its date is that of the first
    publication, in construction order, that mentions the drug and whose
    journal name truncates to that node's key -- provided no publication
    that mentions the drug has that key as its own node key. *)
Theorem builder_journal_edge_first_date :
  forall set_iter drugs pubmed trials d jk,
    In d drugs ->
    (forall p, In p (pubmed ++ trials) -> mentions d p = true -> pub_id p <> jk) ->
    let g := build_drug_mention_graph set_iter drugs pubmed trials in
    (List.length (filter (fun e => pair_eqb (fst e) (drug_id d, jk)) (NX.edges g)) <= 1)%nat
    /\ option_map (fun a => Dict.get_val a "date_mention") (NX.edge_data g (drug_id d) jk)
       = option_map (fun p => PyStr (Publication.date p))
           (find (fun p => mentions d p
                           && (journal_id (Publication.journal_name p) =? jk))
                 (pubmed ++ trials)).
Proof.
  intros it ds pm ct d jk Hd Hclear g. subst g. split.
  - apply filter_key_le_1, NXFacts.edges_pairs_nodup, BuilderFacts.build_wf.
  - rewrite BuilderFacts.build_unfold.
    destruct (BuilderFacts.node_phase_wf it ds pm ct) as [Hwf Hne].
    pose proof (@BuilderFacts.date_inv_connect (drug_id d) jk
                  (list_prod ds (pm ++ ct)) _ Hwf Hne) as Hdate.
    unfold BuilderFacts.date_inv in Hdate. unfold BuilderFacts.final_state.
    rewrite Hdate.
    + pose proof (BuilderFacts.find_hits_list_prod jk ds (pm ++ ct) d Hd eq_refl) as Hf.
      unfold BuilderFacts.jkey in Hf. rewrite <- Hf.
      now destruct (find _ (list_prod ds (pm ++ ct))).
    + intros [d' p'] Hin Hm Hid. simpl in *.
      apply in_prod_iff in Hin. destruct Hin as [_ Hp'].
      apply Hclear; [assumption|].
      now rewrite (BuilderFacts.mentions_drug_id d d' p').
Qed.

(** Three publications of one journal that mention the drug: the first in
    construction order is neither the earliest nor the latest. *)
Definition nejm_pubmed : list Publication.t :=
  [Publication.mk "1" "Epinephrine use in anaphylaxis" "2021-05-01" "NEJM" PUBMED;
   Publication.mk "2" "Epinephrine in cardiac arrest" "2020-01-01" "NEJM" PUBMED].
Definition nejm_trials : list Publication.t :=
  [Publication.mk "NCT1" "Epinephrine for croup" "2019-03-01" "NEJM" CLINICAL_TRIAL].

Lemma builder_journal_edge_first_date_witness :
  let g := build_drug_mention_graph insertion_order scenario_drugs
             nejm_pubmed nejm_trials in
  In (Drug.mk "A1" "Epinephrine") scenario_drugs
  /\ (forall p, In p (nejm_pubmed ++ nejm_trials) ->
                mentions (Drug.mk "A1" "Epinephrine") p = true -> pub_id p <> "NEJM")
  /\ List.length (filter (fun p => mentions (Drug.mk "A1" "Epinephrine") p
                                   && (journal_id (Publication.journal_name p) =? "NEJM"))
                         (nejm_pubmed ++ nejm_trials)) = 3
  /\ (List.length (filter (fun e => pair_eqb (fst e) ("epinephrine", "NEJM"))
                          (NX.edges g)) <= 1)%nat
  /\ option_map (fun a => Dict.get_val a "date_mention")
                (NX.edge_data g "epinephrine" "NEJM")
     = Some (PyStr "2021-05-01").
Proof.
  cbv zeta.
  assert (H : forall p, In p (nejm_pubmed ++ nejm_trials) ->
                        mentions (Drug.mk "A1" "Epinephrine") p = true ->
                        pub_id p <> "NEJM").
  { intros p [<-|[<-|[<-|[]]]] _; vm_compute; discriminate. }
  split; [simpl; auto|]. split; [exact H|]. split; [vm_compute; reflexivity|].
  exact (@builder_journal_edge_first_date insertion_order scenario_drugs
           nejm_pubmed nejm_trials (Drug.mk "A1" "Epinephrine") "NEJM"
           (or_introl eq_refl) H).
Defined.

(** C3 as worded fails when a title that mentions the drug truncates to the
    key of a journal: the publication edge lands on the journal's node and
    overwrites the date. *)
Definition ne_drug : Drug.t := Drug.mk "A1" "ne".
Definition ne_pub_1 : Publication.t :=
  Publication.mk "1" "x ne" "2020-01-01" "nejm" PUBMED.
Definition ne_pub_2 : Publication.t :=
  Publication.mk "2" "NEJM" "2021-01-01" "other" PUBMED.

Lemma builder_journal_edge_date_overwritten :
  let g := build_drug_mention_graph insertion_order [ne_drug] [ne_pub_1; ne_pub_2] [] in
  NX.node_get g "nejm" "type" = Ok (PyStr "journal")
  /\ find (fun p => mentions ne_drug p
                    && (journal_id (Publication.journal_name p) =? "nejm"))
          [ne_pub_1; ne_pub_2] = Some ne_pub_1
  /\ option_map (fun a => Dict.get_val a "date_mention")
                (NX.edge_data g (drug_id ne_drug) "nejm") = Some (PyStr "2021-01-01")
  /\ Publication.date ne_pub_1 = "2020-01-01".
Proof. repeat split; reflexivity. Qed.

(** *** C8 *)

(** [Publication.__eq__] holds exactly for records equal in all five
    fields. *)
Lemma publication_eq_all_fields (p q : Publication.t) :
  Publication.__eq__ p q = true <-> p = q.
Proof.
  split.
  - destruct p, q. unfold Publication.__eq__. simpl. intro H.
    repeat (apply andb_true_iff in H; destruct H as [H ?]).
    repeat match goal with E : (_ =? _) = true |- _ => apply String.eqb_eq in E end.
    match goal with E : PublicationType_eqb ?a ?b = true |- _ =>
                      assert (a = b) by (destruct a, b; simpl in E; congruence)
    end.
    congruence.
  - intros ->. destruct q. unfold Publication.__eq__. simpl.
    rewrite !String.eqb_refl. now destruct source_type.
Qed.

(** C8: two publications with the same id and source type, hence the same
    hash, that [__eq__] tells apart because their titles differ. *)
Theorem publication_eq_depends_on_title :
  let p := Publication.mk "10" "Title A" "2020-01-01" "Journal" PUBMED in
  let q := Publication.mk "10" "Title B" "2020-01-01" "Journal" PUBMED in
  Publication.id p = Publication.id q
  /\ Publication.source_type p = Publication.source_type q
  /\ Publication.hash_key p = Publication.hash_key q
  /\ Publication.__eq__ p q = false.
Proof. repeat split; reflexivity. Qed.

(** *** C7 *)

Import Helpers.








(** *** C5 *)

(** The document [save_graph_to_json] writes for the scenario graph. *)
Definition scenario_document : Document :=
  mkDocument
    (Some [[("atccode", PyStr "A1"); ("name", PyStr "epinephrine")]])
    (Some (mkPublications
             (Some [[("id", PyStr "1");
                     ("title", PyStr "Epinephrine use in anaphylaxis");
                     ("date", PyStr "2020-01-01");
                     ("journal_name", PyStr "NEJM");
                     ("source_type", PyStr "pubmed")]])
             (Some [])))
    (Some [[("name", PyStr "NEJM")]])
    (Some [mkRelationship (Some [("id", PyStr "A1"); ("type", PyStr "drug")])
                          (Some [("id", PyStr "1"); ("type", PyStr "pubmed")])
                          (PyStr "Référencé dans") (PyStr "2020-01-01");
           mkRelationship (Some [("id", PyStr "A1"); ("type", PyStr "drug")])
                          (Some [("id", PyStr "NEJM"); ("type", PyStr "journal")])
                          (PyStr "Référencé dans") (PyStr "2020-01-01")]).


(** *** C10 *)

Import NodeFacts.

Lemma In_node_has_node (g : NX.DiGraph) (k : string) (a : Attrs) :
  In (k, a) (NX._node g) -> NX.has_node g k = true.
Proof.
  intro H. unfold NX.has_node. apply DictFacts.mem_keys.
  change k with (fst (k, a)). now apply in_map.
Qed.

Lemma has_node_In_node (g : NX.DiGraph) (k : string) :
  NX.has_node g k = true -> exists a, Dict.get (NX._node g) k = Some a.
Proof.
  unfold NX.has_node, Dict.mem. destruct (Dict.get (NX._node g) k); [eauto | discriminate].
Qed.

(** The journal node keys, whatever the iteration order of the set. *)
Lemma journal_keys_iter (set_iter : list string -> list string)
      (publications : list Publication.t) (k : string) :
  set_iter_ok set_iter ->
  (In k (map (fun j => journal_id (Journal.name j))
             (_extract_journals set_iter publications))
   <-> In k (map journal_id (journal_names publications))).
Proof.
  intro Hok. unfold _extract_journals. rewrite map_map. simpl.
  split; apply Permutation_in, Permutation_map;
    [apply Permutation_sym|]; apply Hok.
Qed.

(** The nodes of the built graph are those of the node phase, or bare
    endpoints the node phase did not create. *)
Lemma build_nodes set_iter drugs pubmed trials k a :
  In (k, a) (NX._node (build_drug_mention_graph set_iter drugs pubmed trials)) ->
  In (k, a) (NX._node (BuilderFacts.node_phase set_iter drugs pubmed trials))
  \/ (a = []
      /\ NX.has_node (BuilderFacts.node_phase set_iter drugs pubmed trials) k = false
      /\ exists d p, In d drugs /\ In p (pubmed ++ trials) /\ mentions d p = true
                     /\ (k = drug_id d \/ k = pub_id p
                         \/ k = journal_id (Publication.journal_name p))).
Proof.
  rewrite BuilderFacts.build_unfold. intro H.
  destruct (BuilderFacts.node_phase_wf set_iter drugs pubmed trials) as [Hwf Hne].
  pose proof (ConnectFacts.node_inv_connect (list_prod drugs (pubmed ++ trials)) Hwf Hne)
    as Hinv.
  destruct (ConnectFacts.ni_nodes Hinv _ _ H) as [H'|(Ha & Hf & d & p & Hin & Hm & Hk)];
    [auto|].
  right. apply in_prod_iff in Hin. split; [assumption|]. split; [assumption|].
  exists d, p. unfold BuilderFacts.jkey in Hk. tauto.
Qed.

(** C10, amended: when every publication that mentions a drug has a
    non-blank journal name, every node of the built graph, and so every
    edge endpoint, has a type among drug, pubmed, clinical_trial and
    journal.  A mentioned publication with a blank journal name makes the
    drug -> journal edge target the node keyed by the truncated name, and
    that node is created bare, with no attribute at all, unless a drug,
    publication or journal node already has that key. *)
Theorem builder_nodes_typed_unless_blank_journal :
  forall set_iter drugs pubmed trials,
    set_iter_ok set_iter ->
    let g := build_drug_mention_graph set_iter drugs pubmed trials in
    ((forall d p, In d drugs -> In p (pubmed ++ trials) -> mentions d p = true ->
                  nonblank (Publication.journal_name p) = true) ->
     (forall k a, In (k, a) (NX.nodes g) -> In (Dict.get_val a "type") node_kinds)
     /\ (forall u v a, In (u, v, a) (NX.edges g) ->
                       exists tu tv, NX.node_get g u "type" = Ok tu /\ In tu node_kinds
                                     /\ NX.node_get g v "type" = Ok tv /\ In tv node_kinds))
    /\ (forall d p,
           In d drugs -> In p (pubmed ++ trials) -> mentions d p = true ->
           nonblank (Publication.journal_name p) = false ->
           let k := journal_id (Publication.journal_name p) in
           ~ In k (map drug_id drugs) ->
           ~ In k (map pub_id (pubmed ++ trials)) ->
           ~ In k (map journal_id (journal_names (pubmed ++ trials))) ->
           NX.edge_data g (drug_id d) k <> None
           /\ Dict.get (NX._node g) k = Some []).
Proof.
  intros it ds pm ct Hok g.
  assert (Hwf : NXFacts.wf g) by apply BuilderFacts.build_wf.
  split.
  - intro Hpre.
    assert (Hnodes : forall k a, In (k, a) (NX.nodes g) ->
                                 In (Dict.get_val a "type") node_kinds).
    { intros k a H. apply build_nodes in H.
      destruct H as [H|(_ & Hf & d & p & Hd & Hp & Hm & Hk)].
      - now apply (node_phase_typed it ds pm ct k a).
      - exfalso.
        assert (Ht : NX.has_node (BuilderFacts.node_phase it ds pm ct) k = true);
          [|congruence].
        apply node_phase_has_node. destruct Hk as [ -> | [ -> | -> ] ].
        + left. now apply in_map.
        + right. left. now apply in_map.
        + right. right. apply journal_keys_iter; [assumption|].
          apply in_map. apply (proj2 (journal_names_spec _ _)).
          exists p. split; [assumption|]. split; [reflexivity | eauto]. }
    split; [exact Hnodes|].
    intros u v a H. apply NXFacts.In_edges_edge_data in H; [|assumption].
    destruct (NXFacts.edge_data_has_node _ _ Hwf H) as [Hu Hv].
    destruct (has_node_In_node _ _ Hu) as [au Eu].
    destruct (has_node_In_node _ _ Hv) as [av Ev].
    exists (Dict.get_val au "type"), (Dict.get_val av "type").
    unfold NX.node_get. rewrite Eu, Ev.
    apply DictFacts.get_In in Eu, Ev.
    repeat split; try reflexivity; eapply Hnodes; eassumption.
  - intros d p Hd Hp Hm Hb k Hkd Hkp Hkj.
    assert (He : NX.edge_data g (drug_id d) k <> None).
    { now apply (BuilderFacts.build_edge_present it ds pm ct d p). }
    split; [exact He|].
    destruct (NX.edge_data g (drug_id d) k) as [a|] eqn:E; [|congruence].
    destruct (NXFacts.edge_data_has_node _ _ Hwf E) as [_ Hv].
    destruct (has_node_In_node _ _ Hv) as [av Ev]. rewrite Ev. f_equal.
    apply DictFacts.get_In in Ev. apply build_nodes in Ev.
    destruct Ev as [H|(Ha & _)]; [|assumption].
    exfalso. apply In_node_has_node in H. apply node_phase_has_node in H.
    destruct H as [H|[H|H]]; [auto | auto |].
    apply journal_keys_iter in H; auto.
Qed.

Lemma insertion_order_ok : set_iter_ok insertion_order.
Proof. intro s. apply Permutation_refl. Qed.

(** A publication that mentions the drug and whose journal name is a
    no-break space. *)
Definition blank_journal_pub : Publication.t :=
  Publication.mk "1" "Epinephrine in shock" "2020-01-01" (Str.chr 0xA0) PUBMED.

Lemma builder_nodes_typed_unless_blank_journal_witness :
  set_iter_ok insertion_order
  /\ ((forall d p, In d scenario_drugs -> In p (scenario_pubmed ++ []) ->
                   mentions d p = true -> nonblank (Publication.journal_name p) = true)
      /\ (forall k a, In (k, a) (NX.nodes scenario_graph) ->
                      In (Dict.get_val a "type") node_kinds))
  /\ (let d := Drug.mk "A1" "Epinephrine" in
      let g := build_drug_mention_graph insertion_order scenario_drugs
                 [blank_journal_pub] [] in
      let k := journal_id (Publication.journal_name blank_journal_pub) in
      (In d scenario_drugs /\ In blank_journal_pub ([blank_journal_pub] ++ [])
       /\ mentions d blank_journal_pub = true
       /\ nonblank (Publication.journal_name blank_journal_pub) = false
       /\ ~ In k (map drug_id scenario_drugs)
       /\ ~ In k (map pub_id ([blank_journal_pub] ++ []))
       /\ ~ In k (map journal_id (journal_names ([blank_journal_pub] ++ []))))
      /\ NX.edge_data g (drug_id d) k <> None
      /\ Dict.get (NX._node g) k = Some []).
Proof.
  assert (H : forall d p, In d scenario_drugs -> In p (scenario_pubmed ++ []) ->
                          mentions d p = true ->
                          nonblank (Publication.journal_name p) = true).
  { intros d p _ [<-|[]] _. vm_compute. reflexivity. }
  split; [exact insertion_order_ok|]. split.
  - split; [exact H|].
    exact (proj1 (proj1 (@builder_nodes_typed_unless_blank_journal
                           insertion_order scenario_drugs scenario_pubmed []
                           insertion_order_ok) H)).
  - cbv zeta.
    assert (Hd : ~ In (journal_id (Publication.journal_name blank_journal_pub))
                      (map drug_id scenario_drugs))
      by (vm_compute; intuition discriminate).
    assert (Hp : ~ In (journal_id (Publication.journal_name blank_journal_pub))
                      (map pub_id ([blank_journal_pub] ++ [])))
      by (vm_compute; intuition discriminate).
    assert (Hj : ~ In (journal_id (Publication.journal_name blank_journal_pub))
                      (map journal_id (journal_names ([blank_journal_pub] ++ []))))
      by (vm_compute; intuition).
    assert (Hm : mentions (Drug.mk "A1" "Epinephrine") blank_journal_pub = true)
      by (vm_compute; reflexivity).
    assert (Hb : nonblank (Publication.journal_name blank_journal_pub) = false)
      by (vm_compute; reflexivity).
    split; [repeat split; solve [simpl; auto | assumption]|].
    exact (proj2 (@builder_nodes_typed_unless_blank_journal
                    insertion_order scenario_drugs [blank_journal_pub] []
                    insertion_order_ok)
                 (Drug.mk "A1" "Epinephrine") blank_journal_pub
                 (or_introl eq_refl) (or_introl eq_refl) Hm Hb Hd Hp Hj).
Defined.

(** C10 as worded fails in its second half: here the truncated blank
    journal name is the key of a drug node, so the edge targets a node
    that [add_node] made and that has a type. *)
Definition nameless_drug : Drug.t := Drug.mk "A1" "".
Definition journalless_pub : Publication.t :=
  Publication.mk "1" "Trial" "2020-01-01" "" PUBMED.

Lemma blank_journal_edge_hits_typed_node :
  let g := build_drug_mention_graph insertion_order [nameless_drug] [journalless_pub] [] in
  mentions nameless_drug journalless_pub = true
  /\ nonblank (Publication.journal_name journalless_pub) = false
  /\ NX.edge_data g (drug_id nameless_drug)
                  (journal_id (Publication.journal_name journalless_pub))
     = Some [("relationship", PyStr "Référencé dans"); ("date_mention", PyStr "2020-01-01")]
  /\ NX.node_get g (journal_id (Publication.journal_name journalless_pub)) "type"
     = Ok (PyStr "drug").
Proof. repeat split; reflexivity. Qed.

(** *** C2 *)

Import TallyFacts.

Lemma scenario_document_loaded : load_graph_from_json scenario_document = Ok scenario_graph.
Proof. reflexivity. Qed.

(** C2, amended: the query returns the journals that receive the most
    edges from the matching drug node, and a count that is a per-journal
    figure -- it is fixed by the number of edges a listed journal receives,
    not by the number of journals the drug is connected to.  For the
    scenario inputs the built graph has 3 nodes and 2 edges and the query
    for "epinephrine" lists exactly "NEJM". *)
Theorem query_lists_most_mentioned_journals :
  forall (g : NX.DiGraph) (drug_name : string) (names : list pyval) (count : nat),
    most_mentions_in g drug_name = Ok (names, count) ->
    journal_targets g drug_name <> [] ->
    (forall n, In n names <->
               In n (journal_targets g drug_name)
               /\ forall m, In m (journal_targets g drug_name) ->
                            occurrences m (journal_targets g drug_name)
                            <= occurrences n (journal_targets g drug_name))
    /\ (forall g' drug_name' names' count' n n',
           most_mentions_in g' drug_name' = Ok (names', count') ->
           journal_targets g' drug_name' <> [] ->
           In n names -> In n' names' ->
           occurrences n (journal_targets g drug_name)
           = occurrences n' (journal_targets g' drug_name') ->
           count = count')
    /\ List.length (NX.nodes scenario_graph) = 3
    /\ List.length (NX.edges scenario_graph) = 2
    /\ fst (find_journals_with_most_mentions_of_drug scenario_document "epinephrine")
       = [PyStr "NEJM"].
Proof.
  intros g name names count H Hne.
  destruct (most_mentions_in_spec _ _ H Hne) as [Hc Hn].
  split; [|split].
  - intro n. rewrite Hn. apply top_journals_spec.
  - intros g' name' names' count' n n' H' Hne' Hin Hin' Ho.
    destruct (most_mentions_in_spec _ _ H' Hne') as [Hc' Hn'].
    apply Hn in Hin. apply Hn' in Hin'.
    apply top_count_spec in Hin, Hin'. congruence.
  - repeat split; reflexivity.
Qed.

Lemma query_lists_most_mentioned_journals_witness :
  most_mentions_in scenario_graph "epinephrine" = Ok ([PyStr "NEJM"], 2)
  /\ journal_targets scenario_graph "epinephrine" <> []
  /\ (forall n, In n [PyStr "NEJM"] <->
                In n (journal_targets scenario_graph "epinephrine")
                /\ forall m, In m (journal_targets scenario_graph "epinephrine") ->
                             occurrences m (journal_targets scenario_graph "epinephrine")
                             <= occurrences n (journal_targets scenario_graph "epinephrine")).
Proof.
  assert (Hne : journal_targets scenario_graph "epinephrine" <> [])
    by (vm_compute; discriminate).
  split; [reflexivity|]. split; [exact Hne|].
  exact (proj1 (@query_lists_most_mentioned_journals
                  scenario_graph "epinephrine" [PyStr "NEJM"] 2 eq_refl Hne)).
Defined.

(** C2 as worded fails.  A drug mentioned in three journals has three edges
    to journal nodes, and the query returns the count 2; in the scenario,
    with one such edge, it returns 2 as well, not 1. *)
Definition three_journal_pubs : list Publication.t :=
  [Publication.mk "1" "Epinephrine in shock" "2020-01-01" "Alpha" PUBMED;
   Publication.mk "2" "Epinephrine in asthma" "2020-01-02" "Beta" PUBMED;
   Publication.mk "3" "Epinephrine in surgery" "2020-01-03" "Gamma" PUBMED].
Definition three_journal_graph : NX.DiGraph :=
  build_drug_mention_graph insertion_order scenario_drugs three_journal_pubs [].

Lemma query_count_is_not_edge_count :
  (doc <- save_graph_to_json three_journal_graph ;;
   g <- load_graph_from_json doc ;;
   Ok (List.length (journal_targets g "epinephrine"),
       find_journals_with_most_mentions_of_drug doc "epinephrine"))
  = Ok (3, ([PyStr "Alpha"; PyStr "Beta"; PyStr "Gamma"], 2))
  /\ find_journals_with_most_mentions_of_drug scenario_document "epinephrine"
     = ([PyStr "NEJM"], 2).
Proof. split; reflexivity. Qed.

(** *** C1 *)


Definition two_drugs : list Drug.t :=
  [Drug.mk "A1" "Epinephrine"; Drug.mk "H02AB01" "Betamethasone"].
Definition one_trial : list Publication.t :=
  [Publication.mk "NCT01" "Betamethasone in preterm labour" "2020-03-01"
                  "The journal of maternal-fetal & neonatal medicine" CLINICAL_TRIAL].


(** C1 as worded fails: one drug and one publication that mentions it and
    has an empty journal name.  The identifiers are distinct and so are
    the node keys, nothing is cut; the built graph has the node [""] and
    the edge from the drug to it, and the graph loaded from the exported
    document has neither. *)
Definition shock_pub : Publication.t :=
  Publication.mk "1" "Epinephrine in shock" "2020-01-01" "" PUBMED.

Lemma round_trip_drops_blank_journal_node :
  let g := build_drug_mention_graph insertion_order scenario_drugs [shock_pub] [] in
  NoDup (map Drug.atccode scenario_drugs)
  /\ NoDup (map Publication.hash_key ([shock_pub] ++ []))
  /\ (forall d, In d scenario_drugs -> Drug.name d <> "")
  /\ RoundTrip.distinct_keys scenario_drugs ([shock_pub] ++ [])
  /\ map Str.chars ["Epinephrine"; "Epinephrine in shock"; ""]
     = map (fun s => firstn 20 (Str.chars s))
           ["Epinephrine"; "Epinephrine in shock"; ""]
  /\ exists doc g',
      save_graph_to_json g = Ok doc
      /\ load_graph_from_json doc = Ok g'
      /\ RoundTrip.node_keys g = ["epinephrine"; "epinephrine in shock"; ""]
      /\ RoundTrip.node_keys g' = ["epinephrine"; "epinephrine in shock"]
      /\ RoundTrip.edge_view g
         = [("epinephrine", "epinephrine in shock",
             PyStr "Référencé dans", PyStr "2020-01-01");
            ("epinephrine", "", PyStr "Référencé dans", PyStr "2020-01-01")]
      /\ RoundTrip.edge_view g'
         = [("epinephrine", "epinephrine in shock",
             PyStr "Référencé dans", PyStr "2020-01-01")].
Proof.
  cbv zeta. split; [repeat constructor; simpl; tauto|].
  split; [repeat constructor; simpl; tauto|].
  split; [intros d [<-|[]]; discriminate|].
  split; [unfold RoundTrip.distinct_keys; vm_compute;
          repeat constructor; simpl; intuition discriminate|].
  split; [vm_compute; reflexivity|].
  eexists. eexists. split; [vm_compute; reflexivity|].
  split; [vm_compute; reflexivity|].
  repeat split; vm_compute; reflexivity.
Qed.

(* ================================================================= *)
(** * Further properties of the code *)

(** ** The builder *)
Module BuilderMore.
Import NX NXFacts Transformers BuilderFacts NodeFacts ConnectFacts.

Lemma node_phase_kept (set_iter : list string -> list string)
      (drugs : list Drug.t) (pubmed trials : list Publication.t) (k : string) :
  NX.has_node (node_phase set_iter drugs pubmed trials) k = true ->
  NX.has_node (build_drug_mention_graph set_iter drugs pubmed trials) k = true.
Proof.
  intro H. rewrite build_unfold. unfold final_state.
  destruct (node_phase_wf set_iter drugs pubmed trials) as [W N].
  exact (ni_keeps (node_inv_connect (list_prod drugs (pubmed ++ trials)) W N) k H).
Qed.

(** A key a publication gives to a node through an edge to its journal. *)
Definition mentioned_journal_key (drugs : list Drug.t) (pubs : list Publication.t)
           (k : string) : Prop :=
  exists d p, In d drugs /\ In p pubs /\ mentions d p = true
              /\ k = journal_id (Publication.journal_name p).

Lemma has_node_built (set_iter : list string -> list string)
      (drugs : list Drug.t) (pubmed trials : list Publication.t) (k : string) :
  set_iter_ok set_iter ->
  NX.has_node (build_drug_mention_graph set_iter drugs pubmed trials) k = true <->
  In k (map drug_id drugs)
  \/ In k (map pub_id (pubmed ++ trials))
  \/ In k (map journal_id (journal_names (pubmed ++ trials)))
  \/ mentioned_journal_key drugs (pubmed ++ trials) k.
Proof.
  revert set_iter drugs pubmed trials k. unfold mentioned_journal_key.
  intros it ds pm ct k Hit. split.
  - intro H. destruct (has_node_In_node _ _ H) as [a Ea].
    apply DictFacts.get_In in Ea. apply build_nodes in Ea.
    destruct Ea as [Hn|(_ & _ & d & p & Hd & Hp & Hm & Hk)].
    + apply In_node_has_node in Hn. apply node_phase_has_node in Hn.
      destruct Hn as [Hn|[Hn|Hn]]; [now left | now right; left |].
      right; right; left. now apply (journal_keys_iter (pm ++ ct) k Hit).
    + destruct Hk as [ -> | [ -> | -> ] ].
      * left. now apply in_map.
      * right; left. now apply in_map.
      * right; right; right. now exists d, p.
  - intros [H|[H|[H|(d & p & Hd & Hp & Hm & ->)]]].
    + apply node_phase_kept, node_phase_has_node. now left.
    + apply node_phase_kept, node_phase_has_node. now right; left.
    + apply node_phase_kept, node_phase_has_node. right; right.
      now apply (journal_keys_iter (pm ++ ct) k Hit).
    + destruct (build_edge_present it ds pm ct d p Hd Hp Hm) as [_ Hj].
      destruct (edge_data (build_drug_mention_graph it ds pm ct) (drug_id d) (jkey p))
        as [a|] eqn:E; [|congruence].
      exact (proj2 (@edge_data_has_node _ _ _ _ (build_wf it ds pm ct) E)).
Qed.

(** X1: the node keys of a built graph, for every input: the lower-cased
    drug names, the lower-cased 20-character title prefixes, the
    20-character prefixes of the non-blank journal names, and the
    20-character prefix of the journal name of every publication that
    mentions a drug (blank or not). *)
Theorem built_graph_node_keys :
  forall set_iter drugs pubmed trials k,
    set_iter_ok set_iter ->
    NX.has_node (build_drug_mention_graph set_iter drugs pubmed trials) k = true <->
    In k (map drug_id drugs)
    \/ In k (map pub_id (pubmed ++ trials))
    \/ In k (map journal_id (journal_names (pubmed ++ trials)))
    \/ exists d p, In d drugs /\ In p (pubmed ++ trials) /\ mentions d p = true
                   /\ k = journal_id (Publication.journal_name p).
Proof.
  intros it ds pm ct k Hit. exact (has_node_built ds pm ct k Hit).
Qed.

Lemma built_graph_node_keys_witness :
  set_iter_ok insertion_order
  /\ (In "éphédrine" (map drug_id french_drugs)
      /\ NX.has_node french_graph "éphédrine" = true)
  /\ (In "place de l'éphédrine" (map pub_id (french_pubmed ++ []))
      /\ NX.has_node french_graph "place de l'éphédrine" = true)
  /\ (In "Revue d'épidémiologi"
         (map journal_id (journal_names (french_pubmed ++ [])))
      /\ NX.has_node french_graph "Revue d'épidémiologi" = true)
  /\ List.length (NX.nodes french_graph) = 3.
Proof.
  assert (H1 : In "éphédrine" (map drug_id french_drugs))
    by (vm_compute; now left).
  assert (H2 : In "place de l'éphédrine" (map pub_id (french_pubmed ++ [])))
    by (vm_compute; now left).
  assert (H3 : In "Revue d'épidémiologi"
                  (map journal_id (journal_names (french_pubmed ++ []))))
    by (vm_compute; now left).
  split; [exact insertion_order_ok|]. split; [|split; [|split]].
  - split; [exact H1|].
    apply (@built_graph_node_keys insertion_order french_drugs french_pubmed []
             "éphédrine" insertion_order_ok). now left.
  - split; [exact H2|].
    apply (@built_graph_node_keys insertion_order french_drugs french_pubmed []
             "place de l'éphédrine" insertion_order_ok). right. now left.
  - split; [exact H3|].
    apply (@built_graph_node_keys insertion_order french_drugs french_pubmed []
             "Revue d'épidémiologi" insertion_order_ok). right. right. now left.
  - vm_compute. reflexivity.
Defined.

(** The pairs of keys a mention joins. *)
Definition mention_pair (drugs : list Drug.t) (pubs : list Publication.t)
           (u v : string) : Prop :=
  exists d p, In d drugs /\ In p pubs /\ mentions d p = true
              /\ u = drug_id d
              /\ (v = pub_id p \/ v = journal_id (Publication.journal_name p)).

Lemma edge_pair_built (set_iter : list string -> list string)
      (drugs : list Drug.t) (pubmed trials : list Publication.t) (u v : string) :
  In (u, v) (map fst (NX.edges (build_drug_mention_graph set_iter drugs pubmed trials)))
  <-> mention_pair drugs (pubmed ++ trials) u v.
Proof.
  revert set_iter drugs pubmed trials u v. unfold mention_pair.
  intros it ds pm ct u v.
  set (g := build_drug_mention_graph it ds pm ct).
  assert (W : wf g) by apply build_wf.
  rewrite in_map_iff. split.
  - intros [[[u' v'] a] [E H]]. simpl in E. inversion E; subst u' v'.
    apply (In_edges_edge_data _ _ _ W) in H.
    apply build_edge_origin in H.
    destruct H as (d & p & Hd & Hp & Hm & Hu & Hv & _). now exists d, p.
  - intros (d & p & Hd & Hp & Hm & -> & Hv).
    destruct (build_edge_present it ds pm ct d p Hd Hp Hm) as [H1 H2].
    fold g in H1, H2.
    destruct Hv as [ -> | -> ].
    + destruct (edge_data g (drug_id d) (pub_id p)) as [a|] eqn:E; [|congruence].
      exists (drug_id d, pub_id p, a). split; [reflexivity|].
      now apply (In_edges_edge_data _ _ _ W).
    + fold (jkey p).
      destruct (edge_data g (drug_id d) (jkey p)) as [a|] eqn:E; [|congruence].
      exists (drug_id d, jkey p, a). split; [reflexivity|].
      now apply (In_edges_edge_data _ _ _ W).
Qed.

(** X2: the edges of a built graph, for every input.  There is an edge
    [u -> v] exactly when some input drug with key [u] is mentioned by
    some input publication whose own key or whose journal key is [v]; the
    edge list holds each pair once, and the attributes of an edge are the
    label and the date of such a publication, nothing else. *)
Theorem built_graph_edges :
  forall set_iter drugs pubmed trials,
    let g := build_drug_mention_graph set_iter drugs pubmed trials in
    NoDup (map fst (NX.edges g))
    /\ (forall u v,
          In (u, v) (map fst (NX.edges g)) <->
          exists d p, In d drugs /\ In p (pubmed ++ trials) /\ mentions d p = true
                      /\ u = drug_id d
                      /\ (v = pub_id p \/ v = journal_id (Publication.journal_name p)))
    /\ (forall u v a,
          In (u, v, a) (NX.edges g) ->
          exists d p, In d drugs /\ In p (pubmed ++ trials) /\ mentions d p = true
                      /\ u = drug_id d
                      /\ (v = pub_id p \/ v = journal_id (Publication.journal_name p))
                      /\ a = [("relationship", PyStr relationship_label);
                              ("date_mention", PyStr (Publication.date p))]).
Proof.
  intros it ds pm ct. cbv zeta.
  set (g := build_drug_mention_graph it ds pm ct).
  assert (W : wf g) by apply build_wf.
  split; [now apply edges_pairs_nodup|]. split.
  - intros u v. exact (edge_pair_built it ds pm ct u v).
  - intros u v a H. apply (In_edges_edge_data _ _ _ W) in H.
    apply build_edge_origin in H.
    destruct H as (d & p & Hd & Hp & Hm & Hu & Hv & Ha). now exists d, p.
Qed.

End BuilderMore.

Module OrderFacts.
Import NX NXFacts Transformers BuilderFacts NodeFacts.

Definition attrs_or_empty (g : DiGraph) (k : string) : Attrs :=
  match Dict.get (_node g) k with Some a => a | None => [] end.

Lemma get_node_add_node n attr g k :
  wf g ->
  Dict.get (_node (add_node n attr g)) k =
  if n =? k then Some (Dict.update (attrs_or_empty g n) attr)
  else Dict.get (_node g) k.
Proof.
  intro W. unfold add_node, attrs_or_empty.
  rewrite <- (mem_node_adj n W). unfold Dict.mem.
  destruct (Dict.get (_node g) n) as [a|] eqn:E; simpl; apply DictFacts.get_set.
Qed.

Lemma get_node_ensure_node n g k :
  wf g ->
  Dict.get (_node (ensure_node n g)) k =
  match Dict.get (_node g) k with
  | Some a => Some a
  | None => if n =? k then Some [] else None
  end.
Proof.
  intro W. unfold ensure_node.
  rewrite <- (mem_node_adj n W). unfold Dict.mem.
  destruct (Dict.get (_node g) n) as [a|] eqn:E; simpl.
  - destruct (Dict.get (_node g) k) as [b|] eqn:Ek; [reflexivity|].
    destruct (n =? k) eqn:Enk; [|reflexivity].
    apply String.eqb_eq in Enk. congruence.
  - rewrite DictFacts.get_set. destruct (n =? k) eqn:Enk.
    + apply String.eqb_eq in Enk. subst k. now rewrite E.
    + now destruct (Dict.get (_node g) k).
Qed.

Lemma get_node_add_edge u v attr g k :
  wf g ->
  Dict.get (_node (add_edge u v attr g)) k =
  match Dict.get (_node g) k with
  | Some a => Some a
  | None => if (u =? k) || (v =? k) then Some [] else None
  end.
Proof.
  intro W. rewrite node_add_edge.
  rewrite (get_node_ensure_node v k (wf_ensure_node u W)).
  rewrite (get_node_ensure_node u k W).
  destruct (Dict.get (_node g) k); [reflexivity|].
  destruct (u =? k); simpl; [reflexivity|]. now destruct (v =? k).
Qed.

(** Two graphs that hold the same edges, and whose node dictionaries are
    related by [R] key by key. *)
Definition alike (R : option Attrs -> option Attrs -> Prop) (g1 g2 : DiGraph) : Prop :=
  wf g1 /\ wf g2
  /\ (forall k, R (Dict.get (_node g1) k) (Dict.get (_node g2) k))
  /\ (forall u v, edge_data g1 u v = edge_data g2 u v).

(** What [add_edge] does to the entry of one key. *)
Definition touched (b : bool) (o : option Attrs) : option Attrs :=
  match o with
  | Some a => Some a
  | None => if b then Some [] else None
  end.

Lemma alike_add_edge R u v attr g1 g2 :
  (forall b o1 o2, R o1 o2 -> R (touched b o1) (touched b o2)) ->
  alike R g1 g2 -> alike R (add_edge u v attr g1) (add_edge u v attr g2).
Proof.
  intros HR (W1 & W2 & Hn & He).
  split; [now apply wf_add_edge|]. split; [now apply wf_add_edge|]. split.
  - intro k. rewrite !get_node_add_edge by assumption.
    exact (HR ((u =? k) || (v =? k)) _ _ (Hn k)).
  - intros u' v'. rewrite !edge_data_add_edge. unfold old_data.
    now rewrite !He.
Qed.

Lemma alike_steps R (pairs : list (Drug.t * Publication.t)) :
  (forall b o1 o2, R o1 o2 -> R (touched b o1) (touched b o2)) ->
  forall g1 g2 conns,
    alike R g1 g2 ->
    alike R (fst (fold_left step pairs (g1, conns)))
            (fst (fold_left step pairs (g2, conns))).
Proof.
  intro HR. induction pairs as [|[d p] r IH]; intros g1 g2 conns H; [exact H|].
  cbn [fold_left]. unfold step at 2 4. cbn [fst snd]. unfold connect_pub.
  destruct (mentions d p); [|now apply IH].
  destruct (negb (existsb (pair_eqb (drug_id d, journal_id (Publication.journal_name p)))
                         conns)).
  - apply IH. apply (@alike_add_edge R); [exact HR|].
    apply (@alike_add_edge R); [exact HR|exact H].
  - apply IH. apply (@alike_add_edge R); [exact HR|exact H].
Qed.

Lemma get_add_nodes (A : Type) (key : A -> string) (attrs : A -> Attrs)
      (l : list A) (k : string) :
  NoDup (map key l) ->
  forall g, wf g ->
  Dict.get (_node (fold_left (fun g x => add_node (key x) (attrs x) g) l g)) k =
  match find (fun x => key x =? k) l with
  | Some x => Some (Dict.update (attrs_or_empty g k) (attrs x))
  | None => Dict.get (_node g) k
  end.
Proof.
  induction l as [|x r IH]; intros Hnd g W; [reflexivity|].
  inversion Hnd as [|? ? Hni Hr]; subst. cbn [fold_left find].
  rewrite (IH Hr _ (wf_add_node (key x) (attrs x) W)).
  unfold attrs_or_empty at 1.
  rewrite !(get_node_add_node (key x) (attrs x) k W).
  destruct (key x =? k) eqn:E.
  - apply String.eqb_eq in E.
    assert (Hf : find (fun y => key y =? k) r = None).
    { destruct (find (fun y => key y =? k) r) as [y|] eqn:Ef; [|reflexivity].
      apply find_some in Ef. destruct Ef as [Hy Ey]. apply String.eqb_eq in Ey.
      exfalso. apply Hni. rewrite E, <- Ey. now apply in_map. }
    rewrite Hf. now subst k.
  - reflexivity.
Qed.

Lemma find_key_perm (A : Type) (key : A -> string) (k : string) (l1 l2 : list A) :
  Permutation l1 l2 -> NoDup (map key l1) ->
  find (fun x => key x =? k) l1 = find (fun x => key x =? k) l2.
Proof.
  intros Hp Hnd.
  destruct (find (fun x => key x =? k) l1) as [x|] eqn:E1;
    destruct (find (fun x => key x =? k) l2) as [y|] eqn:E2; [| | |reflexivity].
  - apply find_some in E1. apply find_some in E2.
    destruct E1 as [Hx Ex]. destruct E2 as [Hy Ey].
    apply String.eqb_eq in Ex. apply String.eqb_eq in Ey.
    f_equal. apply (RoundTrip.NoDup_map_inj key l1); auto.
    + apply (Permutation_in _ (Permutation_sym Hp)). exact Hy.
    + congruence.
  - apply find_some in E1. destruct E1 as [Hx Ex].
    apply (Permutation_in _ Hp) in Hx.
    rewrite (find_none _ _ E2 _ Hx) in Ex. discriminate.
  - apply find_some in E2. destruct E2 as [Hy Ey].
    apply (Permutation_in _ (Permutation_sym Hp)) in Hy.
    rewrite (find_none _ _ E1 _ Hy) in Ey. discriminate.
Qed.

Definition same_presence (o1 o2 : option Attrs) : Prop :=
  (o1 = None <-> o2 = None).

Lemma same_presence_touched b o1 o2 :
  same_presence o1 o2 -> same_presence (touched b o1) (touched b o2).
Proof.
  unfold same_presence. intros [H1 H2].
  destruct o1, o2; simpl; try (split; intro; discriminate); try tauto.
  - specialize (H2 eq_refl). discriminate.
  - specialize (H1 eq_refl). discriminate.
Qed.

Lemma eq_touched b (o1 o2 : option Attrs) :
  o1 = o2 -> touched b o1 = touched b o2.
Proof. now intros ->. Qed.

Lemma has_node_get g k : has_node g k = true <-> Dict.get (_node g) k <> None.
Proof.
  unfold has_node, Dict.mem. destruct (Dict.get (_node g) k); split; congruence.
Qed.

Section Orders.
Variables it1 it2 : list string -> list string.
Hypothesis Hit1 : set_iter_ok it1.
Hypothesis Hit2 : set_iter_ok it2.
Variable drugs : list Drug.t.
Variables pubmed trials : list Publication.t.

Lemma node_phase_presence :
  alike same_presence (node_phase it1 drugs pubmed trials)
                      (node_phase it2 drugs pubmed trials).
Proof.
  destruct (node_phase_wf it1 drugs pubmed trials) as [W1 N1].
  destruct (node_phase_wf it2 drugs pubmed trials) as [W2 N2].
  split; [exact W1|]. split; [exact W2|]. split.
  - intro k. unfold same_presence.
    assert (H : has_node (node_phase it1 drugs pubmed trials) k = true <->
                has_node (node_phase it2 drugs pubmed trials) k = true).
    { rewrite !node_phase_has_node.
      rewrite (journal_keys_iter (pubmed ++ trials) k Hit1).
      rewrite (journal_keys_iter (pubmed ++ trials) k Hit2). tauto. }
    rewrite !has_node_get in H. destruct H as [A B]. split; intro E.
    + destruct (Dict.get (_node (node_phase it2 drugs pubmed trials)) k) eqn:E2;
        [|reflexivity].
      exfalso. apply B; [discriminate|exact E].
    + destruct (Dict.get (_node (node_phase it1 drugs pubmed trials)) k) eqn:E1;
        [|reflexivity].
      exfalso. apply A; [discriminate|exact E].
  - intros u v. now rewrite N1, N2.
Qed.

Lemma node_phase_attrs :
  NoDup (map journal_id (journal_names (pubmed ++ trials))) ->
  alike eq (node_phase it1 drugs pubmed trials) (node_phase it2 drugs pubmed trials).
Proof.
  intro Hnd.
  destruct (node_phase_wf it1 drugs pubmed trials) as [W1 N1].
  destruct (node_phase_wf it2 drugs pubmed trials) as [W2 N2].
  split; [exact W1|]. split; [exact W2|]. split; [|intros u v; now rewrite N1, N2].
  intro k. unfold node_phase, _add_nodes_to_graph, _extract_journals.
  set (names := journal_names (pubmed ++ trials)) in *.
  set (g2 := fold_left (fun g pub => add_node (pub_id pub) (pub_attrs pub) g)
                       (pubmed ++ trials)
                       (fold_left (fun g drug => add_node (drug_id drug) (drug_attrs drug) g)
                                  drugs NX.empty)).
  assert (Wg : wf g2).
  { apply (add_nodes_wf pub_id pub_attrs).
    - apply (add_nodes_wf drug_id drug_attrs); [apply wf_empty | apply no_edges_empty].
    - apply (add_nodes_wf drug_id drug_attrs); [apply wf_empty | apply no_edges_empty]. }
  assert (Hk : forall it, set_iter_ok it ->
                 NoDup (map (fun j => journal_id (Journal.name j))
                            (map Journal.mk (it names)))).
  { intros it Hit. rewrite map_map. cbn [Journal.name].
    apply (Permutation_NoDup (Permutation_map journal_id (Hit names))). exact Hnd. }
  rewrite (get_add_nodes (fun j => journal_id (Journal.name j)) journal_attrs
             (map Journal.mk (it1 names)) k (Hk it1 Hit1) Wg).
  rewrite (get_add_nodes (fun j => journal_id (Journal.name j)) journal_attrs
             (map Journal.mk (it2 names)) k (Hk it2 Hit2) Wg).
  rewrite (find_key_perm (fun j => journal_id (Journal.name j)) k
             (l1 := map Journal.mk (it1 names)) (l2 := map Journal.mk (it2 names))).
  - reflexivity.
  - apply Permutation_map.
    exact (Permutation_trans (Permutation_sym (Hit1 names)) (Hit2 names)).
  - exact (Hk it1 Hit1).
Qed.

End Orders.

(** X3: the order in which Python iterates the set of journal names does
    not show in the node set or in the edges of the built graph; when no
    two non-blank journal names share their first 20 characters it does
    not show in the node attributes either. *)
Theorem built_graph_ignores_set_order :
  forall it1 it2 drugs pubmed trials,
    set_iter_ok it1 -> set_iter_ok it2 ->
    let g1 := build_drug_mention_graph it1 drugs pubmed trials in
    let g2 := build_drug_mention_graph it2 drugs pubmed trials in
    (forall k, NX.has_node g1 k = NX.has_node g2 k)
    /\ (forall u v, NX.edge_data g1 u v = NX.edge_data g2 u v)
    /\ (NoDup (map journal_id (journal_names (pubmed ++ trials))) ->
        forall k, Dict.get (NX._node g1) k = Dict.get (NX._node g2) k).
Proof.
  intros it1 it2 ds pm ct H1 H2. cbv zeta. rewrite !build_unfold. unfold final_state.
  pose proof (alike_steps (list_prod ds (pm ++ ct)) same_presence_touched []
                (node_phase_presence H1 H2 ds pm ct)) as (_ & _ & Hn & He).
  split; [|split; [exact He|]].
  - intro k. apply Bool.eq_true_iff_eq. rewrite !has_node_get.
    destruct (Hn k) as [A B]. split; intros H E; apply H; auto.
  - intros Hnd k.
    pose proof (alike_steps (list_prod ds (pm ++ ct)) eq_touched []
                  (node_phase_attrs H1 H2 ds pm ct Hnd)) as (_ & _ & Hn' & _).
    apply Hn'.
Qed.

Lemma rev_order_ok : set_iter_ok (@rev string).
Proof. intro s. apply Permutation_rev. Qed.

Lemma built_graph_ignores_set_order_witness :
  set_iter_ok insertion_order /\ set_iter_ok (@rev string)
  /\ (forall u v,
        NX.edge_data (build_drug_mention_graph insertion_order two_drugs
                                               scenario_pubmed one_trial) u v
        = NX.edge_data (build_drug_mention_graph (@rev string) two_drugs
                                                 scenario_pubmed one_trial) u v).
Proof.
  split; [exact insertion_order_ok|]. split; [exact rev_order_ok|].
  exact (proj1 (proj2 (@built_graph_ignores_set_order insertion_order (@rev string)
                         two_drugs scenario_pubmed one_trial
                         insertion_order_ok rev_order_ok))).
Defined.

End OrderFacts.

Module JournalFacts.
Import NX NXFacts Transformers BuilderFacts NodeFacts OrderFacts.

Lemma steps_keep_attrs (pairs : list (Drug.t * Publication.t)) :
  forall g conns k a,
    wf g -> Dict.get (_node g) k = Some a ->
    Dict.get (_node (fst (fold_left step pairs (g, conns)))) k = Some a.
Proof.
  induction pairs as [|[d p] r IH]; intros g conns k a W H; [exact H|].
  cbn [fold_left]. unfold step at 2. cbn [fst snd]. unfold connect_pub.
  destruct (mentions d p); [|now apply IH].
  destruct (negb (existsb (pair_eqb (drug_id d, journal_id (Publication.journal_name p)))
                         conns)).
  - apply IH; [now do 2 apply wf_add_edge|].
    rewrite get_node_add_edge by now apply wf_add_edge.
    rewrite get_node_add_edge by assumption. now rewrite H.
  - apply IH; [now apply wf_add_edge|].
    rewrite get_node_add_edge by assumption. now rewrite H.
Qed.

(** The last name, in iteration order, that is truncated to the key [k]. *)
Definition last_named (k : string) (names : list string) : string :=
  last (filter (fun m => journal_id m =? k) names) "".

Lemma add_journals_last (names : list string) (g0 : DiGraph) :
  wf g0 ->
  let g := fold_left (fun g n => add_node (journal_id n) (journal_attrs (Journal.mk n)) g)
                     names g0 in
  wf g
  /\ forall k, In k (map journal_id names) ->
       exists a, Dict.get (_node g) k = Some a
                 /\ Dict.get_val a "type" = PyStr "journal"
                 /\ Dict.get_val a "name" = PyStr (last_named k names).
Proof.
  intro W0. cbv zeta.
  apply (LoopFacts.fold_left_prefix_ind
           (fun g n => add_node (journal_id n) (journal_attrs (Journal.mk n)) g)
           (fun pre g =>
              wf g
              /\ forall k, In k (map journal_id pre) ->
                   exists a, Dict.get (_node g) k = Some a
                             /\ Dict.get_val a "type" = PyStr "journal"
                             /\ Dict.get_val a "name" = PyStr (last_named k pre))).
  - split; [exact W0|]. intros k [].
  - intros pre x g _ [W IH]. split; [now apply wf_add_node|].
    intros k Hk. rewrite (get_node_add_node _ _ k W).
    unfold last_named. rewrite filter_app. cbn [filter].
    destruct (journal_id x =? k) eqn:E.
    + eexists. split; [reflexivity|].
      rewrite !get_val_update by apply journal_attrs_keys. cbn.
      split; [reflexivity|]. now rewrite last_last.
    + rewrite app_nil_r. apply IH.
      rewrite map_app in Hk. apply in_app_or in Hk.
      destruct Hk as [Hk|[Hk|[]]]; [exact Hk|].
      apply String.eqb_neq in E. congruence.
Qed.

(** X4: a journal node carries the type "journal" and, as its name, the
    last of the names with its 20-character prefix that the iteration over
    the set of journal names yields: when several names share a prefix,
    the name kept depends on that order. *)
Theorem journal_node_name_follows_set_order :
  forall set_iter drugs pubmed trials n,
    In n (set_iter (journal_names (pubmed ++ trials))) ->
    exists a,
      Dict.get (NX._node (build_drug_mention_graph set_iter drugs pubmed trials))
               (journal_id n) = Some a
      /\ Dict.get_val a "type" = PyStr "journal"
      /\ Dict.get_val a "name" =
         PyStr (last (filter (fun m => journal_id m =? journal_id n)
                             (set_iter (journal_names (pubmed ++ trials)))) "").
Proof.
  intros it ds pm ct n Hn. rewrite build_unfold. unfold final_state.
  destruct (node_phase_wf it ds pm ct) as [W _].
  assert (H : exists a,
             Dict.get (_node (node_phase it ds pm ct)) (journal_id n) = Some a
             /\ Dict.get_val a "type" = PyStr "journal"
             /\ Dict.get_val a "name" =
                PyStr (last_named (journal_id n) (it (journal_names (pm ++ ct))))).
  { unfold node_phase, _add_nodes_to_graph, _extract_journals.
    rewrite RoundTrip.fold_left_over_map.
    refine (proj2 (@add_journals_last (it (journal_names (pm ++ ct))) _ _)
                  (journal_id n) (in_map journal_id _ _ Hn)).
    apply (add_nodes_wf pub_id pub_attrs).
    - apply (add_nodes_wf drug_id drug_attrs); [apply wf_empty | apply no_edges_empty].
    - apply (add_nodes_wf drug_id drug_attrs); [apply wf_empty | apply no_edges_empty]. }
  destruct H as (a & Ha & Ht & Hname). exists a.
  split; [|split; assumption].
  now apply steps_keep_attrs.
Qed.

(** Two journals whose names share their first 20 characters. *)
Definition maternal_pubmed : list Publication.t :=
  [Publication.mk "1" "Epinephrine and the newborn" "2020-01-01"
                  "The journal of maternal-fetal & neonatal medicine" PUBMED;
   Publication.mk "2" "Epinephrine in labour" "2020-02-01"
                  "The journal of maternal-fetal medicine" PUBMED].

Lemma journal_node_name_follows_set_order_witness :
  let g := build_drug_mention_graph insertion_order scenario_drugs
             maternal_pubmed [] in
  insertion_order (journal_names (maternal_pubmed ++ []))
  = ["The journal of maternal-fetal & neonatal medicine";
     "The journal of maternal-fetal medicine"]
  /\ journal_id "The journal of maternal-fetal & neonatal medicine"
     = "The journal of mater"
  /\ In "The journal of maternal-fetal & neonatal medicine"
        (insertion_order (journal_names (maternal_pubmed ++ [])))
  /\ exists a,
      Dict.get (NX._node g) "The journal of mater" = Some a
      /\ Dict.get_val a "type" = PyStr "journal"
      /\ Dict.get_val a "name" = PyStr "The journal of maternal-fetal medicine".
Proof.
  cbv zeta.
  assert (H : In "The journal of maternal-fetal & neonatal medicine"
                 (insertion_order (journal_names (maternal_pubmed ++ []))))
    by (vm_compute; now left).
  split; [vm_compute; reflexivity|]. split; [vm_compute; reflexivity|].
  split; [exact H|].
  destruct (@journal_node_name_follows_set_order insertion_order scenario_drugs
              maternal_pubmed [] _ H) as (a & Ha & Ht & Hn).
  exists a. split; [exact Ha|]. split; [exact Ht|]. exact Hn.
Defined.

(** *** Blank names *)

(** A name passes the test of [_extract_journals] exactly when it has a
    character that is not white space. *)
Lemma nonblank_iff s :
  nonblank s = true
  <-> exists ch, In ch (Str.chars s) /\ Str.is_space ch = false.
Proof.
  unfold nonblank. rewrite andb_true_iff, StrFacts.strip_truthy_iff.
  split; [tauto|]. intro H. split; [|exact H].
  destruct H as (ch & Hin & _). destruct s; [destruct Hin|reflexivity].
Qed.

Lemma NoDup_map_injective (A B : Type) (f : A -> B) (l : list A) :
  (forall x y, f x = f y -> x = y) -> NoDup l -> NoDup (map f l).
Proof.
  intros Hf. induction 1 as [|x r Hni Hnd IH]; simpl; constructor; [|exact IH].
  rewrite in_map_iff. intros (y & E & Hy). apply Hf in E. now subst.
Qed.

(** X5: [_extract_journals] returns every journal once: the journals are
    the names, compared as written, of the publications whose journal
    name has a character that is not white space. *)
Theorem extract_journals_distinct_nonblank :
  forall set_iter publications,
    set_iter_ok set_iter ->
    NoDup (_extract_journals set_iter publications)
    /\ forall j,
        In j (_extract_journals set_iter publications) <->
        exists p, In p publications
                  /\ Publication.journal_name p = Journal.name j
                  /\ exists ch, In ch (Str.chars (Journal.name j))
                                /\ Str.is_space ch = false.
Proof.
  intros it pubs Hit. unfold _extract_journals. split.
  - apply NoDup_map_injective.
    + intros x y H. now inversion H.
    + apply (Permutation_NoDup (Hit _)).
      exact (proj1 (journal_names_spec pubs "")).
  - intros [n]. cbn [Journal.name]. rewrite in_map_iff. split.
    + intros (m & E & Hm). inversion E; subst m.
      apply (Permutation_in _ (Permutation_sym (Hit _))) in Hm.
      apply (proj2 (journal_names_spec pubs n)) in Hm.
      destruct Hm as (p & Hp & Hj & Hb). exists p.
      split; [exact Hp|]. split; [exact Hj|]. now apply nonblank_iff.
    + intros (p & Hp & Hj & Hc). exists n. split; [reflexivity|].
      apply (Permutation_in _ (Hit _)).
      apply (proj2 (journal_names_spec pubs n)). exists p.
      split; [exact Hp|]. split; [exact Hj|]. now apply nonblank_iff.
Qed.

Lemma extract_journals_distinct_nonblank_witness :
  set_iter_ok insertion_order
  /\ NoDup (_extract_journals insertion_order (scenario_pubmed ++ one_trial)).
Proof.
  split; [exact insertion_order_ok|].
  exact (proj1 (@extract_journals_distinct_nonblank insertion_order
                  (scenario_pubmed ++ one_trial) insertion_order_ok)).
Defined.

End JournalFacts.

(** ** The loader *)

Module LoaderFacts.
Import NX NXFacts Transformers BuilderFacts NodeFacts Helpers.

Lemma foldM_inv (A S : Type) (f : S -> A -> res S) (P : S -> Prop) (l : list A) :
  (forall s x s', In x l -> P s -> f s x = Ok s' -> P s') ->
  forall s s', P s -> foldM f l s = Ok s' -> P s'.
Proof.
  induction l as [|x r IH]; intros Hf s s' Hs H; simpl in H.
  - now inversion H; subst.
  - destruct (f s x) as [s1|e] eqn:E; [|discriminate]. simpl in H.
    apply (IH (fun s0 y s0' Hy => Hf s0 y s0' (or_intror Hy)) s1 s'); [|exact H].
    exact (Hf s x s1 (or_introl eq_refl) Hs E).
Qed.




(** The first four loops of [load_graph_from_json]: the nodes. *)
Definition load_nodes (graph_data : Document) : res DiGraph :=
  let pubs := get_or (publications graph_data) (mkPublications None None) in
  g1 <- foldM load_drug (get_or (drugs graph_data) []) NX.empty ;;
  g2 <- foldM (load_publication "pubmed") (get_or (pubmed pubs) []) g1 ;;
  g3 <- foldM (load_publication "clinical_trial")
              (get_or (clinical_trials pubs) []) g2 ;;
  foldM load_journal (get_or (journals graph_data) []) g3.

Lemma load_split (d : Document) :
  load_graph_from_json d =
  (g4 <- load_nodes d ;;
   Ok (fold_left load_relationship (get_or (relationships d) []) g4)).
Proof.
  unfold load_graph_from_json, load_nodes. cbv zeta.
  destruct (foldM load_drug (get_or (drugs d) []) empty) as [g1|e]; [|reflexivity].
  cbn [bind].
  destruct (foldM (load_publication "pubmed") _ g1) as [g2|e]; [|reflexivity].
  cbn [bind].
  destruct (foldM (load_publication "clinical_trial") _ g2) as [g3|e]; [|reflexivity].
  cbn [bind].
  now destruct (foldM load_journal (get_or (journals d) []) g3).
Qed.

(** What the loader writes on a node: one of the four types, and on a
    journal node a name whose 20-character prefix is the key. *)
Definition loaded_node (k : string) (a : Attrs) : Prop :=
  In (Dict.get_val a "type") node_kinds
  /\ (Dict.get_val a "type" = PyStr "journal" ->
      exists n, Dict.get_val a "name" = PyStr n /\ journal_id n = k).

Definition nodes_loaded (g : DiGraph) : Prop :=
  wf g /\ no_edges g /\ forall k a, In (k, a) (_node g) -> loaded_node k a.

Lemma nodes_loaded_add_node n attr g :
  NoDup (Dict.keys attr) ->
  (forall old, loaded_node n (Dict.update old attr)) ->
  nodes_loaded g -> nodes_loaded (add_node n attr g).
Proof.
  intros Hk Hnew (W & N & Q).
  split; [now apply wf_add_node|]. split; [now apply no_edges_add_node|].
  intros k a H. apply In_node_add_node in H.
  destruct H as [H|(-> & old & _ & ->)]; [now apply Q | apply Hnew].
Qed.

Lemma nodes_loaded_drug g r g' :
  nodes_loaded g -> load_drug g r = Ok g' -> nodes_loaded g'.
Proof.
  unfold load_drug. intros H E.
  destruct (Dict.get_val r "name") as [|name]; [discriminate|].
  inversion E; subst g'. apply nodes_loaded_add_node; [| |exact H].
  - repeat constructor; simpl; intuition discriminate.
  - intro old. unfold loaded_node.
    rewrite get_val_update by (repeat constructor; simpl; intuition discriminate).
    cbn. split; [auto|discriminate].
Qed.

Lemma nodes_loaded_publication kind g r g' :
  kind = "pubmed" \/ kind = "clinical_trial" ->
  nodes_loaded g -> load_publication kind g r = Ok g' -> nodes_loaded g'.
Proof.
  unfold load_publication. intros Hkind H E.
  destruct (Dict.get_default r "title" (PyStr "")) as [|title]; [discriminate|].
  inversion E; subst g'. apply nodes_loaded_add_node; [| |exact H].
  - repeat constructor; simpl; intuition discriminate.
  - intro old. unfold loaded_node.
    rewrite get_val_update by (repeat constructor; simpl; intuition discriminate).
    cbn. destruct Hkind as [-> | ->]; (split; [simpl; auto|discriminate]).
Qed.

Lemma nodes_loaded_journal g r g' :
  nodes_loaded g -> load_journal g r = Ok g' -> nodes_loaded g'.
Proof.
  unfold load_journal. intros H E.
  destruct (Dict.get_val r "name") as [|name]; [discriminate|].
  inversion E; subst g'. apply nodes_loaded_add_node; [| |exact H].
  - repeat constructor; simpl; intuition discriminate.
  - intro old. unfold loaded_node.
    rewrite !get_val_update by (repeat constructor; simpl; intuition discriminate).
    cbn. split; [simpl; auto|]. intros _. now exists name.
Qed.

Lemma load_nodes_loaded d g : load_nodes d = Ok g -> nodes_loaded g.
Proof.
  unfold load_nodes. cbv zeta. intro H.
  destruct (foldM load_drug (get_or (drugs d) []) empty) as [g1|e] eqn:E1;
    [|discriminate].
  cbn [bind] in H.
  destruct (foldM (load_publication "pubmed") _ g1) as [g2|e] eqn:E2; [|discriminate].
  cbn [bind] in H.
  destruct (foldM (load_publication "clinical_trial") _ g2) as [g3|e] eqn:E3;
    [|discriminate].
  cbn [bind] in H.
  assert (H0 : nodes_loaded empty).
  { split; [apply wf_empty|]. split; [apply no_edges_empty|]. intros k a []. }
  assert (H1 : nodes_loaded g1).
  { refine (@foldM_inv _ _ _ nodes_loaded _ _ _ _ H0 E1). intros s x s' _. apply nodes_loaded_drug. }
  assert (H2 : nodes_loaded g2).
  { refine (@foldM_inv _ _ _ nodes_loaded _ _ _ _ H1 E2). intros s x s' _.
    apply nodes_loaded_publication. now left. }
  assert (H3 : nodes_loaded g3).
  { refine (@foldM_inv _ _ _ nodes_loaded _ _ _ _ H2 E3). intros s x s' _.
    apply nodes_loaded_publication. now right. }
  refine (@foldM_inv _ _ _ nodes_loaded _ _ _ _ H3 H). intros s x s' _. apply nodes_loaded_journal.
Qed.

(** The attribute keys of a loaded edge. *)
Definition edge_keys : list string := ["relationship"; "date_mention"].

Definition edges_keyed (g : DiGraph) : Prop :=
  forall u v a, edge_data g u v = Some a -> Dict.keys a = edge_keys.

Lemma update_edge_keys (old : Attrs) (r d : pyval) :
  old = [] \/ Dict.keys old = edge_keys ->
  Dict.keys (Dict.update old [("relationship", r); ("date_mention", d)]) = edge_keys.
Proof.
  intros [->|H]; [reflexivity|].
  destruct old as [|[k1 v1] [|[k2 v2] [|? ?]]]; try discriminate.
  unfold edge_keys in H. simpl in H. inversion H; subst. reflexivity.
Qed.

Lemma load_relationship_keeps g rel :
  wf g -> edges_keyed g ->
  wf (load_relationship g rel)
  /\ edges_keyed (load_relationship g rel)
  /\ _node (load_relationship g rel) = _node g.
Proof.
  intros W K. unfold load_relationship. cbv zeta.
  destruct (resolve_source g _ _) as [|s]; [auto|].
  destruct (resolve_target g _ _) as [|t]; [auto|].
  destruct (Str.truthy s && Str.truthy t && has_node g s && has_node g t) eqn:E;
    [|auto].
  apply andb_true_iff in E. destruct E as [E Ht].
  apply andb_true_iff in E. destruct E as [_ Hs].
  split; [now apply wf_add_edge|]. split; [|now apply node_add_edge_present].
  intros u v a. rewrite edge_data_add_edge.
  destruct ((s =? u) && (t =? v)); [|apply K].
  intro H. inversion H; subst a. apply update_edge_keys.
  unfold old_data. destruct (edge_data g s t) as [a0|] eqn:E0; [|now left].
  right. exact (K _ _ _ E0).
Qed.

Lemma load_relationships_keep (rels : list Relationship) :
  forall g, wf g -> edges_keyed g ->
    wf (fold_left load_relationship rels g)
    /\ edges_keyed (fold_left load_relationship rels g)
    /\ _node (fold_left load_relationship rels g) = _node g.
Proof.
  induction rels as [|r t IH]; intros g W K; [auto|].
  cbn [fold_left].
  destruct (load_relationship_keeps r W K) as (W1 & K1 & N1).
  destruct (IH _ W1 K1) as (W2 & K2 & N2).
  split; [exact W2|]. split; [exact K2|]. now rewrite N2.
Qed.

Lemma loaded_graph d g :
  load_graph_from_json d = Ok g ->
  exists g4, load_nodes d = Ok g4 /\ nodes_loaded g4
             /\ wf g /\ edges_keyed g /\ _node g = _node g4.
Proof.
  rewrite load_split. intro H.
  destruct (load_nodes d) as [g4|e] eqn:E; [|discriminate].
  cbn [bind] in H. inversion H; subst g. clear H.
  pose proof (load_nodes_loaded d E) as L. exists g4.
  split; [reflexivity|]. split; [exact L|].
  destruct L as (W & N & _).
  apply load_relationships_keep; [exact W|].
  intros u v a Ha. rewrite N in Ha. discriminate.
Qed.

(** X6: a graph the loader returns has one node per key, each with one
    of the four types; every edge joins two such nodes -- the loader never
    makes a node for an edge -- and carries exactly the attributes
    relationship and date_mention. *)
Theorem loaded_graph_is_typed :
  forall doc g,
    load_graph_from_json doc = Ok g ->
    NoDup (map fst (NX.nodes g))
    /\ (forall k a, In (k, a) (NX.nodes g) ->
                    In (Dict.get_val a "type")
                       [PyStr "drug"; PyStr "pubmed"; PyStr "clinical_trial";
                        PyStr "journal"])
    /\ (forall u v a,
          In (u, v, a) (NX.edges g) ->
          Dict.keys a = ["relationship"; "date_mention"]
          /\ exists tu tv,
              NX.node_get g u "type" = Ok tu /\ NX.node_get g v "type" = Ok tv
              /\ In tu [PyStr "drug"; PyStr "pubmed"; PyStr "clinical_trial";
                        PyStr "journal"]
              /\ In tv [PyStr "drug"; PyStr "pubmed"; PyStr "clinical_trial";
                        PyStr "journal"]).
Proof.
  intros d g H. destruct (loaded_graph d H) as (g4 & _ & (_ & _ & Q) & W & K & N).
  split; [|split].
  - unfold nodes. fold (Dict.keys (_node g)). rewrite (wf_keys W). apply (wf_nodup W).
  - intros k a Hin. unfold nodes in Hin. rewrite N in Hin. exact (proj1 (Q k a Hin)).
  - intros u v a Hin. apply (In_edges_edge_data _ _ _ W) in Hin.
    split; [exact (K _ _ _ Hin)|].
    destruct (@edge_data_has_node _ _ _ _ W Hin) as [Hu Hv].
    destruct (has_node_In_node _ _ Hu) as [au Eu].
    destruct (has_node_In_node _ _ Hv) as [av Ev].
    exists (Dict.get_val au "type"), (Dict.get_val av "type").
    unfold node_get. rewrite Eu, Ev. split; [reflexivity|]. split; [reflexivity|].
    apply DictFacts.get_In in Eu. apply DictFacts.get_In in Ev.
    rewrite N in Eu, Ev.
    split; [exact (proj1 (Q _ _ Eu)) | exact (proj1 (Q _ _ Ev))].
Qed.

Lemma loaded_graph_is_typed_witness :
  load_graph_from_json scenario_document = Ok scenario_graph
  /\ NoDup (map fst (NX.nodes scenario_graph)).
Proof.
  split; [exact scenario_document_loaded|].
  exact (proj1 (@loaded_graph_is_typed scenario_document scenario_graph
                  scenario_document_loaded)).
Defined.




End LoaderFacts.

(** ** The exporter *)

Module ExportFacts.
Import NX NXFacts Transformers BuilderFacts NodeFacts Helpers LoaderFacts.

Definition is_str (v : pyval) : bool :=
  match v with PyStr _ => true | PyNone => false end.

(** The attribute dictionaries [save_graph_to_json] can turn into a
    record: the fields of the record for the node's type are strings. *)
Definition exportable (a : Attrs) : bool :=
  let t := Dict.get_val a "type" in
  if pyval_eqb t (PyStr "drug") then is_str (Dict.get_default a "atccode" (PyStr ""))
  else if is_publication_type t then
    is_str (Dict.get_val a "id") && is_str (Dict.get_val a "title")
    && is_str (Dict.get_val a "date") && is_str (Dict.get_val a "journal_name")
  else if pyval_eqb t (PyStr "journal") then is_str (Dict.get_val a "name")
  else true.

(** The nodes that are written to the document. *)
Definition typed (a : Attrs) : bool :=
  let t := Dict.get_val a "type" in
  pyval_eqb t (PyStr "drug") || is_publication_type t || pyval_eqb t (PyStr "journal").

Definition records (acc : NodeLists) : nat :=
  List.length (nl_drugs acc) + List.length (nl_pubmeds acc)
  + List.length (nl_clinical_trials acc) + List.length (nl_journals acc).

Lemma validate_str_is_str v :
  match validate_str v with
  | Ok s => v = PyStr s
  | Raise e => e = ValidationError /\ is_str v = false
  end.
Proof. destruct v; simpl; auto. Qed.

Lemma save_node_cases acc k a :
  match save_node acc (k, a) with
  | Ok acc' => exportable a = true
               /\ records acc' = records acc + (if typed a then 1 else 0)
  | Raise e => e = ValidationError /\ exportable a = false
  end.
Proof.
  unfold save_node, exportable, typed, records. cbv zeta.
  destruct (pyval_eqb (Dict.get_val a "type") (PyStr "drug")) eqn:Td.
  - pose proof (validate_str_is_str (Dict.get_default a "atccode" (PyStr ""))) as V.
    destruct (validate_str (Dict.get_default a "atccode" (PyStr ""))) as [s|e];
      cbn [bind].
    + rewrite V. cbn. rewrite length_app. cbn. split; [reflexivity|lia].
    + exact V.
  - destruct (is_publication_type (Dict.get_val a "type")) eqn:Tp.
    + pose proof (validate_str_is_str (Dict.get_val a "id")) as V1.
      destruct (validate_str (Dict.get_val a "id")) as [s1|e]; cbn [bind];
        [rewrite V1|destruct V1 as [-> ->]; now split].
      pose proof (validate_str_is_str (Dict.get_val a "title")) as V2.
      destruct (validate_str (Dict.get_val a "title")) as [s2|e]; cbn [bind];
        [rewrite V2|destruct V2 as [-> ->]; now split].
      pose proof (validate_str_is_str (Dict.get_val a "date")) as V3.
      destruct (validate_str (Dict.get_val a "date")) as [s3|e]; cbn [bind];
        [rewrite V3|destruct V3 as [-> ->]; now split].
      pose proof (validate_str_is_str (Dict.get_val a "journal_name")) as V4.
      destruct (validate_str (Dict.get_val a "journal_name")) as [s4|e]; cbn [bind];
        [rewrite V4|destruct V4 as [-> ->]; now split].
      destruct (pyval_eqb (Dict.get_val a "type") (PyStr "pubmed"));
        cbn; rewrite length_app; cbn; split; try reflexivity; lia.
    + destruct (pyval_eqb (Dict.get_val a "type") (PyStr "journal")) eqn:Tj.
      * pose proof (validate_str_is_str (Dict.get_val a "name")) as V.
        destruct (validate_str (Dict.get_val a "name")) as [s|e]; cbn [bind].
        -- rewrite V. cbn. rewrite length_app. cbn. split; [reflexivity|lia].
        -- exact V.
      * cbn. split; [reflexivity|lia].
Qed.

Lemma save_nodes_cases (l : list (string * Attrs)) :
  forall acc,
    match foldM save_node l acc with
    | Ok acc' => (forall k a, In (k, a) l -> exportable a = true)
                 /\ records acc' =
                    records acc + List.length (filter (fun na => typed (snd na)) l)
    | Raise e => e = ValidationError
                 /\ exists k a, In (k, a) l /\ exportable a = false
    end.
Proof.
  induction l as [|[k a] r IH]; intro acc; cbn [foldM].
  - split; [intros k a []|]. cbn. lia.
  - pose proof (save_node_cases acc k a) as H.
    destruct (save_node acc (k, a)) as [acc1|e]; cbn [bind].
    + destruct H as [Hx Hn]. specialize (IH acc1).
      destruct (foldM save_node r acc1) as [acc'|e].
      * destruct IH as [Hr Hc]. split.
        -- intros k' a' [E|Hin]; [now inversion E; subst|eauto].
        -- rewrite Hc, Hn. cbn [filter snd]. destruct (typed a); cbn; lia.
      * destruct IH as [He (k' & a' & Hin & Hx')]. split; [exact He|].
        exists k', a'. split; [now right|exact Hx'].
    + destruct H as [He Hx]. split; [exact He|]. exists k, a. split; [now left|exact Hx].
Qed.

(** The relationship written for an edge. *)
Definition saved_edge (g : DiGraph) (e : string * string * Attrs) : Relationship :=
  match save_edge g e with
  | Ok r => r
  | Raise _ => mkRelationship None None PyNone PyNone
  end.

Lemma save_edge_total g e :
  wf g -> In e (edges g) -> save_edge g e = Ok (saved_edge g e).
Proof.
  intros W Hin. destruct e as [[u v] a].
  apply (In_edges_edge_data _ _ _ W) in Hin.
  destruct (@edge_data_has_node _ _ _ _ W Hin) as [Hu Hv].
  destruct (has_node_In_node _ _ Hu) as [au Eu].
  destruct (has_node_In_node _ _ Hv) as [av Ev].
  unfold saved_edge, save_edge, node_get. rewrite Eu, Ev. cbn [bind].
  destruct (pyval_eqb (Dict.get_val au "type") (PyStr "drug")); cbn [bind];
    destruct (is_publication_type (Dict.get_val av "type")); cbn [bind];
      try reflexivity;
      destruct (pyval_eqb (Dict.get_val av "type") (PyStr "journal")); reflexivity.
Qed.

Lemma save_edges_total g :
  wf g ->
  foldM (fun acc e => r <- save_edge g e ;; Ok (acc ++ [r])) (edges g) []
  = Ok (map (saved_edge g) (edges g)).
Proof.
  intro W.
  exact (CodecFacts.foldM_collect (save_edge g) (saved_edge g) (edges g) []
           (fun e He => save_edge_total e W He)).
Qed.

(** X9: on a graph whose edges join nodes, [save_graph_to_json] can only
    fail with a validation error, and it fails exactly when a typed node
    lacks a string in a field of its record.  When it succeeds it writes
    one record per typed node and one relationship per edge; nodes of any
    other type are left out. *)
Theorem save_succeeds_iff_nodes_exportable :
  forall g,
    NXFacts.wf g ->
    match save_graph_to_json g with
    | Ok doc =>
        (forall k a, In (k, a) (NX.nodes g) -> exportable a = true)
        /\ List.length (get_or (drugs doc) [])
           + List.length (get_or (pubmed (get_or (publications doc)
                                                 (mkPublications None None))) [])
           + List.length (get_or (clinical_trials
                                    (get_or (publications doc)
                                            (mkPublications None None))) [])
           + List.length (get_or (journals doc) [])
           = List.length (filter (fun na => typed (snd na)) (NX.nodes g))
        /\ List.length (get_or (relationships doc) []) = List.length (NX.edges g)
    | Raise e =>
        e = ValidationError
        /\ exists k a, In (k, a) (NX.nodes g) /\ exportable a = false
    end.
Proof.
  intros g W. unfold save_graph_to_json.
  pose proof (save_nodes_cases (nodes g) (mkNodeLists [] [] [] [])) as H.
  destruct (foldM save_node (nodes g) (mkNodeLists [] [] [] [])) as [lists|e];
    cbn [bind]; [|exact H].
  rewrite (save_edges_total W). cbn [bind].
  destruct H as [Hx Hn]. split; [exact Hx|]. split.
  - cbn [drugs publications journals pubmed clinical_trials get_or].
    exact Hn.
  - cbn [relationships get_or]. apply length_map.
Qed.

Lemma save_succeeds_iff_nodes_exportable_witness :
  NXFacts.wf scenario_graph
  /\ match save_graph_to_json scenario_graph with
     | Ok doc =>
         List.length (get_or (relationships doc) [])
         = List.length (NX.edges scenario_graph)
     | Raise e => e = ValidationError
     end.
Proof.
  assert (W : NXFacts.wf scenario_graph) by apply build_wf.
  split; [exact W|].
  pose proof (@save_succeeds_iff_nodes_exportable scenario_graph W) as H.
  destruct (save_graph_to_json scenario_graph) as [doc|e].
  - exact (proj2 (proj2 H)).
  - exact (proj1 H).
Defined.

Lemma get_default_update (old upd : Attrs) (k : string) (dflt : pyval) :
  NoDup (Dict.keys upd) ->
  Dict.get_default (Dict.update old upd) k dflt =
  match Dict.get upd k with Some v => v | None => Dict.get_default old k dflt end.
Proof.
  intro H. unfold Dict.get_default. rewrite DictFacts.get_update by assumption.
  now destruct (Dict.get upd k).
Qed.

Lemma exportable_drug old d : exportable (Dict.update old (drug_attrs d)) = true.
Proof.
  unfold exportable. cbv zeta.
  rewrite get_val_update, get_default_update by apply drug_attrs_keys.
  reflexivity.
Qed.

Lemma exportable_pub old p : exportable (Dict.update old (pub_attrs p)) = true.
Proof.
  unfold exportable. cbv zeta.
  rewrite !get_val_update by apply pub_attrs_keys.
  destruct p as [i t d j []]; reflexivity.
Qed.

Lemma exportable_journal old j : exportable (Dict.update old (journal_attrs j)) = true.
Proof.
  unfold exportable. cbv zeta.
  rewrite !get_val_update by apply journal_attrs_keys.
  reflexivity.
Qed.

Lemma node_phase_exportable set_iter drugs pubmed trials k a :
  In (k, a) (_node (node_phase set_iter drugs pubmed trials)) -> exportable a = true.
Proof.
  unfold node_phase, _add_nodes_to_graph. cbv zeta.
  apply (add_nodes_attrs (fun j => journal_id (Journal.name j)) journal_attrs
           (fun _ a => exportable a = true)).
  - apply (add_nodes_attrs pub_id pub_attrs (fun _ a => exportable a = true)).
    + apply (add_nodes_attrs drug_id drug_attrs (fun _ a => exportable a = true)).
      * intros ? ? [].
      * intros d old _ _. apply exportable_drug.
    + intros p old _ _. apply exportable_pub.
  - intros j old _ _. apply exportable_journal.
Qed.

(** X10: exporting a built graph never fails, whatever the input lists
    and the iteration order of the journal set, and the relationships of
    the document are as many as the edges of the graph. *)
Theorem built_graph_always_exports :
  forall set_iter drugs pubmed trials,
    exists doc,
      save_graph_to_json (build_drug_mention_graph set_iter drugs pubmed trials) = Ok doc
      /\ List.length (get_or (relationships doc) [])
         = List.length (NX.edges (build_drug_mention_graph set_iter drugs pubmed trials)).
Proof.
  intros it ds pm ct.
  set (g := build_drug_mention_graph it ds pm ct).
  assert (W : wf g) by apply build_wf.
  unfold save_graph_to_json.
  pose proof (save_nodes_cases (nodes g) (mkNodeLists [] [] [] [])) as H.
  destruct (foldM save_node (nodes g) (mkNodeLists [] [] [] [])) as [lists|e];
    cbn [bind].
  - rewrite (save_edges_total W). cbn [bind]. eexists. split; [reflexivity|].
    cbn [relationships get_or]. apply length_map.
  - exfalso. destruct H as (_ & k & a & Hin & Hx).
    apply build_nodes in Hin. destruct Hin as [Hin|[-> _]].
    + rewrite (node_phase_exportable _ _ _ _ _ _ Hin) in Hx. discriminate.
    + discriminate.
Qed.

End ExportFacts.

(** ** Export followed by import, and the graph comparison of the tests *)

Module TripFacts.
Import NX NXFacts Transformers BuilderFacts NodeFacts Helpers GraphComparisonTest.


Section Reload.
Variable set_iter : list string -> list string.
Variable drugs : list Drug.t.
Variables pubmed trials : list Publication.t.
Hypothesis Hiter : set_iter_ok set_iter.
Hypothesis Hwf : RoundTrip.reloadable drugs (pubmed ++ trials).
Hypothesis Hkeys : RoundTrip.distinct_keys drugs (pubmed ++ trials).

Let built := build_drug_mention_graph set_iter drugs pubmed trials.
Let again := RoundTrip.reloaded set_iter drugs pubmed trials.





End Reload.


Lemma trip_input_ok :
  RoundTrip.reloadable two_drugs (scenario_pubmed ++ one_trial)
  /\ RoundTrip.distinct_keys two_drugs (scenario_pubmed ++ one_trial).
Proof.
  split.
  - unfold RoundTrip.reloadable. simpl. repeat split.
    + repeat constructor; simpl; intuition discriminate.
    + repeat constructor; simpl; intuition discriminate.
    + intros d [<-|[<-|[]]]; discriminate.
    + intros d p _ [<-|[<-|[]]] _; reflexivity.
  - unfold RoundTrip.distinct_keys. vm_compute.
    repeat constructor; simpl; intuition discriminate.
Qed.


(** *** compare_graphs *)

Section Sets.
Variable A : Type.
Variable eqb : A -> A -> bool.
Hypothesis eqb_spec : forall x y, eqb x y = true <-> x = y.

Lemma existsb_eqb_In x l : existsb (eqb x) l = true <-> In x l.
Proof.
  rewrite existsb_exists. split.
  - intros (y & Hy & E). apply eqb_spec in E. now subst.
  - intro H. exists x. split; [exact H|]. now apply eqb_spec.
Qed.

Lemma In_set_diff x a b : In x (set_diff eqb a b) <-> In x a /\ ~ In x b.
Proof.
  unfold set_diff. rewrite filter_In, negb_true_iff.
  split; intros [H1 H2]; (split; [exact H1|]).
  - intro H. apply existsb_eqb_In in H. congruence.
  - destruct (existsb (eqb x) b) eqn:E; [|reflexivity].
    exfalso. apply H2. now apply existsb_eqb_In.
Qed.

Lemma set_diff_nil a b : set_diff eqb a b = [] <-> incl a b.
Proof.
  split.
  - intros H x Hx. destruct (existsb (eqb x) b) eqn:E.
    + now apply existsb_eqb_In.
    + assert (Hin : In x (set_diff eqb a b)).
      { apply In_set_diff. split; [exact Hx|].
        rewrite <- existsb_eqb_In. congruence. }
      rewrite H in Hin. destruct Hin.
  - intro H. destruct (set_diff eqb a b) as [|x r] eqn:E; [reflexivity|].
    assert (Hin : In x (set_diff eqb a b)) by (rewrite E; now left).
    apply In_set_diff in Hin. destruct Hin as [Hx Hn]. exfalso. apply Hn, H, Hx.
Qed.

Lemma set_eqb_incl a b : set_eqb eqb a b = true <-> incl a b /\ incl b a.
Proof.
  unfold set_eqb. rewrite andb_true_iff, !forallb_forall. unfold incl.
  split; intros [H1 H2]; split; intros x Hx; apply existsb_eqb_In; auto.
Qed.

End Sets.

Lemma edge_eqb_spec (x y : string * string) : edge_eqb x y = true <-> x = y.
Proof.
  destruct x as [a b], y as [c d]. unfold edge_eqb. cbn [fst snd].
  rewrite andb_true_iff, !String.eqb_eq. split; [intros [-> ->]; reflexivity|].
  intro H. now inversion H.
Qed.

(** X12: the report of [compare_graphs] is consistent: both graphs have
    the same nodes exactly when no node is reported missing or extra, and
    likewise for the edges; a node is reported missing exactly when it is
    in the first graph and not in the second.  Attributes are never
    looked at. *)
Theorem compare_graphs_report_consistent :
  forall g1 g2,
    let r := compare_graphs g1 g2 in
    (same_nodes r = true <-> missing_nodes r = [] /\ extra_nodes r = [])
    /\ (same_edges r = true <-> missing_edges r = [] /\ extra_edges r = [])
    /\ (forall k, In k (missing_nodes r) <->
                  NX.has_node g1 k = true /\ NX.has_node g2 k = false)
    /\ (forall k, In k (extra_nodes r) <->
                  NX.has_node g2 k = true /\ NX.has_node g1 k = false)
    /\ (forall u v, In (u, v) (missing_edges r) <->
                    In (u, v) (map fst (NX.edges g1))
                    /\ ~ In (u, v) (map fst (NX.edges g2)))
    /\ (forall u v, In (u, v) (extra_edges r) <->
                    In (u, v) (map fst (NX.edges g2))
                    /\ ~ In (u, v) (map fst (NX.edges g1))).
Proof.
  intros g1 g2. cbv zeta. unfold compare_graphs.
  cbn [same_nodes same_edges missing_nodes extra_nodes missing_edges extra_edges].
  assert (Hn : forall g k, In k (map fst (nodes g)) <-> has_node g k = true).
  { intros g k. unfold has_node, nodes. symmetry. apply DictFacts.mem_keys. }
  repeat split.
  - apply (@set_diff_nil _ _ String.eqb_eq _ _). now apply (@set_eqb_incl _ _ String.eqb_eq _ _) in H.
  - apply (@set_diff_nil _ _ String.eqb_eq _ _). now apply (@set_eqb_incl _ _ String.eqb_eq _ _) in H.
  - intros [H1 H2]. apply (@set_eqb_incl _ _ String.eqb_eq _ _).
    split; now apply (@set_diff_nil _ _ String.eqb_eq _ _).
  - apply (@set_diff_nil _ _ edge_eqb_spec _ _). now apply (@set_eqb_incl _ _ edge_eqb_spec _ _) in H.
  - apply (@set_diff_nil _ _ edge_eqb_spec _ _). now apply (@set_eqb_incl _ _ edge_eqb_spec _ _) in H.
  - intros [H1 H2]. apply (@set_eqb_incl _ _ edge_eqb_spec _ _).
    split; now apply (@set_diff_nil _ _ edge_eqb_spec _ _).
  - apply (@In_set_diff _ _ String.eqb_eq _ _ _) in H. apply Hn. tauto.
  - apply (@In_set_diff _ _ String.eqb_eq _ _ _) in H. destruct H as [_ H].
    rewrite Hn in H. now apply not_true_iff_false.
  - intros [H1 H2]. apply (@In_set_diff _ _ String.eqb_eq _ _ _). rewrite !Hn.
    split; [exact H1|]. congruence.
  - apply (@In_set_diff _ _ String.eqb_eq _ _ _) in H. apply Hn. tauto.
  - apply (@In_set_diff _ _ String.eqb_eq _ _ _) in H. destruct H as [_ H].
    rewrite Hn in H. now apply not_true_iff_false.
  - intros [H1 H2]. apply (@In_set_diff _ _ String.eqb_eq _ _ _). rewrite !Hn.
    split; [exact H1|]. congruence.
  - apply (@In_set_diff _ _ edge_eqb_spec _ _ _) in H. tauto.
  - apply (@In_set_diff _ _ edge_eqb_spec _ _ _) in H. tauto.
  - intros [H1 H2]. now apply (@In_set_diff _ _ edge_eqb_spec _ _ _).
  - apply (@In_set_diff _ _ edge_eqb_spec _ _ _) in H. tauto.
  - apply (@In_set_diff _ _ edge_eqb_spec _ _ _) in H. tauto.
  - intros [H1 H2]. now apply (@In_set_diff _ _ edge_eqb_spec _ _ _).
Qed.




End TripFacts.

(** ** The queries *)

Module QueryFacts.
Import NX NXFacts Transformers NodeFacts Helpers TallyFacts LoaderFacts.

(** *** Sorting *)

Definition str_le (a b : string) : Prop := String.leb a b = true.

Lemma insert_sorted_perm x l : Permutation (Str.insert_sorted x l) (x :: l).
Proof.
  induction l as [|y r IH]; simpl; [apply Permutation_refl|].
  destruct (String.leb x y); [apply Permutation_refl|].
  apply (Permutation_trans (perm_skip y IH)). apply perm_swap.
Qed.

Lemma sort_perm l : Permutation (Str.sort l) l.
Proof.
  induction l as [|x r IH]; simpl; [constructor|].
  apply (Permutation_trans (insert_sorted_perm x _)). now constructor.
Qed.

Lemma insert_sorted_HdRel y x l :
  str_le y x -> HdRel str_le y l -> HdRel str_le y (Str.insert_sorted x l).
Proof.
  intros Hyx H. destruct l as [|z r]; simpl; [now constructor|].
  destruct (String.leb x z); constructor; [exact Hyx|].
  now apply HdRel_inv in H.
Qed.

Lemma insert_sorted_Sorted x l :
  Sorted str_le l -> Sorted str_le (Str.insert_sorted x l).
Proof.
  induction l as [|y r IH]; simpl; intro H; [repeat constructor|].
  destruct (String.leb x y) eqn:E.
  - constructor; [exact H|]. now constructor.
  - apply Sorted_inv in H. destruct H as [Hr Hy].
    constructor; [now apply IH|].
    apply insert_sorted_HdRel; [|exact Hy].
    destruct (String.leb_total x y) as [H|H]; [congruence|exact H].
Qed.

Lemma sort_Sorted l : Sorted str_le (Str.sort l).
Proof.
  induction l as [|x r IH]; simpl; [constructor|]. now apply insert_sorted_Sorted.
Qed.

Lemma map_PyStr_inj (l1 l2 : list string) : map PyStr l1 = map PyStr l2 -> l1 = l2.
Proof.
  revert l2. induction l1 as [|x r IH]; intros [|y t] H; try discriminate; [reflexivity|].
  simpl in H. inversion H. f_equal. now apply IH.
Qed.

Lemma NoDup_map_PyStr (l : list string) : NoDup (map PyStr l) <-> NoDup l.
Proof.
  split.
  - apply NoDup_map_inv.
  - induction 1 as [|x r Hni Hnd IH]; simpl; constructor; [|exact IH].
    rewrite in_map_iff. intros (y & E & Hy). inversion E. now subst.
Qed.

Lemma all_str_strings (l : list pyval) :
  (forall x, In x l -> exists s, x = PyStr s) -> exists ss, all_str l = Some ss.
Proof.
  induction l as [|x r IH]; intro H; [now exists []|].
  destruct (H x (or_introl eq_refl)) as [s ->].
  destruct (IH (fun y Hy => H y (or_intror Hy))) as [ss E].
  exists (s :: ss). simpl. now rewrite E.
Qed.

(** What [top_journals.sort()] leaves: the same names, each once, and
    in ascending order when they are strings. *)
Lemma sort_names_sorted (l s : list pyval) :
  sort_names l = Ok s -> NoDup l ->
  NoDup s /\ forall ss, s = map PyStr ss -> Sorted str_le ss.
Proof.
  unfold sort_names. intros H Hnd.
  destruct (all_str l) as [ss0|] eqn:E.
  - inversion H; subst s. apply all_str_map in E. subst l.
    apply NoDup_map_PyStr in Hnd. split.
    + apply NoDup_map_PyStr.
      exact (Permutation_NoDup (Permutation_sym (sort_perm ss0)) Hnd).
    + intros ss Hs. apply map_PyStr_inj in Hs. subst ss. apply sort_Sorted.
  - destruct l as [|x [|y r]]; [| |discriminate]; inversion H; subst s.
    + split; [constructor|]. intros [|? ?] Hs; [constructor|discriminate].
    + split; [exact Hnd|]. intros [|a [|b t]] Hs; try discriminate.
      repeat constructor.
Qed.

(** *** The tally of one query *)

Lemma occurrences_NoDup n l : NoDup l -> In n l -> occurrences n l = 1.
Proof.
  unfold occurrences. induction 1 as [|x r Hni Hnd IH]; intro Hin; [destruct Hin|].
  simpl. destruct (pyval_eqb n x) eqn:E.
  - apply pyval_eqb_eq in E. subst x. simpl. f_equal.
    destruct (filter (pyval_eqb n) r) as [|y t] eqn:Ef; [reflexivity|].
    exfalso. assert (Hy : In y (filter (pyval_eqb n) r)) by (rewrite Ef; now left).
    apply filter_In in Hy. destruct Hy as [Hy Ey]. apply pyval_eqb_eq in Ey.
    subst y. contradiction.
  - destruct Hin as [->|Hin]; [|now apply IH].
    rewrite pyval_eqb_refl in E. discriminate.
Qed.

Lemma tally_nonempty l : l <> [] -> fold_left count_mention l [] <> [].
Proof.
  intros Hne E. destruct l as [|x t]; [now apply Hne|].
  destruct (tally_fold (x :: t)) as [_ Hg]. specialize (Hg x).
  rewrite E in Hg. simpl in Hg.
  assert (Hx : occurrences x (x :: t) <> 0) by (apply occurrences_In; now left).
  apply Nat.eqb_neq in Hx. rewrite Hx in Hg. discriminate.
Qed.

Lemma top_nonempty (d : Tally) :
  d <> [] ->
  map fst (filter (fun jm => snd jm =? list_max (map snd d))%nat d) <> [].
Proof.
  intros Hne E.
  assert (Hm : map snd d <> []) by (destruct d; [now elim Hne|discriminate]).
  apply list_max_In in Hm. apply in_map_iff in Hm.
  destruct Hm as (jm & Ej & Hin).
  assert (H : In (fst jm)
                 (map fst (filter (fun jm => snd jm =? list_max (map snd d))%nat d))).
  { apply in_map. apply filter_In. split; [exact Hin|]. now apply Nat.eqb_eq. }
  rewrite E in H. destruct H.
Qed.

Lemma NoDup_keys_filter (d : Tally) (p : pyval * nat -> bool) :
  NoDup (map fst d) -> NoDup (map fst (filter p d)).
Proof.
  induction d as [|[k c] r IH]; simpl; intro Hk; [constructor|].
  inversion Hk as [|? ? Hni Hr]; subst.
  destruct (p (k, c)); simpl; [|now apply IH].
  constructor; [|now apply IH].
  intro Hin. apply Hni. apply in_map_iff in Hin.
  destruct Hin as (y & Ey & Hy). apply filter_In in Hy.
  rewrite <- Ey. apply in_map. tauto.
Qed.

Lemma most_mentions_names_sorted g drug_name names count :
  most_mentions_in g drug_name = Ok (names, count) ->
  NoDup names /\ forall ss, names = map PyStr ss -> Sorted str_le ss.
Proof.
  unfold most_mentions_in. intro H.
  assert (Hs : NoDup (fst no_journals_found)
               /\ forall ss, fst no_journals_found = map PyStr ss -> Sorted str_le ss).
  { split; [constructor; [intros []|constructor]|].
    intros [|a [|b t]] E; try discriminate. repeat constructor. }
  destruct (drug_nodes g drug_name) as [|n0 ns]; [now inversion H; subst|].
  destruct (foldM (fun (d : Tally) (drug_node : string) =>
                     foldM (count_target g) (out_edges g drug_node) d)
                  (n0 :: ns) []) as [jm|] eqn:E; simpl in H; [|discriminate].
  apply count_nodes_fold in E.
  assert (Hk : NoDup (map fst jm)) by (rewrite E; apply tally_fold).
  destruct jm as [|e0 r] eqn:Ej; [now inversion H; subst|].
  rewrite <- Ej in *.
  destruct (sort_names _) as [sorted|] eqn:Es; simpl in H; [|discriminate].
  inversion H; subst sorted.
  refine (@sort_names_sorted _ _ Es _). now apply NoDup_keys_filter.
Qed.

Lemma most_mentions_names_nodup g drug_name names count :
  most_mentions_in g drug_name = Ok (names, count) -> NoDup names.
Proof. intro H. exact (proj1 (most_mentions_names_sorted g drug_name H)). Qed.

Lemma most_mentions_cases g drug_name names count :
  most_mentions_in g drug_name = Ok (names, count) ->
  (journal_targets g drug_name = [] /\ (names, count) = no_journals_found)
  \/ (journal_targets g drug_name <> []
      /\ names <> []
      /\ NoDup names
      /\ forall n,
           In n names <->
           In n (journal_targets g drug_name)
           /\ count = S (occurrences n (journal_targets g drug_name))).
Proof.
  intro H.
  destruct (journal_targets g drug_name) as [|x t] eqn:ET.
  - left. split; [reflexivity|]. unfold most_mentions_in in H.
    unfold journal_targets in ET.
    destruct (drug_nodes g drug_name) as [|n0 ns] eqn:En; [now inversion H|].
    destruct (foldM (fun (d : Tally) (drug_node : string) =>
                       foldM (count_target g) (out_edges g drug_node) d)
                    (n0 :: ns) []) as [jm|] eqn:E; simpl in H; [|discriminate].
    apply count_nodes_fold in E. rewrite ET in E. simpl in E. subst jm.
    now inversion H.
  - right. rewrite <- ET.
    assert (Hne : journal_targets g drug_name <> []) by (rewrite ET; discriminate).
    split; [exact Hne|].
    pose proof (@most_mentions_in_spec g drug_name names count H Hne) as Hspec.
    cbv zeta in Hspec. destruct Hspec as [Hc Hn].
    set (l := journal_targets g drug_name) in *.
    set (d := fold_left count_mention l []) in *.
    split; [|split].
    + intro E. apply (top_nonempty (tally_nonempty Hne)). fold l d.
      destruct (map fst (filter (fun jm => snd jm =? list_max (map snd d))%nat d))
        as [|y r] eqn:Ef; [reflexivity|].
      exfalso. assert (Hy : In y names) by (apply Hn; now left).
      rewrite E in Hy. destruct Hy.
    + exact (most_mentions_names_nodup g drug_name H).
    + intro n. rewrite Hn. split.
      * intro Hin. split.
        -- now apply (top_journals_spec l n).
        -- rewrite Hc. now apply (top_count_spec l n).
      * intros [Hin Hcount]. apply (top_journals_spec l n). split; [exact Hin|].
        intros m Hm.
        (* some name has the count; [n] has it too, so [n] has the maximum *)
        destruct (map fst (filter (fun jm => snd jm =? list_max (map snd d))%nat d))
          as [|y r] eqn:Ef.
        { exfalso. apply (top_nonempty (tally_nonempty Hne)). exact Ef. }
        assert (Hy : In y (map fst (filter (fun jm => snd jm =? list_max (map snd d))%nat
                                          d))) by (rewrite Ef; now left).
        pose proof (top_count_spec l y Hy) as Hmax. fold d in Hmax.
        apply (top_journals_spec l y) in Hy. destruct Hy as [_ Hy].
        specialize (Hy m Hm). rewrite <- Hc, Hcount in Hmax. lia.
Qed.

(** X14: the count the query returns is one more than the number of
    edges from the drug node to the nodes of a listed journal: the tally
    starts at 1 and the first edge already adds 1.  The names listed are
    distinct. *)
Theorem query_count_is_one_more_than_edges :
  forall g drug_name names count,
    most_mentions_in g drug_name = Ok (names, count) ->
    journal_targets g drug_name <> [] ->
    names <> [] /\ NoDup names /\ 2 <= count
    /\ forall n, In n names ->
                 count = 1 + occurrences n (journal_targets g drug_name).
Proof.
  intros g name names count H Hne.
  destruct (most_mentions_cases g name H) as [[E _]|(_ & Hn & Hd & Hs)]; [contradiction|].
  split; [exact Hn|]. split; [exact Hd|]. split.
  - destruct names as [|n r]; [now elim Hn|].
    destruct (proj1 (Hs n) (or_introl eq_refl)) as [Hin ->].
    apply occurrences_In in Hin. lia.
  - intros n Hin. exact (proj2 (proj1 (Hs n) Hin)).
Qed.

Lemma query_count_is_one_more_than_edges_witness :
  most_mentions_in scenario_graph "epinephrine" = Ok ([PyStr "NEJM"], 2)
  /\ journal_targets scenario_graph "epinephrine" <> []
  /\ 2 <= 2.
Proof.
  assert (H : most_mentions_in scenario_graph "epinephrine" = Ok ([PyStr "NEJM"], 2))
    by reflexivity.
  assert (Hne : journal_targets scenario_graph "epinephrine" <> [])
    by (vm_compute; discriminate).
  split; [exact H|]. split; [exact Hne|].
  exact (proj1 (proj2 (proj2 (@query_count_is_one_more_than_edges
                                scenario_graph "epinephrine" _ _ H Hne)))).
Defined.

(** *** On a graph the loader returns *)

Definition loaded_shape (g : DiGraph) : Prop :=
  wf g /\ forall k a, In (k, a) (_node g) -> loaded_node k a.

Lemma loaded_graph_shape d g : load_graph_from_json d = Ok g -> loaded_shape g.
Proof.
  intro H. destruct (loaded_graph d H) as (g4 & _ & (_ & _ & Q) & W & _ & N).
  split; [exact W|]. rewrite N. exact Q.
Qed.

Lemma filter_key_one (l : list (string * Attrs)) (p : string * Attrs -> bool)
      (k : string) :
  NoDup (map fst l) -> (forall x, p x = true -> fst x = k) ->
  map fst (filter p l) = [] \/ map fst (filter p l) = [k].
Proof.
  intros Hnd Hp. induction l as [|x r IH]; [now left|].
  inversion Hnd as [|? ? Hni Hr]; subst. simpl.
  destruct (p x) eqn:E; [|now apply IH].
  right. simpl. rewrite (Hp x E). f_equal.
  destruct (filter p r) as [|y t] eqn:Ef; [reflexivity|].
  exfalso. assert (Hy : In y (filter p r)) by (rewrite Ef; now left).
  apply filter_In in Hy. destruct Hy as [Hy Ey].
  apply Hni. rewrite (Hp x E), <- (Hp y Ey). now apply in_map.
Qed.

Lemma drug_nodes_at_most_one g drug_name :
  wf g -> drug_nodes g drug_name = [] \/ drug_nodes g drug_name = [drug_name].
Proof.
  intro W. unfold drug_nodes. apply filter_key_one.
  - unfold nodes. fold (Dict.keys (_node g)). rewrite (wf_keys W). apply (wf_nodup W).
  - intros x Hx. apply andb_true_iff in Hx. now apply String.eqb_eq.
Qed.

Lemma out_edges_targets g n :
  wf g ->
  NoDup (map snd (out_edges g n))
  /\ forall e, In e (out_edges g n) -> has_node g (snd e) = true.
Proof.
  intro W. unfold out_edges.
  destruct (Dict.get (_adj g) n) as [nbrs|] eqn:E; [|split; [constructor|intros ? []]].
  apply DictFacts.get_In in E. split.
  - rewrite map_map. cbn [snd]. exact (wf_nbrs W n nbrs E).
  - intros e He. apply in_map_iff in He. destruct He as ([v a] & <- & Hv).
    cbn [snd fst]. unfold has_node. apply DictFacts.mem_keys. rewrite (wf_keys W).
    exact (wf_closed W n nbrs v a E Hv).
Qed.

Lemma target_names_loaded g e x :
  loaded_shape g -> In x (target_names g e) ->
  exists m, x = PyStr m /\ journal_id m = snd e.
Proof.
  intros [_ Q]. unfold target_names.
  destruct (Dict.get (_node g) (snd e)) as [attrs|] eqn:E; [|intros []].
  destruct (pyval_eqb (Dict.get_val attrs "type") (PyStr "journal")) eqn:T; [|intros []].
  intros [<-|[]]. apply pyval_eqb_eq in T. apply DictFacts.get_In in E.
  exact (proj2 (Q _ _ E) T).
Qed.

Lemma targets_nodup g es :
  loaded_shape g -> NoDup (map snd es) -> NoDup (flat_map (target_names g) es).
Proof.
  intro L. induction es as [|e r IH]; simpl; intro Hnd; [constructor|].
  inversion Hnd as [|? ? Hni Hr]; subst. apply NoDup_app.
  - unfold target_names. destruct (Dict.get (_node g) (snd e)); [|constructor].
    destruct (pyval_eqb _ _); repeat constructor. intros [].
  - now apply IH.
  - intros x Hx Hin. apply in_flat_map in Hin. destruct Hin as (e' & He' & Hx').
    destruct (@target_names_loaded g e x L Hx) as (m & Em & Km).
    destruct (@target_names_loaded g e' x L Hx') as (m' & Em' & Km').
    apply Hni. rewrite <- Km. rewrite Em in Em'. inversion Em'; subst m'.
    rewrite Km'. now apply in_map.
Qed.

Lemma loaded_targets g drug_name :
  loaded_shape g ->
  NoDup (journal_targets g drug_name)
  /\ forall x, In x (journal_targets g drug_name) -> exists m, x = PyStr m.
Proof.
  intro L. split.
  - unfold journal_targets.
    destruct (@drug_nodes_at_most_one g drug_name (proj1 L)) as [-> | ->];
      [constructor|].
    simpl. rewrite app_nil_r. apply targets_nodup; [exact L|].
    exact (proj1 (@out_edges_targets g drug_name (proj1 L))).
  - intros x Hx. unfold journal_targets in Hx. apply in_flat_map in Hx.
    destruct Hx as (n & _ & Hx). apply in_flat_map in Hx.
    destruct Hx as (e & _ & Hx).
    destruct (@target_names_loaded g e x L Hx) as (m & Em & _). now exists m.
Qed.

Lemma count_targets_total g es :
  (forall e, In e es -> has_node g (snd e) = true) ->
  forall d,
    foldM (count_target g) es d
    = Ok (fold_left count_mention (flat_map (target_names g) es) d).
Proof.
  induction es as [|e r IH]; intros He d; [reflexivity|].
  cbn [foldM flat_map]. rewrite fold_left_app.
  assert (E : count_target g d e = Ok (fold_left count_mention (target_names g e) d)).
  { unfold count_target, node_get, target_names.
    destruct (has_node_In_node _ _ (He e (or_introl eq_refl))) as [a ->].
    cbn [bind].
    destruct (pyval_eqb (Dict.get_val a "type") (PyStr "journal")); reflexivity. }
  rewrite E. cbn [bind]. apply IH. intros e' H'. apply He. now right.
Qed.

Lemma count_nodes_total g ns :
  wf g ->
  forall d,
    foldM (fun d drug_node => foldM (count_target g) (out_edges g drug_node) d) ns d
    = Ok (fold_left count_mention
                    (flat_map (fun n => flat_map (target_names g) (out_edges g n)) ns) d).
Proof.
  intro W. induction ns as [|n r IH]; intro d; [reflexivity|].
  cbn [foldM flat_map]. rewrite fold_left_app.
  rewrite (@count_targets_total g (out_edges g n) (proj2 (@out_edges_targets g n W)) d). cbn [bind].
  apply IH.
Qed.

Lemma tally_keys_counted (l : list pyval) (k : pyval) (c : nat) :
  In (k, c) (fold_left count_mention l []) -> In k l /\ c = S (occurrences k l).
Proof.
  intro H. destruct (tally_fold l) as [Hk Hg].
  apply (tally_In_get _ _ _ Hk) in H. rewrite Hg in H.
  destruct (occurrences k l =? 0)%nat eqn:E; [discriminate|].
  inversion H. split; [|reflexivity].
  apply occurrences_In. now apply Nat.eqb_neq.
Qed.

Lemma loaded_query_total g drug_name :
  loaded_shape g -> exists r, most_mentions_in g drug_name = Ok r.
Proof.
  intro L. pose proof (@loaded_targets g drug_name L) as [_ Hstr].
  unfold most_mentions_in. unfold journal_targets in Hstr.
  destruct (drug_nodes g drug_name) as [|n0 ns]; [eauto|].
  rewrite (@count_nodes_total g (n0 :: ns) (proj1 L) []). cbn [bind].
  set (l := flat_map (fun n => flat_map (target_names g) (out_edges g n)) (n0 :: ns))
    in *.
  destruct (fold_left count_mention l []) as [|e0 r] eqn:Ed; [eauto|].
  rewrite <- Ed.
  set (top := map fst (filter _ (fold_left count_mention l []))).
  destruct (@all_str_strings top) as [ss Ess].
  { intros x Hx. apply Hstr. unfold top in Hx. apply in_map_iff in Hx.
    destruct Hx as ([k c] & <- & Hkc). apply filter_In in Hkc.
    exact (proj1 (@tally_keys_counted l k c (proj1 Hkc))). }
  unfold sort_names. rewrite Ess. cbn [bind]. eauto.
Qed.

(** What the query makes of a graph the loader returned. *)
Lemma loaded_query g drug_name :
  loaded_shape g ->
  (journal_targets g drug_name = []
   /\ most_mentions_in g drug_name = Ok no_journals_found)
  \/ (journal_targets g drug_name <> []
      /\ exists ss,
          most_mentions_in g drug_name = Ok (map PyStr ss, 2)
          /\ Sorted str_le ss /\ NoDup ss
          /\ forall s, In s ss <-> In (PyStr s) (journal_targets g drug_name)).
Proof.
  intro L. destruct (@loaded_query_total g drug_name L) as [[names count] H].
  destruct (@loaded_targets g drug_name L) as [Hnd Hstr].
  destruct (most_mentions_cases g drug_name H) as [[E1 E2]|(Hne & Hn & Hd & Hs)].
  - left. split; [exact E1|]. now rewrite H, E2.
  - right. split; [exact Hne|].
    destruct (@all_str_strings names) as [ss Ess].
    { intros x Hx. apply Hstr. exact (proj1 (proj1 (Hs x) Hx)). }
    apply all_str_map in Ess. subst names. exists ss.
    assert (Hc : count = 2).
    { destruct ss as [|s t]; [now elim Hn|].
      destruct (proj1 (Hs (PyStr s)) (or_introl eq_refl)) as [Hin ->].
      now rewrite (@occurrences_NoDup _ _ Hnd Hin). }
    subst count. split; [exact H|]. split; [|split].
    + exact (proj2 (most_mentions_names_sorted g drug_name H) ss eq_refl).
    + now apply NoDup_map_PyStr.
    + intro s. split.
      * intro Hin. exact (proj1 (proj1 (Hs (PyStr s)) (in_map PyStr _ _ Hin))).
      * intro Hin.
        assert (Hm : In (PyStr s) (map PyStr ss)).
        { apply Hs. split; [exact Hin|].
          now rewrite (@occurrences_NoDup _ _ Hnd Hin). }
        apply in_map_iff in Hm. destruct Hm as (s' & E & Hs'). inversion E. now subst.
Qed.

(** X15: what [find_journals_with_most_mentions_of_drug] returns, for
    every document and every drug name.  It returns the error result
    exactly when the document does not load.  On a document that loads,
    every journal the drug node has an edge to is counted once, so the
    count is 2 and the list holds all of them, or the count is 0 and the
    list is the "No journals found" notice: the count is never the number
    of mentions. *)
Theorem query_on_document_counts_two :
  forall doc drug_name,
    let r := find_journals_with_most_mentions_of_drug doc drug_name in
    (r = error_processing <-> exists e, load_graph_from_json doc = Raise e)
    /\ (snd r = 0 \/ snd r = 2)
    /\ forall g, load_graph_from_json doc = Ok g ->
         (journal_targets g drug_name = [] -> r = no_journals_found)
         /\ (journal_targets g drug_name <> [] ->
             snd r = 2 /\ forall n, In n (fst r) <-> In n (journal_targets g drug_name)).
Proof.
  intros d name. cbv zeta. unfold find_journals_with_most_mentions_of_drug.
  destruct (load_graph_from_json d) as [g|e] eqn:E; cbn [bind].
  - pose proof (@loaded_graph_shape d g E) as L.
    destruct (@loaded_query g name L) as [[ET ->]|(Hne & ss & -> & _ & _ & Hs)].
    + split; [|split].
      * split; [discriminate|]. intros [e He]. discriminate.
      * now left.
      * intros g' Hg'. inversion Hg'; subst g'. split; [reflexivity|]. now intros [].
    + split; [|split].
      * split; [discriminate|]. intros [e He]. discriminate.
      * now right.
      * intros g' Hg'. inversion Hg'; subst g'. split; [now intro|]. intros _.
        split; [reflexivity|]. intro n. cbn [fst]. split.
        -- intro Hin. apply in_map_iff in Hin. destruct Hin as (s & <- & Hin).
           now apply Hs.
        -- intro Hin. destruct (proj2 (@loaded_targets g name L) n Hin) as [m ->].
           apply in_map. now apply Hs.
  - split; [|split].
    + split; [eauto|reflexivity].
    + now left.
    + intros g Hg. discriminate.
Qed.

(** X16: the names [find_journals_with_most_mentions_of_drug] returns are
    strings, each once, in ascending code-point order. *)
Theorem query_names_sorted_distinct :
  forall doc drug_name,
    exists ss,
      fst (find_journals_with_most_mentions_of_drug doc drug_name) = map PyStr ss
      /\ Sorted (fun a b => String.leb a b = true) ss
      /\ NoDup ss.
Proof.
  intros d name. unfold find_journals_with_most_mentions_of_drug.
  destruct (load_graph_from_json d) as [g|e] eqn:E; cbn [bind].
  - pose proof (@loaded_graph_shape d g E) as L.
    destruct (@loaded_query g name L) as [[ET ->]|(Hne & ss & -> & Hs & Hd & _)].
    + exists ["No journals found"]. split; [reflexivity|].
      split; repeat constructor. intros [].
    + exists ss. split; [reflexivity|]. split; [exact Hs|exact Hd].
  - exists ["Error processing journals"]. split; [reflexivity|].
    split; repeat constructor. intros [].
Qed.

End QueryFacts.

(** *** C5 *)

(** C5, amended: the query looks at the drug nodes whose key equals the
    query string as given (no lower-casing): there is at most one, the
    node keyed by the query string when its type is drug.  With no such
    node it returns the "No journals found" result with count 0.  With
    one, the journals it returns are those of that node and of no other:
    a name is returned, with a count that is not 0, exactly when an edge
    leaves the node keyed by the query string for a node of type journal
    with that name. *)
Theorem query_matches_exact_key :
  forall (graph_data : Helpers.Document) (g : NX.DiGraph) (drug_name : string),
    Helpers.load_graph_from_json graph_data = Ok g ->
    let r := Helpers.find_journals_with_most_mentions_of_drug graph_data drug_name in
    (forall n, In n (Helpers.drug_nodes g drug_name) <->
               n = drug_name
               /\ exists attrs, In (n, attrs) (NX.nodes g)
                                /\ Dict.get_val attrs "type" = PyStr "drug")
    /\ (Helpers.drug_nodes g drug_name = []
        \/ Helpers.drug_nodes g drug_name = [drug_name])
    /\ (Helpers.drug_nodes g drug_name = [] -> r = ([PyStr "No journals found"], 0))
    /\ (forall n,
          In n (fst r) /\ snd r <> 0 <->
          NX.node_get g drug_name "type" = Ok (PyStr "drug")
          /\ exists e attrs,
              In e (NX.out_edges g drug_name)
              /\ Dict.get (NX._node g) (snd e) = Some attrs
              /\ Dict.get_val attrs "type" = PyStr "journal"
              /\ Dict.get_val attrs "name" = n).
Proof.
  intros doc g name Hload. cbv zeta.
  pose proof (@QueryFacts.loaded_graph_shape doc g Hload) as L.
  assert (Hnodes : forall n, In n (Helpers.drug_nodes g name) <->
                             n = name
                             /\ exists attrs, In (n, attrs) (NX.nodes g)
                                              /\ Dict.get_val attrs "type" = PyStr "drug").
  { intro n. unfold Helpers.drug_nodes. rewrite in_map_iff. split.
    - intros [[k a] [<- Hin]]. apply filter_In in Hin. destruct Hin as [Hin Ht].
      simpl in *. apply andb_true_iff in Ht. destruct Ht as [Ht Hk].
      apply String.eqb_eq in Hk. apply pyval_eqb_eq in Ht. eauto.
    - intros [-> [attrs [Hin Ht]]]. exists (name, attrs). split; [reflexivity|].
      apply filter_In. split; [assumption|]. simpl.
      now rewrite Ht, String.eqb_refl. }
  assert (Hone : Helpers.drug_nodes g name = [] \/ Helpers.drug_nodes g name = [name])
    by exact (@QueryFacts.drug_nodes_at_most_one g name (proj1 L)).
  (* the names counted are those behind the edges of the node [name] *)
  assert (Htargets : forall n,
             In n (TallyFacts.journal_targets g name) <->
             NX.node_get g name "type" = Ok (PyStr "drug")
             /\ exists e attrs,
                 In e (NX.out_edges g name)
                 /\ Dict.get (NX._node g) (snd e) = Some attrs
                 /\ Dict.get_val attrs "type" = PyStr "journal"
                 /\ Dict.get_val attrs "name" = n).
  { intro n. unfold TallyFacts.journal_targets. rewrite in_flat_map. split.
    - intros (k & Hk & Hn). apply Hnodes in Hk. destruct Hk as (-> & attrs & Hin & Ht).
      split.
      + unfold NX.node_get.
        assert (Hnd : NoDup (Dict.keys (NX._node g))).
        { rewrite (NXFacts.wf_keys (proj1 L)). apply (NXFacts.wf_nodup (proj1 L)). }
        rewrite (@DictFacts.In_get _ _ _ _ Hnd Hin). now rewrite Ht.
      + apply in_flat_map in Hn. destruct Hn as (e & He & Hn). exists e.
        unfold TallyFacts.target_names in Hn.
        destruct (Dict.get (NX._node g) (snd e)) as [a|]; [|destruct Hn].
        exists a. destruct (pyval_eqb (Dict.get_val a "type") (PyStr "journal")) eqn:T;
          [|destruct Hn].
        apply pyval_eqb_eq in T. destruct Hn as [<-|[]]. auto.
    - intros (Ht & e & a & He & Ea & Ta & Na). exists name. split.
      + apply Hnodes. split; [reflexivity|]. unfold NX.node_get in Ht.
        destruct (Dict.get (NX._node g) name) as [attrs|] eqn:E; [|discriminate].
        exists attrs. split; [now apply DictFacts.get_In|]. now inversion Ht.
      + apply in_flat_map. exists e. split; [exact He|].
        unfold TallyFacts.target_names. rewrite Ea, Ta. simpl. now left. }
  split; [exact Hnodes|]. split; [exact Hone|]. split.
  - intro Hnil. unfold Helpers.find_journals_with_most_mentions_of_drug.
    rewrite Hload. simpl. unfold Helpers.most_mentions_in. now rewrite Hnil.
  - intro n. rewrite <- Htargets.
    unfold Helpers.find_journals_with_most_mentions_of_drug. rewrite Hload. cbn [bind].
    destruct (@QueryFacts.loaded_query g name L) as [[ET ->]|(Hne & ss & -> & _ & _ & Hs)].
    + rewrite ET. cbn [fst snd Helpers.no_journals_found]. split; [|intros []].
      intros [_ H]. now elim H.
    + cbn [fst snd]. split.
      * intros [Hin _]. apply in_map_iff in Hin. destruct Hin as (s & <- & Hin).
        now apply Hs.
      * intro Hin. split; [|discriminate].
        destruct (proj2 (@QueryFacts.loaded_targets g name L) n Hin) as [m ->].
        apply in_map. now apply Hs.
Qed.

Lemma query_matches_exact_key_witness :
  load_graph_from_json scenario_document = Ok scenario_graph
  /\ Helpers.drug_nodes scenario_graph "Epinephrine" = []
  /\ Helpers.find_journals_with_most_mentions_of_drug scenario_document "Epinephrine"
     = ([PyStr "No journals found"], 0)
  /\ Helpers.drug_nodes scenario_graph "epinephrine" = ["epinephrine"]
  /\ (forall n,
        In n (fst (Helpers.find_journals_with_most_mentions_of_drug
                     scenario_document "epinephrine"))
        /\ snd (Helpers.find_journals_with_most_mentions_of_drug
                  scenario_document "epinephrine") <> 0 <->
        NX.node_get scenario_graph "epinephrine" "type" = Ok (PyStr "drug")
        /\ exists e attrs,
            In e (NX.out_edges scenario_graph "epinephrine")
            /\ Dict.get (NX._node scenario_graph) (snd e) = Some attrs
            /\ Dict.get_val attrs "type" = PyStr "journal"
            /\ Dict.get_val attrs "name" = n).
Proof.
  assert (Hl : load_graph_from_json scenario_document = Ok scenario_graph)
    by (vm_compute; reflexivity).
  assert (Hn : Helpers.drug_nodes scenario_graph "Epinephrine" = [])
    by (vm_compute; reflexivity).
  split; [exact Hl|]. split; [exact Hn|]. split.
  - exact (proj1 (proj2 (proj2 (@query_matches_exact_key scenario_document
                                  scenario_graph "Epinephrine" Hl))) Hn).
  - split; [vm_compute; reflexivity|].
    exact (proj2 (proj2 (proj2 (@query_matches_exact_key scenario_document
                                  scenario_graph "epinephrine" Hl)))).
Defined.

(** C5 as worded fails: the node keyed by the lower-cased query is a drug
    node with a journal, yet the mixed-case query does not look at it. *)
Lemma query_is_case_sensitive :
  Str.lower "Epinephrine" = "epinephrine"
  /\ (exists g, load_graph_from_json scenario_document = Ok g
                /\ Helpers.drug_nodes g (Str.lower "Epinephrine") = ["epinephrine"]
                /\ Helpers.drug_nodes g "Epinephrine" = [])
  /\ fst (Helpers.find_journals_with_most_mentions_of_drug scenario_document "epinephrine")
     = [PyStr "NEJM"]
  /\ Helpers.find_journals_with_most_mentions_of_drug scenario_document "Epinephrine"
     = ([PyStr "No journals found"], 0).
Proof.
  split; [vm_compute; reflexivity|]. split; [|split; vm_compute; reflexivity].
  eexists. repeat split; vm_compute; reflexivity.
Qed.

(** *** C9 *)

(** Every relationship record of the document comes from an edge. *)
Lemma saved_relationship_origin (g : NX.DiGraph) (l : list (string * string * Attrs))
      (acc rs : list Relationship) (r : Relationship) :
  foldM (fun acc e => r <- save_edge g e ;; Ok (acc ++ [r])) l acc = Ok rs ->
  In r rs -> In r acc \/ exists e, In e l /\ save_edge g e = Ok r.
Proof.
  revert acc. induction l as [|e t IH]; intros acc H Hin; simpl in H.
  - inversion H. subst. auto.
  - destruct (save_edge g e) as [r0|] eqn:E; simpl in H; [|discriminate].
    destruct (IH _ H Hin) as [Ha|(e' & He' & Hs)].
    + apply in_app_or in Ha. destruct Ha as [Ha|[<-|[]]]; [auto|].
      right. exists e. split; [now left | assumption].
    + right. exists e'. split; [now right | assumption].
Qed.

Lemma save_relationships (g : NX.DiGraph) (doc : Document) (r : Relationship) :
  save_graph_to_json g = Ok doc ->
  In r (get_or (relationships doc) []) ->
  exists e, In e (NX.edges g) /\ save_edge g e = Ok r.
Proof.
  unfold save_graph_to_json. intros H Hin.
  destruct (foldM save_node (NX.nodes g) _) as [lists|]; simpl in H; [|discriminate].
  destruct (foldM _ (NX.edges g) []) as [rs|] eqn:E; simpl in H; [|discriminate].
  inversion H. subst doc. simpl in Hin.
  destruct (@saved_relationship_origin g (NX.edges g) [] rs r E Hin) as [[]|H']. exact H'.
Qed.

(** The record written for an edge into a node of type journal has the
    node's [name] attribute as target id. *)
Lemma save_edge_journal (g : NX.DiGraph) (u v : string) (a : Attrs) (r : Relationship) :
  save_edge g (u, v, a) = Ok r ->
  Dict.get_val (get_or (target r) []) "type" = PyStr "journal" ->
  exists attrs, Dict.get (NX._node g) v = Some attrs
                /\ Dict.get_val attrs "type" = PyStr "journal"
                /\ Dict.get_val (get_or (target r) []) "id" = Dict.get_val attrs "name".
Proof.
  unfold save_edge, NX.node_get. intros H Ht.
  destruct (Dict.get (NX._node g) u) as [au|]; simpl in H; [|discriminate].
  destruct (Dict.get (NX._node g) v) as [av|]; simpl in H; [|discriminate].
  destruct (pyval_eqb (Dict.get_val au "type") (PyStr "drug")); simpl in H;
    (destruct (is_publication_type (Dict.get_val av "type")) eqn:Ep; simpl in H;
     [ inversion H; subst r; simpl in Ht; unfold Dict.get_val in Ht; simpl in Ht;
       fold (Dict.get_val av "type") in Ht; rewrite Ht in Ep; discriminate
     | destruct (pyval_eqb (Dict.get_val av "type") (PyStr "journal")) eqn:Ej; simpl in H;
       inversion H; subst r; simpl in *;
       [ apply pyval_eqb_eq in Ej; exists av; auto
       | unfold Dict.get_val in Ht; simpl in Ht; fold (Dict.get_val av "type") in Ht;
         rewrite Ht in Ej; discriminate ] ]).
Qed.

(** The journal records of the document: one for every node of type
    journal, holding the node's name. *)
Lemma save_node_journals (acc acc' : NodeLists) (k : string) (a : Attrs) :
  save_node acc (k, a) = Ok acc' ->
  (forall r, In r (nl_journals acc) -> In r (nl_journals acc'))
  /\ (forall n, Dict.get_val a "type" = PyStr "journal" ->
                Dict.get_val a "name" = PyStr n ->
                In [("name", PyStr n)] (nl_journals acc')).
Proof.
  unfold save_node. cbv zeta.
  destruct (pyval_eqb (Dict.get_val a "type") (PyStr "drug")) eqn:Td.
  - destruct (validate_str _) as [s|e]; cbn [bind]; [|discriminate].
    intro H. inversion H; subst acc'. cbn [nl_journals]. split; [auto|].
    intros n Ht. rewrite Ht in Td. discriminate.
  - destruct (is_publication_type (Dict.get_val a "type")) eqn:Tp.
    + destruct (validate_str (Dict.get_val a "id")); cbn [bind]; [|discriminate].
      destruct (validate_str (Dict.get_val a "title")); cbn [bind]; [|discriminate].
      destruct (validate_str (Dict.get_val a "date")); cbn [bind]; [|discriminate].
      destruct (validate_str (Dict.get_val a "journal_name")); cbn [bind];
        [|discriminate].
      destruct (pyval_eqb (Dict.get_val a "type") (PyStr "pubmed"));
        intro H; inversion H; subst acc'; cbn [nl_journals]; (split; [auto|]);
          intros n Ht; rewrite Ht in Tp; discriminate.
    + destruct (pyval_eqb (Dict.get_val a "type") (PyStr "journal")) eqn:Tj.
      * destruct (validate_str (Dict.get_val a "name")) as [s|e] eqn:V; cbn [bind];
          [|discriminate].
        intro H. inversion H; subst acc'. cbn [nl_journals]. split.
        -- intros r Hr. apply in_or_app. now left.
        -- intros n _ Hn. rewrite Hn in V. inversion V; subst s.
           apply in_or_app. right. now left.
      * intro H. inversion H; subst acc'. split; [auto|].
        intros n Ht. rewrite Ht in Tj. discriminate.
Qed.

Lemma save_nodes_journals (l : list (string * Attrs)) :
  forall acc acc',
    foldM save_node l acc = Ok acc' ->
    (forall r, In r (nl_journals acc) -> In r (nl_journals acc'))
    /\ (forall k a n, In (k, a) l ->
                      Dict.get_val a "type" = PyStr "journal" ->
                      Dict.get_val a "name" = PyStr n ->
                      In [("name", PyStr n)] (nl_journals acc')).
Proof.
  induction l as [|[k a] t IH]; intros acc acc' H; cbn [foldM] in H.
  - inversion H; subst acc'. split; [auto|]. intros ? ? ? [].
  - destruct (save_node acc (k, a)) as [acc1|e] eqn:E; cbn [bind] in H;
      [|discriminate].
    destruct (save_node_journals _ _ _ E) as [M1 J1].
    destruct (IH _ _ H) as [M2 J2]. split; [auto|].
    intros k' a' n [Eq|Hin] Ht Hn; [|eauto].
    inversion Eq; subst k' a'. apply M2. now apply J1.
Qed.

Lemma saved_journal_record (g : NX.DiGraph) (doc : Document)
      (k : string) (a : Attrs) (n : string) :
  save_graph_to_json g = Ok doc ->
  In (k, a) (NX.nodes g) ->
  Dict.get_val a "type" = PyStr "journal" ->
  Dict.get_val a "name" = PyStr n ->
  In [("name", PyStr n)] (get_or (journals doc) []).
Proof.
  unfold save_graph_to_json. intros H Hin Ht Hn.
  destruct (foldM save_node (NX.nodes g) _) as [lists|] eqn:E; cbn [bind] in H;
    [|discriminate].
  destruct (foldM _ (NX.edges g) []) as [rs|]; cbn [bind] in H; [|discriminate].
  inversion H; subst doc. cbn [journals get_or].
  exact (proj2 (save_nodes_journals _ _ E) k a n Hin Ht Hn).
Qed.

(** The loader makes a node of type journal for every journal record, at
    the first 20 characters of the record's name. *)
Lemma load_journals_typed (l : list JObj) :
  forall g g',
    NXFacts.wf g -> foldM load_journal l g = Ok g' ->
    NXFacts.wf g'
    /\ (forall k, NX.node_get g k "type" = Ok (PyStr "journal") ->
                  NX.node_get g' k "type" = Ok (PyStr "journal"))
    /\ (forall r n, In r l -> Dict.get_val r "name" = PyStr n ->
                    NX.node_get g' (journal_id n) "type" = Ok (PyStr "journal")).
Proof.
  induction l as [|r t IH]; intros g g' W H; cbn [foldM] in H.
  - inversion H; subst g'. split; [exact W|]. split; [auto|]. intros ? ? [].
  - destruct (load_journal g r) as [g1|e] eqn:E; cbn [bind] in H; [|discriminate].
    unfold load_journal in E.
    destruct (Dict.get_val r "name") as [|name] eqn:En; [discriminate|].
    inversion E; subst g1. clear E.
    assert (W1 : NXFacts.wf (NX.add_node (Str.take 20 name)
                               [("type", PyStr "journal"); ("name", PyStr name)] g))
      by now apply NXFacts.wf_add_node.
    assert (Hnew : NX.node_get
                     (NX.add_node (Str.take 20 name)
                        [("type", PyStr "journal"); ("name", PyStr name)] g)
                     (Str.take 20 name) "type" = Ok (PyStr "journal")).
    { unfold NX.node_get. rewrite (OrderFacts.get_node_add_node _ _ _ W).
      rewrite String.eqb_refl.
      rewrite get_val_update by (repeat constructor; simpl; intuition discriminate).
      reflexivity. }
    destruct (IH _ _ W1 H) as (W' & K' & J'). split; [exact W'|]. split.
    + intros k Hk. apply K'.
      destruct (Str.take 20 name =? k) eqn:Ek.
      * apply String.eqb_eq in Ek. subst k. exact Hnew.
      * unfold NX.node_get. rewrite (OrderFacts.get_node_add_node _ _ _ W), Ek.
        exact Hk.
    + intros r' n [<-|Hin] Hn; [|eauto].
      rewrite En in Hn. inversion Hn; subst n. apply K'. exact Hnew.
Qed.

Lemma loaded_journal_node (doc : Document) (g' : NX.DiGraph) (r : JObj) (n : string) :
  load_graph_from_json doc = Ok g' ->
  In r (get_or (journals doc) []) -> Dict.get_val r "name" = PyStr n ->
  NX.node_get g' (journal_id n) "type" = Ok (PyStr "journal").
Proof.
  intros H Hin Hn.
  destruct (LoaderFacts.loaded_graph doc H) as (g4 & E4 & _ & _ & _ & N).
  unfold NX.node_get. rewrite N. fold (NX.node_get g4 (journal_id n) "type").
  unfold LoaderFacts.load_nodes in E4. cbv zeta in E4.
  destruct (foldM load_drug (get_or (drugs doc) []) NX.empty) as [g1|e] eqn:E1;
    [|discriminate].
  cbn [bind] in E4.
  destruct (foldM (load_publication "pubmed") _ g1) as [g2|e] eqn:E2; [|discriminate].
  cbn [bind] in E4.
  destruct (foldM (load_publication "clinical_trial") _ g2) as [g3|e] eqn:E3;
    [|discriminate].
  cbn [bind] in E4.
  assert (H0 : LoaderFacts.nodes_loaded NX.empty).
  { split; [apply NXFacts.wf_empty|]. split; [apply BuilderFacts.no_edges_empty|].
    intros k a []. }
  assert (H1 : LoaderFacts.nodes_loaded g1).
  { refine (@LoaderFacts.foldM_inv _ _ _ LoaderFacts.nodes_loaded _ _ _ _ H0 E1).
    intros s x s' _. apply LoaderFacts.nodes_loaded_drug. }
  assert (H2 : LoaderFacts.nodes_loaded g2).
  { refine (@LoaderFacts.foldM_inv _ _ _ LoaderFacts.nodes_loaded _ _ _ _ H1 E2).
    intros s x s' _. apply LoaderFacts.nodes_loaded_publication. now left. }
  assert (H3 : LoaderFacts.nodes_loaded g3).
  { refine (@LoaderFacts.foldM_inv _ _ _ LoaderFacts.nodes_loaded _ _ _ _ H2 E3).
    intros s x s' _. apply LoaderFacts.nodes_loaded_publication. now right. }
  exact (proj2 (proj2 (load_journals_typed _ (proj1 H3) E4)) r n Hin Hn).
Qed.

(** C9, amended: in the document exported for a built graph, the target id
    of every journal relationship is the full name of an extracted journal
    (the [name] attribute of the target node), not the node key, which is
    the first 20 characters of that name; the loader obtains the key from
    the id by keeping its first 20 characters, and that key is a node of
    type journal of the graph it returns. *)
Theorem exported_journal_id_is_full_name :
  forall set_iter drugs pubmed trials doc r,
    set_iter_ok set_iter ->
    save_graph_to_json (build_drug_mention_graph set_iter drugs pubmed trials) = Ok doc ->
    In r (get_or (relationships doc) []) ->
    Dict.get_val (get_or (target r) []) "type" = PyStr "journal" ->
    let g := build_drug_mention_graph set_iter drugs pubmed trials in
    exists name u a,
      In name (journal_names (pubmed ++ trials))
      /\ Dict.get_val (get_or (target r) []) "id" = PyStr name
      /\ NX.node_get g (journal_id name) "name" = Ok (PyStr name)
      /\ In (u, journal_id name, a) (NX.edges g)
      /\ Str.chars (journal_id name) = firstn 20 (Str.chars name)
      /\ (forall g', resolve_target g' (PyStr name) (PyStr "journal")
                     = PyStr (journal_id name))
      /\ (forall g', load_graph_from_json doc = Ok g' ->
                     NX.node_get g' (journal_id name) "type" = Ok (PyStr "journal")).
Proof.
  intros it ds pm ct doc r Hok Hsave Hin Ht. cbv zeta.
  destruct (@save_relationships _ doc r Hsave Hin) as ([[u v] a] & He & Hs).
  destruct (@save_edge_journal _ u v a r Hs Ht) as (attrs & Ev & Hty & Hid).
  pose proof Ev as Ev0.
  apply DictFacts.get_In in Ev. pose proof Ev as Hnode. apply build_nodes in Ev.
  destruct Ev as [Ev|(-> & _)]; [|discriminate].
  destruct (node_phase_typed it ds pm ct v attrs Ev) as [_ Hj].
  destruct (Hj Hty) as (j & Hjin & Hname & Hkey).
  unfold _extract_journals in Hjin. apply in_map_iff in Hjin.
  destruct Hjin as (n & <- & Hn). simpl in *.
  apply (Permutation_in _ (Permutation_sym (Hok _))) in Hn.
  exists n, u, a. split; [assumption|]. split; [congruence|].
  split; [unfold NX.node_get; rewrite Hkey, Ev0; now rewrite Hname|].
  split; [now rewrite Hkey|].
  split; [apply StrFacts.chars_take|].
  split.
  - intro g'. apply (proj2 (journal_names_spec _ _)) in Hn.
    destruct Hn as (p & _ & _ & Hnb). unfold nonblank in Hnb.
    apply andb_true_iff in Hnb. destruct Hnb as [Hnb _].
    unfold resolve_target. simpl. now rewrite Hnb.
  - intros g' Hload.
    apply (@loaded_journal_node doc g' [("name", PyStr n)] n Hload);
      [|reflexivity].
    exact (@saved_journal_record _ doc v attrs n Hsave Hnode Hty Hname).
Qed.

(** A journal whose name is longer than 20 characters, some of them
    outside ASCII. *)
Definition long_journal_pub : Publication.t :=
  Publication.mk "10" "Epinephrine and the newborn" "2020-01-01"
                 "Revue d'épidémiologie et de santé publique" PUBMED.
Definition long_journal_graph : NX.DiGraph :=
  build_drug_mention_graph insertion_order scenario_drugs [long_journal_pub] [].
Definition long_journal_rel : Relationship :=
  mkRelationship
    (Some [("id", PyStr "A1"); ("type", PyStr "drug")])
    (Some [("id", PyStr "Revue d'épidémiologie et de santé publique");
           ("type", PyStr "journal")])
    (PyStr "Référencé dans") (PyStr "2020-01-01").

Lemma exported_journal_id_is_full_name_witness :
  set_iter_ok insertion_order
  /\ (exists doc, save_graph_to_json long_journal_graph = Ok doc
                  /\ In long_journal_rel (get_or (relationships doc) [])
                  /\ exists g', load_graph_from_json doc = Ok g')
  /\ Dict.get_val (get_or (target long_journal_rel) []) "type" = PyStr "journal"
  /\ journal_id "Revue d'épidémiologie et de santé publique" = "Revue d'épidémiologi"
  /\ exists name u a,
      In name (journal_names ([long_journal_pub] ++ []))
      /\ Dict.get_val (get_or (target long_journal_rel) []) "id" = PyStr name
      /\ NX.node_get long_journal_graph (journal_id name) "name" = Ok (PyStr name)
      /\ In (u, journal_id name, a) (NX.edges long_journal_graph)
      /\ Str.chars (journal_id name) = firstn 20 (Str.chars name)
      /\ (forall g', resolve_target g' (PyStr name) (PyStr "journal")
                     = PyStr (journal_id name))
      /\ (forall g', (doc <- save_graph_to_json long_journal_graph ;;
                      load_graph_from_json doc) = Ok g' ->
                     NX.node_get g' (journal_id name) "type" = Ok (PyStr "journal")).
Proof.
  split; [exact insertion_order_ok|].
  assert (Hs : exists doc, save_graph_to_json long_journal_graph = Ok doc)
    by (eexists; vm_compute; reflexivity).
  destruct Hs as [doc Hs].
  assert (Hr : In long_journal_rel (get_or (relationships doc) [])).
  { assert (E : Ok doc = save_graph_to_json long_journal_graph) by now rewrite Hs.
    vm_compute in E. inversion E. right. left. reflexivity. }
  split.
  { exists doc. split; [exact Hs|]. split; [exact Hr|].
    assert (E : Ok doc = save_graph_to_json long_journal_graph) by now rewrite Hs.
    vm_compute in E. inversion E. eexists. vm_compute. reflexivity. }
  split; [reflexivity|]. split; [vm_compute; reflexivity|].
  destruct (@exported_journal_id_is_full_name insertion_order scenario_drugs
              [long_journal_pub] [] doc long_journal_rel insertion_order_ok
              Hs Hr eq_refl)
    as (name & u & a & H1 & H2 & H3 & H4 & H5 & H6 & H7).
  exists name, u, a. repeat (split; [assumption|]).
  intros g' Hg'. apply H7. fold long_journal_graph. rewrite Hs in Hg'. exact Hg'.
Defined.

(** C9 as worded fails: the target id written for the journal edge is the
    name of 42 characters, while the journal's node key is its first 20
    characters. *)
Lemma exported_journal_id_is_not_the_key :
  (exists doc, save_graph_to_json long_journal_graph = Ok doc
               /\ In long_journal_rel (get_or (relationships doc) []))
  /\ Dict.get_val (get_or (target long_journal_rel) []) "id"
     = PyStr "Revue d'épidémiologie et de santé publique"
  /\ List.length (Str.chars "Revue d'épidémiologie et de santé publique") = 42
  /\ NX.node_get long_journal_graph "Revue d'épidémiologi" "type" = Ok (PyStr "journal")
  /\ NX.has_node long_journal_graph
                 "Revue d'épidémiologie et de santé publique" = false
  /\ "Revue d'épidémiologie et de santé publique" <> "Revue d'épidémiologi".
Proof.
  split; [eexists; split; [vm_compute; reflexivity | right; left; reflexivity]|].
  repeat split; try (vm_compute; reflexivity). discriminate.
Qed.


(** ** find_journal_with_most_drugs *)

Module DrugCountFacts.
Import NX NXFacts Transformers NodeFacts Helpers TallyFacts LoaderFacts QueryFacts.

Definition pyval_eq_dec (a b : pyval) : {a = b} + {a <> b}.
Proof. decide equality. apply string_dec. Defined.

(** *** The dictionary of sets *)

Lemma sets_get_set (d : DrugSets) (k k' : pyval) (s : list pyval) :
  sets_get (sets_set d k s) k' = if pyval_eqb k k' then Some s else sets_get d k'.
Proof.
  induction d as [|[k0 s0] r IH]; simpl.
  - reflexivity.
  - destruct (pyval_eqb k0 k) eqn:E; simpl.
    + apply pyval_eqb_eq in E. subst k0. now destruct (pyval_eqb k k').
    + rewrite IH. destruct (pyval_eqb k0 k') eqn:E'; [|reflexivity].
      apply pyval_eqb_eq in E'. subst k0. now rewrite pyval_eqb_sym, E.
Qed.

Lemma sets_keys_set (d : DrugSets) (k k' : pyval) (s : list pyval) :
  In k' (map fst (sets_set d k s)) -> k' = k \/ In k' (map fst d).
Proof.
  induction d as [|[k0 s0] r IH]; simpl.
  - intros [H|[]]. auto.
  - destruct (pyval_eqb k0 k); simpl; intros [H|H]; auto.
    destruct (IH H); auto.
Qed.

Lemma sets_nodup_set (d : DrugSets) (k : pyval) (s : list pyval) :
  NoDup (map fst d) -> NoDup (map fst (sets_set d k s)).
Proof.
  induction d as [|[k0 s0] r IH]; simpl; intro H.
  - repeat constructor. auto.
  - inversion H as [|? ? Hni Hnd]. subst.
    destruct (pyval_eqb k0 k) eqn:E; simpl; [now constructor|].
    constructor; [|auto].
    intro Hin. apply sets_keys_set in Hin. destruct Hin as [->|Hin]; [|auto].
    rewrite pyval_eqb_refl in E. discriminate.
Qed.

Lemma sets_get_In (d : DrugSets) (k : pyval) (s : list pyval) :
  sets_get d k = Some s -> In (k, s) d.
Proof.
  induction d as [|[k0 s0] r IH]; simpl; [discriminate|].
  destruct (pyval_eqb k0 k) eqn:E; [|auto].
  apply pyval_eqb_eq in E. intro H. inversion H. subst. auto.
Qed.

Lemma sets_In_get (d : DrugSets) (k : pyval) (s : list pyval) :
  NoDup (map fst d) -> In (k, s) d -> sets_get d k = Some s.
Proof.
  induction d as [|[k0 s0] r IH]; simpl; [tauto|].
  intros Hnd [H|H].
  - inversion H. subst. now rewrite pyval_eqb_refl.
  - inversion Hnd as [|? ? Hni Hnd']. subst.
    destruct (pyval_eqb k0 k) eqn:E; [|auto].
    apply pyval_eqb_eq in E. subst k0. exfalso. apply Hni.
    change k with (fst (k, s)). now apply in_map.
Qed.

Lemma existsb_pyval_In x s : existsb (pyval_eqb x) s = true <-> In x s.
Proof.
  rewrite existsb_exists. split.
  - intros (y & Hy & E). apply pyval_eqb_eq in E. now subst.
  - intro H. exists x. split; [exact H|apply pyval_eqb_refl].
Qed.

Lemma pyset_add_In s x c : In c (pyset_add s x) <-> c = x \/ In c s.
Proof.
  unfold pyset_add. destruct (existsb (pyval_eqb x) s) eqn:E.
  - apply existsb_pyval_In in E. split; [auto|]. intros [->|H]; auto.
  - rewrite in_app_iff. simpl. intuition.
Qed.

Lemma pyset_add_NoDup s x : NoDup s -> NoDup (pyset_add s x).
Proof.
  intro H. unfold pyset_add. destruct (existsb (pyval_eqb x) s) eqn:E; [exact H|].
  apply NoDup_app; [exact H|repeat constructor; intros []|].
  intros a Ha [<-|[]]. apply existsb_pyval_In in Ha. congruence.
Qed.

(** *** The loop as a fold over (journal name, ATC code) pairs *)

(** The two statements on [journal_drug_counts] for one edge. *)
Definition add_pair (d : DrugSets) (jc : pyval * pyval) : DrugSets :=
  let d1 := match sets_get d (fst jc) with
            | None => sets_set d (fst jc) []
            | Some _ => d
            end in
  match sets_get d1 (fst jc) with
  | Some s => sets_set d1 (fst jc) (pyset_add s (snd jc))
  | None => d1
  end.

(** The pair an edge contributes: a drug node's edge to a journal node
    gives the journal's name and the drug's ATC code. *)
Definition drug_journal_pair (g : DiGraph) (e : string * string * Attrs)
  : list (pyval * pyval) :=
  match Dict.get (_node g) (fst (fst e)), Dict.get (_node g) (snd (fst e)) with
  | Some sa, Some ta =>
      if pyval_eqb (Dict.get_val sa "type") (PyStr "drug")
         && pyval_eqb (Dict.get_val ta "type") (PyStr "journal")
      then [(Dict.get_val ta "name", Dict.get_val sa "atccode")]
      else []
  | _, _ => []
  end.

Definition drug_journal_pairs (g : DiGraph) : list (pyval * pyval) :=
  flat_map (drug_journal_pair g) (edges g).

(** The number of distinct ATC codes paired with the journal name [j]. *)
Definition drug_count (j : pyval) (l : list (pyval * pyval)) : nat :=
  List.length (nodup pyval_eq_dec (map snd (filter (fun jc => pyval_eqb (fst jc) j) l))).

Lemma count_drug_step g d e d' :
  count_drug g d e = Ok d' -> d' = fold_left add_pair (drug_journal_pair g e) d.
Proof.
  unfold count_drug, node_get, drug_journal_pair. cbv zeta.
  destruct (Dict.get (_node g) (fst (fst e))) as [sa|]; cbn [bind]; [|discriminate].
  destruct (Dict.get (_node g) (snd (fst e))) as [ta|]; cbn [bind]; [|discriminate].
  destruct (pyval_eqb (Dict.get_val sa "type") (PyStr "drug")
            && pyval_eqb (Dict.get_val ta "type") (PyStr "journal"));
    cbn [bind fold_left]; intro H; now inversion H.
Qed.

Lemma count_drugs_fold g es :
  forall d d', foldM (count_drug g) es d = Ok d' ->
               d' = fold_left add_pair (flat_map (drug_journal_pair g) es) d.
Proof.
  induction es as [|e r IH]; intros d d' H; simpl in H.
  - now inversion H.
  - simpl. rewrite fold_left_app.
    destruct (count_drug g d e) as [d1|] eqn:E; simpl in H; [|discriminate].
    rewrite (IH _ _ H). f_equal. now apply count_drug_step.
Qed.


Lemma add_pair_get (d : DrugSets) (j c n : pyval) :
  sets_get (add_pair d (j, c)) n =
  if pyval_eqb j n
  then Some (pyset_add (match sets_get d j with Some s => s | None => [] end) c)
  else sets_get d n.
Proof.
  unfold add_pair. cbn [fst snd]. destruct (sets_get d j) as [s|] eqn:E.
  - rewrite E. apply sets_get_set.
  - rewrite sets_get_set, pyval_eqb_refl, !sets_get_set.
    now destruct (pyval_eqb j n).
Qed.

Lemma add_pair_nodup (d : DrugSets) (jc : pyval * pyval) :
  NoDup (map fst d) -> NoDup (map fst (add_pair d jc)).
Proof.
  intro H. unfold add_pair. destruct (sets_get d (fst jc)) as [s|] eqn:E.
  - rewrite E. now apply sets_nodup_set.
  - rewrite sets_get_set, pyval_eqb_refl. now apply sets_nodup_set, sets_nodup_set.
Qed.

(** What [journal_drug_counts] holds after the pairs of [l]. *)
Definition holds (l : list (pyval * pyval)) (d : DrugSets) : Prop :=
  NoDup (map fst d)
  /\ forall j,
       match sets_get d j with
       | Some s => NoDup s /\ s <> [] /\ forall c, In c s <-> In (j, c) l
       | None => forall c, ~ In (j, c) l
       end.

Lemma sets_fold (l : list (pyval * pyval)) : holds l (fold_left add_pair l []).
Proof.
  apply (LoopFacts.fold_left_prefix_ind add_pair holds).
  - split; [constructor|]. intros j c [].
  - intros pre [j0 c0] d _ [Hk Hg]. split; [now apply add_pair_nodup|].
    intro j. rewrite add_pair_get. specialize (Hg j).
    destruct (pyval_eqb j0 j) eqn:E.
    + apply pyval_eqb_eq in E. subst j0.
      destruct (sets_get d j) as [s|].
      * destruct Hg as (Hs & _ & Hin). split; [now apply pyset_add_NoDup|]. split.
        -- intro En. assert (Hc : In c0 (pyset_add s c0)) by (apply pyset_add_In; auto).
           rewrite En in Hc. destruct Hc.
        -- intro c. rewrite pyset_add_In, in_app_iff, Hin. simpl.
           split; [intros [->|H]; auto|].
           intros [H|[H|[]]]; [auto|]. inversion H. auto.
      * split; [apply pyset_add_NoDup; constructor|]. split; [discriminate|].
        intro c. rewrite pyset_add_In, in_app_iff. simpl.
        split; [intros [->|[]]; auto|].
        intros [H|[H|[]]]; [now apply Hg in H|]. inversion H. auto.
    + apply pyval_eqb_neq in E.
      destruct (sets_get d j) as [s|].
      * destruct Hg as (Hs & Hne & Hin). split; [exact Hs|]. split; [exact Hne|].
        intro c. rewrite Hin, in_app_iff. simpl.
        split; [auto|]. intros [H|[H|[]]]; [exact H|]. inversion H. congruence.
      * intros c Hc. apply in_app_or in Hc. destruct Hc as [Hc|[Hc|[]]].
        -- now apply Hg in Hc.
        -- inversion Hc. congruence.
Qed.

Lemma set_size (l : list (pyval * pyval)) (j : pyval) (s : list pyval) :
  NoDup s -> (forall c, In c s <-> In (j, c) l) -> List.length s = drug_count j l.
Proof.
  intros Hs Hin. unfold drug_count. apply Permutation_length.
  apply NoDup_Permutation; [exact Hs|apply NoDup_nodup|].
  intro c. rewrite nodup_In, Hin, in_map_iff. split.
  - intro H. exists (j, c). split; [reflexivity|]. apply filter_In.
    split; [exact H|apply pyval_eqb_refl].
  - intros ([j' c'] & E & H). apply filter_In in H. destruct H as [H Ej].
    cbn in E, Ej. apply pyval_eqb_eq in Ej. now subst.
Qed.

Lemma held_entry l d j s :
  holds l d -> In (j, s) d ->
  In j (map fst l) /\ s <> [] /\ List.length s = drug_count j l.
Proof.
  intros [Hk Hg] Hin. apply (sets_In_get _ _ _ Hk) in Hin.
  specialize (Hg j). rewrite Hin in Hg. destruct Hg as (Hs & Hne & Hc).
  split; [|split; [exact Hne|now apply set_size]].
  destruct s as [|c t]; [now elim Hne|].
  apply in_map_iff. exists (j, c). split; [reflexivity|]. apply Hc. now left.
Qed.

Lemma held_key l d j :
  holds l d -> In j (map fst l) -> exists s, In (j, s) d.
Proof.
  intros [Hk Hg] Hin. apply in_map_iff in Hin. destruct Hin as ([j' c] & E & Hin).
  cbn in E. subst j'. specialize (Hg j).
  destruct (sets_get d j) as [s|] eqn:Es.
  - exists s. now apply sets_get_In.
  - now apply Hg in Hin.
Qed.

Lemma NoDup_keys_filtered (V : Type) (d : list (pyval * V)) (p : pyval * V -> bool) :
  NoDup (map fst d) -> NoDup (map fst (filter p d)).
Proof.
  induction d as [|[k c] r IH]; simpl; intro Hk; [constructor|].
  inversion Hk as [|? ? Hni Hr]; subst.
  destruct (p (k, c)); simpl; [|now apply IH].
  constructor; [|now apply IH].
  intro Hin. apply Hni. apply in_map_iff in Hin.
  destruct Hin as (y & Ey & Hy). apply filter_In in Hy.
  rewrite <- Ey. apply in_map. tauto.
Qed.

(** The journals with the largest set, once the sets are built. *)
Lemma top_sets l d :
  holds l d -> d <> [] ->
  let m := list_max (map (fun jd => List.length (snd jd)) d) in
  let top := map fst (filter (fun jd => List.length (snd jd) =? m)%nat d) in
  top <> [] /\ NoDup top /\ 1 <= m
  /\ forall n, In n top <->
               In n (map fst l)
               /\ m = drug_count n l
               /\ forall j, In j (map fst l) -> drug_count j l <= drug_count n l.
Proof.
  intros H Hne m top.
  assert (Hmax : exists j s, In (j, s) d /\ List.length s = m).
  { assert (Hm : map (fun jd : pyval * list pyval => List.length (snd jd)) d <> [])
      by (destruct d; [now elim Hne|discriminate]).
    apply list_max_In in Hm. apply in_map_iff in Hm.
    destruct Hm as ([j s] & E & Hin). now exists j, s. }
  assert (Hle : forall j s, In (j, s) d -> List.length s <= m).
  { intros j s Hin. apply list_max_ge.
    apply in_map_iff. now exists (j, s). }
  assert (Htop : forall n, In n top <-> exists s, In (n, s) d /\ List.length s = m).
  { intro n. unfold top. rewrite in_map_iff. split.
    - intros ([n' s] & E & Hin). cbn in E. subst n'. apply filter_In in Hin.
      destruct Hin as [Hin Es]. apply Nat.eqb_eq in Es. now exists s.
    - intros (s & Hin & Es). exists (n, s). split; [reflexivity|].
      apply filter_In. split; [exact Hin|]. now apply Nat.eqb_eq. }
  split; [|split; [|split]].
  - destruct Hmax as (j & s & Hin & Es). intro E.
    assert (Hj : In j top) by (apply Htop; now exists s).
    rewrite E in Hj. destruct Hj.
  - apply NoDup_keys_filtered. exact (proj1 H).
  - destruct Hmax as (j & s & Hin & Es).
    destruct (@held_entry _ _ _ _ H Hin) as (_ & Hs & _).
    destruct s; [now elim Hs|]. simpl in Es. lia.
  - intro n. rewrite Htop. split.
    + intros (s & Hin & Es). destruct (@held_entry _ _ _ _ H Hin) as (Hn & _ & Hc).
      split; [exact Hn|]. split; [congruence|].
      intros j Hj. destruct (@held_key _ _ _ H Hj) as [s' Hin'].
      destruct (@held_entry _ _ _ _ H Hin') as (_ & _ & Hc').
      rewrite <- Hc, <- Hc', Es. now apply (Hle j).
    + intros (Hn & Hm & _). destruct (@held_key _ _ _ H Hn) as [s Hin].
      exists s. split; [exact Hin|].
      destruct (@held_entry _ _ _ _ H Hin) as (_ & _ & Hc). congruence.
Qed.

Lemma most_drugs_cases g names count :
  most_drugs_in g = Ok (names, count) ->
  (drug_journal_pairs g = [] /\ (names, count) = no_journals_found)
  \/ (drug_journal_pairs g <> []
      /\ names <> [] /\ NoDup names /\ 1 <= count
      /\ (forall ss, names = map PyStr ss -> Sorted str_le ss)
      /\ forall n,
           In n names <->
           In n (map fst (drug_journal_pairs g))
           /\ count = drug_count n (drug_journal_pairs g)
           /\ forall j, In j (map fst (drug_journal_pairs g)) ->
                        drug_count j (drug_journal_pairs g)
                        <= drug_count n (drug_journal_pairs g)).
Proof.
  unfold most_drugs_in. intro H.
  destruct (foldM (count_drug g) (edges g) []) as [d|] eqn:E; cbn [bind] in H;
    [|discriminate].
  apply count_drugs_fold in E. fold (drug_journal_pairs g) in E.
  pose proof (sets_fold (drug_journal_pairs g)) as Hd. rewrite <- E in Hd.
  destruct d as [|e0 r] eqn:Ed.
  - left. split; [|now inversion H].
    destruct (drug_journal_pairs g) as [|[j c] t] eqn:El; [reflexivity|].
    exfalso. destruct Hd as [_ Hg]. specialize (Hg j). simpl in Hg.
    apply (Hg c). now left.
  - right. rewrite <- Ed in *.
    assert (Hne : d <> []) by (rewrite Ed; discriminate).
    destruct (@top_sets _ _ Hd Hne) as (Ht & Hnd & Hm & Hs). cbv zeta in Ht, Hnd, Hs, Hm.
    destruct (sort_names _) as [sorted|] eqn:Es; cbn [bind] in H; [|discriminate].
    inversion H; subst sorted count. clear H.
    split.
    { intro El. destruct Hd as [_ Hg]. rewrite Ed in Hg. destruct e0 as [j s].
      specialize (Hg j). simpl in Hg. rewrite pyval_eqb_refl in Hg.
      destruct Hg as (_ & Hs0 & Hc). destruct s as [|c t]; [now elim Hs0|].
      assert (Hin : In (j, c) (drug_journal_pairs g)) by (apply Hc; now left).
      rewrite El in Hin. destruct Hin. }
    split; [|split; [|split; [exact Hm|split]]].
    + intro En. apply Ht.
      destruct (map fst (filter _ d)) as [|y t] eqn:Ef; [reflexivity|].
      assert (Hy : In y names) by (apply (@sort_names_In _ _ y Es); now left).
      rewrite En in Hy. destruct Hy.
    + exact (proj1 (@sort_names_sorted _ _ Es Hnd)).
    + exact (proj2 (@sort_names_sorted _ _ Es Hnd)).
    + intro n. rewrite (@sort_names_In _ _ n Es). apply Hs.
Qed.

(** X17: [find_journal_with_most_drugs] on a graph: among the journal
    names that drug nodes have edges to, it lists those with the most
    distinct ATC codes, each once, and returns that number -- here the
    count is exact; with no such edge it returns the "No journals found"
    notice and 0. *)
Theorem most_drugs_counts_distinct_codes :
  forall g names count,
    most_drugs_in g = Ok (names, count) ->
    (drug_journal_pairs g = [] -> (names, count) = ([PyStr "No journals found"], 0))
    /\ (drug_journal_pairs g <> [] ->
        names <> [] /\ NoDup names /\ 1 <= count
        /\ forall n,
             In n names <->
             In n (map fst (drug_journal_pairs g))
             /\ count = drug_count n (drug_journal_pairs g)
             /\ forall j, In j (map fst (drug_journal_pairs g)) ->
                          drug_count j (drug_journal_pairs g)
                          <= drug_count n (drug_journal_pairs g)).
Proof.
  intros g names count H.
  destruct (@most_drugs_cases g _ _ H) as [[E1 E2]|(Hne & Hn & Hd & Hc & _ & Hs)].
  - split; [intros _; exact E2|]. intro Hne. contradiction.
  - split; [intro E; contradiction|]. intros _. repeat split; auto; apply Hs; auto.
Qed.

Lemma most_drugs_counts_distinct_codes_witness :
  most_drugs_in scenario_graph = Ok ([PyStr "NEJM"], 1)
  /\ (drug_journal_pairs scenario_graph <> [] -> [PyStr "NEJM"] <> []).
Proof.
  assert (H : most_drugs_in scenario_graph = Ok ([PyStr "NEJM"], 1)) by reflexivity.
  split; [exact H|].
  intro Hne.
  exact (proj1 (proj2 (@most_drugs_counts_distinct_codes scenario_graph _ _ H) Hne)).
Defined.

(** *** On a graph the loader returns *)




End DrugCountFacts.

(** ** The date on a publication edge *)

Module DateFacts.
Import NX NXFacts Transformers BuilderFacts.

Section LastDate.
Variables u k : string.

(** The pairs that write the edge [u -> k] as a publication edge, and
    those that could write it as a journal edge. *)
Definition writes (dp : Drug.t * Publication.t) : bool :=
  mentions (fst dp) (snd dp) && (drug_id (fst dp) =? u) && (pub_id (snd dp) =? k).

Definition journal_hit (dp : Drug.t * Publication.t) : bool :=
  mentions (fst dp) (snd dp) && (drug_id (fst dp) =? u) && (jkey (snd dp) =? k).

Definition last_writer (pre : list (Drug.t * Publication.t)) : option Publication.t :=
  fold_left (fun acc dp => if writes dp then Some (snd dp) else acc) pre None.

Lemma last_writer_snoc pre x :
  last_writer (pre ++ [x]) = if writes x then Some (snd x) else last_writer pre.
Proof. unfold last_writer. now rewrite fold_left_app. Qed.

Lemma last_date_steps (pairs : list (Drug.t * Publication.t)) (g0 : DiGraph) :
  no_edges g0 ->
  (forall x, In x pairs -> journal_hit x = false) ->
  edge_data (fst (fold_left step pairs (g0, []))) u k
  = option_map edge_attrs (last_writer pairs).
Proof.
  intros N0.
  apply (LoopFacts.fold_left_prefix_ind step
           (fun pre st => (forall x, In x pre -> journal_hit x = false) ->
                          edge_data (fst st) u k
                          = option_map edge_attrs (last_writer pre))).
  - intros _. apply N0.
  - intros pre [d p] [g conns] _ IH Hj.
    assert (IH' : edge_data g u k = option_map edge_attrs (last_writer pre)).
    { apply IH. intros x Hx. apply Hj. apply in_or_app. now left. }
    assert (Hx : journal_hit (d, p) = false).
    { apply Hj. apply in_or_app. right. now left. }
    clear IH Hj. rewrite last_writer_snoc.
    unfold writes, journal_hit in *. cbn [fst snd] in *.
    unfold step. cbn [fst snd]. unfold connect_pub.
    destruct (mentions d p); cbn [andb] in *; [|exact IH'].
    assert (E1 : edge_data (add_edge (drug_id d) (pub_id p) (edge_attrs p) g) u k
                 = option_map edge_attrs
                     (if (drug_id d =? u) && (pub_id p =? k) then Some p
                      else last_writer pre)).
    { rewrite edge_data_add_edge.
      destruct ((drug_id d =? u) && (pub_id p =? k)) eqn:E; [|exact IH'].
      cbn [option_map].
      apply andb_true_iff in E. destruct E as [Eu Ek].
      apply String.eqb_eq in Eu. apply String.eqb_eq in Ek. rewrite Eu, Ek.
      f_equal. apply update_edge_attrs. unfold old_data. rewrite IH'.
      destruct (last_writer pre) as [p'|]; simpl; eauto. }
    destruct (negb (existsb (pair_eqb (drug_id d, journal_id (Publication.journal_name p)))
                           conns)); cbn [fst]; [|exact E1].
    rewrite edge_data_add_edge. fold (jkey p). rewrite Hx. exact E1.
Qed.

Lemma last_writer_nested (drugs : list Drug.t) (pubs : list Publication.t) :
  last_writer (list_prod drugs pubs)
  = fold_left
      (fun acc d =>
         fold_left (fun acc p => if writes (d, p) then Some p else acc) pubs acc)
      drugs None.
Proof.
  unfold last_writer.
  rewrite (LoopFacts.nested_fold_list_prod
             (fun d acc p => if writes (d, p) then Some p else acc)).
  apply CodecFacts.fold_left_agree with (P := fun _ => True); [exact I|].
  intros s [d p] _ _. split; [reflexivity|exact I].
Qed.

End LastDate.

Lemma last_writer_is_last (drugs : list Drug.t) (l1 l2 : list Publication.t)
      (d : Drug.t) (p : Publication.t) :
  In d drugs -> mentions d p = true ->
  (forall p', In p' l2 -> mentions d p' = true -> pub_id p' <> pub_id p) ->
  last_writer (drug_id d) (pub_id p) (list_prod drugs (l1 ++ p :: l2)) = Some p.
Proof.
  intros Hd Hm Hlast. rewrite last_writer_nested.
  set (inner := fun acc d' =>
         fold_left (fun acc p' => if writes (drug_id d) (pub_id p) (d', p')
                                  then Some p' else acc)
                   (l1 ++ p :: l2) acc).
  assert (Hsame : forall d' acc, drug_id d' = drug_id d -> inner acc d' = Some p).
  { intros d' acc Ed. unfold inner. rewrite fold_left_app. cbn [fold_left].
    unfold writes at 2. cbn [fst snd].
    rewrite (mentions_drug_id d' d p Ed), Hm, Ed, !String.eqb_refl. cbn [andb].
    clear - Hlast Ed. induction l2 as [|q r IH]; [reflexivity|].
    cbn [fold_left]. unfold writes at 2. cbn [fst snd].
    rewrite (mentions_drug_id d' d q Ed).
    destruct (mentions d q) eqn:Eq.
    - assert (Hq : (pub_id q =? pub_id p) = false).
      { apply String.eqb_neq. apply Hlast; [now left|exact Eq]. }
      rewrite Hq, andb_false_r. apply IH. intros p' Hp'. apply Hlast. now right.
    - cbn [andb]. apply IH. intros p' Hp'. apply Hlast. now right. }
  assert (Hother : forall d' acc, drug_id d' <> drug_id d -> inner acc d' = acc).
  { intros d' acc Ed. unfold inner. apply String.eqb_neq in Ed.
    generalize (l1 ++ p :: l2). intro l. induction l as [|q r IH]; [reflexivity|].
    cbn [fold_left]. unfold writes at 2. cbn [fst snd].
    now rewrite Ed, andb_false_r. }
  fold inner. clearbody inner. clear Hm Hlast.
  assert (Hgen : forall acc, acc = Some p \/ In d drugs ->
                             fold_left inner drugs acc = Some p).
  { clear Hd. induction drugs as [|d' r IH]; intros acc [Ha|Hin].
    - exact Ha.
    - destruct Hin.
    - cbn [fold_left]. apply IH. left.
      destruct (string_dec (drug_id d') (drug_id d)) as [E|E].
      + now apply Hsame.
      + now rewrite Hother.
    - cbn [fold_left]. destruct Hin as [->|Hin].
      + apply IH. left. now apply Hsame.
      + apply IH. now right. }
  apply Hgen. now right.
Qed.

(** X19: a publication edge carries the date of the last publication, in
    input order, that has its title key and mentions the drug -- a later
    publication overwrites the date -- provided no publication mentioning
    the drug has that key as its journal key. *)
Theorem publication_edge_carries_last_date :
  forall set_iter drugs pubmed trials d p l1 l2,
    In d drugs ->
    pubmed ++ trials = l1 ++ p :: l2 ->
    mentions d p = true ->
    (forall p', In p' l2 -> mentions d p' = true -> pub_id p' <> pub_id p) ->
    (forall p', In p' (pubmed ++ trials) -> mentions d p' = true ->
                journal_id (Publication.journal_name p') <> pub_id p) ->
    NX.edge_data (build_drug_mention_graph set_iter drugs pubmed trials)
                 (drug_id d) (pub_id p)
    = Some [("relationship", PyStr "Référencé dans");
            ("date_mention", PyStr (Publication.date p))].
Proof.
  intros it ds pm ct d p l1 l2 Hd Hsplit Hm Hlast Hj.
  rewrite build_unfold. unfold final_state. cbv zeta.
  rewrite (@last_date_steps (drug_id d) (pub_id p) (list_prod ds (pm ++ ct))
             (node_phase it ds pm ct) (proj2 (node_phase_wf it ds pm ct))).
  - rewrite Hsplit. now rewrite (@last_writer_is_last ds l1 l2 d p Hd Hm Hlast).
  - intros [d' p'] Hin. apply in_prod_iff in Hin. destruct Hin as [Hd' Hp'].
    unfold journal_hit. cbn [fst snd].
    destruct (mentions d' p') eqn:Em; [|reflexivity].
    destruct (drug_id d' =? drug_id d) eqn:Ed; [|reflexivity].
    apply String.eqb_eq in Ed. cbn [andb]. apply String.eqb_neq.
    apply Hj; [exact Hp'|]. now rewrite <- (mentions_drug_id d' d p' Ed).
Qed.

(** Two titles with the same first 20 characters, then a third one. *)
Definition review_pub : Publication.t :=
  Publication.mk "1" "Epinephrine in anaphylaxis: a review" "2021-06-01" "NEJM" PUBMED.
Definition update_pub : Publication.t :=
  Publication.mk "2" "Epinephrine in anaphylaxis: an update" "2019-02-01" "Lancet"
                 PUBMED.
Definition croup_pub : Publication.t :=
  Publication.mk "NCT3" "Epinephrine for croup" "2022-03-01" "BMJ" CLINICAL_TRIAL.

Lemma publication_edge_carries_last_date_witness :
  let g := build_drug_mention_graph insertion_order scenario_drugs
             [review_pub; update_pub] [croup_pub] in
  (In (Drug.mk "A1" "Epinephrine") scenario_drugs
   /\ [review_pub; update_pub] ++ [croup_pub] = [review_pub] ++ update_pub :: [croup_pub]
   /\ mentions (Drug.mk "A1" "Epinephrine") review_pub = true
   /\ mentions (Drug.mk "A1" "Epinephrine") update_pub = true
   /\ pub_id review_pub = pub_id update_pub)
  /\ NX.edge_data g "epinephrine" "epinephrine in anaph"
     = Some [("relationship", PyStr "Référencé dans");
             ("date_mention", PyStr "2019-02-01")].
Proof.
  cbv zeta.
  assert (Hd : In (Drug.mk "A1" "Epinephrine") scenario_drugs) by now left.
  assert (Hs : [review_pub; update_pub] ++ [croup_pub]
               = [review_pub] ++ update_pub :: [croup_pub]) by reflexivity.
  assert (Hm : mentions (Drug.mk "A1" "Epinephrine") update_pub = true)
    by (vm_compute; reflexivity).
  split.
  { split; [exact Hd|]. split; [exact Hs|].
    repeat split; vm_compute; reflexivity. }
  refine (@publication_edge_carries_last_date insertion_order scenario_drugs
            [review_pub; update_pub] [croup_pub] _ update_pub
            [review_pub] [croup_pub] Hd Hs Hm _ _).
  - intros p' [<-|[]] _. vm_compute. discriminate.
  - intros p' [<-|[<-|[<-|[]]]] _; vm_compute; discriminate.
Defined.

End DateFacts.

(** ** The input as a set, the value types, and the pipeline as a whole *)

Module PipelineFacts.
Import NX NXFacts Transformers BuilderFacts NodeFacts Helpers TallyFacts.
Import BuilderMore LoaderFacts QueryFacts TripFacts.

Lemma map_same_elements (A B : Type) (f : A -> B) (l l' : list A) (y : B) :
  (forall x, In x l <-> In x l') -> In y (map f l) <-> In y (map f l').
Proof.
  intro H. rewrite !in_map_iff.
  split; intros (x & E & Hx); exists x; (split; [exact E|]); now apply H.
Qed.

Lemma journal_names_same_elements (pubs pubs' : list Publication.t) (n : string) :
  (forall p, In p pubs <-> In p pubs') ->
  In n (journal_names pubs) <-> In n (journal_names pubs').
Proof.
  intro H. rewrite (proj2 (journal_names_spec pubs n)).
  rewrite (proj2 (journal_names_spec pubs' n)).
  split; intros (p & Hp & E); exists p; (split; [|exact E]); now apply H.
Qed.

(** X20: which nodes and which edges a built graph has depends on the
    input lists only as sets: giving the drugs or the publications in
    another order, or listing one twice -- as when a publication is in
    both PubMed sources -- changes neither the node keys nor the pairs
    joined by an edge. *)
Theorem built_graph_depends_on_input_sets :
  forall it it' drugs drugs' pubmed pubmed' trials trials',
    set_iter_ok it -> set_iter_ok it' ->
    (forall d, In d drugs <-> In d drugs') ->
    (forall p, In p (pubmed ++ trials) <-> In p (pubmed' ++ trials')) ->
    let g := build_drug_mention_graph it drugs pubmed trials in
    let g' := build_drug_mention_graph it' drugs' pubmed' trials' in
    (forall k, NX.has_node g k = NX.has_node g' k)
    /\ (forall u v, In (u, v) (map fst (NX.edges g)) <->
                    In (u, v) (map fst (NX.edges g'))).
Proof.
  intros it it' ds ds' pm pm' ct ct' Hit Hit' Hd Hp. cbv zeta. split.
  - intro k. apply Bool.eq_true_iff_eq.
    rewrite (has_node_built ds pm ct k Hit), (has_node_built ds' pm' ct' k Hit').
    rewrite (@map_same_elements _ _ drug_id ds ds' k Hd).
    rewrite (@map_same_elements _ _ pub_id (pm ++ ct) (pm' ++ ct') k Hp).
    rewrite (@map_same_elements _ _ journal_id (journal_names (pm ++ ct))
               (journal_names (pm' ++ ct')) k
               (fun n => @journal_names_same_elements (pm ++ ct) (pm' ++ ct') n Hp)).
    unfold mentioned_journal_key.
    assert (Hm : (exists d p, In d ds /\ In p (pm ++ ct) /\ mentions d p = true
                              /\ k = journal_id (Publication.journal_name p))
                 <-> (exists d p, In d ds' /\ In p (pm' ++ ct') /\ mentions d p = true
                                  /\ k = journal_id (Publication.journal_name p))).
    { split; intros (d & p & H1 & H2 & H3); exists d, p;
        (split; [now apply Hd|]); (split; [now apply Hp|]); exact H3. }
    rewrite Hm. reflexivity.
  - intros u v. rewrite !edge_pair_built. unfold mention_pair.
    split; intros (d & p & H1 & H2 & H3); exists d, p;
      (split; [now apply Hd|]); (split; [now apply Hp|]); exact H3.
Qed.

Lemma built_graph_depends_on_input_sets_witness :
  set_iter_ok insertion_order /\ set_iter_ok (@rev string)
  /\ (forall k,
        NX.has_node (build_drug_mention_graph insertion_order two_drugs
                       (scenario_pubmed ++ one_trial) []) k
        = NX.has_node (build_drug_mention_graph (@rev string) (rev two_drugs)
                         (one_trial ++ one_trial) scenario_pubmed) k).
Proof.
  split; [exact insertion_order_ok|]. split; [exact OrderFacts.rev_order_ok|].
  refine (proj1 (@built_graph_depends_on_input_sets insertion_order (@rev string)
                   two_drugs (rev two_drugs) (scenario_pubmed ++ one_trial)
                   (one_trial ++ one_trial) [] scenario_pubmed
                   insertion_order_ok OrderFacts.rev_order_ok _ _)).
  - intro d. apply in_rev.
  - intro p. rewrite !in_app_iff. simpl. tauto.
Defined.

(** X21: the value types keep the contract between [__eq__] and
    [__hash__]: two drugs, two publications or two journals that compare
    equal hash the same value.  Two drugs are equal as soon as their ATC
    codes are, whatever their names; two journals when their names are. *)
Theorem equal_values_hash_alike :
  (forall a b : Drug.t,
      (Drug.__eq__ a b = true <-> Drug.atccode a = Drug.atccode b)
      /\ (Drug.__eq__ a b = true -> Drug.hash_key a = Drug.hash_key b))
  /\ (forall a b : Publication.t,
        Publication.__eq__ a b = true ->
        Publication.hash_key a = Publication.hash_key b)
  /\ (forall a b : Journal.t,
        (Journal.__eq__ a b = true <-> a = b)
        /\ (Journal.__eq__ a b = true -> Journal.hash_key a = Journal.hash_key b)).
Proof.
  split; [|split].
  - intros a b. unfold Drug.__eq__, Drug.hash_key. rewrite String.eqb_eq. tauto.
  - intros a b H. apply publication_eq_all_fields in H. now subst.
  - intros [a] [b]. unfold Journal.__eq__, Journal.hash_key. cbn [Journal.name].
    rewrite String.eqb_eq. split; [|auto].
    split; [intros ->; reflexivity|]. intro H. now inversion H.
Qed.

(** *** The query on the exported pipeline output *)


Section Query.
Variable set_iter : list string -> list string.
Variable drugs : list Drug.t.
Variables pubmed trials : list Publication.t.
Hypothesis Hiter : set_iter_ok set_iter.
Hypothesis Hwf : RoundTrip.reloadable drugs (pubmed ++ trials).
Hypothesis Hkeys : RoundTrip.distinct_keys drugs (pubmed ++ trials).
Variable d : Drug.t.
Hypothesis Hd : In d drugs.

Let built := build_drug_mention_graph set_iter drugs pubmed trials.
Let again := RoundTrip.reloaded set_iter drugs pubmed trials.






End Query.



End PipelineFacts.

(** ** Mentions *)

Module MentionFacts.
Import Transformers.

(** X23: a drug is taken to be mentioned by a publication exactly when
    the lower-case form of its name is a run of consecutive characters of
    the lower-case form of the title: the test knows no word boundaries, a
    drug with an empty name is mentioned by every publication, and writing
    the name in lower case changes nothing.  The comparison is that of
    [str.lower], not a caseless match: "STRASSE" is not found in "Straße",
    nor "ΟΔΟΣ", whose lower-case form ends in a final sigma, in "οδοσ". *)
Theorem mention_is_substring_of_title :
  forall d p,
    (mentions d p = true <->
     exists a b,
       Str.lower (Publication.title p) = (a ++ Str.lower (Drug.name d) ++ b)%string)
    /\ (Drug.name d = "" -> mentions d p = true)
    /\ mentions (Drug.mk (Drug.atccode d) (Str.lower (Drug.name d))) p = mentions d p
    /\ (forall code i t j s,
          mentions (Drug.mk code "ÉPHÉDRINE")
                   (Publication.mk i "L'éphédrine en chirurgie" t j s) = true
          /\ mentions (Drug.mk code "STRASSE")
                      (Publication.mk i "Straße" t j s) = false
          /\ mentions (Drug.mk code "ΟΔΟΣ")
                      (Publication.mk i "οδοσ" t j s) = false
          /\ mentions (Drug.mk code "ΟΔΟΣ")
                      (Publication.mk i "Η ΟΔΟΣ" t j s) = true).
Proof.
  intros d p. split; [|split; [|split]].
  - unfold mentions. apply StrFacts.contains_iff.
  - intro E. unfold mentions. rewrite E. apply StrFacts.contains_iff.
    now exists "", (Str.lower (Publication.title p)).
  - unfold mentions. cbn [Drug.name]. now rewrite StrFacts.lower_idem.
  - intros. repeat split; vm_compute; reflexivity.
Qed.

End MentionFacts.

(** ** The edges the loader makes *)

Module LoadEdgeFacts.
Import NX NXFacts Transformers BuilderFacts Helpers LoaderFacts.

(** The pair of nodes a relationship record is resolved to, when both
    exist. *)
Definition endpoints (g : DiGraph) (rel : Relationship) : option (string * string) :=
  let source_info := get_or (source rel) [] in
  let target_info := get_or (target rel) [] in
  match resolve_source g (Dict.get_val source_info "id") (Dict.get_val source_info "type"),
        resolve_target g (Dict.get_val target_info "id") (Dict.get_val target_info "type")
  with
  | PyStr s, PyStr t =>
      if Str.truthy s && Str.truthy t && has_node g s && has_node g t
      then Some (s, t) else None
  | _, _ => None
  end.

Definition resolves (g : DiGraph) (u v : string) (rel : Relationship) : bool :=
  match endpoints g rel with
  | Some (s, t) => (s =? u) && (t =? v)
  | None => false
  end.

(** The attributes written on the edge of a record. *)
Definition rel_attrs (rel : Relationship) : Attrs :=
  [("relationship", type rel); ("date_mention", date_mention rel)].

Lemma load_relationship_endpoints g rel :
  load_relationship g rel =
  match endpoints g rel with
  | Some (s, t) => add_edge s t (rel_attrs rel) g
  | None => g
  end.
Proof.
  unfold load_relationship, endpoints, rel_attrs. cbv zeta.
  destruct (resolve_source g _ _) as [|s]; [reflexivity|].
  destruct (resolve_target g _ _) as [|t]; [reflexivity|].
  now destruct (Str.truthy s && Str.truthy t && has_node g s && has_node g t).
Qed.

Lemma endpoints_same_nodes g g' rel :
  _node g = _node g' -> endpoints g rel = endpoints g' rel.
Proof.
  intro H. unfold endpoints, resolve_source, resolve_target, find_node, nodes, has_node.
  now rewrite H.
Qed.

Lemma update_rel_attrs (old : Attrs) (rel : Relationship) :
  old = [] \/ (exists rel', old = rel_attrs rel') ->
  Dict.update old (rel_attrs rel) = rel_attrs rel.
Proof. intros [->|[rel' ->]]; reflexivity. Qed.

Lemma load_relationships_edges (rels : list Relationship) (g0 : DiGraph) :
  wf g0 -> no_edges g0 ->
  let g := fold_left load_relationship rels g0 in
  wf g /\ _node g = _node g0
  /\ forall u v,
       edge_data g u v = option_map rel_attrs (find (resolves g0 u v) (rev rels)).
Proof.
  intros W0 N0. cbv zeta.
  apply (LoopFacts.fold_left_prefix_ind load_relationship
           (fun pre g =>
              wf g /\ _node g = _node g0
              /\ forall u v,
                   edge_data g u v
                   = option_map rel_attrs (find (resolves g0 u v) (rev pre)))).
  - split; [exact W0|]. split; [reflexivity|]. intros u v. apply N0.
  - intros pre x g _ (W & Hn & He). rewrite load_relationship_endpoints.
    rewrite (@endpoints_same_nodes g g0 x Hn).
    assert (Hfind : forall u v,
               find (resolves g0 u v) (rev (pre ++ [x]))
               = if resolves g0 u v x then Some x else find (resolves g0 u v) (rev pre)).
    { intros u v. now rewrite rev_app_distr. }
    destruct (endpoints g0 x) as [[s t]|] eqn:E.
    + assert (Hst : has_node g s = true /\ has_node g t = true).
      { unfold has_node. rewrite Hn. fold (has_node g0 s). fold (has_node g0 t).
        unfold endpoints in E. cbv zeta in E.
        destruct (resolve_source g0 _ _) as [|s']; [discriminate|].
        destruct (resolve_target g0 _ _) as [|t']; [discriminate|].
        destruct (Str.truthy s' && Str.truthy t' && has_node g0 s' && has_node g0 t')
          eqn:Eb; [|discriminate].
        inversion E; subst s' t'.
        apply andb_true_iff in Eb. destruct Eb as [Eb Ht].
        apply andb_true_iff in Eb. destruct Eb as [_ Hs]. now split. }
      split; [now apply wf_add_edge|]. split.
      * rewrite (@node_add_edge_present s t (rel_attrs x) g W (proj1 Hst) (proj2 Hst)). exact Hn.
      * intros u v. rewrite Hfind, edge_data_add_edge. unfold resolves. rewrite E.
        destruct ((s =? u) && (t =? v)) eqn:Euv; [|apply He].
        cbn [option_map]. f_equal. apply update_rel_attrs.
        unfold old_data. rewrite He.
        destruct (find (resolves g0 s t) (rev pre)) as [r'|]; simpl; eauto.
    + split; [exact W|]. split; [exact Hn|].
      intros u v. rewrite Hfind. unfold resolves. rewrite E. apply He.
Qed.

(** X24: the edges of a loaded graph are made from the relationship
    records that resolve to two nodes of the graph: a record whose source
    or target cannot be resolved is skipped without an error, and when
    several records resolve to the same pair of nodes the edge carries the
    label and date of the last of them. *)
Theorem loaded_edges_are_resolved_records :
  forall doc g,
    load_graph_from_json doc = Ok g ->
    forall u v,
      NX.edge_data g u v
      = option_map (fun rel => [("relationship", type rel);
                                ("date_mention", date_mention rel)])
                   (find (resolves g u v) (rev (get_or (relationships doc) []))).
Proof.
  intros d g H u v. rewrite load_split in H.
  destruct (load_nodes d) as [g4|e] eqn:E; [|discriminate].
  cbn [bind] in H. inversion H as [Hg]. clear H.
  destruct (load_nodes_loaded d E) as (W & N & _).
  destruct (@load_relationships_edges (get_or (relationships d) []) g4 W N)
    as (_ & Hn & He).
  rewrite He. f_equal.
  assert (Hr : forall rel, resolves (fold_left load_relationship
                                       (get_or (relationships d) []) g4) u v rel
                           = resolves g4 u v rel).
  { intro rel. unfold resolves. now rewrite (@endpoints_same_nodes _ _ rel Hn). }
  clear - Hr. induction (rev (get_or (relationships d) [])) as [|x r IH];
    [reflexivity|].
  simpl. rewrite Hr. now rewrite IH.
Qed.

Lemma loaded_edges_are_resolved_records_witness :
  load_graph_from_json scenario_document = Ok scenario_graph
  /\ NX.edge_data scenario_graph "epinephrine" "NEJM"
     = option_map (fun rel => [("relationship", type rel);
                               ("date_mention", date_mention rel)])
                  (find (resolves scenario_graph "epinephrine" "NEJM")
                        (rev (get_or (relationships scenario_document) []))).
Proof.
  split; [exact scenario_document_loaded|].
  exact (@loaded_edges_are_resolved_records scenario_document scenario_graph
           scenario_document_loaded "epinephrine" "NEJM").
Defined.

End LoadEdgeFacts.

(** ** The node keys after export and import *)

Module CodecKeys.
Import NX NXFacts Transformers BuilderFacts NodeFacts Helpers LoaderFacts ExportFacts.















End CodecKeys.

(** ** The journal with the most drugs, on the exported pipeline output *)

Module PipelineDrugs.
Import NX NXFacts Transformers BuilderFacts NodeFacts Helpers.
Import LoaderFacts QueryFacts DrugCountFacts TripFacts PipelineFacts.




Section Pairs.
Variable set_iter : list string -> list string.
Variable drugs : list Drug.t.
Variables pubmed trials : list Publication.t.
Hypothesis Hiter : set_iter_ok set_iter.
Hypothesis Hwf : RoundTrip.reloadable drugs (pubmed ++ trials).
Hypothesis Hkeys : RoundTrip.distinct_keys drugs (pubmed ++ trials).

Let built := build_drug_mention_graph set_iter drugs pubmed trials.
Let again := RoundTrip.reloaded set_iter drugs pubmed trials.




End Pairs.



End PipelineDrugs.

(** ** What the exported document holds *)

Module DocumentFacts.
Import NX Transformers Helpers.

(** X27: the document exported for a graph built from well-formed input
    without key collisions.  A drug is written with its ATC code and, as
    its name, the lower-cased node key: the spelling of the input name is
    not kept.  A publication is filed under "pubmed" or
    "clinical_trials" by its own source type, whichever input list it
    came in, with its five fields unchanged; the journals are the distinct
    non-blank journal names in the iteration order of the set; and there
    is one relationship per edge. *)
Theorem exported_document_contents :
  forall set_iter drugs pubmed trials,
    set_iter_ok set_iter ->
    RoundTrip.reloadable drugs (pubmed ++ trials) ->
    RoundTrip.distinct_keys drugs (pubmed ++ trials) ->
    let g := build_drug_mention_graph set_iter drugs pubmed trials in
    let record p :=
      [("id", PyStr (Publication.id p)); ("title", PyStr (Publication.title p));
       ("date", PyStr (Publication.date p));
       ("journal_name", PyStr (Publication.journal_name p));
       ("source_type", PyStr (PublicationType_value (Publication.source_type p)))] in
    exists rels,
      save_graph_to_json g
      = Ok (mkDocument
              (Some (map (fun d => [("atccode", PyStr (Drug.atccode d));
                                    ("name", PyStr (Str.lower (Drug.name d)))])
                         drugs))
              (Some (mkPublications
                       (Some (map record
                                  (filter (fun p => PublicationType_eqb
                                                      (Publication.source_type p) PUBMED)
                                          (pubmed ++ trials))))
                       (Some (map record
                                  (filter (fun p => PublicationType_eqb
                                                      (Publication.source_type p)
                                                      CLINICAL_TRIAL)
                                          (pubmed ++ trials))))))
              (Some (map (fun n => [("name", PyStr n)])
                         (set_iter (journal_names (pubmed ++ trials)))))
              (Some rels))
      /\ List.length rels = List.length (NX.edges g).
Proof.
  intros it ds pm ct Hit Hwf Hk. cbv zeta.
  exists (map (RoundTrip.saved it ds pm ct)
              (NX.edges (build_drug_mention_graph it ds pm ct))).
  split; [|apply length_map].
  rewrite (@RoundTrip.save_built it ds pm ct Hit Hwf Hk). reflexivity.
Qed.

Lemma exported_document_contents_witness :
  set_iter_ok insertion_order
  /\ RoundTrip.reloadable two_drugs (scenario_pubmed ++ one_trial)
  /\ RoundTrip.distinct_keys two_drugs (scenario_pubmed ++ one_trial)
  /\ exists doc,
      save_graph_to_json
        (build_drug_mention_graph insertion_order two_drugs scenario_pubmed one_trial)
      = Ok doc
      /\ drugs doc
         = Some [[("atccode", PyStr "A1"); ("name", PyStr "epinephrine")];
                 [("atccode", PyStr "H02AB01"); ("name", PyStr "betamethasone")]].
Proof.
  split; [exact insertion_order_ok|].
  split; [exact (proj1 TripFacts.trip_input_ok)|].
  split; [exact (proj2 TripFacts.trip_input_ok)|].
  destruct (@exported_document_contents insertion_order two_drugs scenario_pubmed
              one_trial insertion_order_ok (proj1 TripFacts.trip_input_ok)
              (proj2 TripFacts.trip_input_ok)) as (rels & Hs & _).
  eexists. split; [exact Hs|]. reflexivity.
Defined.

End DocumentFacts.
